(** * WorkSchedulerV2: the shift generator and its analyzers (src/app.py)

    A shallow embedding of the scheduling core of [app.py]: the database
    tables as records and lists of rows, the SQLAlchemy session as explicit
    state passing, Python exceptions as [None] in an error monad, and the
    Flask handlers as functions from a database and a request to the
    committed database and an outcome. *)

From Stdlib Require Import ZArith List String Ascii Bool Lia Permutation Sorted.
Import ListNotations.
Open Scope string_scope.
Open Scope list_scope.
Open Scope Z_scope.

(** ** Dates

    A [datetime.date] is its proleptic ordinal ([date.toordinal()]);
    [d + timedelta(days=n)] is addition.  The bounds of Python's calendar
    (years 1 to 9999) are not modelled. *)

Definition date := Z.

(** [date.weekday()]: Monday is 0; ordinal 1 (0001-01-01) was a Monday. *)
Definition weekday (d : date) : Z := (d + 6) mod 7.

(** [date(2025, 9, 18)], the anchor of the baseline week (a Thursday). *)
Definition BASELINE : date := 739512.

(** [daterange(start, days)] *)
Definition daterange (start : date) (days : nat) : list date :=
  map (fun i => start + Z.of_nat i) (seq 0 days).

(** ** Tables *)

Record SectionRow := mkSection {
  sec_id : Z;
  sec_name : string }.

Record Employee := mkEmployee {
  emp_id : Z;
  emp_name : string;
  emp_section_id : Z;
  emp_preferred_shift : option string;
  emp_seniority : option Z;
  emp_preferred_shifts_per_week : option Z;
  emp_max_shifts_per_week : option Z }.

Record EmployeeRole := mkRole {
  er_employee_id : Z;
  er_section_id : Z }.

Record EmployeeAvailability := mkAvail {
  ea_employee_id : Z;
  ea_day_of_week : Z;
  ea_shift_label : string;
  ea_allowed : bool }.

Record Week := mkWeek {
  wk_id : Z;
  wk_start_date : date }.

Record Assignment := mkAssignment {
  a_week_id : Z;
  a_employee_id : Z;
  a_date : date;
  a_value : string;
  a_dismissed_timeoff : bool }.

Record TimeOff := mkTimeOff {
  to_id : Z;
  to_name : string;
  to_role : string;
  to_from_date : date;
  to_to_date : date;
  to_approved : bool;
  to_vacation : bool }.

(** The database: every table is the list of its rows in table order, the
    order in which an unordered [select] yields them. *)
Record DB := mkDB {
  sections : list SectionRow;
  employees : list Employee;
  employee_roles : list EmployeeRole;
  employee_availability : list EmployeeAvailability;
  weeks : list Week;
  assignments : list Assignment;
  timeoff : list TimeOff }.

Definition with_assignments (db : DB) (rows : list Assignment) : DB :=
  mkDB (sections db) (employees db) (employee_roles db)
       (employee_availability db) (weeks db) rows (timeoff db).

Definition with_weeks (db : DB) (ws : list Week) : DB :=
  mkDB (sections db) (employees db) (employee_roles db)
       (employee_availability db) ws (assignments db) (timeoff db).

Definition with_timeoff (db : DB) (ts : list TimeOff) : DB :=
  mkDB (sections db) (employees db) (employee_roles db)
       (employee_availability db) (weeks db) (assignments db) ts.

(** ** Constants *)

Definition TIME_OFF_LABEL : string := "TIME OFF".

Definition SENIORITY_ORDER : list string :=
  [ "Cindy"; "KC"; "Ryan"; "Emilyn"; "Christian"; "Troy";
    "Brian"; "Tristan"; "Terry"; "Jordan"; "Abdi"; "Sato" ].

Definition BREAKFAST_SHIFTS : list string :=
  [ "Set"; TIME_OFF_LABEL; "5AM–12PM"; "6AM–12PM"; "7AM–12PM" ].

Definition FRONT_DESK_SHIFTS : list string :=
  [ "Set"; TIME_OFF_LABEL;
    "AM (6:00AM–2:00PM)"; "AM (6:15AM–2:15PM)";
    "PM (2:00PM–10:00PM)"; "PM (2:15PM–10:15PM)";
    "Audit (10:00PM–6:00AM)"; "Audit (10:15PM–6:15AM)" ].

Definition SHUTTLE_SHIFTS : list string :=
  [ "Set"; TIME_OFF_LABEL;
    "AM (3:30AM–11:30AM)"; "Midday (10:30AM–6:30PM)";
    "PM (5:30PM–1:30AM)"; "Crew (5:45PM–1:45AM)" ].

(** ** Small helpers on strings and lists *)

(** [x in l] for a list of strings *)
Definition str_in (x : string) (l : list string) : bool :=
  existsb (String.eqb x) l.

(** [x in l] for a list of ids *)
Definition z_in (x : Z) (l : list Z) : bool := existsb (Z.eqb x) l.

(** [s.startswith(p)] *)
Definition startswith (s p : string) : bool := String.prefix p s.

(** [not a.value or a.value in ("Set", TIME_OFF_LABEL)] *)
Definition inactive_value (v : string) : bool :=
  (v =? "")%string || (v =? "Set")%string || (v =? TIME_OFF_LABEL)%string.

(** ** Queries *)

(** [s.get(Week, week_id)] *)
Definition get_week (db : DB) (week_id : Z) : option Week :=
  find (fun w => wk_id w =? week_id) (weeks db).

(** [s.scalar(select(Week).where(Week.start_date == d))] *)
Definition week_starting (db : DB) (d : date) : option Week :=
  find (fun w => wk_start_date w =? d) (weeks db).

(** [s.get(Employee, eid)] *)
Definition get_employee (db : DB) (eid : Z) : option Employee :=
  find (fun e => emp_id e =? eid) (employees db).

(** [s.scalar(select(Employee).where(Employee.name == name))] *)
Definition employee_named (db : DB) (name : string) : option Employee :=
  find (fun e => (emp_name e =? name)%string) (employees db).

(** [s.scalar(select(Section).where(Section.name == name))] *)
Definition section_named (db : DB) (name : string) : option SectionRow :=
  find (fun s => (sec_name s =? name)%string) (sections db).

Definition is_row (w e : Z) (d : date) (a : Assignment) : bool :=
  (a_week_id a =? w) && (a_employee_id a =? e) && (a_date a =? d).

(** [s.scalar(select(Assignment).where(Assignment.week_id == w,
    Assignment.employee_id == e, Assignment.date == d))]: the first
    matching row, if any. *)
Definition find_assignment (rows : list Assignment) (w e : Z) (d : date)
  : option Assignment := find (is_row w e d) rows.

(** The same query without the week: [rest_ok] looks a worker's previous
    day up across weeks. *)
Definition find_assignment_on (rows : list Assignment) (e : Z) (d : date)
  : option Assignment :=
  find (fun a => (a_employee_id a =? e) && (a_date a =? d)) rows.

(** Mutating the ORM object returned by such a query: the first row that
    satisfies [p] is replaced by its image under [f]. *)
Fixpoint update_first (p : Assignment -> bool) (f : Assignment -> Assignment)
  (rows : list Assignment) : list Assignment :=
  match rows with
  | [] => []
  | a :: t => if p a then f a :: t else a :: update_first p f t
  end.

Definition set_value (v : string) (a : Assignment) : Assignment :=
  mkAssignment (a_week_id a) (a_employee_id a) (a_date a) v
               (a_dismissed_timeoff a).

Definition set_dismissed (b : bool) (a : Assignment) : Assignment :=
  mkAssignment (a_week_id a) (a_employee_id a) (a_date a) (a_value a) b.

(** [has_approved_timeoff(name, dte, s)] *)
Definition has_approved_timeoff (db : DB) (name : string) (dte : date) : bool :=
  existsb (fun t => (to_name t =? name)%string && to_approved t
                    && (to_from_date t <=? dte) && (dte <=? to_to_date t))
          (timeoff db).

(** [has_any_timeoff(name, dte, s)] *)
Definition has_any_timeoff (db : DB) (name : string) (dte : date) : bool :=
  existsb (fun t => (to_name t =? name)%string
                    && (to_from_date t <=? dte) && (dte <=? to_to_date t))
          (timeoff db).

(** ** Exceptions

    A computation that may raise is an [option]: [None] stands for an
    uncaught Python exception (the [KeyError] of [emp_info[eid]], the
    [AttributeError] of [wk.start_date] on [None]). *)

Notation "x <- c ;; k" :=
  (match c with Some x => k | None => None end)
  (at level 61, c at next level, right associativity).

Fixpoint foldM {S A : Type} (f : S -> A -> option S) (l : list A) (s : S)
  : option S :=
  match l with
  | [] => Some s
  | x :: t => s' <- f s x ;; foldM f t s'
  end.

Fixpoint mapM {A B : Type} (f : A -> option B) (l : list A) : option (list B) :=
  match l with
  | [] => Some []
  | x :: t => y <- f x ;; ys <- mapM f t ;; Some (y :: ys)
  end.

Fixpoint filterM {A : Type} (f : A -> option bool) (l : list A)
  : option (list A) :=
  match l with
  | [] => Some []
  | x :: t => b <- f x ;; r <- filterM f t ;; Some (if b then x :: r else r)
  end.

(** ** Leave synchronisation *)

Definition force_time_off (a : Assignment) : Assignment :=
  if (a_value a =? TIME_OFF_LABEL)%string then a
  else set_value TIME_OFF_LABEL a.

Definition sync_cell (db : DB) (week_id : Z) (emp : Employee)
  (rows : list Assignment) (d : date) : list Assignment :=
  if has_approved_timeoff db (emp_name emp) d
  then update_first (is_row week_id (emp_id emp) d) force_time_off rows
  else rows.

Definition sync_rows (db : DB) (week_id : Z) (days : list date)
  (rows : list Assignment) : list Assignment :=
  fold_left (fun rows emp => fold_left (sync_cell db week_id emp) days rows)
            (employees db) rows.

(** [sync_timeoff_to_assignments(week_id, s)]; [wk.start_date] raises when
    the week does not exist. *)
Definition sync_timeoff_to_assignments (week_id : Z) (db : DB) : option DB :=
  wk <- get_week db week_id ;;
  Some (with_assignments db
          (sync_rows db week_id (daterange (wk_start_date wk) 7)
                     (assignments db))).

(** ** Weeks and their rows *)

(** The id SQLite gives a new row: one more than the largest in the table. *)
Definition next_week_id (db : DB) : Z :=
  match map wk_id (weeks db) with
  | [] => 1
  | x :: t => 1 + fold_right Z.max x t
  end.

Definition ensure_row (week_id : Z) (emp : Employee)
  (rows : list Assignment) (d : date) : list Assignment :=
  match find_assignment rows week_id (emp_id emp) d with
  | Some _ => rows
  | None => rows ++ [mkAssignment week_id (emp_id emp) d "Set" false]
  end.

Definition ensure_rows (db : DB) (wk : Week) (rows : list Assignment)
  : list Assignment :=
  fold_left (fun rows emp =>
               fold_left (ensure_row (wk_id wk) emp)
                         (daterange (wk_start_date wk) 7) rows)
            (employees db) rows.

(** [_ensure_week_and_assignments(s, start_d)] *)
Definition _ensure_week_and_assignments (db : DB) (start_d : date)
  : DB * Week :=
  match week_starting db start_d with
  | Some wk => (with_assignments db (ensure_rows db wk (assignments db)), wk)
  | None =>
      let wk := mkWeek (next_week_id db) start_d in
      (mkDB (sections db) (employees db) (employee_roles db)
            (employee_availability db) (weeks db ++ [wk])
            (ensure_rows db wk (assignments db)) (timeoff db), wk)
  end.

(** ** Availability, tokens, caps *)

(** [_build_availability_index(s)]: employee id to the set of
    (day of week, shift label) pairs of its rows; the [allowed] column is
    not read. *)
Definition _build_availability_index (db : DB) (eid : Z) : list (Z * string) :=
  map (fun ea => (ea_day_of_week ea, ea_shift_label ea))
      (filter (fun ea => ea_employee_id ea =? eid) (employee_availability db)).

(** [_fd_variant(label)] (the one the generator uses) *)
Definition _fd_variant (label : string) : string :=
  if startswith label "AM" then "AM"
  else if startswith label "PM" then "PM"
  else if startswith label "Audit" then "Audit"
  else label.

(** [_is_available(emp_id, role, shift_label, dte, avail_idx)] *)
Definition _is_available (emp_id : Z) (role shift_label : string) (dte : date)
  (avail_idx : Z -> list (Z * string)) : bool :=
  match avail_idx emp_id with
  | [] => false
  | allowed =>
      let dow := weekday dte in
      let tok := if (role =? "Front Desk")%string
                 then _fd_variant shift_label else shift_label in
      existsb (fun k => (fst k =? dow) && (snd k =? tok)%string) allowed
  end.

(** [_pref_token(role, label)] *)
Definition _pref_token (role label : string) : string :=
  if (role =? "Front Desk")%string then _fd_variant label else label.

(** An entry of the [emp_info] dictionary. *)
Record EmpInfo := mkInfo {
  ei_role : string;
  ei_seniority : Z;
  ei_preferred_shift : option string;
  ei_pref_per_week : option Z;
  ei_max_per_week : option Z }.

Definition emp_info_entry (db : DB) (e : Employee) : EmpInfo :=
  mkInfo
    (match find (fun s => sec_id s =? emp_section_id e) (sections db) with
     | Some sec => sec_name sec
     | None => ""
     end)
    (match emp_seniority e with Some n => n | None => 0 end)
    (match emp_preferred_shift e with
     | Some s => if (s =? "")%string then None else Some s
     | None => None
     end)
    (emp_preferred_shifts_per_week e)
    (emp_max_shifts_per_week e).

(** The dictionaries [emp_info] and [emp_name] are filled in table order,
    so the last row with an id is the one kept. *)
Definition emp_info (db : DB) (eid : Z) : option EmpInfo :=
  option_map (emp_info_entry db)
             (find (fun e => emp_id e =? eid) (rev (employees db))).

(** [emp_name.get(eid, '')] *)
Definition emp_name_get (db : DB) (eid : Z) : string :=
  match find (fun e => emp_id e =? eid) (rev (employees db)) with
  | Some e => emp_name e
  | None => ""
  end.

(** [_effective_max_for_role(emp_info, eid, role)]; [emp_info[eid]] raises
    [KeyError] for an id with no employee. *)
Definition _effective_max_for_role (db : DB) (eid : Z) (role : string)
  : option (option Z) :=
  info <- emp_info db eid ;;
  Some (match ei_max_per_week info with
        | Some maxw => Some maxw
        | None =>
            if (role =? "Front Desk")%string then Some 5
            else if (role =? "Shuttle")%string then Some 4
            else None
        end).

(** ** Generator state

    The rows of the [assignments] table, the [assigned_counts] dictionary
    and the [last_token_per_role] dictionary.  [assigned_counts] has a key
    for every employee; it is only read after [emp_info[eid]] succeeded. *)
Record GenState := mkGen {
  g_rows : list Assignment;
  g_counts : Z -> Z;
  g_last : Z -> string -> option string }.

(** [rest_ok(eid, dte, role, label)] *)
Definition rest_ok (rows : list Assignment) (eid : Z) (dte : date)
  (role label : string) : bool :=
  match find_assignment_on rows eid (dte - 1) with
  | None => true
  | Some a_prev =>
      let prev := a_value a_prev in
      if inactive_value prev then true
      else if (role =? "Front Desk")%string && startswith label "AM"
              && startswith prev "PM" then false
      else if (role =? "Front Desk")%string && startswith label "PM"
              && startswith prev "Audit" then false
      else if (role =? "Shuttle")%string
              && ((startswith label "AM"
                   && (startswith prev "PM" || startswith prev "Crew"))
                  || (startswith label "Midday" && startswith prev "Crew"))
           then false
      else true
  end.

(** ** Ranking *)

(** The tuple [key_fn] returns, compared the way Python compares tuples. *)
Definition rank_key := (Z * Z * Z * Z * Z)%type.

Definition rank_key_ltb (a b : rank_key) : bool :=
  match a, b with
  | (a1, a2, a3, a4, a5), (b1, b2, b3, b4, b5) =>
      (a1 <? b1) || ((a1 =? b1) &&
      ((a2 <? b2) || ((a2 =? b2) &&
      ((a3 <? b3) || ((a3 =? b3) &&
      ((a4 <? b4) || ((a4 =? b4) && (a5 <? b5))))))))
  end.

(** [sorted(xs, key=f)] and [xs.sort(key=f)] are stable: the keys are
    computed once, and an element moves in front of another only when its
    key is strictly smaller. *)
Fixpoint insert_by {K A : Type} (ltb : K -> K -> bool) (x : K * A)
  (l : list (K * A)) : list (K * A) :=
  match l with
  | [] => [x]
  | y :: t => if ltb (fst y) (fst x) then y :: insert_by ltb x t else x :: l
  end.

Definition sort_by {K A : Type} (ltb : K -> K -> bool) (l : list (K * A))
  : list (K * A) := fold_right (insert_by ltb) [] l.

Definition bool_key (b : bool) : Z := if b then 0 else 1.

(** [key_fn(eid)] inside [pick_best] *)
Definition key_fn (db : DB) (st : GenState) (role label : string) (eid : Z)
  : option rank_key :=
  info <- emp_info db eid ;;
  let under_pref :=
    match ei_pref_per_week info with
    | Some prefw => g_counts st eid <? prefw
    | None => false
    end in
  let preferred_match :=
    match ei_preferred_shift info with
    | Some want => (_pref_token role label =? want)%string
    | None => false
    end in
  let consistent :=
    match g_last st eid role with
    | Some last_tok => (last_tok =? _pref_token role label)%string
    | None => false
    end in
  Some (bool_key under_pref, bool_key preferred_match, bool_key consistent,
        - (ei_seniority info), g_counts st eid).

(** The first loop of [pick_best]: drop who reached the weekly maximum or
    fails the rest rule. *)
Definition passes_max_and_rest (db : DB) (st : GenState)
  (current_loop_date : date) (role label : string) (eid : Z) : option bool :=
  maxw <- _effective_max_for_role db eid role ;;
  Some (match maxw with
        | Some m => if g_counts st eid >=? m then false
                    else rest_ok (g_rows st) eid current_loop_date role label
        | None => rest_ok (g_rows st) eid current_loop_date role label
        end).

(** [ranked = sorted(filtered, key=key_fn)] *)
Definition ranked (db : DB) (st : GenState) (role label : string)
  (filtered : list Z) : option (list Z) :=
  keyed <- mapM (fun eid => k <- key_fn db st role label eid ;; Some (k, eid))
                filtered ;;
  Some (map snd (sort_by rank_key_ltb keyed)).

(** [pick_best(candidates, role, label)]: [Some None] is Python's [None],
    the outer [None] an exception. *)
Definition pick_best (db : DB) (st : GenState) (current_loop_date : date)
  (candidates : list Z) (role label : string) : option (option Z) :=
  filtered <- filterM (passes_max_and_rest db st current_loop_date role label)
                      candidates ;;
  match filtered with
  | [] => Some None
  | _ => r <- ranked db st role label filtered ;; Some (hd_error r)
  end.

(** [_mark_dismissed(eid, dte)] *)
Definition _mark_dismissed (week_id : Z) (st : GenState) (eid : Z) (dte : date)
  : GenState :=
  mkGen (update_first (is_row week_id eid dte) (set_dismissed true) (g_rows st))
        (g_counts st) (g_last st).

(** The body of [if a: a.value = label; assigned_counts[eid] += 1;
    last_token_per_role[(eid, role)] = _pref_token(role, tok)]. *)
Definition record_assignment (week_id : Z) (st : GenState) (eid : Z)
  (dte : date) (role tok label : string) : GenState :=
  match find_assignment (g_rows st) week_id eid dte with
  | None => st
  | Some _ =>
      mkGen (update_first (is_row week_id eid dte) (set_value label) (g_rows st))
            (fun e => if e =? eid then g_counts st e + 1 else g_counts st e)
            (fun e r => if (e =? eid) && (r =? role)%string
                        then Some (_pref_token role tok) else g_last st e r)
  end.

(** [pool.remove(eid)]: the first occurrence goes (every caller removes an
    element it has just taken from the pool). *)
Fixpoint list_remove (x : Z) (l : list Z) : list Z :=
  match l with
  | [] => []
  | y :: t => if y =? x then t else y :: list_remove x t
  end.

(** ** The generator

    Everything below is inside [generate_4_week_schedule].  [db] holds the
    tables the run only reads (employees, roles, availability, leave); the
    rows it changes travel in the [GenState].  Python's iteration order over
    the set built by [employees_for_section] is unspecified: it is the
    parameter [set_iter]. *)

Section Generator.

Variable set_iter : list Z -> list Z.
Variable db : DB.

(** [employees_for_section(name)] *)
Definition employees_for_section (name : string) : list Z :=
  match section_named db name with
  | None => []
  | Some sec =>
      let primary_ids :=
        map emp_id (filter (fun e => emp_section_id e =? sec_id sec)
                           (employees db)) in
      let secondary_ids :=
        map er_employee_id (filter (fun r => er_section_id r =? sec_id sec)
                                   (employee_roles db)) in
      set_iter (primary_ids ++ secondary_ids)
  end.

Definition fd_emp_ids : list Z := employees_for_section "Front Desk".
Definition bb_emp_ids : list Z := employees_for_section "Breakfast Bar".
Definition sh_emp_ids : list Z := employees_for_section "Shuttle".

Definition avail_idx : Z -> list (Z * string) := _build_availability_index db.

Variable week_id : Z.

(** [max/week reached] as the reception loop tests it. *)
Definition max_reached (st : GenState) (eid : Z) (role : string)
  : option bool :=
  maxw <- _effective_max_for_role db eid role ;;
  Some (match maxw with Some m => g_counts st eid >=? m | None => false end).

(** *** Reception desk: one candidate of one variant *)
Definition fd_consider (d : date) (variant : string)
  (acc : GenState * list Z) (eid : Z) : option (GenState * list Z) :=
  let st := fst acc in
  match find_assignment (g_rows st) week_id eid d with
  | None => Some acc
  | Some a =>
      if negb (a_value a =? "Set")%string then Some acc
      else if negb (_is_available eid "Front Desk" variant d avail_idx)
      then Some acc
      else if negb (rest_ok (g_rows st) eid d "Front Desk" variant)
      then Some acc
      else if has_any_timeoff db (emp_name_get db eid) d
      then Some (_mark_dismissed week_id st eid d, snd acc)
      else
        full <- max_reached st eid "Front Desk" ;;
        Some (if full then acc else (st, snd acc ++ [eid]))
  end.

(** The two rounds of [pick_best] over the candidates not yet picked. *)
Definition fd_picks (st : GenState) (d : date) (variant : string)
  (cand : list Z) : option (list Z) :=
  p1 <- pick_best db st d cand "Front Desk" variant ;;
  match p1 with
  | None => Some []
  | Some a =>
      p2 <- pick_best db st d (filter (fun e => negb (z_in e [a])) cand)
                      "Front Desk" variant ;;
      match p2 with
      | None => Some [a]
      | Some b => Some [a; b]
      end
  end.

(** [SENIORITY_ORDER.index(name)] *)
Fixpoint index_of (name : string) (l : list string) : option Z :=
  match l with
  | [] => None
  | x :: t => if (x =? name)%string then Some 0
              else option_map Z.succ (index_of name t)
  end.

(** [_seniority_rank(eid)] *)
Definition _seniority_rank (eid : Z) : Z :=
  let name := emp_name_get db eid in
  if (name =? "Ryan")%string then 10000
  else match index_of name SENIORITY_ORDER with
       | Some i => i
       | None => 9999
       end.

(** [picks.sort(key=_seniority_rank)] *)
Definition sort_picks (picks : list Z) : list Z :=
  map snd (sort_by Z.ltb (map (fun e => (_seniority_rank e, e)) picks)).

(** The stagger label of the [i]-th of [n] picks. *)
Definition stagger_label (opts : list string) (n : nat) (i : nat) (eid : Z)
  : string :=
  if (Nat.eqb n 1) && (emp_name_get db eid =? "Ryan")%string
     && (Nat.ltb 1 (List.length opts))
  then nth 1 opts ""
  else if Nat.ltb i (List.length opts) then nth i opts "" else last opts "".

(** The loop [for i, eid in enumerate(picks)]. *)
Fixpoint fd_assign (d : date) (variant : string) (opts : list string)
  (n : nat) (i : nat) (picks : list Z) (acc : GenState * list Z)
  : GenState * list Z :=
  match picks with
  | [] => acc
  | eid :: t =>
      fd_assign d variant opts n (S i) t
        (record_assignment week_id (fst acc) eid d "Front Desk" variant
                           (stagger_label opts n i eid),
         list_remove eid (snd acc))
  end.

(** One variant of one day: the accumulator is the state and the pool. *)
Definition fd_slot (d : date) (acc : GenState * list Z)
  (vo : string * list string) : option (GenState * list Z) :=
  let variant := fst vo in
  sc <- foldM (fd_consider d variant) (snd acc) (fst acc, []) ;;
  match snd sc with
  | [] => Some (fst sc, snd acc)
  | cand =>
      picks <- fd_picks (fst sc) d variant cand ;;
      let sorted := sort_picks picks in
      Some (fd_assign d variant (snd vo) (List.length sorted) 0 sorted
                      (fst sc, snd acc))
  end.

Definition FD_VARIANTS : list (string * list string) :=
  [ ("AM", ["AM (6:00AM–2:00PM)"; "AM (6:15AM–2:15PM)"]);
    ("PM", ["PM (2:00PM–10:00PM)"; "PM (2:15PM–10:15PM)"]);
    ("Audit", ["Audit (10:00PM–6:00AM)"; "Audit (10:15PM–6:15AM)"]) ].

Definition fd_day (st : GenState) (d : date) : option GenState :=
  option_map fst (foldM (fd_slot d) FD_VARIANTS (st, fd_emp_ids)).

Definition fd_pass (start : date) (st : GenState) : option GenState :=
  foldM fd_day (daterange start 7) st.

(** *** Reservation *)

(** Which of the three counters of [fd_counts] a value increments. *)
Definition counts_as (variant v : string) : bool :=
  if startswith v "AM" then (variant =? "AM")%string
  else if startswith v "PM" then (variant =? "PM")%string
  else if startswith v "Audit" then (variant =? "Audit")%string
  else false.

(** [fd_counts[variant]] over the reception-capable workers. *)
Definition fd_count (rows : list Assignment) (d : date) (variant : string)
  : Z :=
  Z.of_nat (List.length (filter
    (fun eid =>
       match find_assignment rows week_id eid d with
       | None => false
       | Some a =>
           negb (inactive_value (a_value a)) && counts_as variant (a_value a)
       end) fd_emp_ids)).

(** [fd_missing_on(day)], also the test of the reservation loop. *)
Definition fd_missing_on (rows : list Assignment) (day : date) : bool :=
  existsb (fun v => fd_count rows day v <? 2) ["AM"; "PM"; "Audit"].

(** [reserved_fd_by_date]: the days with a reservation and who is
    reserved. *)
Definition reserved_fd_by_date (start : date) (rows : list Assignment)
  : list (date * list Z) :=
  flat_map
    (fun d =>
       if fd_missing_on rows d then
         match filter (fun eid =>
                         match find_assignment rows week_id eid d with
                         | Some a => (a_value a =? "Set")%string
                         | None => false
                         end) fd_emp_ids with
         | [] => []
         | reserve => [(d, reserve)]
         end
       else [])
    (daterange start 7).

(** [d in reserved_fd_by_date and eid in reserved_fd_by_date[d]] *)
Definition is_reserved (resv : list (date * list Z)) (d : date) (eid : Z)
  : bool :=
  match find (fun p => fst p =? d) resv with
  | Some p => z_in eid (snd p)
  | None => false
  end.

(** *** Food bar and shuttle: one label, one pick

    The two loops differ in the role and in when a worker on leave is
    marked: the food bar asks for availability and rest, the shuttle for
    rest alone. *)
Definition mark_test (role label : string) (rows : list Assignment)
  (eid : Z) (d : date) : bool :=
  if (role =? "Shuttle")%string then rest_ok rows eid d role label
  else _is_available eid role label d avail_idx
       && rest_ok rows eid d role label.

Definition lower_consider (resv : list (date * list Z)) (role : string)
  (d : date) (label : string) (acc : GenState * list Z) (eid : Z)
  : GenState * list Z :=
  let st := fst acc in
  if is_reserved resv d eid then acc
  else if fd_missing_on (g_rows st) d && z_in eid fd_emp_ids then acc
  else match find_assignment (g_rows st) week_id eid d with
       | None => acc
       | Some a =>
           if negb (a_value a =? "Set")%string then acc
           else if has_any_timeoff db (emp_name_get db eid) d then
             if mark_test role label (g_rows st) eid d
             then (_mark_dismissed week_id st eid d, snd acc)
             else acc
           else if _is_available eid role label d avail_idx
                   && rest_ok (g_rows st) eid d role label
           then (st, snd acc ++ [eid])
           else acc
       end.

Definition lower_slot (resv : list (date * list Z)) (role : string)
  (d : date) (acc : GenState * list Z) (label : string)
  : option (GenState * list Z) :=
  let sc := fold_left (lower_consider resv role d label) (snd acc)
                      (fst acc, []) in
  pick <- pick_best db (fst sc) d (snd sc) role label ;;
  Some (match pick with
        | None => (fst sc, snd acc)
        | Some eid =>
            (record_assignment week_id (fst sc) eid d role label label,
             list_remove eid (snd acc))
        end).

Definition lower_day (resv : list (date * list Z)) (role : string)
  (labels : list string) (pool : list Z) (st : GenState) (d : date)
  : option GenState :=
  option_map fst (foldM (lower_slot resv role d) labels (st, pool)).

Definition BB_LABELS : list string := ["5AM–12PM"; "6AM–12PM"; "7AM–12PM"].

Definition SH_LABELS : list string :=
  [ "AM (3:30AM–11:30AM)"; "Midday (10:30AM–6:30PM)";
    "PM (5:30PM–1:30AM)"; "Crew (5:45PM–1:45AM)" ].

Definition bb_pass (resv : list (date * list Z)) (start : date)
  (st : GenState) : option GenState :=
  foldM (lower_day resv "Breakfast Bar" BB_LABELS bb_emp_ids)
        (daterange start 7) st.

Definition sh_pass (resv : list (date * list Z)) (start : date)
  (st : GenState) : option GenState :=
  foldM (lower_day resv "Shuttle" SH_LABELS sh_emp_ids)
        (daterange start 7) st.

(** The three passes of one week, from the rows after the reset. *)
Definition week_passes (start : date) (rows : list Assignment)
  : option GenState :=
  st1 <- fd_pass start (mkGen rows (fun _ => 0) (fun _ _ => None)) ;;
  st2 <- bb_pass (reserved_fd_by_date start (g_rows st1)) start st1 ;;
  sh_pass (reserved_fd_by_date start (g_rows st1)) start st2.

End Generator.

(** [update(Assignment).where(Assignment.week_id == wk.id)
      .values(value="Set", dismissed_timeoff=0)] *)
Definition reset_week (week_id : Z) (rows : list Assignment)
  : list Assignment :=
  map (fun a => if a_week_id a =? week_id
                then mkAssignment (a_week_id a) (a_employee_id a) (a_date a)
                                  "Set" false
                else a) rows.

(** One turn of [for week_offset in range(4)]. *)
Definition generate_week (set_iter : list Z -> list Z) (origin : DB)
  (base : date) (db : DB) (week_offset : Z) : option DB :=
  let start_d := base + 7 * week_offset in
  let ew := _ensure_week_and_assignments db start_d in
  let wk := snd ew in
  let rows0 := reset_week (wk_id wk) (assignments (fst ew)) in
  st <- week_passes set_iter origin (wk_id wk) (wk_start_date wk) rows0 ;;
  sync_timeoff_to_assignments (wk_id wk) (with_assignments (fst ew) (g_rows st)).

(** [generate_4_week_schedule(start_week_id)]: the database after a run
    that returns; [None] when the run raises. *)
Definition generate_4_week_schedule (set_iter : list Z -> list Z) (db : DB)
  (start_week_id : Z) : option DB :=
  match get_week db start_week_id with
  | None => Some db
  | Some base_week =>
      foldM (generate_week set_iter db (wk_start_date base_week))
            [0; 1; 2; 3] db
  end.

(** ** Coverage Analyzer *)

(** Python dictionaries whose insertion order shows: association lists. *)
Fixpoint assoc_get {K V : Type} (eqb : K -> K -> bool) (k : K)
  (m : list (K * V)) : option V :=
  match m with
  | [] => None
  | (k', v) :: t => if eqb k' k then Some v else assoc_get eqb k t
  end.

Fixpoint assoc_set {K V : Type} (eqb : K -> K -> bool) (k : K) (v : V)
  (m : list (K * V)) : list (K * V) :=
  match m with
  | [] => [(k, v)]
  | (k', v') :: t =>
      if eqb k' k then (k, v) :: t else (k', v') :: assoc_set eqb k v t
  end.

Definition variant_counts := list (date * list (string * Z)).

(** [m[date_key][variant] += 1]; a missing key raises [KeyError]. *)
Definition bump (m : variant_counts) (d : date) (variant : string)
  : option variant_counts :=
  inner <- assoc_get Z.eqb d m ;;
  n <- assoc_get String.eqb variant inner ;;
  Some (assoc_set Z.eqb d (assoc_set String.eqb variant (n + 1) inner) m).

Definition label_counts := list (date * list (string * list (string * Z))).

(** [m[date_key][variant][value] = m[date_key][variant].get(value, 0) + 1] *)
Definition bump_label (m : label_counts) (d : date) (variant value : string)
  : option label_counts :=
  inner <- assoc_get Z.eqb d m ;;
  exact <- assoc_get String.eqb variant inner ;;
  let n := match assoc_get String.eqb value exact with
           | Some n => n
           | None => 0
           end in
  Some (assoc_set Z.eqb d
          (assoc_set String.eqb variant
             (assoc_set String.eqb value (n + 1) exact) inner) m).

Record Tally := mkTally {
  t_counts : variant_counts;
  t_fd_label_counts : label_counts;
  t_sh_counts : variant_counts;
  t_bb_counts : variant_counts }.

Definition FD_TOKENS : list string := ["AM"; "PM"; "Audit"].
Definition SH_TOKENS : list string := ["AM"; "Midday"; "PM"; "Crew"].

Definition zero_counts (dates : list date) (variants : list string)
  : variant_counts :=
  map (fun k => (k, map (fun v => (v, 0)) variants)) dates.

Definition tally_fd (t : Tally) (d : date) (variant value : string)
  : option Tally :=
  c <- bump (t_counts t) d variant ;;
  l <- bump_label (t_fd_label_counts t) d variant value ;;
  Some (mkTally c l (t_sh_counts t) (t_bb_counts t)).

Definition tally_sh (t : Tally) (d : date) (variant : string) : option Tally :=
  c <- bump (t_sh_counts t) d variant ;;
  Some (mkTally (t_counts t) (t_fd_label_counts t) c (t_bb_counts t)).

Definition tally_bb (t : Tally) (d : date) (value : string) : option Tally :=
  c <- bump (t_bb_counts t) d value ;;
  Some (mkTally (t_counts t) (t_fd_label_counts t) (t_sh_counts t) c).

(** The body of [for a in rows]. *)
Definition tally_row (t : Tally) (a : Assignment) : option Tally :=
  let v := a_value a in
  let d := a_date a in
  if inactive_value v then Some t
  else
    t1 <- (if str_in v FRONT_DESK_SHIFTS then
             if startswith v "AM" then tally_fd t d "AM" v
             else if startswith v "PM" then tally_fd t d "PM" v
             else if startswith v "Audit" then tally_fd t d "Audit" v
             else Some t
           else Some t) ;;
    t2 <- (if str_in v SHUTTLE_SHIFTS then
             if (v =? "AM (3:30AM–11:30AM)")%string then tally_sh t1 d "AM"
             else if startswith v "Midday" then tally_sh t1 d "Midday"
             else if startswith v "PM (5:30PM" then tally_sh t1 d "PM"
             else if startswith v "Crew" then tally_sh t1 d "Crew"
             else Some t1
           else Some t1) ;;
    if str_in v BB_LABELS then tally_bb t2 d v else Some t2.

(** The values a handler gets back in the snapshot tuple. *)
Inductive pyval :=
| PInt (n : Z)
| PTotals (m : list (date * Z))
| PFlags (m : list (date * bool))
| PVariantCounts (m : variant_counts).

Definition below (threshold : Z) (m : variant_counts) : list (date * bool) :=
  map (fun kv => (fst kv, existsb (fun vc => snd vc <? threshold) (snd kv))) m.

Definition duplicate_stagger (m : label_counts) : list (date * bool) :=
  map (fun kv =>
         (fst kv,
          existsb (fun ve =>
                     let exact := snd ve in
                     let total := fold_right Z.add 0 (map snd exact) in
                     let distinct :=
                       Z.of_nat (List.length
                                   (filter (fun n => 0 <? n) (map snd exact))) in
                     (total >=? 2) && (distinct =? 1))
                  (snd kv))) m.

(** [coverage_snapshot_db(week_id)]: the tuple it returns, as the list of
    its components; [None] when it raises. *)
Definition coverage_snapshot_db (db : DB) (week_id : Z) : option (list pyval) :=
  wk <- get_week db week_id ;;
  let dates := daterange (wk_start_date wk) 7 in
  let rows := filter (fun a => a_week_id a =? week_id) (assignments db) in
  t <- foldM tally_row rows
         (mkTally (zero_counts dates FD_TOKENS)
                  (map (fun k => (k, map (fun v => (v, [])) FD_TOKENS)) dates)
                  (zero_counts dates SH_TOKENS)
                  (zero_counts dates BB_LABELS)) ;;
  let counts := t_counts t in
  Some [ PTotals (map (fun kv => (fst kv, fold_right Z.add 0 (map snd (snd kv))))
                      counts);
         PFlags (below 2 counts);
         PInt 6;
         PVariantCounts counts;
         PFlags (below 1 (t_sh_counts t));
         PInt 4;
         PVariantCounts (t_sh_counts t);
         PFlags (below 1 (t_bb_counts t));
         PInt 3;
         PVariantCounts (t_bb_counts t);
         PFlags (duplicate_stagger (t_fd_label_counts t)) ].

(** Unpacking a tuple into [n] names raises [ValueError] unless it has
    exactly [n] components. *)
Definition unpack (n : nat) (t : list pyval) : option (list pyval) :=
  if Nat.eqb (List.length t) n then Some t else None.

(** ** Conflict Detector *)

(** [section_shifts(name)] *)
Definition section_shifts (name : string) : list string :=
  if (name =? "Breakfast Bar")%string then BREAKFAST_SHIFTS
  else if (name =? "Front Desk")%string then FRONT_DESK_SHIFTS
  else if (name =? "Shuttle")%string then SHUTTLE_SHIFTS
  else [].

(** [sec_by_id.get(id, "")]; the dictionary keeps the last row of an id. *)
Definition sec_by_id_get (db : DB) (id : Z) : string :=
  match find (fun s => sec_id s =? id) (rev (sections db)) with
  | Some s => sec_name s
  | None => ""
  end.

(** [emp_sections[eid]]: the set of section names of the worker's primary
    and secondary departments, without repetition. *)
Definition emp_sections (db : DB) (eid : Z) : list string :=
  nodup string_dec
    (map (fun e => sec_by_id_get db (emp_section_id e))
         (filter (fun e => emp_id e =? eid) (employees db))
     ++ map (fun r => sec_by_id_get db (er_section_id r))
            (filter (fun r => er_employee_id r =? eid) (employee_roles db))).

(** The keys of [emp_sections]. *)
Definition emp_sections_keys (db : DB) : list Z :=
  nodup Z.eq_dec (map emp_id (employees db)
                  ++ map er_employee_id (employee_roles db)).

Definition multi_emp_ids (db : DB) : list Z :=
  filter (fun eid =>
            Nat.ltb 1 (List.length
                         (filter (fun n => negb (n =? "")%string)
                                 (emp_sections db eid))))
         (emp_sections_keys db).

(** [active] for one worker and one value. *)
Definition active_sections (db : DB) (eid : Z) (v : string) : nat :=
  List.length (filter (fun sec_name =>
                         negb (sec_name =? "")%string
                         && str_in v (section_shifts sec_name))
                      (emp_sections db eid)).

(** [result.setdefault(key, []).append(name)] *)
Definition dict_append (key : date) (name : string)
  (result : list (date * list string)) : list (date * list string) :=
  match assoc_get Z.eqb key result with
  | Some names => assoc_set Z.eqb key (names ++ [name]) result
  | None => result ++ [(key, [name])]
  end.

Definition double_booked_cell (db : DB) (week_id : Z) (eid : Z)
  (name : string) (result : list (date * list string)) (d : date)
  : list (date * list string) :=
  match find_assignment (assignments db) week_id eid d with
  | None => result
  | Some a =>
      if inactive_value (a_value a) then result
      else if Nat.ltb 1 (active_sections db eid (a_value a))
      then dict_append d name result
      else result
  end.

(** [double_booked_snapshot(week_id)]; [set_iter] is the iteration order of
    the set [multi_emp_ids]. *)
Definition double_booked_snapshot (set_iter : list Z -> list Z) (db : DB)
  (week_id : Z) : list (date * list string) :=
  match multi_emp_ids db with
  | [] => []
  | multi =>
      match get_week db week_id with
      | None => []
      | Some wk =>
          fold_left
            (fun result eid =>
               match get_employee db eid with
               | None => result
               | Some emp =>
                   fold_left (double_booked_cell db week_id eid (emp_name emp))
                             (daterange (wk_start_date wk) 7) result
               end)
            (set_iter multi) []
      end
  end.

(** ** Handlers

    A handler maps the database and its request to the database as last
    committed and what the caller gets: a response, or an uncaught
    exception.  Changes a session has not committed when the handler
    raises are lost. *)

Inductive response :=
| RError (status : Z) (error : string)
| RTimeoff (value : string) (snapshot : list pyval)
           (double_booked : list (date * list string))
| ROk (snapshot : list pyval) (double_booked : list (date * list string))
| RToggled (item : TimeOff) (snapshot : list pyval)
           (double_booked : list (date * list string)).

Inductive outcome :=
| Returned (r : response)
| Raised (exc : string).

(** The JSON body of [/assign]; [rq_date] is the date [date_key] parses
    to, [None] when parsing raises. *)
Record AssignRequest := mkAssignRequest {
  rq_section : string;
  rq_employee : string;
  rq_date : option date;
  rq_value : string;
  rq_week_id : option Z }.

(** [coverage_snapshot_db(week.id)] unpacked into [n] names, then the
    response built from it. *)
Definition with_snapshot (n : nat) (db : DB) (week_id : Z)
  (k : list pyval -> outcome) : outcome :=
  match get_week db week_id with
  | None => Raised "AttributeError"
  | Some _ =>
      match coverage_snapshot_db db week_id with
      | None => Raised "KeyError"
      | Some t =>
          match unpack n t with
          | None => Raised "ValueError"
          | Some names => k names
          end
      end
  end.

(** The week of a request: [s.get(Week, week_id)] when the body carries a
    week id (zero is falsy), else the baseline week. *)
Definition request_week (db : DB) (req : AssignRequest) : option Week :=
  match rq_week_id req with
  | Some w => if w =? 0 then week_starting db BASELINE else get_week db w
  | None => week_starting db BASELINE
  end.

(** Primary in the section, or a secondary role mapping. *)
Definition allowed_in_section (db : DB) (emp : Employee) (sec : SectionRow)
  : bool :=
  (emp_section_id emp =? sec_id sec)
  || existsb (fun r => (er_employee_id r =? emp_id emp)
                       && (er_section_id r =? sec_id sec))
             (employee_roles db).

(** [assign()] *)
Definition assign (set_iter : list Z -> list Z) (db : DB)
  (req : AssignRequest) : DB * outcome :=
  match request_week db req with
  | None => (db, Returned (RError 404 "Week not found"))
  | Some week =>
  match section_named db (rq_section req) with
  | None => (db, Returned (RError 400 "Unknown section"))
  | Some sec =>
  match employee_named db (rq_employee req) with
  | None => (db, Returned (RError 400 "Unknown employee"))
  | Some emp =>
  if negb (allowed_in_section db emp sec)
  then (db, Returned (RError 400 "Employee not allowed for this section"))
  else
  match rq_date req with
  | None => (db, Returned (RError 400 "Bad date"))
  | Some dte =>
  match find_assignment (assignments db) (wk_id week) (emp_id emp) dte with
  | None => (db, Returned (RError 404 "Assignment not found"))
  | Some a =>
      if has_approved_timeoff db (emp_name emp) dte then
        let db1 :=
          if negb (a_value a =? TIME_OFF_LABEL)%string
          then with_assignments db
                 (update_first (is_row (wk_id week) (emp_id emp) dte)
                               (set_value TIME_OFF_LABEL) (assignments db))
          else db in
        (db1, with_snapshot 11 db1 (wk_id week)
                (fun snap =>
                   Returned (RTimeoff TIME_OFF_LABEL snap
                               (double_booked_snapshot set_iter db1
                                                       (wk_id week)))))
      else
        let db1 :=
          with_assignments db
            (update_first (is_row (wk_id week) (emp_id emp) dte)
                          (set_value (rq_value req)) (assignments db)) in
        (db1, with_snapshot 11 db1 (wk_id week)
                (fun snap =>
                   Returned (ROk snap
                               (double_booked_snapshot set_iter db1
                                                       (wk_id week)))))
  end end end end end.

Definition set_approved (b : bool) (t : TimeOff) : TimeOff :=
  mkTimeOff (to_id t) (to_name t) (to_role t) (to_from_date t) (to_to_date t)
            b (to_vacation t).

Fixpoint update_timeoff (tid : Z) (f : TimeOff -> TimeOff) (l : list TimeOff)
  : list TimeOff :=
  match l with
  | [] => []
  | t :: r => if to_id t =? tid then f t :: r else t :: update_timeoff tid f r
  end.

(** The loop of [toggle_timeoff] over the days of the baseline week. *)
Definition toggle_cell (week_id eid : Z) (t : TimeOff) (approved : bool)
  (rows : list Assignment) (d : date) : list Assignment :=
  let in_range := (to_from_date t <=? d) && (d <=? to_to_date t) in
  update_first (is_row week_id eid d)
    (fun a =>
       if approved && in_range then set_value TIME_OFF_LABEL a
       else if negb approved && (a_value a =? TIME_OFF_LABEL)%string && in_range
       then set_value "Set" a
       else a)
    rows.

(** [toggle_timeoff()]: the ten names on the left of the snapshot call, and
    afterwards the name [fd_duplicates], which nothing in the handler
    binds. *)
Definition toggle_timeoff (set_iter : list Z -> list Z) (db : DB) (tid : Z)
  (approved : bool) : DB * outcome :=
  match find (fun t => to_id t =? tid) (timeoff db) with
  | None => (db, Returned (RError 404 "Not found"))
  | Some t =>
      let db1 := with_timeoff db (update_timeoff tid (set_approved approved)
                                                 (timeoff db)) in
      match employee_named db (to_name t), week_starting db BASELINE with
      | Some emp, None => (db, Raised "AttributeError")
      | None, None => (db1, Raised "AttributeError")
      | oemp, Some week =>
          let db2 :=
            match oemp with
            | None => db1
            | Some emp =>
                with_assignments db1
                  (fold_left (toggle_cell (wk_id week) (emp_id emp) t approved)
                             (daterange (wk_start_date week) 7)
                             (assignments db1))
            end in
          (db2, with_snapshot 10 db2 (wk_id week)
                  (fun _ => Raised "NameError"))
      end
  end.

(** ** Vocabulary of the statements *)

(** The two values every department's list shares. *)
Definition placeholder (v : string) : bool :=
  (v =? "Set")%string || (v =? TIME_OFF_LABEL)%string.

(** The rows of week [w] are dated inside its seven days. *)
Definition week_rows_in_range (db : DB) (wk : Week) : bool :=
  forallb (fun a => implb (a_week_id a =? wk_id wk)
                          ((wk_start_date wk <=? a_date a)
                           && (a_date a <? wk_start_date wk + 7)))
          (assignments db).

(** An update of a row that leaves its key (week, worker, date) alone. *)
Definition keeps_key (f : Assignment -> Assignment) : Prop :=
  forall a, a_week_id (f a) = a_week_id a
            /\ a_employee_id (f a) = a_employee_id a
            /\ a_date (f a) = a_date a.

(** A dictionary of dictionaries has an entry for every date of [dates]
    and, inside it, for every variant of [variants]. *)
Definition has_keys {V : Type} (dates : list date) (variants : list string)
  (m : list (date * list (string * V))) : Prop :=
  forall d, In d dates ->
    exists inner, assoc_get Z.eqb d m = Some inner
      /\ forall v, In v variants -> exists n, assoc_get String.eqb v inner = Some n.

Definition tally_ok (dates : list date) (t : Tally) : Prop :=
  has_keys dates FD_TOKENS (t_counts t)
  /\ has_keys dates FD_TOKENS (t_fd_label_counts t)
  /\ has_keys dates SH_TOKENS (t_sh_counts t)
  /\ has_keys dates BB_LABELS (t_bb_counts t).

(** In week [week_id], whose days start at [start], every worker's row on
    a day covered by an approved Leave Request in that worker's name holds
    TIME OFF. *)
Definition leave_applied (db : DB) (week_id : Z) (start : date) : Prop :=
  forall emp d a,
    In emp (employees db) -> In d (daterange start 7) ->
    has_approved_timeoff db (emp_name emp) d = true ->
    find_assignment (assignments db) week_id (emp_id emp) d = Some a ->
    a_value a = TIME_OFF_LABEL.

(** The row of worker [e] on day [d] in week [w], when there is one, holds
    TIME OFF. *)
Definition off_at (rows : list Assignment) (w e : Z) (d : date) : Prop :=
  forall a, find_assignment rows w e d = Some a -> a_value a = TIME_OFF_LABEL.

(** [db'] has the tables of [db] that a run only reads, and its weeks with
    possibly more at the end. *)
Definition extends (db db' : DB) : Prop :=
  sections db' = sections db
  /\ employees db' = employees db
  /\ employee_roles db' = employee_roles db
  /\ employee_availability db' = employee_availability db
  /\ timeoff db' = timeoff db
  /\ exists extra, weeks db' = weeks db ++ extra.

(** [a] comes before [b] in [l]: every occurrence of [a] is at a smaller
    index than every occurrence of [b]. *)
Definition precedes (a b : Z) (l : list Z) : Prop :=
  forall i j, nth_error l i = Some a -> nth_error l j = Some b -> (i < j)%nat.

(** The first three components of a ranking key. *)
Definition first_three (k : rank_key) : Z * Z * Z :=
  match k with (k1, k2, k3, _, _) => (k1, k2, k3) end.

(** Two reception workers who differ in seniority only: worker 1 has rank
    1, worker 2 has rank 2. *)
Definition db_two_ranked : DB :=
  mkDB [mkSection 1 "Front Desk"]
       [mkEmployee 1 "Ann" 1 None (Some 1) None None;
        mkEmployee 2 "Bob" 1 None (Some 2) None None]
       [] [] [] [] [].

Definition fresh_state : GenState :=
  mkGen [] (fun _ => 0) (fun _ _ => None).

(** ** The generator as a sequence of guarded steps

    What a row says to every reader but the report of dismissed leave: its
    key and its value. *)
Definition core (rows : list Assignment) : list (Z * Z * date * string) :=
  map (fun a => (a_week_id a, a_employee_id a, a_date a, a_value a)) rows.

(** [label] is a concrete label of the slot [tok] of department [role]. *)
Definition slot_label (role tok label : string) : Prop :=
  (role = "Front Desk"
   /\ exists opts, In (tok, opts) FD_VARIANTS /\ In label opts)
  \/ (role = "Breakfast Bar" /\ In label BB_LABELS /\ tok = label)
  \/ (role = "Shuttle" /\ In label SH_LABELS /\ tok = label).

Section Steps.

Variable db : DB.
Variable week_id : Z.
Variable resv : list (date * list Z).

(** What holds of a worker at the moment the generator writes a shift into
    the worker's row. *)
Record can_assign (role : string) (d : date) (st : GenState) (e : Z)
  (tok label : string) : Prop := mkCanAssign {
  ca_row : option_map a_value (find_assignment (g_rows st) week_id e d)
           = Some "Set";
  ca_rest : rest_ok (g_rows st) e d role tok = true;
  ca_leave : has_any_timeoff db (emp_name_get db e) d = false;
  ca_max : exists maxw, _effective_max_for_role db e role = Some maxw
             /\ forall m, maxw = Some m -> g_counts st e < m;
  ca_label : slot_label role tok label;
  ca_free : is_reserved resv d e = false }.

(** The changes one day of one pass makes, in order: workers on leave are
    marked, picked workers get their shift. *)
Inductive day_steps (role : string) (d : date) : GenState -> GenState -> Prop :=
| ds_done : forall st, day_steps role d st st
| ds_mark : forall st e st',
    has_any_timeoff db (emp_name_get db e) d = true ->
    is_reserved resv d e = false ->
    day_steps role d (_mark_dismissed week_id st e d) st' ->
    day_steps role d st st'
| ds_assign : forall st e tok label st',
    can_assign role d st e tok label ->
    day_steps role d (record_assignment week_id st e d role tok label) st' ->
    day_steps role d st st'.

(** A pass: the days of the week in order. *)
Inductive day_chain (role : string) : list date -> GenState -> GenState -> Prop :=
| dc_nil : forall st, day_chain role [] st st
| dc_cons : forall d ds st st1 st2,
    day_steps role d st st1 -> day_chain role ds st1 st2 ->
    day_chain role (d :: ds) st st2.

End Steps.

(** What the reception loop has checked of a worker it keeps as a
    candidate of a variant. *)
Definition fd_eligible (db : DB) (week_id : Z) (d : date) (variant : string)
  (st : GenState) (e : Z) : Prop :=
  option_map a_value (find_assignment (g_rows st) week_id e d) = Some "Set"
  /\ _is_available e "Front Desk" variant d (avail_idx db) = true
  /\ rest_ok (g_rows st) e d "Front Desk" variant = true
  /\ has_any_timeoff db (emp_name_get db e) d = false
  /\ max_reached db st e "Front Desk" = Some false.

(** The same for the food-bar and shuttle loops. *)
Definition lower_eligible (db : DB) (week_id : Z) (resv : list (date * list Z))
  (role : string) (d : date) (label : string) (st : GenState) (e : Z) : Prop :=
  is_reserved resv d e = false
  /\ option_map a_value (find_assignment (g_rows st) week_id e d) = Some "Set"
  /\ has_any_timeoff db (emp_name_get db e) d = false
  /\ _is_available e role label d (avail_idx db) = true
  /\ rest_ok (g_rows st) e d role label = true.

(** ** Dismissed leave *)





(** The iteration order of the sets of the examples, which are small sets
    of small ids. *)
Definition set_order (l : list Z) : list Z := nodup Z.eq_dec l.

(** One reception worker, available for the AM variant on Thursdays, on
    approved leave on the first day of the baseline week. *)
Definition db_approved_leave : DB :=
  mkDB [mkSection 1 "Front Desk"]
       [mkEmployee 1 "Ann" 1 None None None None]
       []
       [mkAvail 1 3 "AM" true]
       [mkWeek 1 BASELINE]
       (map (fun d => mkAssignment 1 1 d "Set" false) (daterange BASELINE 7))
       [mkTimeOff 1 "Ann" "Front Desk" BASELINE BASELINE true false].

(** ** Well-formed databases

    What the application keeps true of its weeks and rows: week start dates
    are whole weeks apart, a week id and a start date determine each other,
    and every row belongs to a week of the table and is dated inside it. *)

Definition in_week (wk : Week) (d : date) : bool :=
  (wk_start_date wk <=? d) && (d <? wk_start_date wk + 7).

Definition weeks_ok (w1 w2 : Week) : bool :=
  ((wk_start_date w1 - wk_start_date w2) mod 7 =? 0)
  && Bool.eqb (wk_id w1 =? wk_id w2) (wk_start_date w1 =? wk_start_date w2).

Definition row_ok (ws : list Week) (k : Z * Z * date) : bool :=
  existsb (fun wk => (wk_id wk =? fst (fst k)) && in_week wk (snd k)) ws.

Definition key3 (a : Assignment) : Z * Z * date :=
  (a_week_id a, a_employee_id a, a_date a).

Definition db_wf (db : DB) : bool :=
  forallb (fun w1 => forallb (weeks_ok w1) (weeks db)) (weeks db)
  && forallb (row_ok (weeks db)) (map key3 (assignments db)).

(** The value a reader of worker [e]'s day [d] sees, whatever the week. *)
Definition value_on (rows : list Assignment) (e : Z) (d : date)
  : option string := option_map a_value (find_assignment_on rows e d).

(** ** Weekly counts *)

(** The value of worker [e]'s row for day [d] in week [w]. *)
Definition cell (rows : list Assignment) (w e : Z) (d : date) : option string :=
  option_map a_value (find_assignment rows w e d).





Definition FD_LABELS : list string := flat_map snd FD_VARIANTS.

(** The labels the pass of a department writes. *)
Definition dept_labels (role : string) : list string :=
  if (role =? "Front Desk")%string then FD_LABELS
  else if (role =? "Breakfast Bar")%string then BB_LABELS
  else if (role =? "Shuttle")%string then SH_LABELS
  else [].


Definition ALL_LABELS : list string := FD_LABELS ++ BB_LABELS ++ SH_LABELS.

(** From [rows] to [rows'] the cells of week [w] change only by taking a
    value in [V]. *)
Definition writes (w : Z) (V : string -> Prop) (rows rows' : list Assignment)
  : Prop :=
  forall e d, cell rows' w e d = cell rows w e d
              \/ exists v, V v /\ cell rows' w e d = Some v.




Definition DEPARTMENTS : list string :=
  ["Front Desk"; "Breakfast Bar"; "Shuttle"].


(** The database of the example after a run of the generator from its
    week. *)
Definition db_generated : DB :=
  match generate_4_week_schedule set_order db_approved_leave 1 with
  | Some db' => db'
  | None => db_approved_leave
  end.

(** ** The rest rule *)

(** [v] is a reception shift of [variant] ("AM", "PM" or "Audit"). *)
Definition fd_shift (variant v : string) : bool :=
  str_in v FRONT_DESK_SHIFTS && (_fd_variant v =? variant)%string.

(** [v] is a shuttle shift of [variant] ("AM", "Midday", "PM" or "Crew"). *)
Definition sh_shift (variant v : string) : bool :=
  str_in v SHUTTLE_SHIFTS && startswith v variant.

(** The values [v0] of a day and [v1] of the next day respect the rest
    rule. *)
Definition rest_rule (v0 v1 : string) : bool :=
  negb ((fd_shift "PM" v0 && fd_shift "AM" v1)
        || (fd_shift "Audit" v0 && fd_shift "PM" v1)
        || ((sh_shift "PM" v0 || sh_shift "Crew" v0) && sh_shift "AM" v1)
        || (sh_shift "Crew" v0 && sh_shift "Midday" v1)).

(** The rest rule holds of every worker and every two consecutive days
    [d], [d + 1] from [lo] on and before [hi]. *)
Definition rest_inv (lo hi : date) (rows : list Assignment) : Prop :=
  forall e d v0 v1, lo <= d -> d + 1 < hi ->
    value_on rows e d = Some v0 -> value_on rows e (d + 1) = Some v1 ->
    rest_rule v0 v1 = true.

(** From [rows] to [rows'] what a reader of a worker's day sees changes
    only by becoming a value in [V]. *)
Definition vwrites (V : string -> Prop) (rows rows' : list Assignment) : Prop :=
  forall e d, value_on rows' e d = value_on rows e d
              \/ exists v, V v /\ value_on rows' e d = Some v.

Definition neutral (v : string) : Prop := v = "Set" \/ v = TIME_OFF_LABEL.

(** The days from [lo] on and before [hi] hold the placeholder or a value
    in [V]. *)
Definition days_hold (V : string -> Prop) (lo hi : date)
  (rows : list Assignment) : Prop :=
  forall e d v, lo <= d < hi -> value_on rows e d = Some v ->
    v = "Set" \/ V v.

(** ** A reception desk of three

    Cindy and Ryan take the AM variant on Thursdays, and Ryan has the larger
    seniority number; Zoe takes the PM variant on Thursdays and the AM and
    Audit variants on Fridays.  The rows of the week are not there yet. *)
Definition db_desk : DB :=
  mkDB [mkSection 1 "Front Desk"]
       [mkEmployee 1 "Cindy" 1 None None None None;
        mkEmployee 2 "Ryan" 1 None (Some 5) None None;
        mkEmployee 3 "Zoe" 1 None None None None]
       []
       [mkAvail 1 3 "AM" true; mkAvail 2 3 "AM" true;
        mkAvail 3 3 "PM" true; mkAvail 3 4 "AM" true;
        mkAvail 3 4 "Audit" true]
       [mkWeek 1 BASELINE]
       []
       [].

Definition db_desk_generated : DB :=
  match generate_4_week_schedule set_order db_desk 1 with
  | Some db' => db'
  | None => db_desk
  end.

(** The state in which the reception pass starts the baseline week. *)
Definition desk_start : GenState :=
  mkGen (reset_week 1 (assignments
                         (fst (_ensure_week_and_assignments db_desk BASELINE))))
        (fun _ => 0) (fun _ _ => None).

(** The state after the scan of the pool for the AM variant of the first
    day. *)
Definition desk_scanned : GenState :=
  match foldM (fd_consider db_desk 1 BASELINE "AM") [1; 2; 3] (desk_start, [])
  with
  | Some sc => fst sc
  | None => desk_start
  end.




(** ** What a run may change in a row *)

(** Leave synchronisation of week [w] takes row [a] to [a']: the row is
    kept, or it is a row of the week whose worker has an approved Leave
    Request covering its date and only its value changes, to TIME OFF. *)
Definition leave_forced (db : DB) (w : Z) (a a' : Assignment) : Prop :=
  a' = a
  \/ (a' = set_value TIME_OFF_LABEL a /\ a_week_id a = w
      /\ exists emp, In emp (employees db) /\ emp_id emp = a_employee_id a
           /\ has_approved_timeoff db (emp_name emp) (a_date a) = true).

(** A run over week [w] takes row [a] to [a']: rows of other weeks are
    kept, rows of the week keep their key. *)
Definition same_row_of (w : Z) (a a' : Assignment) : Prop :=
  a' = a \/ (a_week_id a = w /\ key3 a' = key3 a).

(** Week id [w] is the id of one of the four weeks of the horizon that
    starts on [base], as [db] has them. *)
Definition horizon_week (db : DB) (base : date) (w : Z) : Prop :=
  exists k wk, In k [0; 1; 2; 3]
    /\ week_starting db (base + 7 * k) = Some wk /\ wk_id wk = w.

(** A run of the generator takes row [a] to [a']: the row is kept, or it
    is a row of a week of the horizon and keeps its key. *)
Definition regenerated (db : DB) (base : date) (a a' : Assignment) : Prop :=
  a' = a \/ (key3 a' = key3 a /\ horizon_week db base (a_week_id a)).

(** ** Who may hold a generated shift *)

(** [fd_emp_ids], [bb_emp_ids] or [sh_emp_ids]. *)
Definition dept_pool (set_iter : list Z -> list Z) (db : DB) (role : string)
  : list Z := employees_for_section set_iter db role.

(** Shift [v] on day [d] is one the generator may give worker [e]: a label
    of a department in whose pool the worker is, for which the worker has
    declared availability on that weekday, on a day no Leave Request of the
    worker covers. *)
Definition granted (set_iter : list Z -> list Z) (db : DB) (e : Z) (d : date)
  (v : string) : Prop :=
  exists role, In role DEPARTMENTS /\ In v (dept_labels role)
    /\ In e (dept_pool set_iter db role)
    /\ _is_available e role v d (avail_idx db) = true
    /\ has_any_timeoff db (emp_name_get db e) d = false.

(** From [rows] to [rows'] a cell of week [w] changes only by taking a
    value that [V] allows for its worker and day. *)
Definition writes_at (w : Z) (V : Z -> date -> string -> Prop)
  (rows rows' : list Assignment) : Prop :=
  forall e d, cell rows' w e d = cell rows w e d
              \/ exists v, V e d v /\ cell rows' w e d = Some v.

(** Every cell of week [w] holds the placeholder, TIME OFF or a shift its
    worker may hold. *)
Definition week_granted (set_iter : list Z -> list Z) (db : DB)
  (rows : list Assignment) (w : Z) : Prop :=
  forall e d v, cell rows w e d = Some v ->
    v = "Set" \/ v = TIME_OFF_LABEL \/ granted set_iter db e d v.

(** ** Pages that change the tables

    A handler that answers with a redirect: the page it sends the browser
    to, or the exception that ends it. *)

Inductive page :=
| ToIndex
| ToSchedules
| ToViewWeek (week_id : Z)
| ToListEmployees.

Inductive redirected :=
| Redirect (p : page)
| Crashed (exc : string).

(** The rows [prev_week] and [next_week] add for a new week: the seven
    days of each employee, in table order. *)
Definition new_week_rows (week_id : Z) (emps : list Employee) (start : date)
  : list Assignment :=
  flat_map (fun emp =>
              map (fun d => mkAssignment week_id (emp_id emp) d "Set" false)
                  (daterange start 7))
           emps.

(** The body [prev_week] and [next_week] share: the week that starts
    [delta] days from the current one is looked up by its start date and
    created, with its rows and its leave, when it is not there. *)
Definition neighbour_week (delta : Z) (db : DB) (week_id : Z)
  : DB * redirected :=
  match get_week db week_id with
  | None => (db, Redirect ToIndex)
  | Some current_week =>
      let start := wk_start_date current_week + delta in
      match week_starting db start with
      | Some wk => (db, Redirect (ToViewWeek (wk_id wk)))
      | None =>
          let wk := mkWeek (next_week_id db) start in
          let db1 :=
            mkDB (sections db) (employees db) (employee_roles db)
                 (employee_availability db) (weeks db ++ [wk])
                 (assignments db ++ new_week_rows (wk_id wk) (employees db) start)
                 (timeoff db) in
          match sync_timeoff_to_assignments (wk_id wk) db1 with
          | Some db2 => (db2, Redirect (ToViewWeek (wk_id wk)))
          | None => (db1, Crashed "AttributeError")
          end
      end
  end.

(** [prev_week(week_id)] *)
Definition prev_week : DB -> Z -> DB * redirected := neighbour_week (-7).

(** [next_week(week_id)] *)
Definition next_week : DB -> Z -> DB * redirected := neighbour_week 7.

(** [s.delete(wk)]: the row of the week goes. *)
Fixpoint remove_week (week_id : Z) (ws : list Week) : list Week :=
  match ws with
  | [] => []
  | wk :: t => if wk_id wk =? week_id then t else wk :: remove_week week_id t
  end.

(** [delete_week_schedule(week_id)]: the baseline week is reset (its
    dismissed flags stay), any other week goes with its rows. *)
Definition delete_week_schedule (db : DB) (week_id : Z) : DB * page :=
  match get_week db week_id with
  | None => (db, ToSchedules)
  | Some wk =>
      if wk_start_date wk =? BASELINE then
        (with_assignments db
           (map (fun a => if a_week_id a =? week_id then set_value "Set" a
                          else a) (assignments db)),
         ToViewWeek week_id)
      else
        (mkDB (sections db) (employees db) (employee_roles db)
              (employee_availability db) (remove_week week_id (weeks db))
              (filter (fun a => negb (a_week_id a =? week_id)) (assignments db))
              (timeoff db),
         ToSchedules)
  end.

(** [delete_schedule()]: [week.id] raises when there is no baseline
    week. *)
Definition delete_schedule (db : DB) : DB * redirected :=
  match week_starting db BASELINE with
  | None => (db, Crashed "AttributeError")
  | Some week =>
      (with_assignments db (reset_week (wk_id week) (assignments db)),
       Redirect ToIndex)
  end.

(** [has_generated_schedule(week_id)] *)
Definition has_generated_schedule (db : DB) (week_id : Z) : bool :=
  existsb (fun a => (a_week_id a =? week_id)
                    && negb (a_value a =? "Set")%string)
          (assignments db).

(** ** /timeoff/delete *)

(** What [delete_timeoff] answers once the request is found: the coverage
    reply (or the exception of the snapshot call), or, without a baseline
    week, the short reply
    [{"ok": True, "counts": {}, "missing": {}, "required": 0,
      "variant_counts": {}}]. *)
Inductive delete_reply :=
| WithCoverage (o : outcome)
| WithoutWeek.

(** The loop of [delete_timeoff] over the days of the baseline week. *)
Definition untoggle_cell (week_id eid : Z) (t : TimeOff)
  (rows : list Assignment) (d : date) : list Assignment :=
  if (to_from_date t <=? d) && (d <=? to_to_date t) then
    update_first (is_row week_id eid d)
      (fun a => if (a_value a =? TIME_OFF_LABEL)%string
                then set_value "Set" a else a)
      rows
  else rows.

(** [s.delete(to)] *)
Fixpoint remove_timeoff (tid : Z) (l : list TimeOff) : list TimeOff :=
  match l with
  | [] => []
  | t :: r => if to_id t =? tid then r else t :: remove_timeoff tid r
  end.

(** [delete_timeoff(tid)] *)
Definition delete_timeoff (set_iter : list Z -> list Z) (db : DB) (tid : Z)
  : DB * delete_reply :=
  match find (fun t => to_id t =? tid) (timeoff db) with
  | None => (db, WithCoverage (Returned (RError 404 "Not found")))
  | Some t =>
      let week := week_starting db BASELINE in
      let rows1 :=
        match week with
        | Some wk =>
            if to_approved t then
              match employee_named db (to_name t) with
              | Some emp =>
                  fold_left (untoggle_cell (wk_id wk) (emp_id emp) t)
                            (daterange (wk_start_date wk) 7) (assignments db)
              | None => assignments db
              end
            else assignments db
        | None => assignments db
        end in
      let db1 :=
        mkDB (sections db) (employees db) (employee_roles db)
             (employee_availability db) (weeks db) rows1
             (remove_timeoff tid (timeoff db)) in
      match week with
      | Some wk =>
          (db1, WithCoverage
                  (with_snapshot 11 db1 (wk_id wk)
                     (fun snap =>
                        Returned (ROk snap
                                    (double_booked_snapshot set_iter db1
                                                            (wk_id wk))))))
      | None => (db1, WithoutWeek)
      end
  end.

(** What [delete_timeoff] of request [t] may do to a row: keep it, or put
    the placeholder where an approved [t] had TIME OFF in the baseline
    week. *)
Definition leave_lifted (db : DB) (t : TimeOff) (a a' : Assignment) : Prop :=
  a' = a
  \/ (a' = set_value "Set" a /\ a_value a = TIME_OFF_LABEL
      /\ to_approved t = true
      /\ to_from_date t <= a_date a <= to_to_date t
      /\ exists week emp,
           week_starting db BASELINE = Some week
           /\ employee_named db (to_name t) = Some emp
           /\ a_week_id a = wk_id week /\ a_employee_id a = emp_id emp).

(** ** What the coverage snapshot counts *)

(** A dictionary of dictionaries with the keys [dates] and, inside, the
    keys [variants], in that order, holding [f date variant]. *)
Definition grid (dates : list date) (variants : list string)
  (f : date -> string -> Z) : variant_counts :=
  map (fun d => (d, map (fun v => (v, f d v)) variants)) dates.

(** The number of rows of [rows] dated [d] whose value satisfies [p]. *)
Definition counted (p : string -> bool) (rows : list Assignment) (d : date)
  : Z :=
  Z.of_nat (List.length (filter (fun a => (a_date a =? d) && p (a_value a))
                                rows)).

(** [select(Assignment).where(Assignment.week_id == week_id)] *)
Definition week_rows (db : DB) (week_id : Z) : list Assignment :=
  filter (fun a => a_week_id a =? week_id) (assignments db).

(** The counter of [counts], of [sh_counts] and of [bb_counts] that a value
    increments, if any. *)
Definition fd_counter (v : string) : option string :=
  if str_in v FRONT_DESK_SHIFTS then
    if startswith v "AM" then Some "AM"
    else if startswith v "PM" then Some "PM"
    else if startswith v "Audit" then Some "Audit"
    else None
  else None.

Definition sh_counter (v : string) : option string :=
  if str_in v SHUTTLE_SHIFTS then
    if (v =? "AM (3:30AM–11:30AM)")%string then Some "AM"
    else if startswith v "Midday" then Some "Midday"
    else if startswith v "PM (5:30PM" then Some "PM"
    else if startswith v "Crew" then Some "Crew"
    else None
  else None.

Definition bb_counter (v : string) : option string :=
  if str_in v BB_LABELS then Some v else None.

(** One more for the pair [(d, k)]. *)
Definition one_more (f : date -> string -> Z) (d : date) (k : option string)
  : date -> string -> Z :=
  fun d' v' =>
    match k with
    | Some k => if (d' =? d) && (v' =? k)%string then f d' v' + 1 else f d' v'
    | None => f d' v'
    end.

(** The sum and the flag of a day, as the snapshot derives them. *)
Definition day_total (variants : list string) (f : string -> Z) : Z :=
  fold_right Z.add 0 (map f variants).

Definition day_short (threshold : Z) (variants : list string)
  (f : string -> Z) : bool :=
  existsb (fun v => f v <? threshold) variants.

(** ** One worker per shift *)

(** Nobody holds value [v] on day [d] of week [w]. *)
Definition unheld (rows : list Assignment) (w : Z) (d : date) (v : string)
  : Prop := forall e, cell rows w e d <> Some v.

(** No shift of a day of week [w] is held by two workers. *)
Definition one_holder (rows : list Assignment) (w : Z) : Prop :=
  forall e1 e2 d v, inactive_value v = false ->
    cell rows w e1 d = Some v -> cell rows w e2 d = Some v -> e1 = e2.

(** From [rows] to [rows'] only the shifts in [T] get a holder, and no
    shift of [T] that had none gets two. *)
Definition fills (w : Z) (T : date -> string -> Prop)
  (rows rows' : list Assignment) : Prop :=
  (one_holder rows w -> (forall d v, T d v -> unheld rows w d v) ->
   one_holder rows' w)
  /\ (forall d v, unheld rows w d v -> ~ T d v -> unheld rows' w d v).

(** ** Rows and their workers *)

(** Every row is the row of an employee of the table. *)
Definition rows_have_workers (db : DB) (rows : list Assignment) : Prop :=
  forall a, In a rows ->
    exists emp, In emp (employees db) /\ emp_id emp = a_employee_id a.

(** ** /admin/employees *)

(** [s.delete(emp)]: the row of the employee goes. *)
Fixpoint remove_employee (eid : Z) (l : list Employee) : list Employee :=
  match l with
  | [] => []
  | e :: t => if emp_id e =? eid then t else e :: remove_employee eid t
  end.

(** [delete_employee(eid)]: the rows of the worker in the assignments and
    availability tables go, with the Leave Requests that bear the worker's
    name and the row of the worker; the [employee_roles] table is not
    touched. *)
Definition delete_employee (db : DB) (eid : Z) : DB * page :=
  match get_employee db eid with
  | None => (db, ToListEmployees)
  | Some emp =>
      (mkDB (sections db) (remove_employee eid (employees db))
            (employee_roles db)
            (filter (fun ea => negb (ea_employee_id ea =? emp_id emp))
                    (employee_availability db))
            (weeks db)
            (filter (fun a => negb (a_employee_id a =? emp_id emp))
                    (assignments db))
            (filter (fun t => negb (to_name t =? emp_name emp)%string)
                    (timeoff db)),
       ToListEmployees)
  end.

(** [emp.section_id = sec.id] *)
Definition set_section (sid : Z) (e : Employee) : Employee :=
  mkEmployee (emp_id e) (emp_name e) sid (emp_preferred_shift e)
             (emp_seniority e) (emp_preferred_shifts_per_week e)
             (emp_max_shifts_per_week e).

(** Mutating the ORM object [s.get(Employee, eid)] returned. *)
Fixpoint update_employee_row (eid : Z) (f : Employee -> Employee)
  (l : list Employee) : list Employee :=
  match l with
  | [] => []
  | e :: t => if emp_id e =? eid then f e :: t
              else e :: update_employee_row eid f t
  end.

(** The loop of [change_employee_role] over the days of the baseline
    week. *)
Definition clear_cell (week_id eid : Z) (rows : list Assignment) (d : date)
  : list Assignment :=
  update_first (is_row week_id eid d) (set_value "Set") rows.

(** [change_employee_role(eid)]; [role] is the form field as the handler
    holds it after [strip()].  [week.start_date] raises when there is no
    baseline week, before anything is committed. *)
Definition change_employee_role (db : DB) (eid : Z) (role : string)
  : DB * redirected :=
  if (role =? "")%string then (db, Redirect ToListEmployees)
  else
    match get_employee db eid with
    | None => (db, Redirect ToListEmployees)
    | Some emp =>
        match section_named db role with
        | None => (db, Redirect ToListEmployees)
        | Some sec =>
            match week_starting db BASELINE with
            | None => (db, Crashed "AttributeError")
            | Some week =>
                let db1 :=
                  mkDB (sections db)
                       (update_employee_row eid (set_section (sec_id sec))
                                            (employees db))
                       (employee_roles db) (employee_availability db)
                       (weeks db)
                       (fold_left (clear_cell (wk_id week) (emp_id emp))
                                  (daterange (wk_start_date week) 7)
                                  (assignments db))
                       (timeoff db) in
                match sync_timeoff_to_assignments (wk_id week) db1 with
                | Some db2 => (db2, Redirect ToListEmployees)
                | None => (db1, Crashed "AttributeError")
                end
            end
        end
    end.

(** ** /schedules *)

(** One entry of the [periods] dictionary. *)
Record Period := mkPeriod {
  p_first_week_id : Z;
  p_start : date;
  p_end : date }.

(** [idx]: the 4-week period of a start date, counted from the baseline. *)
Definition period_index (start : date) : Z :=
  let delta_days := start - BASELINE in
  if delta_days >=? 0 then delta_days / 28
  else - ((- delta_days - 1) / 28) - 1.

(** The body of [for w in s.scalars(select(Week))]; a first week id of 0
    is falsy, and then no week is looked up. *)
Definition note_week (db : DB) (periods : list (Z * Period)) (w : Week)
  : list (Z * Period) :=
  let idx := period_index (wk_start_date w) in
  match assoc_get Z.eqb idx periods with
  | None =>
      let period_start := BASELINE + idx * 28 in
      assoc_set Z.eqb idx
                (mkPeriod (wk_id w) period_start (period_start + 27)) periods
  | Some p =>
      match (if p_first_week_id p =? 0 then None
             else get_week db (p_first_week_id p)) with
      | Some existing_week =>
          if wk_start_date w <? wk_start_date existing_week
          then assoc_set Z.eqb idx
                         (mkPeriod (wk_id w) (p_start p) (p_end p)) periods
          else periods
      | None => periods
      end
  end.

(** The dictionary [periods] after the loop. *)
Definition periods (db : DB) : list (Z * Period) :=
  fold_left (note_week db) (weeks db) [].

(** [schedules_page()]: the items handed to the template, sorted by start
    date with [reverse=True]; the dates stand for the strings [strftime]
    makes of them. *)
Definition schedules_page (db : DB) : list Period :=
  map snd (sort_by (fun a b => b <? a)
                   (map (fun kv => (p_start (snd kv), snd kv)) (periods db))).

(** What the dictionary holds once the weeks [pre] have been seen. *)
Definition periods_ok (pre : list Week) (P : list (Z * Period)) : Prop :=
  (forall idx p, assoc_get Z.eqb idx P = Some p ->
     p_start p = BASELINE + 28 * idx /\ p_end p = p_start p + 27
     /\ exists w, In w pre /\ wk_id w = p_first_week_id p
          /\ period_index (wk_start_date w) = idx
          /\ forall w', In w' pre -> period_index (wk_start_date w') = idx ->
               wk_start_date w <= wk_start_date w')
  /\ (forall w, In w pre ->
        assoc_get Z.eqb (period_index (wk_start_date w)) P <> None)
  /\ NoDup (map fst P).

(** ** /week/<week_id>/manager-meals *)

(** The body of [for a in rows] that fills [by_day].  The dictionary is
    only read with [.get(d, {}).get(variant, [])]: it is the function from
    a day and a variant to the list of names.  [_fd_variant] is the
    definition in force when the handler runs, the one the generator
    uses. *)
Definition note_meal (db : DB) (by_day : date -> string -> list string)
  (a : Assignment) : date -> string -> list string :=
  if inactive_value (a_value a) then by_day
  else
    let variant := _fd_variant (a_value a) in
    if (variant =? "")%string then by_day
    else if negb (str_in variant ["AM"; "PM"; "Audit"]) then by_day
    else
      let nm := emp_name_get db (a_employee_id a) in
      if (nm =? "")%string then by_day
      else fun d v => if (d =? a_date a) && (v =? variant)%string
                      then by_day d v ++ [nm] else by_day d v.

Definition by_day (db : DB) (week_id : Z) : date -> string -> list string :=
  fold_left (note_meal db)
            (filter (fun a => a_week_id a =? week_id) (assignments db))
            (fun _ _ => []).

(** [next((n for n in SENIORITY_ORDER if n in names),
          (names[0] if names else None))] *)
Definition senior_first (names : list string) : option string :=
  match find (fun n => str_in n names) SENIORITY_ORDER with
  | Some n => Some n
  | None => hd_error names
  end.

(** The entry of one day: who gets the AM, the PM and the Audit meal. *)
Definition meal_entry (by_day : date -> string -> list string) (d : date)
  : option string * option string * option string :=
  (if z_in (weekday d) [6; 0; 1; 2; 3] then Some "JoJo"
   else senior_first (by_day d "AM"),
   senior_first (by_day d "PM"),
   senior_first (by_day d "Audit")).

(** [name or "-"] *)
Definition or_dash (o : option string) : string :=
  match o with
  | Some s => if (s =? "")%string then "-" else s
  | None => "-"
  end.

(** [manager_meals(week_id)]: the redirect when the week is not there,
    else the rows handed to the template, the text of a row being
    [f"{audit}, {am}, {pm}"]; the date stands for its [strftime] label. *)
Definition manager_meals (db : DB) (week_id : Z)
  : page + list (date * string) :=
  match get_week db week_id with
  | None => inl (ToViewWeek week_id)
  | Some wk =>
      inr (map (fun d =>
                  let e := meal_entry (by_day db week_id) d in
                  (d, (or_dash (snd e) ++ ", " ++ or_dash (fst (fst e))
                       ++ ", " ++ or_dash (snd (fst e)))%string))
               (daterange (wk_start_date wk) 7))
  end.

(** Worker [n] is on [variant] on day [d] of the week, as the meal list
    sees it: a row of the week of that day holds a shift that
    [_fd_variant] maps to the variant, and its worker has the non-empty
    name [n]. *)
Definition on_shift (db : DB) (week_id : Z) (d : date) (variant n : string)
  : Prop :=
  exists a, In a (assignments db) /\ a_week_id a = week_id /\ a_date a = d
    /\ inactive_value (a_value a) = false
    /\ _fd_variant (a_value a) = variant
    /\ emp_name_get db (a_employee_id a) = n /\ n <> ""%string.

(** [c] is the right recipient of the meal of [variant] on day [d]:
    nobody when nobody is on the shift, else a worker on the shift who
    stands in [SENIORITY_ORDER] no later than any worker on the shift who
    is in it. *)
Definition senior_on_shift (db : DB) (week_id : Z) (d : date)
  (variant : string) (c : option string) : Prop :=
  match c with
  | None => forall n, ~ on_shift db week_id d variant n
  | Some n =>
      on_shift db week_id d variant n
      /\ forall m, on_shift db week_id d variant m -> In m SENIORITY_ORDER ->
           exists i j, index_of n SENIORITY_ORDER = Some i
             /\ index_of m SENIORITY_ORDER = Some j /\ i <= j
  end.

(** ** The availability page *)

(** [role_shift_variants(role_name)] *)
Definition role_shift_variants (role_name : string) : list string :=
  let real := fun l => filter (fun s => negb (str_in s ["Set"; TIME_OFF_LABEL])) l in
  if (role_name =? "Breakfast Bar")%string then real BREAKFAST_SHIFTS
  else if (role_name =? "Front Desk")%string then real FRONT_DESK_SHIFTS
  else if (role_name =? "Shuttle")%string then real SHUTTLE_SHIFTS
  else [].

(** [role_availability_variants(role_name)] *)
Definition role_availability_variants (role_name : string) : list string :=
  if (role_name =? "Breakfast Bar")%string
  then ["5AM–12PM"; "6AM–12PM"; "7AM–12PM"]
  else if (role_name =? "Front Desk")%string then ["AM"; "PM"; "Audit"]
  else if (role_name =? "Shuttle")%string
  then ["AM (3:30AM–11:30AM)"; "Midday (10:30AM–6:30PM)";
        "PM (5:30PM–1:30AM)"; "Crew (5:45PM–1:45AM)"]
  else [].

(** ** More examples *)

(** The one-worker database after leave synchronisation of its week. *)
Definition db_leave_synced : DB :=
  match sync_timeoff_to_assignments 1 db_approved_leave with
  | Some db' => db'
  | None => db_approved_leave
  end.

(** The coverage snapshot of the first week of the generated desk of
    three. *)
Definition desk_snapshot : list pyval :=
  match coverage_snapshot_db db_desk_generated 1 with
  | Some t => t
  | None => []
  end.

(** * Proofs *)

Arguments daterange : simpl never.

(** ** Lists and strings *)

Lemma str_in_In (x : string) (l : list string) :
  str_in x l = true <-> In x l.
Proof.
  unfold str_in. rewrite existsb_exists. split.
  - intros [y [Hy He]]. apply String.eqb_eq in He. now subst.
  - intros H. exists x. split; [assumption | apply String.eqb_refl].
Qed.


Lemma filter_at_most_one {A : Type} (p : A -> bool) (l : list A) :
  NoDup l ->
  (forall x y, In x l -> In y l -> p x = true -> p y = true -> x = y) ->
  (List.length (filter p l) <= 1)%nat.
Proof.
  induction l as [|a l IH]; intros Hnd Huniq; simpl; [lia|].
  inversion Hnd as [|? ? Hnotin Hnd']; subst.
  destruct (p a) eqn:Hpa.
  - simpl. assert (Hnil : filter p l = []).
    { destruct (filter p l) as [|b r] eqn:Hf; [reflexivity|]. exfalso.
      assert (Hb : In b (filter p l)) by (rewrite Hf; now left).
      apply filter_In in Hb. destruct Hb as [Hbl Hpb].
      assert (a = b) by (apply Huniq; simpl; auto).
      subst. contradiction. }
    rewrite Hnil. simpl. lia.
  - apply IH; [assumption|]. intros x y Hx Hy. apply Huniq; simpl; auto.
Qed.

(** ** Conflict Detector: the label sets *)

Lemma label_sets_disjoint (v : string) :
  placeholder v = false ->
  (str_in v BREAKFAST_SHIFTS && str_in v FRONT_DESK_SHIFTS = false)
  /\ (str_in v BREAKFAST_SHIFTS && str_in v SHUTTLE_SHIFTS = false)
  /\ (str_in v FRONT_DESK_SHIFTS && str_in v SHUTTLE_SHIFTS = false).
Proof.
  intros Hp.
  assert (Hcases : forall l, str_in v l = true -> In v l)
    by (intros l; apply str_in_In).
  repeat split.
  - destruct (str_in v BREAKFAST_SHIFTS) eqn:Hb; [|reflexivity].
    apply Hcases in Hb. simpl in Hb.
    repeat (destruct Hb as [Hb|Hb]; [subst v; try discriminate Hp; reflexivity|]).
    contradiction.
  - destruct (str_in v BREAKFAST_SHIFTS) eqn:Hb; [|reflexivity].
    apply Hcases in Hb. simpl in Hb.
    repeat (destruct Hb as [Hb|Hb]; [subst v; try discriminate Hp; reflexivity|]).
    contradiction.
  - destruct (str_in v FRONT_DESK_SHIFTS) eqn:Hb; [|reflexivity].
    apply Hcases in Hb. simpl in Hb.
    repeat (destruct Hb as [Hb|Hb]; [subst v; try discriminate Hp; reflexivity|]).
    contradiction.
Qed.

Lemma section_shifts_owner (v n1 n2 : string) :
  placeholder v = false ->
  str_in v (section_shifts n1) = true ->
  str_in v (section_shifts n2) = true ->
  n1 = n2.
Proof.
  intros Hp H1 H2. destruct (label_sets_disjoint v Hp) as [Hbf [Hbs Hfs]].
  unfold section_shifts in *.
  destruct (String.eqb_spec n1 "Breakfast Bar");
  destruct (String.eqb_spec n2 "Breakfast Bar"); try congruence;
  destruct (String.eqb_spec n1 "Front Desk");
  destruct (String.eqb_spec n2 "Front Desk"); try congruence;
  destruct (String.eqb_spec n1 "Shuttle");
  destruct (String.eqb_spec n2 "Shuttle"); try congruence;
  try (rewrite H1, H2 in *; discriminate);
  try (simpl in H1; discriminate); try (simpl in H2; discriminate).
Qed.

Lemma inactive_placeholder (v : string) :
  inactive_value v = false -> placeholder v = false.
Proof.
  unfold inactive_value, placeholder. intros H.
  apply orb_false_iff in H. destruct H as [H1 H2].
  apply orb_false_iff in H1. destruct H1 as [_ H1]. now rewrite H1, H2.
Qed.

Lemma active_sections_le_1 (db : DB) (eid : Z) (v : string) :
  inactive_value v = false -> (active_sections db eid v <= 1)%nat.
Proof.
  intros Hv. unfold active_sections. apply filter_at_most_one.
  - unfold emp_sections. apply NoDup_nodup.
  - intros x y _ _ Hx Hy.
    apply andb_true_iff in Hx. apply andb_true_iff in Hy.
    apply (section_shifts_owner v); [now apply inactive_placeholder | tauto | tauto].
Qed.

Lemma double_booked_cell_id (db : DB) (w eid : Z) (name : string)
  (result : list (date * list string)) (d : date) :
  double_booked_cell db w eid name result d = result.
Proof.
  unfold double_booked_cell.
  destruct (find_assignment (assignments db) w eid d) as [a|]; [|reflexivity].
  destruct (inactive_value (a_value a)) eqn:Hv; [reflexivity|].
  pose proof (active_sections_le_1 db eid (a_value a) Hv) as Hle.
  destruct (Nat.ltb_spec 1 (active_sections db eid (a_value a))); [lia|reflexivity].
Qed.

Lemma fold_left_id {A B : Type} (f : A -> B -> A) (l : list B) (a : A) :
  (forall x y, f x y = x) -> fold_left f l a = a.
Proof.
  intros H. revert a. induction l as [|b l IH]; intros a; simpl; [reflexivity|].
  now rewrite H.
Qed.

(** C9. Outside the two placeholders the label sets of the three
    departments are pairwise disjoint, so an active value lies in at most one
    of them, and [double_booked_snapshot] reports nobody: its result is the
    empty dictionary for every database, every week and every iteration
    order of the set of multi-department workers. *)
Theorem double_booked_report_empty :
  (forall v, placeholder v = false ->
     (str_in v BREAKFAST_SHIFTS && str_in v FRONT_DESK_SHIFTS = false)
     /\ (str_in v BREAKFAST_SHIFTS && str_in v SHUTTLE_SHIFTS = false)
     /\ (str_in v FRONT_DESK_SHIFTS && str_in v SHUTTLE_SHIFTS = false))
  /\ (forall db eid v, inactive_value v = false ->
        (active_sections db eid v <= 1)%nat)
  /\ (forall set_iter db week_id,
        double_booked_snapshot set_iter db week_id = []).
Proof.
  split; [exact label_sets_disjoint|]. split; [exact active_sections_le_1|].
  intros set_iter db week_id. unfold double_booked_snapshot.
  destruct (multi_emp_ids db) as [|m ms]; [reflexivity|].
  destruct (get_week db week_id) as [wk|]; [|reflexivity].
  apply fold_left_id. intros result eid.
  destruct (get_employee db eid) as [emp|]; [|reflexivity].
  apply fold_left_id. intros r d. apply double_booked_cell_id.
Qed.

(** ** Rows: queries after an update *)

Lemma keeps_key_set_value v : keeps_key (set_value v).
Proof. intros a. simpl. auto. Qed.

Lemma keeps_key_set_dismissed b : keeps_key (set_dismissed b).
Proof. intros a. simpl. auto. Qed.

Lemma keeps_key_force_time_off : keeps_key force_time_off.
Proof.
  intros a. unfold force_time_off.
  destruct (a_value a =? TIME_OFF_LABEL)%string; simpl; auto.
Qed.

Create HintDb rows.
#[local] Hint Resolve keeps_key_set_value keeps_key_set_dismissed
  keeps_key_force_time_off : rows.

Lemma is_row_keeps f w e d a : keeps_key f -> is_row w e d (f a) = is_row w e d a.
Proof.
  intros Hf. unfold is_row. destruct (Hf a) as [H1 [H2 H3]].
  now rewrite H1, H2, H3.
Qed.

Lemma is_row_true w e d a :
  is_row w e d a = true <->
  a_week_id a = w /\ a_employee_id a = e /\ a_date a = d.
Proof.
  unfold is_row. rewrite !andb_true_iff, !Z.eqb_eq. tauto.
Qed.

Lemma find_update_first_same p f l :
  (forall a, p (f a) = p a) ->
  find p (update_first p f l) = option_map f (find p l).
Proof.
  intros Hp. induction l as [|a l IH]; simpl; [reflexivity|].
  destruct (p a) eqn:Ha; simpl.
  - now rewrite Hp, Ha.
  - now rewrite Ha.
Qed.

Lemma find_update_first_other p q f l :
  (forall a, p a = true -> q a = false /\ q (f a) = false) ->
  find q (update_first p f l) = find q l.
Proof.
  intros H. induction l as [|a l IH]; simpl; [reflexivity|].
  destruct (p a) eqn:Ha; simpl.
  - destruct (H a Ha) as [H1 H2]. now rewrite H1, H2.
  - now rewrite IH.
Qed.

Lemma find_assignment_update_same f rows w e d :
  keeps_key f ->
  find_assignment (update_first (is_row w e d) f rows) w e d
  = option_map f (find_assignment rows w e d).
Proof.
  intros Hf. unfold find_assignment. apply find_update_first_same.
  intros a. now apply is_row_keeps.
Qed.

Lemma find_assignment_update_other f rows w e d w' e' d' :
  keeps_key f -> (w', e', d') <> (w, e, d) ->
  find_assignment (update_first (is_row w e d) f rows) w' e' d'
  = find_assignment rows w' e' d'.
Proof.
  intros Hf Hne. unfold find_assignment. apply find_update_first_other.
  intros a Ha. rewrite is_row_keeps by assumption.
  assert (is_row w' e' d' a = false); [|auto].
  destruct (is_row w' e' d' a) eqn:Hb; [|reflexivity].
  apply is_row_true in Ha. apply is_row_true in Hb.
  exfalso. apply Hne. destruct Ha as [? [? ?]], Hb as [? [? ?]]. congruence.
Qed.

Lemma map_key_update_first p f rows :
  keeps_key f ->
  map (fun a => (a_week_id a, a_employee_id a, a_date a)) (update_first p f rows)
  = map (fun a => (a_week_id a, a_employee_id a, a_date a)) rows.
Proof.
  intros Hf. induction rows as [|a l IH]; simpl; [reflexivity|].
  destruct (p a); simpl.
  - destruct (Hf a) as [H1 [H2 H3]]. now rewrite H1, H2, H3.
  - now rewrite IH.
Qed.

Lemma In_daterange start n d :
  In d (daterange start n) <-> start <= d < start + Z.of_nat n.
Proof.
  unfold daterange. rewrite in_map_iff. split.
  - intros [i [Hi Hin]]. apply in_seq in Hin. lia.
  - intros H. exists (Z.to_nat (d - start)). split; [lia|]. apply in_seq. lia.
Qed.

Lemma NoDup_daterange start n : NoDup (daterange start n).
Proof.
  unfold daterange. apply Finite.Injective_map_NoDup; [|apply seq_NoDup].
  intros i j H. lia.
Qed.

(** ** Association lists *)

Lemma assoc_get_set_same {V : Type} (k : Z) (v : V) m :
  assoc_get Z.eqb k (assoc_set Z.eqb k v m) = Some v.
Proof.
  induction m as [|[k' v'] m IH]; simpl.
  - now rewrite Z.eqb_refl.
  - destruct (k' =? k) eqn:E; simpl; [now rewrite Z.eqb_refl | now rewrite E].
Qed.

Lemma assoc_get_set_other {V : Type} (k k' : Z) (v : V) m :
  k' <> k ->
  assoc_get Z.eqb k' (assoc_set Z.eqb k v m) = assoc_get Z.eqb k' m.
Proof.
  intros Hne. induction m as [|[k0 v0] m IH]; simpl.
  - destruct (k =? k') eqn:E; [apply Z.eqb_eq in E; congruence | reflexivity].
  - destruct (k0 =? k) eqn:E; simpl.
    + apply Z.eqb_eq in E. subst k0.
      destruct (k =? k') eqn:E'; [apply Z.eqb_eq in E'; congruence | reflexivity].
    + destruct (k0 =? k'); [reflexivity | assumption].
Qed.

Lemma sassoc_get_set_same {V : Type} (k : string) (v : V) m :
  assoc_get String.eqb k (assoc_set String.eqb k v m) = Some v.
Proof.
  induction m as [|[k' v'] m IH]; simpl.
  - now rewrite String.eqb_refl.
  - destruct (k' =? k)%string eqn:E; simpl;
      [now rewrite String.eqb_refl | now rewrite E].
Qed.

Lemma sassoc_get_set_other {V : Type} (k k' : string) (v : V) m :
  k' <> k ->
  assoc_get String.eqb k' (assoc_set String.eqb k v m)
  = assoc_get String.eqb k' m.
Proof.
  intros Hne. induction m as [|[k0 v0] m IH]; simpl.
  - destruct (String.eqb_spec k k'); [congruence | reflexivity].
  - destruct (String.eqb_spec k0 k); simpl.
    + subst k0. destruct (String.eqb_spec k k'); [congruence | reflexivity].
    + destruct (k0 =? k')%string; [reflexivity | assumption].
Qed.

(** ** Coverage Analyzer: when the snapshot returns *)

Lemma has_keys_set {V : Type} dates variants (m : list (date * list (string * V)))
  d inner v (x : V) :
  has_keys dates variants m ->
  assoc_get Z.eqb d m = Some inner ->
  has_keys dates variants
    (assoc_set Z.eqb d (assoc_set String.eqb v x inner) m).
Proof.
  intros Hk Hd d' Hd'. destruct (Z.eq_dec d' d) as [->|Hne].
  - rewrite assoc_get_set_same. eexists. split; [reflexivity|].
    intros v' Hv'. destruct (string_dec v' v) as [->|Hnv].
    + rewrite sassoc_get_set_same. eauto.
    + rewrite sassoc_get_set_other by assumption.
      destruct (Hk d Hd') as [inner' [Hi Hv]]. rewrite Hd in Hi.
      injection Hi as <-. now apply Hv.
  - rewrite assoc_get_set_other by assumption. now apply Hk.
Qed.

Lemma bump_ok dates variants m d v :
  has_keys dates variants m -> In d dates -> In v variants ->
  exists m', bump m d v = Some m' /\ has_keys dates variants m'.
Proof.
  intros Hk Hd Hv. unfold bump. destruct (Hk d Hd) as [inner [Hi Hin]].
  rewrite Hi. destruct (Hin v Hv) as [n Hn]. rewrite Hn.
  eexists. split; [reflexivity|]. now apply has_keys_set.
Qed.

Lemma bump_label_ok dates variants m d v value :
  has_keys dates variants m -> In d dates -> In v variants ->
  exists m', bump_label m d v value = Some m' /\ has_keys dates variants m'.
Proof.
  intros Hk Hd Hv. unfold bump_label. destruct (Hk d Hd) as [inner [Hi Hin]].
  rewrite Hi. destruct (Hin v Hv) as [n Hn]. rewrite Hn.
  eexists. split; [reflexivity|]. now apply has_keys_set.
Qed.

Lemma assoc_get_map_const {V : Type} (x : V) dates d :
  In d dates -> assoc_get Z.eqb d (map (fun k => (k, x)) dates) = Some x.
Proof.
  induction dates as [|k l IH]; simpl; [contradiction|].
  intros [->|H].
  - now rewrite Z.eqb_refl.
  - destruct (k =? d); [reflexivity | now apply IH].
Qed.

Lemma sassoc_get_map_const {V : Type} (x : V) (vs : list string) v :
  In v vs -> assoc_get String.eqb v (map (fun k => (k, x)) vs) = Some x.
Proof.
  induction vs as [|k l IH]; simpl; [contradiction|].
  intros [->|H].
  - now rewrite String.eqb_refl.
  - destruct (k =? v)%string; [reflexivity | now apply IH].
Qed.

Lemma has_keys_init {V : Type} (x : V) dates variants :
  has_keys dates variants
    (map (fun k => (k, map (fun v => (v, x)) variants)) dates).
Proof.
  intros d Hd. eexists. split; [now apply assoc_get_map_const|].
  intros v Hv. exists x. now apply sassoc_get_map_const.
Qed.

Lemma tally_fd_ok dates t d v value :
  tally_ok dates t -> In d dates -> In v FD_TOKENS ->
  exists t', tally_fd t d v value = Some t' /\ tally_ok dates t'.
Proof.
  intros [H1 [H2 [H3 H4]]] Hd Hv. unfold tally_fd.
  destruct (bump_ok _ _ _ _ _ H1 Hd Hv) as [c [Hc Hck]]. rewrite Hc.
  destruct (bump_label_ok _ _ _ _ _ value H2 Hd Hv) as [l [Hl Hlk]]. rewrite Hl.
  eexists. split; [reflexivity|]. repeat split; assumption.
Qed.

Lemma tally_sh_ok dates t d v :
  tally_ok dates t -> In d dates -> In v SH_TOKENS ->
  exists t', tally_sh t d v = Some t' /\ tally_ok dates t'.
Proof.
  intros [H1 [H2 [H3 H4]]] Hd Hv. unfold tally_sh.
  destruct (bump_ok _ _ _ _ _ H3 Hd Hv) as [c [Hc Hck]]. rewrite Hc.
  eexists. split; [reflexivity|]. repeat split; assumption.
Qed.

Lemma tally_bb_ok dates t d v :
  tally_ok dates t -> In d dates -> In v BB_LABELS ->
  exists t', tally_bb t d v = Some t' /\ tally_ok dates t'.
Proof.
  intros [H1 [H2 [H3 H4]]] Hd Hv. unfold tally_bb.
  destruct (bump_ok _ _ _ _ _ H4 Hd Hv) as [c [Hc Hck]]. rewrite Hc.
  eexists. split; [reflexivity|]. repeat split; assumption.
Qed.

Lemma tally_row_ok dates t a :
  tally_ok dates t -> In (a_date a) dates ->
  exists t', tally_row t a = Some t' /\ tally_ok dates t'.
Proof.
  intros Hok Hd. unfold tally_row.
  destruct (inactive_value (a_value a)); [eauto|].
  assert (Hfd : exists t1,
    (if str_in (a_value a) FRONT_DESK_SHIFTS then
       if startswith (a_value a) "AM" then tally_fd t (a_date a) "AM" (a_value a)
       else if startswith (a_value a) "PM"
            then tally_fd t (a_date a) "PM" (a_value a)
       else if startswith (a_value a) "Audit"
            then tally_fd t (a_date a) "Audit" (a_value a)
       else Some t
     else Some t) = Some t1 /\ tally_ok dates t1).
  { destruct (str_in (a_value a) FRONT_DESK_SHIFTS); [|eauto].
    destruct (startswith (a_value a) "AM");
      [apply tally_fd_ok; simpl; auto|].
    destruct (startswith (a_value a) "PM");
      [apply tally_fd_ok; simpl; auto|].
    destruct (startswith (a_value a) "Audit");
      [apply tally_fd_ok; simpl; auto|eauto]. }
  destruct Hfd as [t1 [Ht1 Hok1]]. rewrite Ht1.
  assert (Hsh : exists t2,
    (if str_in (a_value a) SHUTTLE_SHIFTS then
       if (a_value a =? "AM (3:30AM–11:30AM)")%string
       then tally_sh t1 (a_date a) "AM"
       else if startswith (a_value a) "Midday"
            then tally_sh t1 (a_date a) "Midday"
       else if startswith (a_value a) "PM (5:30PM"
            then tally_sh t1 (a_date a) "PM"
       else if startswith (a_value a) "Crew"
            then tally_sh t1 (a_date a) "Crew"
       else Some t1
     else Some t1) = Some t2 /\ tally_ok dates t2).
  { destruct (str_in (a_value a) SHUTTLE_SHIFTS); [|eauto].
    destruct (a_value a =? "AM (3:30AM–11:30AM)")%string;
      [apply tally_sh_ok; simpl; auto|].
    destruct (startswith (a_value a) "Midday");
      [apply tally_sh_ok; simpl; auto|].
    destruct (startswith (a_value a) "PM (5:30PM");
      [apply tally_sh_ok; simpl; auto|].
    destruct (startswith (a_value a) "Crew");
      [apply tally_sh_ok; simpl; auto 6|eauto]. }
  destruct Hsh as [t2 [Ht2 Hok2]]. rewrite Ht2.
  destruct (str_in (a_value a) BB_LABELS) eqn:Hbb; [|eauto].
  apply tally_bb_ok; [assumption | assumption | now apply str_in_In].
Qed.

Lemma tally_rows_ok dates rows t :
  tally_ok dates t -> (forall a, In a rows -> In (a_date a) dates) ->
  exists t', foldM tally_row rows t = Some t'.
Proof.
  revert t. induction rows as [|a rows IH]; intros t Hok Hin; simpl; [eauto|].
  destruct (tally_row_ok dates t a Hok) as [t' [Ht Hok']];
    [apply Hin; now left|].
  rewrite Ht. apply IH; [assumption|]. intros b Hb. apply Hin. now right.
Qed.

Lemma coverage_snapshot_length db w t :
  coverage_snapshot_db db w = Some t -> List.length t = 11%nat.
Proof.
  unfold coverage_snapshot_db. destruct (get_week db w); [|discriminate].
  destruct (foldM _ _ _); [|discriminate]. intros H. injection H as <-.
  reflexivity.
Qed.

Lemma coverage_snapshot_returns db wk :
  get_week db (wk_id wk) = Some wk ->
  week_rows_in_range db wk = true ->
  exists t, coverage_snapshot_db db (wk_id wk) = Some t.
Proof.
  intros Hw Hr. unfold coverage_snapshot_db. rewrite Hw.
  match goal with
  | |- context [foldM tally_row ?rows ?t0] =>
      destruct (tally_rows_ok (daterange (wk_start_date wk) 7) rows t0)
        as [t Ht]
  end.
  - repeat split; apply has_keys_init.
  - intros a Ha. apply filter_In in Ha. destruct Ha as [Ha Hwk].
    unfold week_rows_in_range in Hr. rewrite forallb_forall in Hr.
    specialize (Hr a Ha). rewrite Hwk in Hr. simpl in Hr.
    apply andb_true_iff in Hr. apply In_daterange. lia.
  - rewrite Ht. eauto.
Qed.

(** ** Loops that update one worker's rows day by day *)

Section DayLoop.

Variables (w e : Z) (f : date -> Assignment -> Assignment).
Variable step : list Assignment -> date -> list Assignment.
Hypothesis step_other : forall rows d w' e' d',
  (w', e', d') <> (w, e, d) ->
  find_assignment (step rows d) w' e' d' = find_assignment rows w' e' d'.
Hypothesis step_same : forall rows d,
  find_assignment (step rows d) w e d
  = option_map (f d) (find_assignment rows w e d).

Lemma day_loop_other days rows w' e' d' :
  ((w', e') <> (w, e) \/ ~ In d' days) ->
  find_assignment (fold_left step days rows) w' e' d'
  = find_assignment rows w' e' d'.
Proof.
  revert rows. induction days as [|d0 days IH]; intros rows H; simpl;
    [reflexivity|].
  rewrite IH.
  - apply step_other. intros Heq. injection Heq as -> -> ->.
    destruct H as [H|H]; [now apply H | apply H; now left].
  - destruct H as [H|H]; [now left | right; intros Hin; apply H; now right].
Qed.

Lemma day_loop_same days rows d :
  NoDup days -> In d days ->
  find_assignment (fold_left step days rows) w e d
  = option_map (f d) (find_assignment rows w e d).
Proof.
  revert rows. induction days as [|d0 days IH]; intros rows Hnd Hin; simpl;
    [contradiction|].
  inversion Hnd as [|? ? Hnotin Hnd']; subst.
  destruct Hin as [->|Hin].
  - rewrite day_loop_other by (now right). apply step_same.
  - rewrite IH by assumption. f_equal. apply step_other.
    intros Heq. injection Heq as ->. contradiction.
Qed.

End DayLoop.


Lemma week_rows_in_range_keys db db' wk :
  map (fun a => (a_week_id a, a_employee_id a, a_date a)) (assignments db')
  = map (fun a => (a_week_id a, a_employee_id a, a_date a)) (assignments db) ->
  week_rows_in_range db' wk = week_rows_in_range db wk.
Proof.
  unfold week_rows_in_range.
  generalize (assignments db) as rows, (assignments db') as rows'.
  induction rows as [|a rows IH]; intros [|a' rows'] H; simpl in *;
    try discriminate; [reflexivity|].
  injection H as Hw He Hd Hrest. rewrite Hw, Hd. f_equal. now apply IH.
Qed.

Lemma week_starting_start db d wk :
  week_starting db d = Some wk -> wk_start_date wk = d /\ In wk (weeks db).
Proof.
  unfold week_starting. intros H. apply find_some in H.
  destruct H as [Hin H]. apply Z.eqb_eq in H. auto.
Qed.

Lemma get_week_id db w wk :
  get_week db w = Some wk -> wk_id wk = w /\ In wk (weeks db).
Proof.
  unfold get_week. intros H. apply find_some in H.
  destruct H as [Hin H]. apply Z.eqb_eq in H. auto.
Qed.

Lemma get_week_some_of_in db wk :
  In wk (weeks db) -> exists wk', get_week db (wk_id wk) = Some wk'.
Proof.
  intros Hin. unfold get_week.
  destruct (find (fun w0 => wk_id w0 =? wk_id wk) (weeks db)) eqn:E; [eauto|].
  exfalso. apply (find_none _ _ E) in Hin. rewrite Z.eqb_refl in Hin.
  discriminate.
Qed.

(** ** /assign *)

Lemma with_snapshot_11 db wk k :
  get_week db (wk_id wk) = Some wk ->
  week_rows_in_range db wk = true ->
  exists snap, with_snapshot 11 db (wk_id wk) k = k snap.
Proof.
  intros Hw Hr. unfold with_snapshot. rewrite Hw.
  destruct (coverage_snapshot_returns db wk Hw Hr) as [t Ht]. rewrite Ht.
  unfold unpack. rewrite (coverage_snapshot_length _ _ _ Ht). simpl. eauto.
Qed.



(** ** /timeoff/toggle *)

Lemma toggle_cell_keeps_keys w e t approved rows d :
  map (fun a => (a_week_id a, a_employee_id a, a_date a))
      (toggle_cell w e t approved rows d)
  = map (fun a => (a_week_id a, a_employee_id a, a_date a)) rows.
Proof.
  unfold toggle_cell. apply map_key_update_first. intros a.
  destruct (approved && _); [apply keeps_key_set_value|].
  destruct (negb approved && _ && _); [apply keeps_key_set_value | auto].
Qed.

Lemma toggle_loop_keeps_keys w e t approved days rows :
  map (fun a => (a_week_id a, a_employee_id a, a_date a))
      (fold_left (toggle_cell w e t approved) days rows)
  = map (fun a => (a_week_id a, a_employee_id a, a_date a)) rows.
Proof.
  revert rows. induction days as [|d days IH]; intros rows; simpl;
    [reflexivity|].
  rewrite IH. apply toggle_cell_keeps_keys.
Qed.







(** ** Leave synchronisation *)

Lemma force_time_off_value a : a_value (force_time_off a) = TIME_OFF_LABEL.
Proof.
  unfold force_time_off.
  destruct (String.eqb_spec (a_value a) TIME_OFF_LABEL); [assumption|reflexivity].
Qed.

Lemma force_time_off_fix a : a_value a = TIME_OFF_LABEL -> force_time_off a = a.
Proof. intros H. unfold force_time_off. rewrite H. reflexivity. Qed.

Lemma sync_cell_find db w emp rows d w' e' d' :
  find_assignment (sync_cell db w emp rows d) w' e' d'
  = find_assignment rows w' e' d'
  \/ exists a, find_assignment rows w' e' d' = Some a
       /\ find_assignment (sync_cell db w emp rows d) w' e' d'
          = Some (force_time_off a).
Proof.
  unfold sync_cell. destruct (has_approved_timeoff db (emp_name emp) d);
    [|now left].
  destruct (Z.eq_dec w' w) as [->|Hw];
    [destruct (Z.eq_dec e' (emp_id emp)) as [->|He];
     [destruct (Z.eq_dec d' d) as [->|Hd]|]|];
    try (left; apply find_assignment_update_other;
         [auto with rows | congruence]).
  rewrite find_assignment_update_same by auto with rows.
  destruct (find_assignment rows w (emp_id emp) d) as [a|]; [|now left].
  right. eauto.
Qed.

Lemma sync_cell_off_at db w emp rows d w' e' d' :
  off_at rows w' e' d' -> off_at (sync_cell db w emp rows d) w' e' d'.
Proof.
  intros H a Ha.
  destruct (sync_cell_find db w emp rows d w' e' d') as [E|[a0 [E0 E]]];
    rewrite E in Ha.
  - now apply H.
  - injection Ha as <-. apply force_time_off_value.
Qed.

Lemma sync_cell_applies db w emp rows d :
  has_approved_timeoff db (emp_name emp) d = true ->
  off_at (sync_cell db w emp rows d) w (emp_id emp) d.
Proof.
  intros H a. unfold sync_cell. rewrite H.
  rewrite find_assignment_update_same by auto with rows.
  destruct (find_assignment rows w (emp_id emp) d); [|discriminate].
  simpl. intros Ha. injection Ha as <-. apply force_time_off_value.
Qed.

Lemma sync_days_off_at db w emp days rows w' e' d' :
  off_at rows w' e' d' ->
  off_at (fold_left (sync_cell db w emp) days rows) w' e' d'.
Proof.
  revert rows. induction days as [|d days IH]; intros rows H; simpl;
    [assumption|].
  apply IH. now apply sync_cell_off_at.
Qed.

Lemma sync_days_applies db w emp days rows d :
  In d days -> has_approved_timeoff db (emp_name emp) d = true ->
  off_at (fold_left (sync_cell db w emp) days rows) w (emp_id emp) d.
Proof.
  revert rows. induction days as [|d0 days IH]; intros rows Hin Ha; simpl;
    [contradiction|].
  destruct Hin as [->|Hin].
  - apply sync_days_off_at. now apply sync_cell_applies.
  - now apply IH.
Qed.

Lemma sync_emps_off_at db w days emps rows w' e' d' :
  off_at rows w' e' d' ->
  off_at (fold_left (fun rows emp => fold_left (sync_cell db w emp) days rows)
                    emps rows) w' e' d'.
Proof.
  revert rows. induction emps as [|emp emps IH]; intros rows H; simpl;
    [assumption|].
  apply IH. now apply sync_days_off_at.
Qed.

Lemma sync_emps_applies db w days emps rows emp d :
  In emp emps -> In d days ->
  has_approved_timeoff db (emp_name emp) d = true ->
  off_at (fold_left (fun rows emp => fold_left (sync_cell db w emp) days rows)
                    emps rows) w (emp_id emp) d.
Proof.
  revert rows. induction emps as [|e0 emps IH]; intros rows Hin Hd Ha; simpl;
    [contradiction|].
  destruct Hin as [->|Hin].
  - apply sync_emps_off_at. now apply sync_days_applies.
  - now apply IH.
Qed.

Lemma sync_applies w db wk :
  get_week db w = Some wk ->
  exists db1, sync_timeoff_to_assignments w db = Some db1
    /\ extends db db1 /\ weeks db1 = weeks db
    /\ leave_applied db1 w (wk_start_date wk).
Proof.
  intros Hw. unfold sync_timeoff_to_assignments. rewrite Hw.
  eexists. split; [reflexivity|]. split; [|split].
  - do 5 (split; [reflexivity|]). exists []. simpl. now rewrite app_nil_r.
  - reflexivity.
  - intros emp d a Hemp Hd Happ Ha.
    exact (sync_emps_applies db w _ _ _ emp d Hemp Hd Happ a Ha).
Qed.

Lemma update_first_fix p f rows :
  (forall a, find p rows = Some a -> f a = a) -> update_first p f rows = rows.
Proof.
  induction rows as [|a rows IH]; simpl; intros H; [reflexivity|].
  destruct (p a).
  - now rewrite H.
  - now rewrite IH.
Qed.

Lemma sync_rows_fix db w start :
  leave_applied db w start ->
  sync_rows db w (daterange start 7) (assignments db) = assignments db.
Proof.
  intros H. unfold sync_rows.
  assert (Hgen : forall emps, incl emps (employees db) ->
    fold_left (fun rows emp =>
                 fold_left (sync_cell db w emp) (daterange start 7) rows)
              emps (assignments db) = assignments db).
  { induction emps as [|emp emps IH]; intros Hincl; cbn [fold_left];
      [reflexivity|].
    assert (Hdays : forall days, incl days (daterange start 7) ->
      fold_left (sync_cell db w emp) days (assignments db) = assignments db).
    { induction days as [|d days IHd]; intros Hd; simpl; [reflexivity|].
      assert (Hc : sync_cell db w emp (assignments db) d = assignments db).
      { unfold sync_cell.
        destruct (has_approved_timeoff db (emp_name emp) d) eqn:Ha;
          [|reflexivity].
        apply update_first_fix. intros a Hfa. apply force_time_off_fix.
        apply (H emp d a); auto.
        - apply Hincl. now left.
        - apply Hd. now left. }
      rewrite Hc. apply IHd. intros x Hx. apply Hd. now right. }
    rewrite Hdays by apply incl_refl.
    apply IH. intros x Hx. apply Hincl. now right. }
  apply Hgen. apply incl_refl.
Qed.

Lemma with_assignments_same db : with_assignments db (assignments db) = db.
Proof. now destruct db. Qed.

Lemma sync_fixpoint w db wk :
  get_week db w = Some wk ->
  leave_applied db w (wk_start_date wk) ->
  sync_timeoff_to_assignments w db = Some db.
Proof.
  intros Hw H. unfold sync_timeoff_to_assignments. rewrite Hw.
  rewrite sync_rows_fix by assumption. now rewrite with_assignments_same.
Qed.

Lemma find_app_some {A : Type} (p : A -> bool) l l' x :
  find p l = Some x -> find p (l ++ l') = Some x.
Proof.
  induction l as [|a l IH]; simpl; [discriminate|].
  destruct (p a); auto.
Qed.

Lemma extends_refl db : extends db db.
Proof. do 5 (split; [reflexivity|]). exists []. now rewrite app_nil_r. Qed.

Lemma extends_trans a b c : extends a b -> extends b c -> extends a c.
Proof.
  intros [A1 [A2 [A3 [A4 [A5 [x Ax]]]]]] [B1 [B2 [B3 [B4 [B5 [y By]]]]]].
  do 5 (split; [congruence|]).
  exists (x ++ y). rewrite By, Ax. now rewrite app_assoc.
Qed.

Lemma extends_get_week a b w wk :
  extends a b -> get_week a w = Some wk -> get_week b w = Some wk.
Proof.
  intros [_ [_ [_ [_ [_ [x Hx]]]]]] H. unfold get_week in *. rewrite Hx.
  now apply find_app_some.
Qed.

Lemma ensure_week_extends db start_d :
  extends db (fst (_ensure_week_and_assignments db start_d)).
Proof.
  unfold _ensure_week_and_assignments.
  destruct (week_starting db start_d); simpl.
  - do 5 (split; [reflexivity|]). exists []. simpl. now rewrite app_nil_r.
  - do 5 (split; [reflexivity|]). simpl. eauto.
Qed.

Lemma ensure_week_found db start_d :
  get_week (fst (_ensure_week_and_assignments db start_d))
           (wk_id (snd (_ensure_week_and_assignments db start_d)))
  <> None.
Proof.
  unfold _ensure_week_and_assignments.
  destruct (week_starting db start_d) as [wk|] eqn:E; simpl.
  - apply week_starting_start in E. destruct E as [_ Hin].
    destruct (get_week_some_of_in db wk Hin) as [wk' H].
    unfold get_week in *. simpl. rewrite H. discriminate.
  - intros H. unfold get_week in H. simpl in H.
    assert (Hf := find_none _ _ H (mkWeek (next_week_id db) start_d)).
    simpl in Hf. rewrite Z.eqb_refl in Hf.
    assert (true = false); [|discriminate].
    apply Hf. apply in_or_app. right. now left.
Qed.

(** ** Monadic loops *)

Lemma foldM_inv {S A : Type} (P : S -> Prop) (f : S -> A -> option S) l :
  (forall s x s', In x l -> P s -> f s x = Some s' -> P s') ->
  forall s s', P s -> foldM f l s = Some s' -> P s'.
Proof.
  induction l as [|x l IH]; intros Hstep s s' Hs H; simpl in H.
  - injection H as <-. assumption.
  - destruct (f s x) as [s1|] eqn:E; [|discriminate].
    apply IH with (s := s1); try assumption.
    + intros s0 y s0' Hy. apply Hstep. now right.
    + apply (Hstep s x s1); auto. now left.
Qed.

Lemma sync_extends w db db' :
  sync_timeoff_to_assignments w db = Some db' -> extends db db'.
Proof.
  unfold sync_timeoff_to_assignments. destruct (get_week db w); [|discriminate].
  intros H. injection H as <-. do 5 (split; [reflexivity|]).
  exists []. simpl. now rewrite app_nil_r.
Qed.

Lemma with_assignments_extends db rows : extends db (with_assignments db rows).
Proof.
  do 5 (split; [reflexivity|]). exists []. simpl. now rewrite app_nil_r.
Qed.

Lemma generate_week_extends set_iter origin base db k db' :
  generate_week set_iter origin base db k = Some db' -> extends db db'.
Proof.
  unfold generate_week. destruct (week_passes _ _ _ _ _) as [st|];
    [|discriminate].
  intros H. apply sync_extends in H.
  eapply extends_trans; [apply ensure_week_extends|].
  eapply extends_trans; [apply with_assignments_extends|]. exact H.
Qed.

Lemma generate_extends set_iter db start db' :
  generate_4_week_schedule set_iter db start = Some db' -> extends db db'.
Proof.
  unfold generate_4_week_schedule. destruct (get_week db start) as [bw|].
  - apply foldM_inv.
    + intros s x s' _ Hs Hg. eapply extends_trans; [exact Hs|].
      eapply generate_week_extends; eassumption.
    + apply extends_refl.
  - intros H. injection H as <-. apply extends_refl.
Qed.

(** C6. Leave synchronisation of a week returns a database in which every
    day covered by an approved Leave Request holds TIME OFF for the worker
    the request names, whatever the row held before; run a second time it
    changes nothing; and run again after any returning run of the generator
    on the synchronised database it gives that property back, over the same
    Leave Requests. *)
Theorem leave_sync_idempotent set_iter db w wk :
  get_week db w = Some wk ->
  exists db1,
    sync_timeoff_to_assignments w db = Some db1
    /\ leave_applied db1 w (wk_start_date wk)
    /\ sync_timeoff_to_assignments w db1 = Some db1
    /\ forall start_week_id db2,
         generate_4_week_schedule set_iter db1 start_week_id = Some db2 ->
         exists db3,
           sync_timeoff_to_assignments w db2 = Some db3
           /\ timeoff db3 = timeoff db /\ employees db3 = employees db
           /\ leave_applied db3 w (wk_start_date wk).
Proof.
  intros Hw. destruct (sync_applies w db wk Hw) as [db1 [H1 [Hext [Hwk Happ]]]].
  exists db1. split; [assumption|]. split; [assumption|].
  assert (Hw1 : get_week db1 w = Some wk)
    by (unfold get_week in *; now rewrite Hwk).
  split; [now apply sync_fixpoint with (wk := wk)|].
  intros start db2 Hgen. pose proof (generate_extends _ _ _ _ Hgen) as Hext2.
  pose proof (extends_get_week _ _ _ _ Hext2 Hw1) as Hw2.
  destruct (sync_applies w db2 wk Hw2) as [db3 [H3 [Hext3 [_ Happ3]]]].
  exists db3. split; [assumption|].
  pose proof (extends_trans _ _ _ Hext (extends_trans _ _ _ Hext2 Hext3)) as He.
  destruct He as [_ [He [_ [_ [Ht _]]]]]. auto.
Qed.

(** ** Stable insertion sort *)

Section Sorting.

Context {K A : Type}.
Variable ltb : K -> K -> bool.
Hypothesis ltb_asym : forall a b, ltb a b = true -> ltb b a = false.
Hypothesis le_trans : forall a b c,
  ltb b a = false -> ltb c b = false -> ltb c a = false.

Let R (p q : K * A) : Prop := ltb (fst q) (fst p) = false.

Lemma insert_by_perm x (l : list (K * A)) :
  Permutation (insert_by ltb x l) (x :: l).
Proof.
  induction l as [|y l IH]; simpl; [reflexivity|].
  destruct (ltb (fst y) (fst x)); [|reflexivity].
  rewrite IH. apply perm_swap.
Qed.

Lemma sort_by_perm (l : list (K * A)) : Permutation (sort_by ltb l) l.
Proof.
  induction l as [|x l IH]; simpl; [reflexivity|].
  unfold sort_by in *. simpl. rewrite insert_by_perm. now constructor.
Qed.

Lemma insert_by_sorted x (l : list (K * A)) :
  StronglySorted R l -> StronglySorted R (insert_by ltb x l).
Proof.
  induction l as [|y l IH]; intros Hs; simpl.
  - repeat constructor.
  - inversion Hs as [|? ? Hs' Hall]; subst.
    destruct (ltb (fst y) (fst x)) eqn:E.
    + constructor; [now apply IH|].
      apply Forall_forall. intros z Hz.
      apply (Permutation_in _ (insert_by_perm x l)) in Hz.
      destruct Hz as [<-|Hz].
      * unfold R. now apply ltb_asym.
      * rewrite Forall_forall in Hall. now apply Hall.
    + constructor; [assumption|].
      constructor; [exact E|].
      rewrite Forall_forall in *. intros z Hz. unfold R.
      apply le_trans with (b := fst y); [exact E | now apply Hall].
Qed.

Lemma sort_by_sorted (l : list (K * A)) : StronglySorted R (sort_by ltb l).
Proof.
  induction l as [|x l IH]; simpl; [constructor|].
  unfold sort_by in *. simpl. now apply insert_by_sorted.
Qed.

Lemma strongly_sorted_nth (l : list (K * A)) i j p q :
  StronglySorted R l -> (i < j)%nat ->
  nth_error l i = Some p -> nth_error l j = Some q -> R p q.
Proof.
  intros Hs. revert i j. induction Hs as [|x l Hs IH Hall]; intros i j Hij Hi Hj.
  - destruct i; discriminate.
  - destruct j as [|j]; [lia|]. simpl in Hj. destruct i as [|i]; simpl in Hi.
    + injection Hi as <-. rewrite Forall_forall in Hall. apply Hall.
      eapply nth_error_In; eassumption.
    + apply (IH i j); [lia | assumption | assumption].
Qed.

Lemma sort_by_order (l : list (K * A)) i j p q :
  nth_error (sort_by ltb l) i = Some p ->
  nth_error (sort_by ltb l) j = Some q ->
  ltb (fst p) (fst q) = true -> (i < j)%nat.
Proof.
  intros Hi Hj Hlt.
  destruct (Nat.lt_trichotomy i j) as [H|[H|H]]; [assumption| |].
  - subst j. rewrite Hi in Hj. injection Hj as <-.
    rewrite (ltb_asym _ _ Hlt) in Hlt. discriminate.
  - pose proof (strongly_sorted_nth _ j i q p (sort_by_sorted l) H Hj Hi) as Hr.
    unfold R in Hr. rewrite Hlt in Hr. discriminate.
Qed.

End Sorting.

(** ** Candidate Ranker *)

Lemma rank_key_ltb_spec a1 a2 a3 a4 a5 b1 b2 b3 b4 b5 :
  rank_key_ltb (a1, a2, a3, a4, a5) (b1, b2, b3, b4, b5) = true <->
  a1 < b1 \/ (a1 = b1 /\ (a2 < b2 \/ (a2 = b2 /\ (a3 < b3 \/ (a3 = b3 /\
  (a4 < b4 \/ (a4 = b4 /\ a5 < b5))))))).
Proof.
  unfold rank_key_ltb.
  rewrite !orb_true_iff, !andb_true_iff, !orb_true_iff, !andb_true_iff,
    !Z.ltb_lt, !Z.eqb_eq.
  rewrite !orb_true_iff, !andb_true_iff, !Z.ltb_lt, !Z.eqb_eq.
  rewrite ?orb_true_iff, ?andb_true_iff, ?Z.ltb_lt, ?Z.eqb_eq. tauto.
Qed.

Lemma rank_key_ltb_false a1 a2 a3 a4 a5 b1 b2 b3 b4 b5 :
  rank_key_ltb (a1, a2, a3, a4, a5) (b1, b2, b3, b4, b5) = false <->
  ~ (a1 < b1 \/ (a1 = b1 /\ (a2 < b2 \/ (a2 = b2 /\ (a3 < b3 \/ (a3 = b3 /\
     (a4 < b4 \/ (a4 = b4 /\ a5 < b5)))))))).
Proof.
  rewrite <- rank_key_ltb_spec. destruct (rank_key_ltb _ _);
    intuition congruence.
Qed.

Lemma rank_key_ltb_asym a b :
  rank_key_ltb a b = true -> rank_key_ltb b a = false.
Proof.
  destruct a as [[[[a1 a2] a3] a4] a5], b as [[[[b1 b2] b3] b4] b5].
  rewrite rank_key_ltb_spec, rank_key_ltb_false, !Z.lt_nge. intros H.
  lia.
Qed.

Lemma rank_key_le_trans a b c :
  rank_key_ltb b a = false -> rank_key_ltb c b = false ->
  rank_key_ltb c a = false.
Proof.
  destruct a as [[[[a1 a2] a3] a4] a5], b as [[[[b1 b2] b3] b4] b5],
           c as [[[[c1 c2] c3] c4] c5].
  rewrite !rank_key_ltb_false. intros H1 H2. lia.
Qed.

Lemma mapM_Forall2 {A B : Type} (f : A -> option B) l ys :
  mapM f l = Some ys -> Forall2 (fun x y => f x = Some y) l ys.
Proof.
  revert ys. induction l as [|x l IH]; intros ys; simpl.
  - intros H. injection H as <-. constructor.
  - destruct (f x) as [y|] eqn:E; [|discriminate].
    destruct (mapM f l) as [ys'|]; [|discriminate].
    intros H. injection H as <-. constructor; auto.
Qed.

Lemma Forall2_in_r {A B : Type} (P : A -> B -> Prop) l r y :
  Forall2 P l r -> In y r -> exists x, In x l /\ P x y.
Proof.
  induction 1 as [|x y0 l r Hp Hf IH]; simpl; [contradiction|].
  intros [->|H].
  - exists x. auto.
  - destruct (IH H) as [x' [Hx Hp']]. exists x'. auto.
Qed.

Lemma keyed_pairs db st role label filtered keyed p :
  mapM (fun eid => k <- key_fn db st role label eid ;; Some (k, eid)) filtered
  = Some keyed ->
  In p keyed -> key_fn db st role label (snd p) = Some (fst p)
                /\ In (snd p) filtered.
Proof.
  intros Hm Hin. apply mapM_Forall2 in Hm.
  destruct (Forall2_in_r _ _ _ _ Hm Hin) as [x [Hx Hp]].
  destruct (key_fn db st role label x) as [k|] eqn:E; [|discriminate].
  injection Hp as <-. simpl. auto.
Qed.

Lemma ranked_order db st role label filtered r a b ka kb :
  ranked db st role label filtered = Some r ->
  key_fn db st role label a = Some ka ->
  key_fn db st role label b = Some kb ->
  rank_key_ltb ka kb = true ->
  precedes a b r.
Proof.
  unfold ranked. intros Hr Ha Hb Hlt.
  destruct (mapM _ filtered) as [keyed|] eqn:Hm; [|discriminate].
  injection Hr as <-. intros i j Hi Hj.
  rewrite nth_error_map in Hi, Hj.
  destruct (nth_error (sort_by rank_key_ltb keyed) i) as [p|] eqn:Hp;
    [|discriminate].
  destruct (nth_error (sort_by rank_key_ltb keyed) j) as [q|] eqn:Hq;
    [|discriminate].
  simpl in Hi, Hj. injection Hi as Hi. injection Hj as Hj.
  assert (Hpk : key_fn db st role label (snd p) = Some (fst p)).
  { eapply keyed_pairs; [exact Hm|].
    apply (Permutation_in _ (sort_by_perm rank_key_ltb keyed)).
    eapply nth_error_In; eassumption. }
  assert (Hqk : key_fn db st role label (snd q) = Some (fst q)).
  { eapply keyed_pairs; [exact Hm|].
    apply (Permutation_in _ (sort_by_perm rank_key_ltb keyed)).
    eapply nth_error_In; eassumption. }
  rewrite Hi, Ha in Hpk. rewrite Hj, Hb in Hqk.
  injection Hpk as Hpk. injection Hqk as Hqk.
  apply (sort_by_order rank_key_ltb rank_key_ltb_asym rank_key_le_trans
           keyed i j p q Hp Hq).
  now rewrite <- Hpk, <- Hqk.
Qed.

Lemma key_fn_seniority db st role label eid k :
  key_fn db st role label eid = Some k ->
  exists info k1 k2 k3 k5,
    emp_info db eid = Some info
    /\ k = (k1, k2, k3, - ei_seniority info, k5).
Proof.
  unfold key_fn. destruct (emp_info db eid) as [info|]; [|discriminate].
  intros H. injection H as <-. repeat eexists.
Qed.

(** C3 (as the code has it). Between two candidates of a slot whose keys
    agree on the first three criteria, the Ranker puts the one with the
    larger seniority number first; a worker without a seniority number counts
    as 0 and so comes after every worker whose number is positive. *)
Theorem ranker_larger_seniority_first db st role label filtered r a b ka kb
  ia ib :
  ranked db st role label filtered = Some r ->
  key_fn db st role label a = Some ka ->
  key_fn db st role label b = Some kb ->
  first_three ka = first_three kb ->
  emp_info db a = Some ia -> emp_info db b = Some ib ->
  (ei_seniority ib < ei_seniority ia -> precedes a b r)
  /\ (forall ea eb n,
        ia = emp_info_entry db ea -> ib = emp_info_entry db eb ->
        emp_seniority ea = Some n -> 0 < n -> emp_seniority eb = None ->
        precedes a b r).
Proof.
  intros Hr Ha Hb H3 Hia Hib.
  assert (Hmain : ei_seniority ib < ei_seniority ia -> precedes a b r).
  { intros Hlt. apply (ranked_order db st role label filtered r a b ka kb);
      try assumption.
    destruct (key_fn_seniority _ _ _ _ _ _ Ha) as [ia' [a1 [a2 [a3 [a5 [Ea ->]]]]]].
    destruct (key_fn_seniority _ _ _ _ _ _ Hb) as [ib' [b1 [b2 [b3 [b5 [Eb ->]]]]]].
    rewrite Hia in Ea. rewrite Hib in Eb. injection Ea as <-. injection Eb as <-.
    simpl in H3. injection H3 as -> -> ->.
    apply rank_key_ltb_spec. lia. }
  split; [exact Hmain|].
  intros ea eb n -> -> Hn Hpos Hnone. apply Hmain.
  unfold emp_info_entry. simpl. rewrite Hn, Hnone. assumption.
Qed.

(** C3 as the specification states it fails: of two tied candidates the
    one with seniority rank 1 is ranked after the one with rank 2. *)
Lemma ranker_lower_rank_not_first :
  ranked db_two_ranked fresh_state "Front Desk" "AM" [1; 2] = Some [2; 1]
  /\ option_map first_three (key_fn db_two_ranked fresh_state "Front Desk" "AM" 1)
     = option_map first_three (key_fn db_two_ranked fresh_state "Front Desk" "AM" 2)
  /\ option_map emp_seniority (get_employee db_two_ranked 1) = Some (Some 1)
  /\ option_map emp_seniority (get_employee db_two_ranked 2) = Some (Some 2)
  /\ ~ precedes 1 2 [2; 1].
Proof.
  repeat split; try reflexivity.
  intros H. specialize (H 1%nat 0%nat eq_refl eq_refl). lia.
Qed.

(** ** Readers of the rows that do not see the dismissed flag *)

Lemma find_core (p : Z * Z * date * string -> bool) rows :
  option_map (fun a => (a_week_id a, a_employee_id a, a_date a, a_value a))
    (find (fun a => p (a_week_id a, a_employee_id a, a_date a, a_value a)) rows)
  = find p (core rows).
Proof.
  induction rows as [|a rows IH]; simpl; [reflexivity|].
  destruct (p _); [reflexivity | assumption].
Qed.

Lemma core_find_assignment rows rows' w e d :
  core rows' = core rows ->
  option_map a_value (find_assignment rows' w e d)
  = option_map a_value (find_assignment rows w e d).
Proof.
  intros H. unfold find_assignment.
  pose proof (find_core (fun k => (fst (fst (fst k)) =? w)
                                  && (snd (fst (fst k)) =? e)
                                  && (snd (fst k) =? d)) rows) as H1.
  pose proof (find_core (fun k => (fst (fst (fst k)) =? w)
                                  && (snd (fst (fst k)) =? e)
                                  && (snd (fst k) =? d)) rows') as H2.
  simpl in H1, H2. rewrite H in H2. rewrite <- H1 in H2.
  unfold is_row.
  destruct (find _ rows') as [a'|], (find _ rows) as [a|]; simpl in *;
    congruence.
Qed.

Lemma core_find_assignment_on rows rows' e d :
  core rows' = core rows ->
  option_map a_value (find_assignment_on rows' e d)
  = option_map a_value (find_assignment_on rows e d).
Proof.
  intros H. unfold find_assignment_on.
  pose proof (find_core (fun k => (snd (fst (fst k)) =? e)
                                  && (snd (fst k) =? d)) rows) as H1.
  pose proof (find_core (fun k => (snd (fst (fst k)) =? e)
                                  && (snd (fst k) =? d)) rows') as H2.
  simpl in H1, H2. rewrite H in H2. rewrite <- H1 in H2.
  destruct (find _ rows') as [a'|], (find _ rows) as [a|]; simpl in *;
    congruence.
Qed.

Lemma rest_ok_prev rows e d role label :
  rest_ok rows e d role label
  = match option_map a_value (find_assignment_on rows e (d - 1)) with
    | None => true
    | Some prev =>
        if inactive_value prev then true
        else if (role =? "Front Desk")%string && startswith label "AM"
                && startswith prev "PM" then false
        else if (role =? "Front Desk")%string && startswith label "PM"
                && startswith prev "Audit" then false
        else if (role =? "Shuttle")%string
                && ((startswith label "AM"
                     && (startswith prev "PM" || startswith prev "Crew"))
                    || (startswith label "Midday" && startswith prev "Crew"))
             then false
        else true
    end.
Proof.
  unfold rest_ok. now destruct (find_assignment_on rows e (d - 1)).
Qed.

Lemma core_rest_ok rows rows' e d role label :
  core rows' = core rows ->
  rest_ok rows' e d role label = rest_ok rows e d role label.
Proof.
  intros H. rewrite !rest_ok_prev.
  now rewrite (core_find_assignment_on rows rows' e (d - 1) H).
Qed.

Lemma core_update_dismissed p b rows :
  core (update_first p (set_dismissed b) rows) = core rows.
Proof.
  unfold core. induction rows as [|a rows IH]; simpl; [reflexivity|].
  destruct (p a); simpl; [reflexivity | now rewrite IH].
Qed.



(** ** [filterM] and [pick_best] *)

Lemma filterM_In {A : Type} (f : A -> option bool) l r x :
  filterM f l = Some r -> In x r -> In x l /\ f x = Some true.
Proof.
  revert r. induction l as [|y l IH]; intros r; simpl.
  - intros H. injection H as <-. contradiction.
  - destruct (f y) as [b|] eqn:E; [|discriminate].
    destruct (filterM f l) as [r'|]; [|discriminate].
    intros H. injection H as <-. destruct b.
    + intros [<-|Hin]; [auto|]. destruct (IH r' eq_refl Hin). auto.
    + intros Hin. destruct (IH r' eq_refl Hin). auto.
Qed.

Lemma mapM_keyed_snd {A K : Type} (f : A -> option K) l keyed :
  mapM (fun x => k <- f x ;; Some (k, x)) l = Some keyed ->
  map snd keyed = l.
Proof.
  revert keyed. induction l as [|x l IH]; intros keyed; simpl.
  - intros H. now injection H as <-.
  - destruct (f x); [|discriminate].
    destruct (mapM _ l) as [ks|]; [|discriminate].
    intros H. injection H as <-. simpl. f_equal. now apply IH.
Qed.

Lemma ranked_perm db st role label filtered r :
  ranked db st role label filtered = Some r -> Permutation r filtered.
Proof.
  unfold ranked. destruct (mapM _ filtered) as [keyed|] eqn:Hm; [|discriminate].
  intros H. injection H as <-. rewrite <- (mapM_keyed_snd _ _ _ Hm).
  apply Permutation_map. apply sort_by_perm.
Qed.

Lemma pick_best_some db st d cands role label e :
  pick_best db st d cands role label = Some (Some e) ->
  In e cands /\ passes_max_and_rest db st d role label e = Some true.
Proof.
  unfold pick_best.
  destruct (filterM _ cands) as [filtered|] eqn:Hf; [|discriminate].
  destruct filtered as [|x l]; [discriminate|].
  destruct (ranked db st role label (x :: l)) as [r|] eqn:Hr; [|discriminate].
  intros H. injection H as H. apply (filterM_In _ _ _ e Hf).
  apply (Permutation_in _ (ranked_perm _ _ _ _ _ _ Hr)).
  destruct r; [discriminate|]. injection H as <-. now left.
Qed.

Lemma passes_max_and_rest_true db st d role label e :
  passes_max_and_rest db st d role label e = Some true ->
  rest_ok (g_rows st) e d role label = true
  /\ exists maxw, _effective_max_for_role db e role = Some maxw
       /\ forall m, maxw = Some m -> g_counts st e < m.
Proof.
  unfold passes_max_and_rest.
  destruct (_effective_max_for_role db e role) as [maxw|]; [|discriminate].
  destruct maxw as [m|].
  - destruct (g_counts st e >=? m) eqn:E; [discriminate|].
    intros H. injection H as H. split; [assumption|].
    exists (Some m). split; [reflexivity|]. intros m' Hm. injection Hm as <-.
    rewrite Z.geb_leb in E. apply Z.leb_gt in E. assumption.
  - intros H. injection H as H. split; [assumption|].
    exists None. split; [reflexivity|]. discriminate.
Qed.

(** ** From the loops to guarded steps *)

Section Passes.

Variable set_iter : list Z -> list Z.
Variable db : DB.
Variable w : Z.

Lemma day_steps_trans resv role d a b c :
  day_steps db w resv role d a b -> day_steps db w resv role d b c ->
  day_steps db w resv role d a c.
Proof.
  induction 1 as [st | st e st' Hl Hr Hs IH | st e tok label st' Hc Hs IH];
    intros H2.
  - assumption.
  - eapply ds_mark; eauto.
  - eapply ds_assign; eauto.
Qed.

Lemma mark_core st e d :
  core (g_rows (_mark_dismissed w st e d)) = core (g_rows st).
Proof. apply core_update_dismissed. Qed.

Lemma fd_eligible_core d variant st st' e :
  core (g_rows st') = core (g_rows st) -> g_counts st' = g_counts st ->
  fd_eligible db w d variant st e -> fd_eligible db w d variant st' e.
Proof.
  intros Hc Hn [H1 [H2 [H3 [H4 H5]]]].
  split; [now rewrite (core_find_assignment _ _ w e d Hc)|].
  split; [assumption|].
  split; [now rewrite (core_rest_ok _ _ e d _ _ Hc)|].
  split; [assumption|].
  unfold max_reached in *. now rewrite Hn.
Qed.

Lemma fd_scan d variant pool :
  forall st cand st' cand',
  foldM (fd_consider db w d variant) pool (st, cand) = Some (st', cand') ->
  (forall e, In e cand -> fd_eligible db w d variant st e) ->
  day_steps db w [] "Front Desk" d st st'
  /\ g_counts st' = g_counts st /\ g_last st' = g_last st
  /\ core (g_rows st') = core (g_rows st)
  /\ (forall e, In e cand' -> fd_eligible db w d variant st' e).
Proof.
  induction pool as [|eid pool IH]; intros st cand st' cand' H Hc; simpl in H.
  - injection H as <- <-.
    split; [apply ds_done|]. do 3 (split; [reflexivity|]). assumption.
  - destruct (fd_consider db w d variant (st, cand) eid) as [[st1 cand1]|] eqn:E;
      [|discriminate].
    unfold fd_consider in E. simpl in E.
    destruct (find_assignment (g_rows st) w eid d) as [a|] eqn:Ha;
      [|injection E as <- <-; eapply IH; eassumption].
    destruct (String.eqb_spec (a_value a) "Set") as [Hset|Hset]; simpl in E;
      [|injection E as <- <-; eapply IH; eassumption].
    destruct (_is_available eid "Front Desk" variant d (avail_idx db)) eqn:Hav;
      simpl in E; [|injection E as <- <-; eapply IH; eassumption].
    destruct (rest_ok (g_rows st) eid d "Front Desk" variant) eqn:Hrest;
      simpl in E; [|injection E as <- <-; eapply IH; eassumption].
    destruct (has_any_timeoff db (emp_name_get db eid) d) eqn:Hto.
    + injection E as <- <-.
      destruct (IH _ _ _ _ H) as [Hs [Hn [Hl [Hcore Hcand]]]].
      { intros e He. apply fd_eligible_core with (st := st);
          [apply mark_core | reflexivity | now apply Hc]. }
      split; [eapply ds_mark; [exact Hto | reflexivity | exact Hs]|].
      split; [assumption|]. split; [assumption|].
      split; [rewrite Hcore; apply mark_core | assumption].
    + destruct (max_reached db st eid "Front Desk") as [full|] eqn:Hmax;
        [|discriminate].
      destruct full; injection E as <- <-; [eapply IH; eassumption|].
      apply IH with (cand := cand ++ [eid]); [assumption|].
      intros e He. apply in_app_or in He. destruct He as [He|[<-|[]]].
      * now apply Hc.
      * split; [rewrite Ha; simpl; now rewrite Hset|]. auto.
Qed.

Lemma fd_picks_spec st d variant cand picks :
  fd_picks db st d variant cand = Some picks ->
  NoDup picks /\ incl picks cand.
Proof.
  unfold fd_picks.
  destruct (pick_best db st d cand "Front Desk" variant) as [[a|]|] eqn:E1.
  - apply pick_best_some in E1. destruct E1 as [Ha _].
    destruct (pick_best db st d (filter (fun e => negb (z_in e [a])) cand)
                        "Front Desk" variant) as [[b|]|] eqn:E2.
    + intros H. injection H as <-.
      apply pick_best_some in E2. destruct E2 as [Hb _].
      apply filter_In in Hb. destruct Hb as [Hb Hne].
      split.
      * constructor; [|constructor; [auto | constructor]].
        intros [Heq|[]]. subst b. simpl in Hne. rewrite Z.eqb_refl in Hne.
        discriminate.
      * intros x [<-|[<-|[]]]; assumption.
    + intros H. injection H as <-.
      split; [repeat constructor; auto|]. intros x [<-|[]]. assumption.
    + discriminate.
  - intros H. injection H as <-. split; [constructor|]. intros x [].
  - discriminate.
Qed.

Lemma Z_ltb_asym a b : (a <? b) = true -> (b <? a) = false.
Proof. rewrite Z.ltb_lt, Z.ltb_ge. lia. Qed.

Lemma Z_le_trans' a b c :
  (b <? a) = false -> (c <? b) = false -> (c <? a) = false.
Proof. rewrite !Z.ltb_ge. lia. Qed.

Lemma sort_picks_perm picks : Permutation (sort_picks db picks) picks.
Proof.
  unfold sort_picks.
  rewrite (sort_by_perm Z.ltb (map (fun e => (_seniority_rank db e, e)) picks)).
  rewrite map_map. simpl. now rewrite map_id.
Qed.

Lemma stagger_label_in opts n i e :
  List.length opts = 2%nat -> In (stagger_label db opts n i e) opts.
Proof.
  destruct opts as [|a [|b [|c opts]]]; try discriminate. intros _.
  unfold stagger_label.
  destruct (Nat.eqb n 1 && (emp_name_get db e =? "Ryan")%string
            && Nat.ltb 1 (List.length [a; b]));
    [simpl; auto|].
  destruct i as [|[|i]]; simpl; auto.
Qed.

Lemma fd_variants_length variant opts :
  In (variant, opts) FD_VARIANTS -> List.length opts = 2%nat.
Proof.
  intros [H|[H|[H|[]]]]; injection H as <- <-; reflexivity.
Qed.

Lemma record_assignment_find st eid d role tok label w' e' d' :
  (w', e', d') <> (w, eid, d) ->
  find_assignment (g_rows (record_assignment w st eid d role tok label)) w' e' d'
  = find_assignment (g_rows st) w' e' d'.
Proof.
  intros Hne. unfold record_assignment.
  destruct (find_assignment (g_rows st) w eid d); [|reflexivity]. simpl.
  apply find_assignment_update_other; [auto with rows | assumption].
Qed.

Lemma record_assignment_find_on st eid d role tok label e' d' :
  (e', d') <> (eid, d) ->
  find_assignment_on (g_rows (record_assignment w st eid d role tok label)) e' d'
  = find_assignment_on (g_rows st) e' d'.
Proof.
  intros Hne. unfold record_assignment.
  destruct (find_assignment (g_rows st) w eid d); [|reflexivity]. simpl.
  unfold find_assignment_on. apply find_update_first_other.
  intros x Hx. apply is_row_true in Hx. destruct Hx as [_ [He Hd]]. simpl.
  rewrite He, Hd.
  destruct (Z.eqb_spec eid e'); destruct (Z.eqb_spec d d'); simpl; auto;
    congruence.
Qed.

Lemma record_assignment_rest_ok st eid d role tok label e' role' label' :
  rest_ok (g_rows (record_assignment w st eid d role tok label)) e' d role' label'
  = rest_ok (g_rows st) e' d role' label'.
Proof.
  rewrite !rest_ok_prev. rewrite record_assignment_find_on; [reflexivity|].
  intros H. injection H as _ H. lia.
Qed.

Lemma record_assignment_counts_other st eid d role tok label e' :
  e' <> eid ->
  g_counts (record_assignment w st eid d role tok label) e' = g_counts st e'.
Proof.
  intros Hne. unfold record_assignment.
  destruct (find_assignment (g_rows st) w eid d); [|reflexivity]. simpl.
  destruct (Z.eqb_spec e' eid); [contradiction | reflexivity].
Qed.

Lemma fd_eligible_after_assign d variant st eid role tok label e :
  e <> eid ->
  fd_eligible db w d variant st e ->
  fd_eligible db w d variant (record_assignment w st eid d role tok label) e.
Proof.
  intros Hne [H1 [H2 [H3 [H4 H5]]]].
  split; [rewrite record_assignment_find; [assumption | congruence]|].
  split; [assumption|].
  split; [now rewrite record_assignment_rest_ok|].
  split; [assumption|].
  unfold max_reached in *. now rewrite record_assignment_counts_other.
Qed.

Lemma fd_eligible_can_assign d variant opts st e label :
  In (variant, opts) FD_VARIANTS -> In label opts ->
  fd_eligible db w d variant st e ->
  can_assign db w [] "Front Desk" d st e variant label.
Proof.
  intros Hv Hl [H1 [H2 [H3 [H4 H5]]]]. constructor; try assumption.
  - unfold max_reached in H5.
    destruct (_effective_max_for_role db e "Front Desk") as [maxw|];
      [|discriminate].
    exists maxw. split; [reflexivity|]. intros m ->.
    injection H5 as H5. rewrite Z.geb_leb in H5. now apply Z.leb_gt in H5.
  - left. split; [reflexivity|]. eauto.
  - reflexivity.
Qed.

Lemma fd_assign_steps d variant opts n :
  In (variant, opts) FD_VARIANTS ->
  forall picks i acc,
  NoDup picks ->
  (forall e, In e picks -> fd_eligible db w d variant (fst acc) e) ->
  day_steps db w [] "Front Desk" d (fst acc)
            (fst (fd_assign db w d variant opts n i picks acc)).
Proof.
  intros Hv. induction picks as [|eid picks IH]; intros i acc Hnd Hel; simpl.
  - constructor.
  - inversion Hnd as [|? ? Hnotin Hnd']; subst.
    eapply ds_assign.
    + apply (fd_eligible_can_assign d variant opts (fst acc) eid _ Hv).
      * apply stagger_label_in. eapply fd_variants_length; eassumption.
      * apply Hel. now left.
    + apply (IH (S i) (record_assignment w (fst acc) eid d "Front Desk" variant
                         (stagger_label db opts n i eid),
                       list_remove eid (snd acc))); [assumption|].
      intros e He. simpl. apply fd_eligible_after_assign.
      * intros ->. contradiction.
      * apply Hel. now right.
Qed.

Lemma fd_slot_steps d st pool vo st' pool' :
  In vo FD_VARIANTS ->
  fd_slot db w d (st, pool) vo = Some (st', pool') ->
  day_steps db w [] "Front Desk" d st st'.
Proof.
  intros Hv. unfold fd_slot. simpl.
  destruct (foldM (fd_consider db w d (fst vo)) pool (st, []))
    as [[st1 cand]|] eqn:Hscan; [|discriminate].
  destruct (fd_scan d (fst vo) pool st [] st1 cand Hscan)
    as [Hs [Hn [Hl [Hcore Hcand]]]]; [intros e []|].
  simpl. destruct cand as [|c cand].
  - intros H. injection H as <- <-. assumption.
  - destruct (fd_picks db st1 d (fst vo) (c :: cand)) as [picks|] eqn:Hp;
      [|discriminate].
    intros H. injection H as H.
    apply day_steps_trans with (b := st1); [assumption|].
    destruct (fd_picks_spec _ _ _ _ _ Hp) as [Hnd Hincl].
    pose proof (fd_assign_steps d (fst vo) (snd vo)
                  (List.length (sort_picks db picks))
                  ltac:(now destruct vo)
                  (sort_picks db picks) 0%nat (st1, pool)) as Ha.
    rewrite H in Ha. simpl in Ha. apply Ha.
    + apply (Permutation_NoDup (Permutation_sym (sort_picks_perm picks)) Hnd).
    + intros e He. apply Hcand. apply Hincl.
      apply (Permutation_in _ (sort_picks_perm picks) He).
Qed.

Lemma fd_day_steps st d st' :
  fd_day set_iter db w st d = Some st' ->
  day_steps db w [] "Front Desk" d st st'.
Proof.
  unfold fd_day.
  destruct (foldM (fd_slot db w d) FD_VARIANTS (st, fd_emp_ids set_iter db))
    as [[st1 pool1]|] eqn:E; [|discriminate].
  intros H. injection H as <-.
  apply (foldM_inv (fun acc => day_steps db w [] "Front Desk" d st (fst acc))
           (fd_slot db w d) FD_VARIANTS)
    with (s := (st, fd_emp_ids set_iter db)) (s' := (st1, pool1));
    [ | apply ds_done | exact E].
  intros [s p] vo [s' p'] Hin Hs Hslot. cbn [fst] in *.
  apply day_steps_trans with (b := s); [assumption|].
  eapply fd_slot_steps; eassumption.
Qed.

Lemma foldM_chain (f : GenState -> date -> option GenState) resv role days :
  (forall st d st', f st d = Some st' -> day_steps db w resv role d st st') ->
  forall st st', foldM f days st = Some st' ->
  day_chain db w resv role days st st'.
Proof.
  intros Hf. induction days as [|d days IH]; intros st st' H; simpl in H.
  - injection H as <-. constructor.
  - destruct (f st d) as [st1|] eqn:E; [|discriminate].
    econstructor; [apply Hf; eassumption | now apply IH].
Qed.

Lemma fd_pass_chain start st st' :
  fd_pass set_iter db w start st = Some st' ->
  day_chain db w [] "Front Desk" (daterange start 7) st st'.
Proof. apply foldM_chain. apply fd_day_steps. Qed.

End Passes.

Section LowerPasses.

Variable set_iter : list Z -> list Z.
Variable db : DB.
Variable w : Z.
Variable resv : list (date * list Z).

Lemma lower_eligible_core role d label st st' e :
  core (g_rows st') = core (g_rows st) ->
  lower_eligible db w resv role d label st e ->
  lower_eligible db w resv role d label st' e.
Proof.
  intros Hc [H1 [H2 [H3 [H4 H5]]]].
  split; [assumption|].
  split; [now rewrite (core_find_assignment _ _ w e d Hc)|].
  split; [assumption|]. split; [assumption|].
  now rewrite (core_rest_ok _ _ e d _ _ Hc).
Qed.

Lemma lower_consider_cases role d label st cand eid :
  let acc := lower_consider set_iter db w resv role d label (st, cand) eid in
  acc = (st, cand)
  \/ (acc = (_mark_dismissed w st eid d, cand)
      /\ has_any_timeoff db (emp_name_get db eid) d = true
      /\ is_reserved resv d eid = false)
  \/ (acc = (st, cand ++ [eid])
      /\ lower_eligible db w resv role d label st eid).
Proof.
  unfold lower_consider. cbn [fst snd].
  destruct (is_reserved resv d eid) eqn:Hres; [now left|].
  destruct (fd_missing_on set_iter db w (g_rows st) d
            && z_in eid (fd_emp_ids set_iter db)); [now left|].
  destruct (find_assignment (g_rows st) w eid d) as [a|] eqn:Ha; [|now left].
  destruct (String.eqb_spec (a_value a) "Set") as [Hset|Hset];
    cbn [negb]; [|now left].
  destruct (has_any_timeoff db (emp_name_get db eid) d) eqn:Hto.
  - destruct (mark_test db role label (g_rows st) eid d); [|now left].
    right. left. auto.
  - destruct (_is_available eid role label d (avail_idx db)) eqn:Hav;
      [|now left].
    destruct (rest_ok (g_rows st) eid d role label) eqn:Hrest; [|now left].
    right. right. split; [reflexivity|].
    split; [assumption|].
    split; [rewrite Ha; simpl; now rewrite Hset|]. auto.
Qed.

Lemma lower_scan role d label pool :
  forall st cand st' cand',
  fold_left (lower_consider set_iter db w resv role d label) pool (st, cand)
  = (st', cand') ->
  (forall e, In e cand -> lower_eligible db w resv role d label st e) ->
  day_steps db w resv role d st st'
  /\ g_counts st' = g_counts st /\ g_last st' = g_last st
  /\ core (g_rows st') = core (g_rows st)
  /\ (forall e, In e cand' -> lower_eligible db w resv role d label st' e).
Proof.
  induction pool as [|eid pool IH]; intros st cand st' cand' H Hc;
    cbn [fold_left] in H.
  - injection H as <- <-.
    split; [apply ds_done|]. do 3 (split; [reflexivity|]). assumption.
  - destruct (lower_consider_cases role d label st cand eid)
      as [E|[[E [Hto Hres]]|[E Hel]]]; rewrite E in H.
    + eapply IH; eassumption.
    + destruct (IH _ _ _ _ H) as [Hs [Hn [Hl [Hcore Hcand]]]].
      { intros e He. apply lower_eligible_core with (st := st);
          [apply mark_core | now apply Hc]. }
      split; [eapply ds_mark; [exact Hto | exact Hres | exact Hs]|].
      split; [assumption|]. split; [assumption|].
      split; [rewrite Hcore; apply mark_core | assumption].
    + apply (IH _ _ _ _ H).
      intros e He. apply in_app_or in He. destruct He as [He|[<-|[]]];
        [now apply Hc | assumption].
Qed.

Lemma lower_slot_steps role d st pool label st' pool' :
  slot_label role label label ->
  lower_slot set_iter db w resv role d (st, pool) label = Some (st', pool') ->
  day_steps db w resv role d st st'.
Proof.
  intros Hlabel. unfold lower_slot. cbn [fst snd].
  destruct (fold_left (lower_consider set_iter db w resv role d label) pool
                      (st, [])) as [st1 cand] eqn:Hsc.
  destruct (lower_scan role d label pool st [] st1 cand Hsc)
    as [Hs [Hn [Hl [Hcore Hcand]]]]; [intros e []|].
  cbn [fst snd].
  destruct (pick_best db st1 d cand role label) as [[e|]|] eqn:Hp;
    [| |discriminate].
  - intros H. injection H as <- _.
    apply day_steps_trans with (b := st1); [assumption|].
    apply pick_best_some in Hp. destruct Hp as [Hin Hpass].
    apply passes_max_and_rest_true in Hpass. destruct Hpass as [Hrest Hmax].
    destruct (Hcand e Hin) as [H1 [H2 [H3 [H4 H5]]]].
    eapply ds_assign; [|apply ds_done].
    constructor; assumption.
  - intros H. injection H as <- _. assumption.
Qed.

Lemma lower_day_steps role labels pool st d st' :
  (forall l, In l labels -> slot_label role l l) ->
  lower_day set_iter db w resv role labels pool st d = Some st' ->
  day_steps db w resv role d st st'.
Proof.
  intros Hlabels. unfold lower_day.
  destruct (foldM (lower_slot set_iter db w resv role d) labels (st, pool))
    as [[st1 pool1]|] eqn:E; [|discriminate].
  intros H. injection H as <-.
  apply (foldM_inv (fun acc => day_steps db w resv role d st (fst acc))
           (lower_slot set_iter db w resv role d) labels)
    with (s := (st, pool)) (s' := (st1, pool1));
    [ | apply ds_done | exact E].
  intros [s p] l [s' p'] Hin Hs Hslot. cbn [fst] in *.
  apply day_steps_trans with (b := s); [assumption|].
  eapply lower_slot_steps; [|eassumption]. now apply Hlabels.
Qed.

Lemma bb_pass_chain start st st' :
  bb_pass set_iter db w resv start st = Some st' ->
  day_chain db w resv "Breakfast Bar" (daterange start 7) st st'.
Proof.
  apply foldM_chain. intros s d s'. apply lower_day_steps.
  intros l Hl. right. left. auto.
Qed.

Lemma sh_pass_chain start st st' :
  sh_pass set_iter db w resv start st = Some st' ->
  day_chain db w resv "Shuttle" (daterange start 7) st st'.
Proof.
  apply foldM_chain. intros s d s'. apply lower_day_steps.
  intros l Hl. right. right. auto.
Qed.

End LowerPasses.

(** ** Reservation *)

Section Reservation.

Variable set_iter : list Z -> list Z.
Variable db : DB.
Variable w : Z.

Lemma mark_find_other st e d w' e' d' :
  (w', e', d') <> (w, e, d) ->
  find_assignment (g_rows (_mark_dismissed w st e d)) w' e' d'
  = find_assignment (g_rows st) w' e' d'.
Proof.
  intros Hne. simpl.
  apply find_assignment_update_other; [auto with rows | assumption].
Qed.







End Reservation.

(** ** Dismissed leave *)


Section Dismissed.

Variable set_iter : list Z -> list Z.
Variable db : DB.






Lemma ensure_row_In wk emp rows d a :
  In a (ensure_row wk emp rows d) ->
  In a rows \/ a = mkAssignment wk (emp_id emp) d "Set" false.
Proof.
  unfold ensure_row. destruct (find_assignment rows wk (emp_id emp) d);
    [auto|].
  intros H. apply in_app_or in H. destruct H as [H|[H|[]]]; auto.
Qed.

Lemma ensure_rows_In db0 wk rows a :
  In a (ensure_rows db0 wk rows) ->
  In a rows
  \/ (a_week_id a = wk_id wk /\ a_value a = "Set"
      /\ a_dismissed_timeoff a = false
      /\ In (a_date a) (daterange (wk_start_date wk) 7)).
Proof.
  unfold ensure_rows. generalize (employees db0) as emps. intros emps.
  revert rows. induction emps as [|emp emps IH]; intros rows; cbn [fold_left];
    [auto|].
  intros H. apply IH in H. destruct H as [H|H]; [|auto].
  clear IH. revert rows H.
  assert (Hd : forall days rows, incl days (daterange (wk_start_date wk) 7) ->
    In a (fold_left (ensure_row (wk_id wk) emp) days rows) ->
    In a rows
    \/ (a_week_id a = wk_id wk /\ a_value a = "Set"
        /\ a_dismissed_timeoff a = false
        /\ In (a_date a) (daterange (wk_start_date wk) 7))).
  { induction days as [|d days IHd]; intros rows Hincl; cbn [fold_left];
      [auto|].
    intros H. apply IHd in H; [|intros x Hx; apply Hincl; now right].
    destruct H as [H|H]; [|auto].
    apply ensure_row_In in H. destruct H as [H| ->]; [auto|].
    right. simpl. repeat split. apply Hincl. now left. }
  intros rows. apply Hd. apply incl_refl.
Qed.




Lemma week_passes_chain w start rows st :
  week_passes set_iter db w start rows = Some st ->
  exists st1 st2,
    day_chain db w [] "Front Desk" (daterange start 7)
              (mkGen rows (fun _ => 0) (fun _ _ => None)) st1
    /\ day_chain db w (reserved_fd_by_date set_iter db w start (g_rows st1))
                 "Breakfast Bar" (daterange start 7) st1 st2
    /\ day_chain db w (reserved_fd_by_date set_iter db w start (g_rows st1))
                 "Shuttle" (daterange start 7) st2 st.
Proof.
  unfold week_passes.
  destruct (fd_pass set_iter db w start _) as [st1|] eqn:E1; [|discriminate].
  destruct (bb_pass set_iter db w _ start st1) as [st2|] eqn:E2;
    [|discriminate].
  intros E3. exists st1, st2.
  split; [now apply fd_pass_chain with (set_iter := set_iter)|].
  split; [now apply bb_pass_chain with (set_iter := set_iter)|].
  now apply sh_pass_chain with (set_iter := set_iter).
Qed.

Lemma ensure_week_assignments db1 start_d :
  assignments (fst (_ensure_week_and_assignments db1 start_d))
  = ensure_rows db1 (snd (_ensure_week_and_assignments db1 start_d))
                (assignments db1).
Proof.
  unfold _ensure_week_and_assignments.
  now destruct (week_starting db1 start_d).
Qed.


End Dismissed.

(** ** The four weeks of a run *)

Lemma foldM_inv_indexed {S A : Type} (P : list A -> S -> Prop)
  (f : S -> A -> option S) l :
  (forall pre x s s', P pre s -> f s x = Some s' -> P (pre ++ [x]) s') ->
  forall pre s s', P pre s -> foldM f l s = Some s' -> P (pre ++ l) s'.
Proof.
  intros Hstep. induction l as [|x l IH]; intros pre s s' Hs H; simpl in H.
  - injection H as <-. now rewrite app_nil_r.
  - destruct (f s x) as [s1|] eqn:E; [|discriminate].
    replace (pre ++ x :: l) with ((pre ++ [x]) ++ l)
      by (now rewrite <- app_assoc).
    apply IH with (s := s1); [|assumption]. eapply Hstep; eassumption.
Qed.

Lemma find_app_none {A : Type} (p : A -> bool) l l' :
  find p l = None -> find p (l ++ l') = find p l'.
Proof.
  induction l as [|a l IH]; simpl; [reflexivity|].
  destruct (p a); [discriminate | assumption].
Qed.

Lemma ensure_week_starting db s :
  week_starting (fst (_ensure_week_and_assignments db s)) s
  = Some (snd (_ensure_week_and_assignments db s)).
Proof.
  unfold _ensure_week_and_assignments.
  destruct (week_starting db s) as [wk|] eqn:E; cbn [fst snd].
  - exact E.
  - unfold week_starting in *. cbn [weeks].
    rewrite find_app_none by assumption. simpl. now rewrite Z.eqb_refl.
Qed.

Lemma extends_week_starting a b s wk :
  extends a b -> week_starting a s = Some wk -> week_starting b s = Some wk.
Proof.
  intros [_ [_ [_ [_ [_ [x Hx]]]]]] H. unfold week_starting in *. rewrite Hx.
  now apply find_app_some.
Qed.

Lemma generate_week_extends_ensured set_iter origin base db k db' :
  generate_week set_iter origin base db k = Some db' ->
  extends (fst (_ensure_week_and_assignments db (base + 7 * k))) db'.
Proof.
  unfold generate_week. destruct (week_passes _ _ _ _ _) as [st|];
    [|discriminate].
  intros H. apply sync_extends in H.
  eapply extends_trans; [apply with_assignments_extends|]. exact H.
Qed.

Lemma generate_week_week set_iter origin base db k db' :
  generate_week set_iter origin base db k = Some db' ->
  week_starting db' (base + 7 * k)
  = Some (snd (_ensure_week_and_assignments db (base + 7 * k))).
Proof.
  intros H. eapply extends_week_starting.
  - eapply generate_week_extends_ensured; eassumption.
  - apply ensure_week_starting.
Qed.


(** ** Who gets the dismissed flag in one scan of a pool *)

Section DismissedScan.

Variable set_iter : list Z -> list Z.
Variable db : DB.
Variable w : Z.










End DismissedScan.



(** ** Well-formed databases *)

Lemma db_wf_weeks db w1 w2 :
  db_wf db = true -> In w1 (weeks db) -> In w2 (weeks db) ->
  (wk_start_date w1 - wk_start_date w2) mod 7 = 0
  /\ (wk_id w1 = wk_id w2 <-> wk_start_date w1 = wk_start_date w2).
Proof.
  unfold db_wf. intros H H1 H2. apply andb_true_iff in H. destruct H as [H _].
  rewrite forallb_forall in H. specialize (H w1 H1).
  rewrite forallb_forall in H. specialize (H w2 H2).
  unfold weeks_ok in H. apply andb_true_iff in H. destruct H as [Ha Hb].
  apply Z.eqb_eq in Ha. split; [assumption|].
  apply Bool.eqb_prop in Hb. rewrite <- !Z.eqb_eq. now rewrite Hb.
Qed.

Lemma db_wf_row db a :
  db_wf db = true -> In a (assignments db) ->
  exists wk, In wk (weeks db) /\ wk_id wk = a_week_id a
    /\ in_week wk (a_date a) = true.
Proof.
  unfold db_wf. intros H Ha. apply andb_true_iff in H. destruct H as [_ H].
  rewrite forallb_forall in H. specialize (H (key3 a) (in_map key3 _ _ Ha)).
  unfold row_ok in H. apply existsb_exists in H. destruct H as [wk [Hin H]].
  apply andb_true_iff in H. destruct H as [H1 H2]. apply Z.eqb_eq in H1.
  exists wk. auto.
Qed.

Lemma in_week_iff wk d :
  in_week wk d = true <-> wk_start_date wk <= d < wk_start_date wk + 7.
Proof. unfold in_week. rewrite andb_true_iff, Z.leb_le, Z.ltb_lt. tauto. Qed.

(** A row dated inside a week of the table belongs to that week. *)
Lemma db_wf_row_week db a wk :
  db_wf db = true -> In a (assignments db) -> In wk (weeks db) ->
  in_week wk (a_date a) = true -> a_week_id a = wk_id wk.
Proof.
  intros Hwf Ha Hwk Hin.
  destruct (db_wf_row db a Hwf Ha) as [wk0 [Hwk0 [Hid Hin0]]].
  destruct (db_wf_weeks db wk0 wk Hwf Hwk0 Hwk) as [Hal Hiff].
  rewrite <- Hid. apply Hiff.
  apply in_week_iff in Hin. apply in_week_iff in Hin0.
  apply Z.mod_divide in Hal; [|lia]. destruct Hal as [q Hq]. lia.
Qed.

(** A row of a week of the table is dated inside it. *)
Lemma db_wf_row_date db a wk :
  db_wf db = true -> In a (assignments db) -> In wk (weeks db) ->
  a_week_id a = wk_id wk -> in_week wk (a_date a) = true.
Proof.
  intros Hwf Ha Hwk Hid.
  destruct (db_wf_row db a Hwf Ha) as [wk0 [Hwk0 [Hid0 Hin0]]].
  destruct (db_wf_weeks db wk0 wk Hwf Hwk0 Hwk) as [_ Hiff].
  assert (Hs : wk_start_date wk0 = wk_start_date wk) by (apply Hiff; congruence).
  unfold in_week in *. now rewrite <- Hs.
Qed.

Lemma db_wf_intro db :
  (forall w1 w2, In w1 (weeks db) -> In w2 (weeks db) ->
     (wk_start_date w1 - wk_start_date w2) mod 7 = 0
     /\ (wk_id w1 = wk_id w2 <-> wk_start_date w1 = wk_start_date w2)) ->
  (forall k, In k (map key3 (assignments db)) ->
     exists wk, In wk (weeks db) /\ wk_id wk = fst (fst k)
       /\ in_week wk (snd k) = true) ->
  db_wf db = true.
Proof.
  intros Hw Hr. unfold db_wf. apply andb_true_iff. split.
  - apply forallb_forall. intros w1 H1. apply forallb_forall. intros w2 H2.
    destruct (Hw w1 w2 H1 H2) as [Ha Hiff]. unfold weeks_ok.
    apply andb_true_iff. split; [now apply Z.eqb_eq|].
    apply Bool.eqb_true_iff.
    destruct (Z.eqb_spec (wk_id w1) (wk_id w2)) as [E|E];
      destruct (Z.eqb_spec (wk_start_date w1) (wk_start_date w2)) as [E'|E'];
      try reflexivity; exfalso; tauto.
  - apply forallb_forall. intros k Hk. destruct (Hr k Hk) as [wk [H1 [H2 H3]]].
    unfold row_ok. apply existsb_exists. exists wk. split; [assumption|].
    apply andb_true_iff. split; [now apply Z.eqb_eq | assumption].
Qed.

Lemma db_wf_same_keys db db' :
  weeks db' = weeks db ->
  map key3 (assignments db') = map key3 (assignments db) ->
  db_wf db = true -> db_wf db' = true.
Proof. unfold db_wf. intros -> ->. auto. Qed.

Lemma next_week_id_fresh db wk :
  In wk (weeks db) -> wk_id wk < next_week_id db.
Proof.
  unfold next_week_id. intros Hin. apply (in_map wk_id) in Hin.
  destruct (map wk_id (weeks db)) as [|x t]; [contradiction|].
  assert (H : forall y l z, In z (y :: l) -> z <= fold_right Z.max y l).
  { intros y l. induction l as [|a l IH]; simpl; intros z Hz.
    - destruct Hz as [->|[]]. lia.
    - destruct Hz as [->|[->|Hz]].
      + specialize (IH z (or_introl eq_refl)). lia.
      + lia.
      + specialize (IH z (or_intror Hz)). lia. }
  specialize (H x t (wk_id wk) Hin). lia.
Qed.

Lemma ensure_rows_keys db0 wk rows k :
  In k (map key3 (ensure_rows db0 wk rows)) ->
  In k (map key3 rows)
  \/ (fst (fst k) = wk_id wk /\ in_week wk (snd k) = true).
Proof.
  intros H. apply in_map_iff in H. destruct H as [a [<- Ha]].
  apply ensure_rows_In in Ha. destruct Ha as [Ha|[H1 [_ [_ H4]]]].
  - left. now apply in_map.
  - right. split; [assumption|]. apply in_week_iff. apply In_daterange in H4.
    unfold key3. simpl in *. lia.
Qed.

Lemma ensure_week_wf db base_wk k :
  db_wf db = true -> In base_wk (weeks db) ->
  db_wf (fst (_ensure_week_and_assignments db (wk_start_date base_wk + 7 * k)))
  = true.
Proof.
  intros Hwf Hbase. unfold _ensure_week_and_assignments.
  destruct (week_starting db (wk_start_date base_wk + 7 * k)) as [wk|] eqn:E;
    cbn [fst].
  - apply week_starting_start in E. destruct E as [Hs Hin].
    apply db_wf_intro; cbn [weeks assignments with_assignments].
    + intros w1 w2. now apply db_wf_weeks.
    + intros key Hk. apply ensure_rows_keys in Hk. destruct Hk as [Hk|[H1 H2]].
      * apply in_map_iff in Hk. destruct Hk as [a [<- Ha]].
        destruct (db_wf_row db a Hwf Ha) as [wk0 H0]. exists wk0. exact H0.
      * exists wk. auto.
  - set (wk := mkWeek (next_week_id db) (wk_start_date base_wk + 7 * k)).
    assert (Hnew : forall w2, In w2 (weeks db) ->
              wk_id w2 <> wk_id wk /\ wk_start_date w2 <> wk_start_date wk
              /\ (wk_start_date w2 - wk_start_date wk) mod 7 = 0
              /\ (wk_start_date wk - wk_start_date w2) mod 7 = 0).
    { intros w2 H2. split; [|split; [|split]].
      - pose proof (next_week_id_fresh db w2 H2). unfold wk.
        cbn [wk_id]. lia.
      - intros Heq. unfold week_starting in E.
        apply (find_none _ _ E) in H2. unfold wk in Heq.
        cbn [wk_start_date] in Heq. cbv beta in H2. rewrite Heq in H2.
        rewrite Z.eqb_refl in H2. discriminate.
      - destruct (db_wf_weeks db w2 base_wk Hwf H2 Hbase) as [Ha _].
        unfold wk. cbn [wk_start_date].
        apply Z.mod_divide in Ha; [|lia]. destruct Ha as [q Hq].
        apply Z.mod_divide; [lia|]. exists (q - k). lia.
      - destruct (db_wf_weeks db w2 base_wk Hwf H2 Hbase) as [Ha _].
        unfold wk. cbn [wk_start_date].
        apply Z.mod_divide in Ha; [|lia]. destruct Ha as [q Hq].
        apply Z.mod_divide; [lia|]. exists (k - q). lia. }
    apply db_wf_intro; cbn [weeks assignments].
    + intros w1 w2 H1 H2. apply in_app_or in H1. apply in_app_or in H2.
      destruct H1 as [H1|[<-|[]]]; destruct H2 as [H2|[<-|[]]].
      * now apply (db_wf_weeks db).
      * destruct (Hnew w1 H1) as [N1 [N2 [N3 N4]]]. split; [assumption|].
        split; intros; contradiction.
      * destruct (Hnew w2 H2) as [N1 [N2 [N3 N4]]]. split; [assumption|].
        split; intros Heq; symmetry in Heq; contradiction.
      * split; [now rewrite Z.sub_diag | tauto].
    + intros key Hk. apply ensure_rows_keys in Hk. destruct Hk as [Hk|[H1 H2]].
      * apply in_map_iff in Hk. destruct Hk as [a [<- Ha]].
        destruct (db_wf_row db a Hwf Ha) as [wk0 [H0 H0']]. exists wk0.
        split; [apply in_or_app; now left | exact H0'].
      * exists wk. split; [apply in_or_app; right; now left | auto].
Qed.

(** ** Weekly counts *)




Section Caps.

Variable db : DB.
Variable w : Z.
Variable start : date.

Lemma cell_core rows rows' e d :
  core rows' = core rows -> cell rows' w e d = cell rows w e d.
Proof. intros H. unfold cell. now apply core_find_assignment. Qed.


Lemma record_assignment_cell_other st e0 d0 role tok label e d :
  (e, d) <> (e0, d0) ->
  cell (g_rows (record_assignment w st e0 d0 role tok label)) w e d
  = cell (g_rows st) w e d.
Proof.
  intros Hne. unfold cell. rewrite record_assignment_find; [reflexivity|].
  congruence.
Qed.

Lemma record_assignment_cell_same st e0 d0 role tok label :
  cell (g_rows (record_assignment w st e0 d0 role tok label)) w e0 d0
  = match cell (g_rows st) w e0 d0 with
    | Some _ => Some label
    | None => None
    end.
Proof.
  unfold cell, record_assignment.
  destruct (find_assignment (g_rows st) w e0 d0) as [a|] eqn:E.
  - simpl. rewrite find_assignment_update_same by auto with rows.
    now rewrite E.
  - now rewrite E.
Qed.

Lemma slot_label_dept role tok label :
  slot_label role tok label -> In label (dept_labels role).
Proof.
  intros [[-> [opts [Ho Hl]]]|[[-> [Hl _]]|[-> [Hl _]]]];
    [|exact Hl|exact Hl].
  change (dept_labels "Front Desk") with FD_LABELS.
  unfold FD_LABELS. apply in_flat_map. exists (tok, opts). auto.
Qed.

Lemma writes_refl V rows : writes w V rows rows.
Proof. intros e d. now left. Qed.

Lemma writes_trans V a b c :
  writes w V a b -> writes w V b c -> writes w V a c.
Proof.
  intros H1 H2 e d. destruct (H2 e d) as [E|E]; [|now right].
  rewrite E. apply H1.
Qed.


















End Caps.

(** ** One week and the other weeks *)

Lemma keys_update_first p f rows :
  keeps_key f -> map key3 (update_first p f rows) = map key3 rows.
Proof. apply map_key_update_first. Qed.

Lemma keys_reset wk rows : map key3 (reset_week wk rows) = map key3 rows.
Proof.
  unfold reset_week. rewrite map_map. apply map_ext. intros a.
  now destruct (a_week_id a =? wk).
Qed.

Lemma keys_steps db w resv role d st st' :
  day_steps db w resv role d st st' ->
  map key3 (g_rows st') = map key3 (g_rows st).
Proof.
  induction 1 as [st | st e st' Hl Hr Hs IH | st e tok label st' Hc Hs IH].
  - reflexivity.
  - rewrite IH. simpl. apply keys_update_first. auto with rows.
  - rewrite IH. unfold record_assignment.
    destruct (find_assignment (g_rows st) w e d); [|reflexivity]. simpl.
    apply keys_update_first. auto with rows.
Qed.

Lemma keys_chain db w resv role days st st' :
  day_chain db w resv role days st st' ->
  map key3 (g_rows st') = map key3 (g_rows st).
Proof.
  induction 1 as [st | d ds st st1 st2 Hs Hc IH]; [reflexivity|].
  rewrite IH. eapply keys_steps; eassumption.
Qed.

Lemma keys_sync db w days rows :
  map key3 (sync_rows db w days rows) = map key3 rows.
Proof.
  unfold sync_rows. generalize (employees db) as emps. intros emps.
  revert rows. induction emps as [|emp emps IH]; intros rows; cbn [fold_left];
    [reflexivity|].
  rewrite IH. clear IH. revert rows.
  induction days as [|d days IHd]; intros rows; cbn [fold_left]; [reflexivity|].
  rewrite IHd. unfold sync_cell.
  destruct (has_approved_timeoff db (emp_name emp) d); [|reflexivity].
  apply keys_update_first. auto with rows.
Qed.

Lemma generate_week_keys set_iter origin base db k db' :
  generate_week set_iter origin base db k = Some db' ->
  weeks db' = weeks (fst (_ensure_week_and_assignments db (base + 7 * k)))
  /\ map key3 (assignments db')
     = map key3 (assignments
                   (fst (_ensure_week_and_assignments db (base + 7 * k)))).
Proof.
  unfold generate_week.
  set (ew := _ensure_week_and_assignments db (base + 7 * k)).
  destruct (week_passes set_iter origin (wk_id (snd ew))
              (wk_start_date (snd ew))
              (reset_week (wk_id (snd ew)) (assignments (fst ew))))
    as [st|] eqn:Hp; [|discriminate].
  apply week_passes_chain in Hp. destruct Hp as [st1 [st2 [C1 [C2 C3]]]].
  unfold sync_timeoff_to_assignments.
  destruct (get_week _ _) as [wk'|]; [|discriminate].
  intros H. injection H as <-. cbn [weeks assignments with_assignments].
  split; [reflexivity|].
  rewrite keys_sync, (keys_chain _ _ _ _ _ _ _ C3),
    (keys_chain _ _ _ _ _ _ _ C2), (keys_chain _ _ _ _ _ _ _ C1).
  cbn [g_rows]. apply keys_reset.
Qed.

Lemma generate_week_wf set_iter origin base_wk db k db' :
  db_wf db = true -> In base_wk (weeks db) ->
  generate_week set_iter origin (wk_start_date base_wk) db k = Some db' ->
  db_wf db' = true.
Proof.
  intros Hwf Hb Hg. destruct (generate_week_keys _ _ _ _ _ _ Hg) as [Hw Hk].
  eapply db_wf_same_keys; [exact Hw | exact Hk|].
  now apply ensure_week_wf.
Qed.

Lemma find_app_miss {A : Type} (p : A -> bool) l x :
  p x = false -> find p (l ++ [x]) = find p l.
Proof.
  intros Hx. induction l as [|a l IH]; simpl; [now rewrite Hx|].
  destruct (p a); [reflexivity | assumption].
Qed.

Lemma ensure_rows_other db0 wk rows w' e d :
  w' <> wk_id wk ->
  find_assignment (ensure_rows db0 wk rows) w' e d = find_assignment rows w' e d.
Proof.
  intros Hne. unfold ensure_rows. generalize (employees db0) as emps.
  intros emps. revert rows.
  induction emps as [|emp emps IH]; intros rows; cbn [fold_left]; [reflexivity|].
  rewrite IH. clear IH. generalize (daterange (wk_start_date wk) 7) as days.
  intros days. revert rows.
  induction days as [|d0 days IHd]; intros rows; cbn [fold_left]; [reflexivity|].
  rewrite IHd. unfold ensure_row.
  destruct (find_assignment rows (wk_id wk) (emp_id emp) d0); [reflexivity|].
  unfold find_assignment. apply find_app_miss. unfold is_row. simpl.
  destruct (Z.eqb_spec (wk_id wk) w'); [congruence | reflexivity].
Qed.

Lemma reset_week_other wk rows w' e d :
  w' <> wk ->
  find_assignment (reset_week wk rows) w' e d = find_assignment rows w' e d.
Proof.
  intros Hne. unfold find_assignment, reset_week.
  induction rows as [|a rows IH]; simpl; [reflexivity|].
  destruct (Z.eqb_spec (a_week_id a) wk) as [E|E].
  - unfold is_row at 1 3. simpl. rewrite E.
    destruct (Z.eqb_spec wk w'); [congruence|]. simpl. exact IH.
  - destruct (is_row w' e d a); [reflexivity | exact IH].
Qed.

Lemma steps_other_week db w resv role d0 st st' w' e d :
  day_steps db w resv role d0 st st' -> w' <> w ->
  find_assignment (g_rows st') w' e d = find_assignment (g_rows st) w' e d.
Proof.
  intros Hs Hne.
  induction Hs as [st | st e0 st' Hl Hr Hs IH | st e0 tok label st' Hc Hs IH].
  - reflexivity.
  - rewrite IH. apply mark_find_other. congruence.
  - rewrite IH. apply record_assignment_find. congruence.
Qed.

Lemma chain_other_week db w resv role days st st' w' e d :
  day_chain db w resv role days st st' -> w' <> w ->
  find_assignment (g_rows st') w' e d = find_assignment (g_rows st) w' e d.
Proof.
  intros Hc Hne. induction Hc as [st | d0 ds st st1 st2 Hs Hc IH];
    [reflexivity|].
  rewrite IH. eapply steps_other_week; eassumption.
Qed.

Lemma sync_rows_other db w days rows w' e d :
  w' <> w ->
  find_assignment (sync_rows db w days rows) w' e d
  = find_assignment rows w' e d.
Proof.
  intros Hne. unfold sync_rows. generalize (employees db) as emps.
  intros emps. revert rows.
  induction emps as [|emp emps IH]; intros rows; cbn [fold_left]; [reflexivity|].
  rewrite IH. clear IH. revert rows.
  induction days as [|d0 days IHd]; intros rows; cbn [fold_left]; [reflexivity|].
  rewrite IHd. unfold sync_cell.
  destruct (has_approved_timeoff db (emp_name emp) d0); [|reflexivity].
  apply find_assignment_update_other; [auto with rows | congruence].
Qed.

Lemma generate_week_other set_iter origin base db k db' w' e d :
  generate_week set_iter origin base db k = Some db' ->
  w' <> wk_id (snd (_ensure_week_and_assignments db (base + 7 * k))) ->
  find_assignment (assignments db') w' e d
  = find_assignment (assignments db) w' e d.
Proof.
  unfold generate_week.
  set (ew := _ensure_week_and_assignments db (base + 7 * k)).
  destruct (week_passes set_iter origin (wk_id (snd ew))
              (wk_start_date (snd ew))
              (reset_week (wk_id (snd ew)) (assignments (fst ew))))
    as [st|] eqn:Hp; [|discriminate].
  apply week_passes_chain in Hp. destruct Hp as [st1 [st2 [C1 [C2 C3]]]].
  unfold sync_timeoff_to_assignments.
  destruct (get_week _ _) as [wk'|]; [|discriminate].
  intros H Hne. injection H as <-. cbn [assignments with_assignments].
  rewrite sync_rows_other by assumption.
  rewrite (chain_other_week _ _ _ _ _ _ _ w' e d C3 Hne).
  rewrite (chain_other_week _ _ _ _ _ _ _ w' e d C2 Hne).
  rewrite (chain_other_week _ _ _ _ _ _ _ w' e d C1 Hne).
  cbn [g_rows]. rewrite reset_week_other by assumption.
  unfold ew. rewrite ensure_week_assignments.
  now apply ensure_rows_other.
Qed.

(** ** The caps of one generated week *)

Lemma find_map_keep (p : Assignment -> bool) (f : Assignment -> Assignment) l :
  (forall a, p (f a) = p a) -> find p (map f l) = option_map f (find p l).
Proof.
  intros H. induction l as [|a l IH]; simpl; [reflexivity|].
  rewrite H. destruct (p a); [reflexivity | assumption].
Qed.

Lemma reset_week_cell wk rows e d :
  cell (reset_week wk rows) wk e d
  = match cell rows wk e d with Some _ => Some "Set" | None => None end.
Proof.
  unfold cell, find_assignment, reset_week.
  rewrite find_map_keep.
  - destruct (find (is_row wk e d) rows) as [a|] eqn:E; [|reflexivity].
    apply find_some in E. destruct E as [_ E]. apply is_row_true in E.
    destruct E as [E _]. simpl. rewrite E, Z.eqb_refl. reflexivity.
  - intros a. destruct (a_week_id a =? wk); reflexivity.
Qed.

Lemma sync_rows_writes db w days rows :
  writes w (fun v => v = TIME_OFF_LABEL) rows (sync_rows db w days rows).
Proof.
  unfold sync_rows. generalize (employees db) as emps. intros emps.
  revert rows. induction emps as [|emp emps IH]; intros rows; cbn [fold_left];
    [apply writes_refl|].
  eapply writes_trans; [|apply IH]. clear IH. revert rows.
  induction days as [|d0 days IHd]; intros rows; cbn [fold_left];
    [apply writes_refl|].
  eapply writes_trans; [|apply IHd]. intros e d. unfold cell.
  destruct (sync_cell_find db w emp rows d0 w e d) as [E|[a [E0 E]]];
    rewrite E; [now left|].
  right. exists TIME_OFF_LABEL. split; [reflexivity|]. simpl.
  now rewrite force_time_off_value.
Qed.

Lemma disjoint_check (l S0 : list string) :
  forallb (fun v => negb (str_in v S0)) l = true ->
  forall v, In v l -> str_in v S0 = false.
Proof.
  intros H v Hv. rewrite forallb_forall in H. specialize (H v Hv).
  now apply negb_true_iff in H.
Qed.
















Lemma foldM_inv_split {S0 A : Type} (P : list A -> S0 -> Prop)
  (f : S0 -> A -> option S0) l :
  (forall pre x post s s', l = pre ++ x :: post -> P pre s ->
     f s x = Some s' -> P (pre ++ [x]) s') ->
  forall s s', P [] s -> foldM f l s = Some s' -> P l s'.
Proof.
  intros Hstep.
  assert (G : forall rest pre s s', l = pre ++ rest -> P pre s ->
                foldM f rest s = Some s' -> P l s').
  { induction rest as [|x rest IH]; intros pre s s' Hl Hs H; simpl in H.
    - injection H as <-. rewrite app_nil_r in Hl. now subst.
    - destruct (f s x) as [s1|] eqn:E; [|discriminate].
      apply IH with (pre := pre ++ [x]) (s := s1); [| |assumption].
      + now rewrite <- app_assoc.
      + eapply Hstep; eassumption. }
  intros s s' Hs H. now apply G with (rest := l) (pre := []) (s := s).
Qed.




(** ** The rest rule *)

Lemma find_update_first_cases (p q : Assignment -> bool) f l :
  (forall a, q (f a) = q a) ->
  find q (update_first p f l) = find q l
  \/ exists a, find q l = Some a /\ find q (update_first p f l) = Some (f a).
Proof.
  intros Hq. induction l as [|a l IH]; simpl; [now left|].
  destruct (p a) eqn:Hp; simpl.
  - rewrite Hq. destruct (q a); [right; eauto | now left].
  - destruct (q a); [now left | exact IH].
Qed.

Lemma value_on_update_first f rows w e d e' d' :
  keeps_key f ->
  value_on (update_first (is_row w e d) f rows) e' d' = value_on rows e' d'
  \/ exists a, In a rows
       /\ value_on (update_first (is_row w e d) f rows) e' d'
          = Some (a_value (f a)).
Proof.
  intros Hk. unfold value_on, find_assignment_on.
  destruct (find_update_first_cases (is_row w e d)
              (fun a => (a_employee_id a =? e') && (a_date a =? d')) f rows)
    as [E|[a [Ea E]]].
  - intros a. destruct (Hk a) as [_ [-> ->]]. reflexivity.
  - left. now rewrite E.
  - right. exists a. split; [now apply find_some in Ea|]. now rewrite E.
Qed.

Lemma vwrites_refl V rows : vwrites V rows rows.
Proof. intros e d. now left. Qed.

Lemma vwrites_trans V a b c : vwrites V a b -> vwrites V b c -> vwrites V a c.
Proof.
  intros H1 H2 e d. destruct (H2 e d) as [E|E]; [|now right].
  rewrite E. apply H1.
Qed.

Lemma vwrites_weaken (V V' : string -> Prop) a b :
  (forall v, V v -> V' v) -> vwrites V a b -> vwrites V' a b.
Proof.
  intros H H1 e d. destruct (H1 e d) as [E|[v [Hv E]]]; [now left|].
  right. exists v. auto.
Qed.

Lemma rest_rule_false_in v0 v1 :
  rest_rule v0 v1 = false ->
  In v0 (FRONT_DESK_SHIFTS ++ SHUTTLE_SHIFTS)
  /\ In v1 (FRONT_DESK_SHIFTS ++ SHUTTLE_SHIFTS).
Proof.
  unfold rest_rule, fd_shift, sh_shift. intros H.
  apply negb_false_iff in H.
  repeat (apply orb_true_iff in H; destruct H as [H|H]);
    repeat match goal with
           | H : _ && _ = true |- _ =>
               apply andb_true_iff in H; destruct H
           | H : _ || _ = true |- _ =>
               apply orb_true_iff in H; destruct H
           | H : str_in _ _ = true |- _ => apply str_in_In in H
           end;
    split; apply in_or_app; auto.
Qed.

Ltac each_value H :=
  cbv [FRONT_DESK_SHIFTS SHUTTLE_SHIFTS BREAKFAST_SHIFTS FD_LABELS BB_LABELS
       SH_LABELS FD_VARIANTS TIME_OFF_LABEL flat_map snd app In] in H;
  repeat (destruct H as [H|H]; [try subst|]); try contradiction.

Lemma rest_rule_neutral v x :
  neutral v -> rest_rule v x = true /\ rest_rule x v = true.
Proof.
  intros Hn. split.
  - destruct (rest_rule v x) eqn:E; [reflexivity|].
    destruct (rest_rule_false_in _ _ E) as [_ Hx].
    each_value Hx; destruct Hn as [->| ->]; vm_compute in E; discriminate.
  - destruct (rest_rule x v) eqn:E; [reflexivity|].
    destruct (rest_rule_false_in _ _ E) as [Hx _].
    each_value Hx; destruct Hn as [->| ->]; vm_compute in E; discriminate.
Qed.

Lemma rest_inv_vwrites lo hi rows rows' :
  rest_inv lo hi rows -> vwrites neutral rows rows' -> rest_inv lo hi rows'.
Proof.
  intros Hi Hw e d v0 v1 Hlo Hhi H0 H1.
  destruct (Hw e d) as [E0|[v [Hv E0]]].
  - destruct (Hw e (d + 1)) as [E1|[v [Hv E1]]].
    + rewrite E0 in H0. rewrite E1 in H1. now apply (Hi e d).
    + rewrite E1 in H1. injection H1 as <-.
      exact (proj2 (rest_rule_neutral v v0 Hv)).
  - rewrite E0 in H0. injection H0 as <-.
    exact (proj1 (rest_rule_neutral v v1 Hv)).
Qed.

Lemma value_on_app_one rows a e d :
  value_on (rows ++ [a]) e d = value_on rows e d
  \/ value_on (rows ++ [a]) e d = Some (a_value a).
Proof.
  unfold value_on, find_assignment_on.
  induction rows as [|b rows IH]; simpl.
  - destruct (_ && _); [now right | now left].
  - destruct (_ && _); [now left | exact IH].
Qed.

Lemma ensure_rows_vwrites db0 wk rows :
  vwrites neutral rows (ensure_rows db0 wk rows).
Proof.
  unfold ensure_rows. generalize (employees db0) as emps. intros emps.
  revert rows. induction emps as [|emp emps IH]; intros rows; cbn [fold_left];
    [apply vwrites_refl|].
  eapply vwrites_trans; [|apply IH]. clear IH.
  generalize (daterange (wk_start_date wk) 7) as days. intros days. revert rows.
  induction days as [|d0 days IHd]; intros rows; cbn [fold_left];
    [apply vwrites_refl|].
  eapply vwrites_trans; [|apply IHd]. intros e d. unfold ensure_row.
  destruct (find_assignment rows (wk_id wk) (emp_id emp) d0); [now left|].
  destruct (value_on_app_one rows
              (mkAssignment (wk_id wk) (emp_id emp) d0 "Set" false) e d)
    as [E|E]; [now left|].
  right. exists "Set". split; [now left | exact E].
Qed.

Lemma reset_week_value_on wk rows e d :
  value_on (reset_week wk rows) e d
  = option_map (fun a => if a_week_id a =? wk then "Set" else a_value a)
               (find_assignment_on rows e d).
Proof.
  unfold value_on, find_assignment_on, reset_week. rewrite find_map_keep.
  - destruct (find _ rows) as [a|]; [|reflexivity]. simpl.
    destruct (a_week_id a =? wk); reflexivity.
  - intros a. destruct (a_week_id a =? wk); reflexivity.
Qed.

Lemma reset_week_vwrites wk rows : vwrites neutral rows (reset_week wk rows).
Proof.
  intros e d. rewrite reset_week_value_on. unfold value_on.
  destruct (find_assignment_on rows e d) as [a|]; [|now left]. simpl.
  destruct (a_week_id a =? wk); [|now left].
  right. exists "Set". split; [now left | reflexivity].
Qed.

Lemma sync_rows_vwrites db w days rows :
  vwrites neutral rows (sync_rows db w days rows).
Proof.
  unfold sync_rows. generalize (employees db) as emps. intros emps.
  revert rows. induction emps as [|emp emps IH]; intros rows; cbn [fold_left];
    [apply vwrites_refl|].
  eapply vwrites_trans; [|apply IH]. clear IH. revert rows.
  induction days as [|d0 days IHd]; intros rows; cbn [fold_left];
    [apply vwrites_refl|].
  eapply vwrites_trans; [|apply IHd]. intros e d. unfold sync_cell.
  destruct (has_approved_timeoff db (emp_name emp) d0); [|now left].
  destruct (value_on_update_first force_time_off rows w (emp_id emp) d0 e d)
    as [E|[a [_ E]]]; [auto with rows | now left|].
  right. exists TIME_OFF_LABEL. split; [now right|].
  rewrite E. now rewrite force_time_off_value.
Qed.

Lemma rest_ok_rule rows e d role tok label v0 :
  rest_ok rows e d role tok = true -> slot_label role tok label ->
  value_on rows e (d - 1) = Some v0 -> rest_rule v0 label = true.
Proof.
  intros Hr Hs Hv. destruct (rest_rule v0 label) eqn:E; [reflexivity|].
  exfalso. rewrite rest_ok_prev in Hr. unfold value_on in Hv.
  rewrite Hv in Hr. destruct (rest_rule_false_in _ _ E) as [H0 _].
  destruct Hs as [[-> [opts [Ho Hl]]]|[[-> [Hl ->]]|[-> [Hl ->]]]].
  - cbv [FD_VARIANTS In] in Ho.
    repeat (destruct Ho as [Ho|Ho]; [injection Ho as <- <-|]);
      try contradiction;
      each_value Hl; each_value H0;
      vm_compute in E; vm_compute in Hr; congruence.
  - each_value Hl; each_value H0;
      vm_compute in E; vm_compute in Hr; congruence.
  - each_value Hl; each_value H0;
      vm_compute in E; vm_compute in Hr; congruence.
Qed.

Lemma rest_rule_dept role label v1 :
  In label (dept_labels role) -> str_in v1 (dept_labels role) = false ->
  rest_rule label v1 = true.
Proof.
  intros Hl Hn. destruct (rest_rule label v1) eqn:E; [reflexivity|].
  exfalso. destruct (rest_rule_false_in _ _ E) as [_ H1].
  unfold dept_labels in *.
  destruct (role =? "Front Desk")%string;
    [|destruct (role =? "Breakfast Bar")%string;
      [|destruct (role =? "Shuttle")%string; [|contradiction]]];
    each_value Hl; each_value H1;
    vm_compute in E; vm_compute in Hn; congruence.
Qed.

Lemma rest_inv_ext lo hi rows rows' :
  (forall e d, value_on rows' e d = value_on rows e d) ->
  rest_inv lo hi rows -> rest_inv lo hi rows'.
Proof.
  intros H Hi e d v0 v1 Hlo Hhi H0 H1. rewrite H in H0, H1.
  now apply (Hi e d).
Qed.

Lemma daterange_S d0 n : daterange d0 (S n) = d0 :: daterange (d0 + 1) n.
Proof.
  unfold daterange. cbn [seq map]. f_equal; [lia|].
  rewrite <- seq_shift, map_map. apply map_ext. intros i. lia.
Qed.

Section RestSteps.

Variable db : DB.
Variable w : Z.
Variables lo hi : date.

Lemma mark_value_on st e0 d0 e d :
  value_on (g_rows (_mark_dismissed w st e0 d0)) e d = value_on (g_rows st) e d.
Proof.
  unfold value_on. apply core_find_assignment_on. cbn [g_rows _mark_dismissed].
  apply core_update_dismissed.
Qed.

Lemma record_assignment_value_on st e0 d0 role tok label e d :
  value_on (g_rows (record_assignment w st e0 d0 role tok label)) e d
  = value_on (g_rows st) e d
  \/ ((e, d) = (e0, d0)
      /\ value_on (g_rows (record_assignment w st e0 d0 role tok label)) e d
         = Some label).
Proof.
  destruct (Z.eq_dec e e0) as [->|He];
    [destruct (Z.eq_dec d d0) as [->|Hd]|].
  - unfold record_assignment.
    destruct (find_assignment (g_rows st) w e0 d0); [|now left].
    cbn [g_rows].
    destruct (value_on_update_first (set_value label) (g_rows st) w e0 d0 e0 d0)
      as [E|[a' [_ E]]]; [auto with rows | now left|].
    right. split; [reflexivity | exact E].
  - left. unfold value_on. rewrite record_assignment_find_on; [reflexivity|].
    congruence.
  - left. unfold value_on. rewrite record_assignment_find_on; [reflexivity|].
    congruence.
Qed.

Lemma day_steps_rest resv role d0 st st' :
  day_steps db w resv role d0 st st' ->
  rest_inv lo hi (g_rows st) ->
  (forall e v, d0 + 1 < hi -> value_on (g_rows st) e (d0 + 1) = Some v ->
     str_in v (dept_labels role) = false) ->
  rest_inv lo hi (g_rows st')
  /\ (forall e d, d <> d0 ->
        value_on (g_rows st') e d = value_on (g_rows st) e d)
  /\ vwrites (fun v => In v (dept_labels role)) (g_rows st) (g_rows st').
Proof.
  induction 1 as [st|st e0 st' Hl Hr Hs IH|st e0 tok label st' Hc Hs IH];
    intros Hi Hfree.
  - split; [assumption|]. split; [reflexivity | apply vwrites_refl].
  - destruct IH as [I1 [I2 I3]].
    + eapply rest_inv_ext; [|exact Hi]. intros e d. apply mark_value_on.
    + intros e v Hh Hv. rewrite mark_value_on in Hv. now apply (Hfree e v).
    + split; [assumption|]. split.
      * intros e d Hd. rewrite I2 by assumption. apply mark_value_on.
      * intros e d. destruct (I3 e d) as [E|E]; [|now right].
        left. rewrite E. apply mark_value_on.
  - pose proof (slot_label_dept _ _ _ (ca_label _ _ _ _ _ _ _ _ _ Hc)) as Hlab.
    destruct IH as [I1 [I2 I3]].
    + intros e d v0 v1 Hlo Hhi H0 H1.
      destruct (record_assignment_value_on st e0 d0 role tok label e d)
        as [E0|[Eq0 E0]];
        destruct (record_assignment_value_on st e0 d0 role tok label e (d + 1))
        as [E1|[Eq1 E1]].
      * rewrite E0 in H0. rewrite E1 in H1. now apply (Hi e d).
      * rewrite E0 in H0. rewrite E1 in H1. injection H1 as <-.
        injection Eq1 as -> Hd.
        apply (rest_ok_rule (g_rows st) e0 d0 role tok label v0).
        -- exact (ca_rest _ _ _ _ _ _ _ _ _ Hc).
        -- exact (ca_label _ _ _ _ _ _ _ _ _ Hc).
        -- replace (d0 - 1) with d by lia. exact H0.
      * rewrite E0 in H0. rewrite E1 in H1. injection H0 as <-.
        injection Eq0 as -> ->.
        apply (rest_rule_dept role); [assumption|].
        now apply (Hfree e0 v1).
      * injection Eq0 as _ Hd. injection Eq1 as _ Hd'. lia.
    + intros e v Hh Hv.
      destruct (record_assignment_value_on st e0 d0 role tok label e (d0 + 1))
        as [E|[Eq _]].
      * rewrite E in Hv. now apply (Hfree e v).
      * injection Eq as _ Hd. lia.
    + split; [assumption|]. split.
      * intros e d Hd. rewrite I2 by assumption.
        destruct (record_assignment_value_on st e0 d0 role tok label e d)
          as [E|[Eq _]]; [assumption|]. injection Eq as _ Hd'. contradiction.
      * eapply vwrites_trans; [|exact I3]. intros e d.
        destruct (record_assignment_value_on st e0 d0 role tok label e d)
          as [E|[_ E]]; [now left|]. right. exists label. auto.
Qed.

Lemma day_chain_rest resv role n : forall d0 st st',
  day_chain db w resv role (daterange d0 n) st st' ->
  rest_inv lo hi (g_rows st) ->
  (forall e d v, d0 <= d < hi -> value_on (g_rows st) e d = Some v ->
     str_in v (dept_labels role) = false) ->
  rest_inv lo hi (g_rows st')
  /\ vwrites (fun v => In v (dept_labels role)) (g_rows st) (g_rows st').
Proof.
  induction n as [|n IH]; intros d0 st st' Hc Hi Hfree.
  - inversion Hc; subst. split; [assumption | apply vwrites_refl].
  - rewrite daterange_S in Hc. inversion Hc as [|? ? ? st1 ? Hs Hc']; subst.
    destruct (day_steps_rest _ _ _ _ _ Hs Hi) as [I1 [I2 I3]].
    { intros e v Hh Hv. apply (Hfree e (d0 + 1) v); [lia | assumption]. }
    destruct (IH _ _ _ Hc' I1) as [J1 J2].
    { intros e d v Hd Hv. rewrite I2 in Hv by lia.
      apply (Hfree e d v); [lia | assumption]. }
    split; [assumption|]. eapply vwrites_trans; eassumption.
Qed.

End RestSteps.

Lemma days_hold_reset db1 wk :
  db_wf db1 = true -> In wk (weeks db1) ->
  days_hold (fun _ => False) (wk_start_date wk) (wk_start_date wk + 7)
            (reset_week (wk_id wk) (assignments db1)).
Proof.
  intros Hwf Hwk e d v Hd Hv. left. rewrite reset_week_value_on in Hv.
  unfold find_assignment_on in Hv.
  destruct (find _ (assignments db1)) as [a|] eqn:F; [|discriminate].
  apply find_some in F. destruct F as [Hin Hq].
  apply andb_true_iff in Hq. destruct Hq as [_ Hq]. apply Z.eqb_eq in Hq.
  assert (Hw : a_week_id a = wk_id wk).
  { apply (db_wf_row_week db1 a wk Hwf Hin Hwk). apply in_week_iff.
    now rewrite Hq. }
  simpl in Hv. rewrite Hw, Z.eqb_refl in Hv. now injection Hv as <-.
Qed.

Lemma days_hold_vwrites (V V' : string -> Prop) lo hi rows rows' :
  days_hold V lo hi rows -> vwrites V' rows rows' ->
  days_hold (fun v => V v \/ V' v) lo hi rows'.
Proof.
  intros Hh Hw e d v Hd Hv. destruct (Hw e d) as [E|[v' [Hv' E]]].
  - rewrite E in Hv. destruct (Hh e d v Hd Hv); auto.
  - rewrite E in Hv. injection Hv as <-. auto.
Qed.

Lemma days_hold_free (V : string -> Prop) labels lo hi rows :
  days_hold V lo hi rows -> str_in "Set" labels = false ->
  (forall v, V v -> str_in v labels = false) ->
  forall e d v, lo <= d < hi -> value_on rows e d = Some v ->
    str_in v labels = false.
Proof.
  intros Hh Hs HV e d v Hd Hv. destruct (Hh e d v Hd Hv) as [->|H]; auto.
Qed.

Lemma generate_week_rest set_iter origin base_wk db1 k db' lo :
  db_wf db1 = true -> In base_wk (weeks db1) ->
  generate_week set_iter origin (wk_start_date base_wk) db1 k = Some db' ->
  rest_inv lo (wk_start_date base_wk + 7 * k) (assignments db1) ->
  rest_inv lo (wk_start_date base_wk + 7 * k + 7) (assignments db').
Proof.
  intros Hwf Hb Hg Hi. pose proof (ensure_week_wf db1 base_wk k Hwf Hb) as Hwf1.
  pose proof (ensure_week_starting db1 (wk_start_date base_wk + 7 * k)) as Hws.
  pose proof (ensure_week_assignments db1 (wk_start_date base_wk + 7 * k))
    as Hrows.
  unfold generate_week in Hg.
  set (s := wk_start_date base_wk + 7 * k) in *.
  set (ew := _ensure_week_and_assignments db1 s) in *.
  destruct (week_starting_start _ _ _ Hws) as [Hs Hin].
  rewrite Hs in Hg.
  set (rows0 := reset_week (wk_id (snd ew)) (assignments (fst ew))) in *.
  destruct (week_passes set_iter origin (wk_id (snd ew)) s rows0)
    as [st|] eqn:Hp; [|discriminate].
  apply week_passes_chain in Hp. destruct Hp as [st1 [st2 [C1 [C2 C3]]]].
  cbn [g_rows] in *.
  assert (R0 : rest_inv lo s rows0).
  { eapply rest_inv_vwrites; [|apply reset_week_vwrites].
    rewrite Hrows. eapply rest_inv_vwrites; [exact Hi|].
    apply ensure_rows_vwrites. }
  pose proof (days_hold_reset (fst ew) (snd ew) Hwf1 Hin) as H0.
  rewrite Hs in H0. fold rows0 in H0.
  assert (R0' : rest_inv lo (s + 7) rows0).
  { intros e d v0 v1 Hlo Hhi E0 E1.
    destruct (Z_lt_le_dec (d + 1) s) as [Hlt|Hge]; [now apply (R0 e d)|].
    destruct (H0 e (d + 1) v1) as [->|[]]; [lia | assumption|].
    apply rest_rule_neutral. now left. }
  destruct (day_chain_rest origin (wk_id (snd ew)) lo (s + 7) _ _ 7 s _ _ C1 R0')
    as [R1 W1].
  { apply (days_hold_free _ _ _ _ _ H0); [reflexivity | intros v []]. }
  pose proof (days_hold_vwrites _ _ _ _ _ _ H0 W1) as H1.
  destruct (day_chain_rest origin (wk_id (snd ew)) lo (s + 7) _ _ 7 s _ _ C2 R1)
    as [R2 W2].
  { apply (days_hold_free _ _ _ _ _ H1); [reflexivity|].
    intros v [[]|Hv]. revert v Hv. apply disjoint_check. reflexivity. }
  pose proof (days_hold_vwrites _ _ _ _ _ _ H1 W2) as H2.
  destruct (day_chain_rest origin (wk_id (snd ew)) lo (s + 7) _ _ 7 s _ _ C3 R2)
    as [R3 W3].
  { apply (days_hold_free _ _ _ _ _ H2); [reflexivity|].
    intros v [[[]|Hv]|Hv]; revert v Hv; apply disjoint_check; reflexivity. }
  unfold sync_timeoff_to_assignments in Hg.
  destruct (get_week _ _) as [wk'|]; [|discriminate].
  injection Hg as <-. cbn [assignments with_assignments].
  eapply rest_inv_vwrites; [exact R3 | apply sync_rows_vwrites].
Qed.

Lemma rest_rule_cases v0 v1 :
  rest_rule v0 v1 = true ->
  (fd_shift "PM" v0 = true -> fd_shift "AM" v1 = false)
  /\ (fd_shift "Audit" v0 = true -> fd_shift "PM" v1 = false)
  /\ (sh_shift "PM" v0 = true \/ sh_shift "Crew" v0 = true ->
      sh_shift "AM" v1 = false)
  /\ (sh_shift "Crew" v0 = true -> sh_shift "Midday" v1 = false).
Proof.
  unfold rest_rule. intros H. apply negb_true_iff in H.
  apply orb_false_iff in H. destruct H as [H H4].
  apply orb_false_iff in H. destruct H as [H H3].
  apply orb_false_iff in H. destruct H as [H1 H2].
  repeat split.
  - intros E. now rewrite E in H1.
  - intros E. now rewrite E in H2.
  - intros [E|E]; rewrite E in H3; [exact H3|].
    now rewrite orb_true_r in H3.
  - intros E. now rewrite E in H4.
Qed.

Lemma generate_rest set_iter db base_wk db' :
  db_wf db = true -> In base_wk (weeks db) ->
  foldM (generate_week set_iter db (wk_start_date base_wk)) [0; 1; 2; 3] db
  = Some db' ->
  rest_inv (wk_start_date base_wk) (wk_start_date base_wk + 28)
           (assignments db').
Proof.
  intros Hwf Hb H. set (base := wk_start_date base_wk) in *.
  assert (step : forall dbk dbk' k,
    generate_week set_iter db base dbk k = Some dbk' ->
    db_wf dbk = true /\ In base_wk (weeks dbk)
    /\ rest_inv base (base + 7 * k) (assignments dbk) ->
    db_wf dbk' = true /\ In base_wk (weeks dbk')
    /\ rest_inv base (base + 7 * (k + 1)) (assignments dbk')).
  { intros dbk dbk' k Hg [W [I R]]. split; [|split].
    - eapply generate_week_wf; eassumption.
    - destruct (generate_week_extends _ _ _ _ _ _ Hg)
        as [_ [_ [_ [_ [_ [extra ->]]]]]].
      apply in_or_app. now left.
    - replace (base + 7 * (k + 1)) with (base + 7 * k + 7) by lia.
      eapply generate_week_rest; eassumption. }
  cbn [foldM] in H.
  destruct (generate_week set_iter db base db 0) as [db1|] eqn:G0;
    [|discriminate].
  destruct (generate_week set_iter db base db1 1) as [db2|] eqn:G1;
    [|discriminate].
  destruct (generate_week set_iter db base db2 2) as [db3|] eqn:G2;
    [|discriminate].
  destruct (generate_week set_iter db base db3 3) as [db4|] eqn:G3;
    [|discriminate].
  injection H as <-.
  assert (S0 : db_wf db = true /\ In base_wk (weeks db)
               /\ rest_inv base (base + 7 * 0) (assignments db)).
  { split; [assumption|]. split; [assumption|].
    intros e d v0 v1 Hlo Hhi. lia. }
  apply (step _ _ _ G0) in S0. apply (step _ _ _ G1) in S0.
  apply (step _ _ _ G2) in S0. apply (step _ _ _ G3) in S0.
  destruct S0 as [_ [_ S0]].
  replace (base + 28) with (base + 7 * (3 + 1)) by lia. exact S0.
Qed.

(** C1. After a returning run of the generator on a well-formed database,
    for every worker and every two consecutive days [d], [d + 1] of the
    four-week horizon (also when [d] is the last day of a week and [d + 1]
    the first day of the next), the values the worker holds respect the
    rest rule: no AM reception shift after a PM reception shift, no PM
    reception shift after an Audit reception shift, no AM shuttle shift after
    a PM or Crew shuttle shift, no Midday shuttle shift after a Crew shuttle
    shift. *)
Theorem rest_rule_respected set_iter db start base_week db' e d v0 v1 :
  db_wf db = true ->
  get_week db start = Some base_week ->
  generate_4_week_schedule set_iter db start = Some db' ->
  wk_start_date base_week <= d -> d + 1 < wk_start_date base_week + 28 ->
  value_on (assignments db') e d = Some v0 ->
  value_on (assignments db') e (d + 1) = Some v1 ->
  (fd_shift "PM" v0 = true -> fd_shift "AM" v1 = false)
  /\ (fd_shift "Audit" v0 = true -> fd_shift "PM" v1 = false)
  /\ (sh_shift "PM" v0 = true \/ sh_shift "Crew" v0 = true ->
      sh_shift "AM" v1 = false)
  /\ (sh_shift "Crew" v0 = true -> sh_shift "Midday" v1 = false).
Proof.
  intros Hwf Hb Hg Hlo Hhi H0 H1. unfold generate_4_week_schedule in Hg.
  rewrite Hb in Hg. destruct (get_week_id _ _ _ Hb) as [_ Hin].
  apply rest_rule_cases.
  exact (generate_rest _ _ _ _ Hwf Hin Hg e d v0 v1 Hlo Hhi H0 H1).
Qed.

(** ** Stagger labels *)

Lemma sort_picks_pair db a b :
  _seniority_rank db a < _seniority_rank db b ->
  sort_picks db [a; b] = [a; b] /\ sort_picks db [b; a] = [a; b].
Proof.
  intros H. unfold sort_picks, sort_by. cbn [map fold_right insert_by fst].
  assert (E1 : (_seniority_rank db b <? _seniority_rank db a) = false)
    by (apply Z.ltb_ge; lia).
  assert (E2 : (_seniority_rank db a <? _seniority_rank db b) = true)
    by (apply Z.ltb_lt; lia).
  rewrite E1, E2. split; reflexivity.
Qed.

Lemma fd_picks_shape db st d variant cand picks :
  fd_picks db st d variant cand = Some picks ->
  picks = [] \/ (exists x, picks = [x]) \/ exists x y, picks = [x; y].
Proof.
  unfold fd_picks.
  destruct (pick_best db st d cand "Front Desk" variant) as [[a|]|];
    [|intros H; injection H as <-; now left | discriminate].
  destruct (pick_best db st d _ "Front Desk" variant) as [[b|]|];
    [| |discriminate]; intros H; injection H as <-; right; eauto.
Qed.

Lemma index_of_bound name l i :
  index_of name l = Some i -> 0 <= i < Z.of_nat (List.length l).
Proof.
  revert i. induction l as [|x l IH]; intros i; simpl; [discriminate|].
  destruct (x =? name)%string.
  - intros H. injection H as <-. lia.
  - destruct (index_of name l) as [j|]; [|discriminate].
    intros H. injection H as <-. specialize (IH j eq_refl). lia.
Qed.

Lemma seniority_rank_exception db r :
  emp_name_get db r = "Ryan" -> _seniority_rank db r = 10000.
Proof. intros H. unfold _seniority_rank. now rewrite H. Qed.

Lemma seniority_rank_others db x :
  emp_name_get db x <> "Ryan" -> _seniority_rank db x < 10000.
Proof.
  intros H. unfold _seniority_rank.
  destruct (String.eqb_spec (emp_name_get db x) "Ryan"); [contradiction|].
  destruct (index_of _ SENIORITY_ORDER) as [i|] eqn:E; [|lia].
  apply index_of_bound in E. simpl in E. lia.
Qed.

Lemma fd_assign_pair db w d variant l0 l1 st pool a b :
  a <> b ->
  cell (g_rows st) w a d = Some "Set" -> cell (g_rows st) w b d = Some "Set" ->
  let st' := fst (fd_assign db w d variant [l0; l1] 2 0 [a; b] (st, pool)) in
  cell (g_rows st') w a d = Some l0 /\ cell (g_rows st') w b d = Some l1.
Proof.
  intros Hne Ha Hb. cbn [fd_assign fst snd]. unfold stagger_label.
  cbn [Nat.eqb andb Nat.ltb Nat.leb List.length nth]. split.
  - rewrite record_assignment_cell_other by congruence.
    rewrite record_assignment_cell_same, Ha. reflexivity.
  - rewrite record_assignment_cell_same.
    rewrite record_assignment_cell_other by congruence.
    rewrite Hb. reflexivity.
Qed.

Lemma fd_assign_alone db w d variant l0 l1 st pool r :
  emp_name_get db r = "Ryan" -> cell (g_rows st) w r d = Some "Set" ->
  cell (g_rows (fst (fd_assign db w d variant [l0; l1] 1 0 [r] (st, pool))))
       w r d = Some l1.
Proof.
  intros Hr Hc. cbn [fd_assign fst snd]. unfold stagger_label. rewrite Hr.
  cbn [Nat.eqb andb Nat.ltb Nat.leb List.length nth String.eqb].
  rewrite record_assignment_cell_same, Hc. reflexivity.
Qed.

(** C5. In the reception pass, when the scan of the pool for a variant of
    a day leaves candidates and the two rounds of the ranker return
    [picks], the variant is assigned as follows.  When two workers are
    picked, in whichever order, the one with the smaller seniority rank
    (the position of the worker's name in the seniority list) receives the
    earlier stagger label and the other the later.  The worker named Ryan
    receives the later stagger label whether picked alone or with a worker
    of another name. *)
Theorem stagger_labels_by_seniority db w d st pool variant opts st1 cand picks :
  In (variant, opts) FD_VARIANTS ->
  foldM (fd_consider db w d variant) pool (st, []) = Some (st1, cand) ->
  cand <> [] ->
  fd_picks db st1 d variant cand = Some picks ->
  exists st' pool',
    fd_slot db w d (st, pool) (variant, opts) = Some (st', pool')
    /\ (forall a b, picks = [a; b] \/ picks = [b; a] ->
          _seniority_rank db a < _seniority_rank db b ->
          cell (g_rows st') w a d = Some (nth 0 opts "")
          /\ cell (g_rows st') w b d = Some (nth 1 opts ""))
    /\ (forall r, In r picks -> emp_name_get db r = "Ryan" ->
          (forall x, In x picks -> x <> r -> emp_name_get db x <> "Ryan") ->
          cell (g_rows st') w r d = Some (nth 1 opts "")).
Proof.
  intros Hv Hscan Hcand Hpicks.
  assert (Hopts : exists l0 l1, opts = [l0; l1]).
  { cbv [FD_VARIANTS In] in Hv.
    repeat (destruct Hv as [Hv|Hv]; [injection Hv as <- <-; eauto|]).
    contradiction. }
  destruct Hopts as [l0 [l1 ->]].
  destruct (fd_scan db w d variant pool st [] st1 cand Hscan)
    as [_ [_ [_ [_ Hel]]]]; [intros e []|].
  destruct (fd_picks_spec _ _ _ _ _ _ Hpicks) as [Hnd Hincl].
  assert (Hset : forall e, In e picks -> cell (g_rows st1) w e d = Some "Set").
  { intros e He. apply Hincl in He. apply Hel in He. apply He. }
  assert (Hpair : forall a b, picks = [a; b] \/ picks = [b; a] ->
            _seniority_rank db a < _seniority_rank db b ->
            let st' := fst (fd_assign db w d variant [l0; l1]
                              (List.length (sort_picks db picks)) 0
                              (sort_picks db picks) (st1, pool)) in
            cell (g_rows st') w a d = Some l0
            /\ cell (g_rows st') w b d = Some l1).
  { intros a b Hp Hr. destruct (sort_picks_pair db a b Hr) as [S1 S2].
    assert (Hs : sort_picks db picks = [a; b])
      by (destruct Hp as [-> | ->]; assumption).
    rewrite Hs. cbn [List.length]. apply fd_assign_pair.
    - intros ->. lia.
    - apply Hset. destruct Hp as [-> | ->]; simpl; auto.
    - apply Hset. destruct Hp as [-> | ->]; simpl; auto. }
  unfold fd_slot. cbn [fst snd]. rewrite Hscan. cbn [snd fst].
  destruct cand as [|c cand]; [contradiction|].
  rewrite Hpicks.
  eexists. eexists. split; [apply f_equal; apply surjective_pairing|].
  split; [exact Hpair|].
  intros r Hin Hr Hothers.
  destruct (fd_picks_shape _ _ _ _ _ _ Hpicks) as [->|[[x ->]|[x [y ->]]]].
  - destruct Hin.
  - destruct Hin as [->|[]]. cbn [sort_picks]. unfold sort_picks, sort_by.
    cbn [map fold_right insert_by snd List.length].
    apply fd_assign_alone; [assumption|]. apply Hset. now left.
  - inversion Hnd as [|? ? Hnx _]; subst.
    assert (Hxy : x <> y) by (intros ->; apply Hnx; now left).
    destruct Hin as [->|[->|[]]].
    + apply (Hpair y r); [now right|].
      rewrite (seniority_rank_exception db r Hr).
      apply seniority_rank_others. apply Hothers; [simpl; auto | congruence].
    + apply (Hpair x r); [now left|].
      rewrite (seniority_rank_exception db r Hr).
      apply seniority_rank_others. apply Hothers; [simpl; auto | congruence].
Qed.

(** ** The theorems at work on the examples *)

Lemma rest_rule_respected_witness :
  (fd_shift "PM" "PM (2:00PM–10:00PM)" = true ->
   fd_shift "AM" "Audit (10:00PM–6:00AM)" = false)
  /\ (fd_shift "Audit" "PM (2:00PM–10:00PM)" = true ->
      fd_shift "PM" "Audit (10:00PM–6:00AM)" = false)
  /\ (sh_shift "PM" "PM (2:00PM–10:00PM)" = true
      \/ sh_shift "Crew" "PM (2:00PM–10:00PM)" = true ->
      sh_shift "AM" "Audit (10:00PM–6:00AM)" = false)
  /\ (sh_shift "Crew" "PM (2:00PM–10:00PM)" = true ->
      sh_shift "Midday" "Audit (10:00PM–6:00AM)" = false).
Proof.
  apply (rest_rule_respected set_order db_desk 1 (mkWeek 1 BASELINE)
           db_desk_generated 3 BASELINE).
  - vm_compute. reflexivity.
  - vm_compute. reflexivity.
  - vm_compute. reflexivity.
  - simpl. lia.
  - simpl. unfold BASELINE. lia.
  - vm_compute. reflexivity.
  - vm_compute. reflexivity.
Defined.

Lemma ranker_larger_seniority_first_witness : precedes 2 1 [2; 1].
Proof.
  refine (proj1 (ranker_larger_seniority_first db_two_ranked fresh_state
                   "Front Desk" "AM" [1; 2] [2; 1] 2 1
                   (1, 1, 1, -2, 0) (1, 1, 1, -1, 0)
                   (mkInfo "Front Desk" 2 None None None)
                   (mkInfo "Front Desk" 1 None None None)
                   _ _ _ _ _ _) _).
  - vm_compute. reflexivity.
  - vm_compute. reflexivity.
  - vm_compute. reflexivity.
  - reflexivity.
  - vm_compute. reflexivity.
  - vm_compute. reflexivity.
  - simpl. lia.
Defined.


Lemma stagger_labels_by_seniority_witness :
  exists st' pool',
    fd_slot db_desk 1 BASELINE (desk_start, [1; 2; 3])
            ("AM", ["AM (6:00AM–2:00PM)"; "AM (6:15AM–2:15PM)"])
    = Some (st', pool')
    /\ (forall a b, [2; 1] = [a; b] \/ [2; 1] = [b; a] ->
          _seniority_rank db_desk a < _seniority_rank db_desk b ->
          cell (g_rows st') 1 a BASELINE = Some "AM (6:00AM–2:00PM)"
          /\ cell (g_rows st') 1 b BASELINE = Some "AM (6:15AM–2:15PM)")
    /\ (forall r, In r [2; 1] -> emp_name_get db_desk r = "Ryan" ->
          (forall x, In x [2; 1] -> x <> r -> emp_name_get db_desk x <> "Ryan") ->
          cell (g_rows st') 1 r BASELINE = Some "AM (6:15AM–2:15PM)").
Proof.
  apply (stagger_labels_by_seniority db_desk 1 BASELINE desk_start [1; 2; 3]
           "AM" ["AM (6:00AM–2:00PM)"; "AM (6:15AM–2:15PM)"]
           desk_scanned [1; 2] [2; 1]).
  - simpl. auto.
  - vm_compute. reflexivity.
  - discriminate.
  - vm_compute. reflexivity.
Defined.

Lemma leave_sync_idempotent_witness :
  exists db1,
    sync_timeoff_to_assignments 1 db_approved_leave = Some db1
    /\ leave_applied db1 1 BASELINE
    /\ sync_timeoff_to_assignments 1 db1 = Some db1
    /\ forall start_week_id db2,
         generate_4_week_schedule set_order db1 start_week_id = Some db2 ->
         exists db3,
           sync_timeoff_to_assignments 1 db2 = Some db3
           /\ timeoff db3 = timeoff db_approved_leave
           /\ employees db3 = employees db_approved_leave
           /\ leave_applied db3 1 BASELINE.
Proof.
  apply (leave_sync_idempotent set_order db_approved_leave 1
           (mkWeek 1 BASELINE)).
  reflexivity.
Defined.



Lemma double_booked_report_empty_witness :
  (str_in "AM (6:00AM–2:00PM)" BREAKFAST_SHIFTS
   && str_in "AM (6:00AM–2:00PM)" FRONT_DESK_SHIFTS = false)
  /\ (str_in "AM (6:00AM–2:00PM)" BREAKFAST_SHIFTS
      && str_in "AM (6:00AM–2:00PM)" SHUTTLE_SHIFTS = false)
  /\ (str_in "AM (6:00AM–2:00PM)" FRONT_DESK_SHIFTS
      && str_in "AM (6:00AM–2:00PM)" SHUTTLE_SHIFTS = false).
Proof.
  apply (proj1 double_booked_report_empty "AM (6:00AM–2:00PM)").
  reflexivity.
Defined.


(** * The rest of the application *)

(** ** Rows, position by position *)

Lemma update_first_Forall2 (R : Assignment -> Assignment -> Prop) p f rows :
  (forall a, R a a) -> (forall a, p a = true -> R a (f a)) ->
  Forall2 R rows (update_first p f rows).
Proof.
  intros Hr Hf. induction rows as [|a rows IH]; simpl; [constructor|].
  destruct (p a) eqn:E.
  - constructor; [now apply Hf|]. clear IH.
    induction rows; constructor; auto.
  - constructor; auto.
Qed.

Lemma Forall2_refl' {A : Type} (R : A -> A -> Prop) l :
  (forall a, R a a) -> Forall2 R l l.
Proof. intros H. induction l; constructor; auto. Qed.

Lemma Forall2_trans' {A : Type} (R : A -> A -> Prop) l1 :
  (forall a b c, R a b -> R b c -> R a c) ->
  forall l2 l3, Forall2 R l1 l2 -> Forall2 R l2 l3 -> Forall2 R l1 l3.
Proof.
  intros Ht. induction l1 as [|a l1 IH]; intros l2 l3 H1 H2.
  - inversion H1; subst. inversion H2; subst. constructor.
  - inversion H1 as [|? b ? l2' Hab H1']; subst.
    inversion H2 as [|? c ? l3' Hbc H2']; subst.
    constructor; [eapply Ht; eassumption | eapply IH; eassumption].
Qed.

Lemma leave_forced_refl db w a : leave_forced db w a a.
Proof. now left. Qed.

Lemma leave_forced_trans db w a b c :
  leave_forced db w a b -> leave_forced db w b c -> leave_forced db w a c.
Proof.
  intros [->|[-> [Hw Hemp]]] [->|[-> [Hw' Hemp']]].
  - now left.
  - right. auto.
  - right. auto.
  - right. split; [reflexivity | auto].
Qed.

Lemma sync_rows_forced db w days rows :
  Forall2 (leave_forced db w) rows (sync_rows db w days rows).
Proof.
  unfold sync_rows.
  assert (G : forall emps, incl emps (employees db) -> forall rows,
    Forall2 (leave_forced db w) rows
      (fold_left (fun rows emp => fold_left (sync_cell db w emp) days rows)
                 emps rows)).
  { induction emps as [|emp emps IH]; intros Hincl rows0; cbn [fold_left].
    - apply Forall2_refl'. apply leave_forced_refl.
    - eapply Forall2_trans'; [apply leave_forced_trans| |apply IH].
      + clear IH. revert rows0.
        induction days as [|d0 days IHd]; intros rows0; cbn [fold_left].
        * apply Forall2_refl'. apply leave_forced_refl.
        * eapply Forall2_trans'; [apply leave_forced_trans| |apply IHd].
          unfold sync_cell.
          destruct (has_approved_timeoff db (emp_name emp) d0) eqn:Happ;
            [|apply Forall2_refl'; apply leave_forced_refl].
          apply update_first_Forall2; [apply leave_forced_refl|].
          intros a Ha. apply is_row_true in Ha. destruct Ha as [Hw [He Hd]].
          unfold force_time_off.
          destruct (a_value a =? TIME_OFF_LABEL)%string; [now left|].
          right. split; [reflexivity|]. split; [assumption|].
          exists emp. split; [apply Hincl; now left|].
          split; [now rewrite He | now rewrite Hd].
      + intros x Hx. apply Hincl. now right. }
  apply G. apply incl_refl.
Qed.

(** X1. Leave synchronisation of a week keeps every table but the rows,
    keeps the rows in their places, and changes a row only by writing
    TIME OFF into it, and only a row of that week whose worker has an
    approved Leave Request that covers the row's date. *)
Theorem sync_changes_only_rows_on_leave w db db1 :
  sync_timeoff_to_assignments w db = Some db1 ->
  sections db1 = sections db /\ employees db1 = employees db
  /\ employee_roles db1 = employee_roles db
  /\ employee_availability db1 = employee_availability db
  /\ weeks db1 = weeks db /\ timeoff db1 = timeoff db
  /\ Forall2 (leave_forced db w) (assignments db) (assignments db1).
Proof.
  unfold sync_timeoff_to_assignments.
  destruct (get_week db w) as [wk|]; [|discriminate].
  intros H. injection H as <-. do 6 (split; [reflexivity|]).
  apply sync_rows_forced.
Qed.

(** ** Weeks and their rows *)

Lemma ensure_days_app w emp days : forall rows,
  exists extra,
    fold_left (ensure_row w emp) days rows = rows ++ extra
    /\ forall a, In a extra ->
         exists d, In d days /\ a = mkAssignment w (emp_id emp) d "Set" false.
Proof.
  induction days as [|d0 days IH]; intros rows; cbn [fold_left].
  - exists []. split; [now rewrite app_nil_r | intros a []].
  - destruct (IH (ensure_row w emp rows d0)) as [extra [E Hx]]. unfold ensure_row in *.
    destruct (find_assignment rows w (emp_id emp) d0) as [a0|].
    + exists extra. split; [assumption|]. intros a Ha.
      destruct (Hx a Ha) as [d [Hd ->]]. exists d. split; [now right | reflexivity].
    + exists (mkAssignment w (emp_id emp) d0 "Set" false :: extra).
      split; [now rewrite E, <- app_assoc|].
      intros a [<-|Ha]; [exists d0; split; [now left | reflexivity]|].
      destruct (Hx a Ha) as [d [Hd ->]]. exists d. split; [now right | reflexivity].
Qed.

Lemma ensure_rows_app db0 wk rows :
  exists extra,
    ensure_rows db0 wk rows = rows ++ extra
    /\ forall a, In a extra ->
         exists emp d, In emp (employees db0)
           /\ In d (daterange (wk_start_date wk) 7)
           /\ a = mkAssignment (wk_id wk) (emp_id emp) d "Set" false.
Proof.
  unfold ensure_rows.
  assert (G : forall emps, incl emps (employees db0) -> forall rows0,
    exists extra,
      fold_left (fun rows emp =>
                   fold_left (ensure_row (wk_id wk) emp)
                             (daterange (wk_start_date wk) 7) rows)
                emps rows0 = rows0 ++ extra
      /\ forall a, In a extra ->
           exists emp d, In emp (employees db0)
             /\ In d (daterange (wk_start_date wk) 7)
             /\ a = mkAssignment (wk_id wk) (emp_id emp) d "Set" false).
  { induction emps as [|emp emps IH]; intros Hincl rows0; cbn [fold_left].
    - exists []. split; [now rewrite app_nil_r | intros a []].
    - destruct (ensure_days_app (wk_id wk) emp
                  (daterange (wk_start_date wk) 7) rows0) as [x1 [E1 H1]].
      rewrite E1.
      destruct (IH (fun x Hx => Hincl x (or_intror Hx)) (rows0 ++ x1))
        as [x2 [E2 H2]].
      exists (x1 ++ x2). split; [now rewrite E2, <- app_assoc|].
      intros a Ha. apply in_app_or in Ha. destruct Ha as [Ha|Ha]; [|auto].
      destruct (H1 a Ha) as [d [Hd ->]]. exists emp, d.
      split; [apply Hincl; now left | auto]. }
  apply G. apply incl_refl.
Qed.

Lemma ensure_row_has w emp rows d :
  find_assignment (ensure_row w emp rows d) w (emp_id emp) d <> None.
Proof.
  unfold ensure_row.
  destruct (find_assignment rows w (emp_id emp) d) eqn:E; [now rewrite E|].
  unfold find_assignment in *. rewrite find_app_none by assumption.
  simpl. unfold is_row. simpl. now rewrite !Z.eqb_refl.
Qed.

Lemma find_assignment_app_keep rows extra w e d :
  find_assignment rows w e d <> None ->
  find_assignment (rows ++ extra) w e d = find_assignment rows w e d.
Proof.
  unfold find_assignment. destruct (find (is_row w e d) rows) eqn:E;
    [|contradiction]. intros _. now apply find_app_some.
Qed.

Lemma ensure_days_has w emp days : forall rows d,
  In d days ->
  find_assignment (fold_left (ensure_row w emp) days rows) w (emp_id emp) d
  <> None.
Proof.
  induction days as [|d0 days IH]; intros rows d Hd; [destruct Hd|].
  destruct Hd as [<-|Hd]; cbn [fold_left].
  - destruct (ensure_days_app w emp days (ensure_row w emp rows d0))
      as [extra [E _]].
    rewrite E, find_assignment_app_keep; apply ensure_row_has.
  - now apply IH.
Qed.

Lemma ensure_emps_keep wk days emps w e d : forall rows,
  find_assignment rows w e d <> None ->
  find_assignment
    (fold_left (fun rows emp => fold_left (ensure_row (wk_id wk) emp) days rows)
               emps rows) w e d <> None.
Proof.
  induction emps as [|e1 emps IH]; intros rows H; cbn [fold_left];
    [assumption|].
  apply IH.
  destruct (ensure_days_app (wk_id wk) e1 days rows) as [extra [E _]].
  rewrite E, find_assignment_app_keep; assumption.
Qed.

Lemma ensure_rows_has db0 wk rows emp d :
  In emp (employees db0) -> In d (daterange (wk_start_date wk) 7) ->
  find_assignment (ensure_rows db0 wk rows) (wk_id wk) (emp_id emp) d <> None.
Proof.
  unfold ensure_rows. generalize (employees db0) as emps. intros emps.
  revert rows. induction emps as [|e0 emps IH]; intros rows He Hd;
    [destruct He|].
  destruct He as [<-|He]; cbn [fold_left].
  - apply ensure_emps_keep. now apply ensure_days_has.
  - now apply IH.
Qed.

Lemma ensure_rows_fix db0 wk rows :
  (forall emp d, In emp (employees db0) ->
     In d (daterange (wk_start_date wk) 7) ->
     find_assignment rows (wk_id wk) (emp_id emp) d <> None) ->
  ensure_rows db0 wk rows = rows.
Proof.
  unfold ensure_rows. generalize (employees db0) as emps. intros emps.
  induction emps as [|e0 emps IH]; intros H; cbn [fold_left]; [reflexivity|].
  assert (E : fold_left (ensure_row (wk_id wk) e0)
                        (daterange (wk_start_date wk) 7) rows = rows).
  { assert (H0 : forall d, In d (daterange (wk_start_date wk) 7) ->
                  find_assignment rows (wk_id wk) (emp_id e0) d <> None)
      by (intros d Hd; apply H; [now left | assumption]).
    revert H0. generalize (daterange (wk_start_date wk) 7) as days.
    induction days as [|d0 days IHd]; intros H0; cbn [fold_left];
      [reflexivity|].
    unfold ensure_row at 2.
    destruct (find_assignment rows (wk_id wk) (emp_id e0) d0) eqn:F.
    - apply IHd. intros d Hd. apply H0. now right.
    - exfalso. apply (H0 d0 (or_introl eq_refl) F). }
  rewrite E. apply IH. intros emp d He Hd. apply H; [now right | assumption].
Qed.

(** X2. [_ensure_week_and_assignments] returns a week that starts on the
    date asked for and is in the table; it keeps every row there was, in
    place, and only appends placeholder rows of that week for employees of
    the table; afterwards every employee has a row for each of the seven
    days; and a second call changes nothing and returns the same week. *)
Theorem ensure_week_complete db start_d :
  let db' := fst (_ensure_week_and_assignments db start_d) in
  let wk := snd (_ensure_week_and_assignments db start_d) in
  wk_start_date wk = start_d /\ In wk (weeks db')
  /\ (exists extra,
        assignments db' = assignments db ++ extra
        /\ forall a, In a extra ->
             exists emp d, In emp (employees db) /\ In d (daterange start_d 7)
               /\ a = mkAssignment (wk_id wk) (emp_id emp) d "Set" false)
  /\ (forall emp d, In emp (employees db) -> In d (daterange start_d 7) ->
        find_assignment (assignments db') (wk_id wk) (emp_id emp) d <> None)
  /\ _ensure_week_and_assignments db' start_d = (db', wk).
Proof.
  intros db' wk.
  pose proof (ensure_week_starting db start_d) as Hws. fold db' wk in Hws.
  destruct (week_starting_start _ _ _ Hws) as [Hs Hin].
  pose proof (ensure_week_assignments db start_d) as Hrows. fold db' wk in Hrows.
  assert (Hemp : employees db' = employees db).
  { unfold db', _ensure_week_and_assignments.
    destruct (week_starting db start_d); reflexivity. }
  split; [assumption|]. split; [assumption|].
  assert (Hhas : forall emp d, In emp (employees db) ->
            In d (daterange start_d 7) ->
            find_assignment (assignments db') (wk_id wk) (emp_id emp) d
            <> None).
  { intros emp d He Hd. rewrite Hrows. apply ensure_rows_has; [assumption|].
    now rewrite Hs. }
  split; [|split; [exact Hhas|]].
  - rewrite Hrows. destruct (ensure_rows_app db wk (assignments db))
      as [extra [E Hx]].
    exists extra. split; [assumption|]. now rewrite <- Hs.
  - unfold _ensure_week_and_assignments at 1. rewrite Hws.
    rewrite ensure_rows_fix.
    + destruct db'; reflexivity.
    + intros emp d He Hd. rewrite Hemp in He. rewrite Hs in Hd. now apply Hhas.
Qed.

(** ** What the generator leaves alone *)

Lemma Forall2_compose {A : Type} (R1 R2 R3 : A -> A -> Prop) l1 :
  (forall a b c, R1 a b -> R2 b c -> R3 a c) ->
  forall l2 l3, Forall2 R1 l1 l2 -> Forall2 R2 l2 l3 -> Forall2 R3 l1 l3.
Proof.
  intros Ht. induction l1 as [|a l1 IH]; intros l2 l3 H1 H2.
  - inversion H1; subst. inversion H2; subst. constructor.
  - inversion H1 as [|? b ? l2' Hab H1']; subst.
    inversion H2 as [|? c ? l3' Hbc H2']; subst.
    constructor; [eapply Ht; eassumption | eapply IH; eassumption].
Qed.

Lemma same_row_of_refl w a : same_row_of w a a.
Proof. now left. Qed.

Lemma same_row_of_trans w a b c :
  same_row_of w a b -> same_row_of w b c -> same_row_of w a c.
Proof.
  intros [->|[Hw Hk]] [->|[Hw' Hk']].
  - now left.
  - right. auto.
  - right. auto.
  - right. split; [assumption | congruence].
Qed.

Lemma update_first_same_row w e d f rows :
  keeps_key f ->
  Forall2 (same_row_of w) rows (update_first (is_row w e d) f rows).
Proof.
  intros Hk. apply update_first_Forall2; [apply same_row_of_refl|].
  intros a Ha. apply is_row_true in Ha. destruct Ha as [Hw _].
  right. split; [assumption|]. unfold key3.
  destruct (Hk a) as [-> [-> ->]]. reflexivity.
Qed.

Lemma reset_week_same_row w rows :
  Forall2 (same_row_of w) rows (reset_week w rows).
Proof.
  unfold reset_week. induction rows as [|a rows IH]; simpl; constructor;
    [|assumption].
  destruct (Z.eqb_spec (a_week_id a) w); [|now left].
  right. split; [assumption | reflexivity].
Qed.

Lemma steps_same_row db w resv role d st st' :
  day_steps db w resv role d st st' ->
  Forall2 (same_row_of w) (g_rows st) (g_rows st').
Proof.
  induction 1 as [st|st e st' Hl Hr Hs IH|st e tok label st' Hc Hs IH].
  - apply Forall2_refl'. apply same_row_of_refl.
  - eapply Forall2_trans'; [apply same_row_of_trans| |exact IH].
    cbn [g_rows _mark_dismissed]. apply update_first_same_row. auto with rows.
  - eapply Forall2_trans'; [apply same_row_of_trans| |exact IH].
    unfold record_assignment.
    destruct (find_assignment (g_rows st) w e d);
      [|apply Forall2_refl'; apply same_row_of_refl].
    cbn [g_rows]. apply update_first_same_row. auto with rows.
Qed.

Lemma chain_same_row db w resv role days st st' :
  day_chain db w resv role days st st' ->
  Forall2 (same_row_of w) (g_rows st) (g_rows st').
Proof.
  induction 1 as [st|d ds st st1 st2 Hs Hc IH].
  - apply Forall2_refl'. apply same_row_of_refl.
  - eapply Forall2_trans'; [apply same_row_of_trans| |exact IH].
    eapply steps_same_row. exact Hs.
Qed.

Lemma leave_forced_same_row db w a a' :
  leave_forced db w a a' -> same_row_of w a a'.
Proof.
  intros [->|[-> [Hw _]]]; [now left|]. right. split; [assumption|reflexivity].
Qed.

Lemma Forall2_weaken {A : Type} (R R' : A -> A -> Prop) l l' :
  (forall a b, R a b -> R' a b) -> Forall2 R l l' -> Forall2 R' l l'.
Proof. intros H. induction 1; constructor; auto. Qed.

Lemma generate_week_rows set_iter origin base db k db' :
  generate_week set_iter origin base db k = Some db' ->
  let wk := snd (_ensure_week_and_assignments db (base + 7 * k)) in
  exists extra,
    Forall2 (same_row_of (wk_id wk)) (assignments db ++ extra) (assignments db')
    /\ forall a, In a extra -> a_week_id a = wk_id wk.
Proof.
  intros Hg wk. pose proof (ensure_week_assignments db (base + 7 * k)) as Hrows.
  unfold generate_week in Hg.
  set (ew := _ensure_week_and_assignments db (base + 7 * k)) in *.
  fold wk in Hg, Hrows.
  destruct (week_passes set_iter origin (wk_id wk) (wk_start_date wk)
              (reset_week (wk_id wk) (assignments (fst ew))))
    as [st|] eqn:Hp; [|discriminate].
  apply week_passes_chain in Hp. destruct Hp as [st1 [st2 [C1 [C2 C3]]]].
  unfold sync_timeoff_to_assignments in Hg.
  destruct (get_week _ _) as [wk'|]; [|discriminate].
  injection Hg as <-. cbn [assignments with_assignments].
  destruct (ensure_rows_app db wk (assignments db)) as [extra [E Hx]].
  exists extra. split.
  - rewrite <- E, <- Hrows.
    eapply Forall2_trans'; [apply same_row_of_trans| |].
    + apply reset_week_same_row.
    + eapply Forall2_trans'; [apply same_row_of_trans| |].
      { apply (chain_same_row _ _ _ _ _ _ _ C1). }
      eapply Forall2_trans'; [apply same_row_of_trans| |].
      { apply (chain_same_row _ _ _ _ _ _ _ C2). }
      eapply Forall2_trans'; [apply same_row_of_trans| |].
      { apply (chain_same_row _ _ _ _ _ _ _ C3). }
      eapply Forall2_weaken; [|apply sync_rows_forced].
      apply leave_forced_same_row.
  - intros a Ha. destruct (Hx a Ha) as [emp [d [_ [_ ->]]]]. reflexivity.
Qed.

Lemma horizon_week_extends a b base w :
  extends a b -> horizon_week a base w -> horizon_week b base w.
Proof.
  intros He [k [wk [Hk [Hws Hw]]]]. exists k, wk.
  split; [assumption|]. split; [|assumption].
  eapply extends_week_starting; eassumption.
Qed.

Lemma generate_rows set_iter db base db' :
  foldM (generate_week set_iter db base) [0; 1; 2; 3] db = Some db' ->
  exists extra,
    Forall2 (regenerated db' base) (assignments db ++ extra) (assignments db')
    /\ forall a, In a extra -> horizon_week db' base (a_week_id a).
Proof.
  intros H.
  apply (foldM_inv
           (fun dbk =>
              exists extra,
                Forall2 (regenerated dbk base) (assignments db ++ extra)
                        (assignments dbk)
                /\ forall a, In a extra -> horizon_week dbk base (a_week_id a))
           (generate_week set_iter db base) [0; 1; 2; 3])
    with (s := db) (s' := db'); [| |exact H].
  - intros s x s' Hx [extra [HF Hex]] Hg.
    pose proof (generate_week_extends _ _ _ _ _ _ Hg) as Hext.
    pose proof (generate_week_week _ _ _ _ _ _ Hg) as Hws.
    destruct (generate_week_rows _ _ _ _ _ _ Hg) as [extra' [HF' Hex']].
    assert (Hh : horizon_week s' base
                   (wk_id (snd (_ensure_week_and_assignments s (base + 7 * x)))))
      by (exists x; eexists; eauto).
    exists (extra ++ extra'). split.
    + rewrite app_assoc.
      apply (Forall2_compose (regenerated s base)
               (same_row_of
                  (wk_id (snd (_ensure_week_and_assignments s (base + 7 * x)))))
               (regenerated s' base) _)
        with (l2 := assignments s ++ extra'); [| |exact HF'].
      * intros a b c [->|[Hk Hw]] [->|[Hw' Hk']].
        -- now left.
        -- right. split; [assumption|]. now rewrite Hw'.
        -- right. split; [assumption|].
           eapply horizon_week_extends; eassumption.
        -- right. split; [congruence|].
           eapply horizon_week_extends; eassumption.
      * apply Forall2_app; [assumption|]. apply Forall2_refl'. now left.
    + intros a Ha. apply in_app_or in Ha. destruct Ha as [Ha|Ha].
      * eapply horizon_week_extends; [exact Hext | now apply Hex].
      * rewrite (Hex' a Ha). exact Hh.
  - exists []. rewrite app_nil_r. split; [|intros a []].
    apply Forall2_refl'. now left.
Qed.

(** X3. A returning run of the generator keeps every row in its place with
    its key, and keeps the rows of every week outside the four weeks of the
    horizon exactly as they were; the rows it adds come after the old ones
    and belong to weeks of the horizon; the tables of sections, employees,
    secondary roles, availability and Leave Requests are as before, and
    weeks are only added.  Called with the id of no week, it changes
    nothing. *)
Theorem generator_touches_only_its_weeks set_iter db start_week_id db' :
  generate_4_week_schedule set_iter db start_week_id = Some db' ->
  extends db db'
  /\ (get_week db start_week_id = None -> db' = db)
  /\ forall base_week, get_week db start_week_id = Some base_week ->
       exists extra,
         Forall2 (regenerated db' (wk_start_date base_week))
                 (assignments db ++ extra) (assignments db')
         /\ forall a, In a extra ->
              horizon_week db' (wk_start_date base_week) (a_week_id a).
Proof.
  intros Hg. split; [eapply generate_extends; eassumption|].
  unfold generate_4_week_schedule in Hg. split.
  - intros Hn. rewrite Hn in Hg. now injection Hg as <-.
  - intros base_week Hb. rewrite Hb in Hg. now apply generate_rows in Hg.
Qed.

(** ** Who holds the generated shifts *)

Lemma writes_at_refl w V rows : writes_at w V rows rows.
Proof. intros e d. now left. Qed.

Lemma writes_at_trans w V a b c :
  writes_at w V a b -> writes_at w V b c -> writes_at w V a c.
Proof.
  intros H1 H2 e d. destruct (H2 e d) as [E|E]; [|now right].
  rewrite E. apply H1.
Qed.

Lemma writes_at_weaken w (V V' : Z -> date -> string -> Prop) a b :
  (forall e d v, V e d v -> V' e d v) -> writes_at w V a b -> writes_at w V' a b.
Proof.
  intros H H1 e d. destruct (H1 e d) as [E|[v [Hv E]]]; [now left|].
  right. exists v. auto.
Qed.

Lemma writes_at_core w V rows rows' :
  core rows' = core rows -> writes_at w V rows rows'.
Proof. intros H e d. left. now apply cell_core. Qed.

Lemma list_remove_incl x l : incl (list_remove x l) l.
Proof.
  induction l as [|y l IH]; simpl; [apply incl_refl|].
  destruct (y =? x); [apply incl_tl, incl_refl|].
  intros z [<-|Hz]; [now left | right; now apply IH].
Qed.

Lemma fd_available_label e variant opts v d idx :
  In (variant, opts) FD_VARIANTS -> In v opts ->
  _is_available e "Front Desk" v d idx
  = _is_available e "Front Desk" variant d idx.
Proof.
  intros Hv Hl. cbv [FD_VARIANTS In] in Hv.
  repeat (destruct Hv as [Hv|Hv]; [injection Hv as <- <-|]);
    try contradiction;
    cbv [In] in Hl; repeat (destruct Hl as [<-|Hl]); try contradiction;
    reflexivity.
Qed.

Section Grants.

Variable set_iter : list Z -> list Z.
Variable db : DB.
Variable w : Z.

Lemma fd_scan_cand d variant pool : forall st cand st' cand',
  foldM (fd_consider db w d variant) pool (st, cand) = Some (st', cand') ->
  incl cand' (cand ++ pool).
Proof.
  induction pool as [|eid pool IH]; intros st cand st' cand' H;
    cbn [foldM] in H.
  - injection H as _ <-. now rewrite app_nil_r.
  - destruct (fd_consider db w d variant (st, cand) eid) as [[s1 c1]|] eqn:E;
      [|discriminate].
    apply IH in H.
    assert (Hc : c1 = cand \/ c1 = cand ++ [eid]).
    { unfold fd_consider in E. cbn [fst snd] in E.
      destruct (find_assignment (g_rows st) w eid d);
        [|injection E as _ <-; now left].
      destruct (negb _); [injection E as _ <-; now left|].
      destruct (negb _); [injection E as _ <-; now left|].
      destruct (negb _); [injection E as _ <-; now left|].
      destruct (has_any_timeoff _ _ _); [injection E as _ <-; now left|].
      destruct (max_reached db st eid "Front Desk") as [[|]|];
        [injection E as _ <-; now left
        |injection E as _ <-; now right | discriminate]. }
    intros x Hx. apply H in Hx. apply in_app_or in Hx. apply in_or_app.
    destruct Hx as [Hx|Hx]; [|right; now right].
    destruct Hc as [-> | ->]; [now left|].
    apply in_app_or in Hx. destruct Hx as [Hx|[<-|[]]];
      [now left | right; now left].
Qed.

Lemma fd_assign_cells d variant opts n : forall picks i st pool,
  List.length opts = 2%nat ->
  writes_at w (fun e d' v => d' = d /\ In v opts /\ In e picks)
            (g_rows st)
            (g_rows (fst (fd_assign db w d variant opts n i picks (st, pool)))).
Proof.
  induction picks as [|eid picks IH]; intros i st pool Hlen; cbn [fd_assign].
  - apply writes_at_refl.
  - cbn [fst snd].
    eapply writes_at_trans;
      [|eapply writes_at_weaken; [|apply (IH (S i) _ _ Hlen)]].
    + intros e d'.
      destruct (Z.eq_dec e eid) as [->|He];
        [destruct (Z.eq_dec d' d) as [->|Hd]|].
      * rewrite record_assignment_cell_same.
        destruct (cell (g_rows st) w eid d); [|now left].
        right. eexists. split; [|reflexivity].
        split; [reflexivity|]. split; [now apply stagger_label_in | now left].
      * left. apply record_assignment_cell_other. congruence.
      * left. apply record_assignment_cell_other. congruence.
    + intros e d' v [H1 [H2 H3]]. split; [assumption|].
      split; [assumption | now right].
Qed.

Lemma fd_slot_grants d st pool vo st' pool' :
  In vo FD_VARIANTS ->
  fd_slot db w d (st, pool) vo = Some (st', pool') ->
  writes_at w
    (fun e d' v => d' = d /\ In v (snd vo) /\ In e pool
                   /\ _is_available e "Front Desk" (fst vo) d (avail_idx db)
                      = true
                   /\ has_any_timeoff db (emp_name_get db e) d = false)
    (g_rows st) (g_rows st').
Proof.
  intros Hvo. destruct vo as [variant opts]. unfold fd_slot. cbn [fst snd].
  destruct (foldM (fd_consider db w d variant) pool (st, []))
    as [[st1 cand]|] eqn:Hsc; [|discriminate].
  destruct (fd_scan db w d variant pool st [] st1 cand Hsc)
    as [_ [_ [_ [Hcore Hel]]]]; [intros e []|].
  pose proof (fd_scan_cand d variant pool st [] st1 cand Hsc) as Hsub.
  cbn [fst snd].
  destruct cand as [|c cand].
  - intros H. injection H as <- _. now apply writes_at_core.
  - destruct (fd_picks db st1 d variant (c :: cand)) as [picks|] eqn:Hp;
      [|discriminate].
    intros H. injection H as H. apply (f_equal fst) in H. cbn [fst] in H.
    subst st'.
    destruct (fd_picks_spec _ _ _ _ _ _ Hp) as [_ Hincl].
    eapply writes_at_trans; [apply writes_at_core; exact Hcore|].
    eapply writes_at_weaken; [|apply fd_assign_cells].
    + intros e d' v [H1 [H2 H3]].
      assert (Hin : In e (c :: cand)).
      { apply Hincl. eapply Permutation_in; [apply sort_picks_perm | exact H3]. }
      destruct (Hel e Hin) as [_ [Hav [_ [Hto _]]]].
      split; [assumption|]. split; [assumption|].
      split; [apply Hsub in Hin; exact Hin | auto].
    + cbv [FD_VARIANTS In] in Hvo.
      repeat (destruct Hvo as [Hvo|Hvo]; [injection Hvo as <- <-; reflexivity|]).
      contradiction.
Qed.

Lemma fd_slot_pool d st pool vo st' pool' :
  fd_slot db w d (st, pool) vo = Some (st', pool') -> incl pool' pool.
Proof.
  unfold fd_slot. cbn [fst snd].
  destruct (foldM _ pool (st, [])) as [[st1 cand]|]; [|discriminate].
  cbn [fst snd]. destruct cand as [|c cand].
  - intros H. injection H as _ <-. apply incl_refl.
  - destruct (fd_picks _ _ _ _ _) as [picks|]; [|discriminate].
    intros H. injection H as H. apply (f_equal snd) in H. cbn [snd] in H.
    subst pool'.
    generalize (List.length (sort_picks db picks)) as n.
    generalize 0%nat as i. generalize st1 as s. generalize pool as p.
    induction (sort_picks db picks) as [|eid l IH]; intros p s i n;
      cbn [fd_assign snd]; [apply incl_refl|].
    eapply incl_tran; [apply IH|]. cbn [snd]. apply list_remove_incl.
Qed.

End Grants.

Section GrantsPasses.

Variable set_iter : list Z -> list Z.
Variable db : DB.
Variable w : Z.

Lemma fd_day_grants st d st' :
  fd_day set_iter db w st d = Some st' ->
  writes_at w (fun e d' v => d' = d /\ granted set_iter db e d v)
            (g_rows st) (g_rows st').
Proof.
  unfold fd_day.
  destruct (foldM (fd_slot db w d) FD_VARIANTS (st, fd_emp_ids set_iter db))
    as [[st1 pool1]|] eqn:E; [|discriminate].
  intros H. injection H as <-.
  apply (foldM_inv
           (fun acc =>
              writes_at w (fun e d' v => d' = d /\ granted set_iter db e d v)
                        (g_rows st) (g_rows (fst acc))
              /\ incl (snd acc) (fd_emp_ids set_iter db))
           (fd_slot db w d) FD_VARIANTS)
    with (s := (st, fd_emp_ids set_iter db)) (s' := (st1, pool1));
    [| |exact E].
  - intros [s p] vo [s' p'] Hin [Hw Hp] Hslot. cbn [fst snd] in *. split.
    + eapply writes_at_trans; [exact Hw|].
      eapply writes_at_weaken; [|eapply fd_slot_grants; eassumption].
      intros e d' v [H1 [H2 [H3 [H4 H5]]]]. split; [assumption|].
      exists "Front Desk". split; [now left|].
      split; [change (dept_labels "Front Desk") with FD_LABELS;
              unfold FD_LABELS; apply in_flat_map; eauto|].
      split; [apply Hp; exact H3|].
      split; [|assumption].
      destruct vo as [variant opts].
      rewrite (fd_available_label e variant opts v d _ Hin H2). exact H4.
    + eapply incl_tran; [eapply fd_slot_pool; eassumption | exact Hp].
  - split; [apply writes_at_refl | apply incl_refl].
Qed.

Lemma pass_grants (f : GenState -> date -> option GenState) days :
  (forall s d s', f s d = Some s' ->
     writes_at w (fun e d' v => d' = d /\ granted set_iter db e d v)
               (g_rows s) (g_rows s')) ->
  forall st st', foldM f days st = Some st' ->
  writes_at w (granted set_iter db) (g_rows st) (g_rows st').
Proof.
  intros Hf st st' H.
  apply (foldM_inv (fun s => writes_at w (granted set_iter db)
                                        (g_rows st) (g_rows s)) f days)
    with (s := st) (s' := st'); [| apply writes_at_refl | exact H].
  intros s d s' _ Hw Hs. eapply writes_at_trans; [exact Hw|].
  eapply writes_at_weaken; [|apply (Hf _ _ _ Hs)].
  intros e d' v [-> Hg]. exact Hg.
Qed.

Variable resv : list (date * list Z).

Lemma lower_scan_cand role d label pool : forall st cand st' cand',
  fold_left (lower_consider set_iter db w resv role d label) pool (st, cand)
  = (st', cand') ->
  incl cand' (cand ++ pool).
Proof.
  induction pool as [|eid pool IH]; intros st cand st' cand' H;
    cbn [fold_left] in H.
  - injection H as _ <-. now rewrite app_nil_r.
  - destruct (lower_consider_cases set_iter db w resv role d label st cand eid)
      as [E|[[E _]|[E _]]]; rewrite E in H; apply IH in H;
      intros x Hx; apply H in Hx; apply in_app_or in Hx; apply in_or_app.
    + destruct Hx; [now left | right; now right].
    + destruct Hx; [now left | right; now right].
    + destruct Hx as [Hx|Hx]; [|right; now right].
      apply in_app_or in Hx. destruct Hx as [Hx|[<-|[]]];
        [now left | right; now left].
Qed.

Lemma lower_slot_grants role d st pool label st' pool' :
  lower_slot set_iter db w resv role d (st, pool) label = Some (st', pool') ->
  writes_at w
    (fun e d' v => d' = d /\ v = label /\ In e pool
                   /\ _is_available e role label d (avail_idx db) = true
                   /\ has_any_timeoff db (emp_name_get db e) d = false)
    (g_rows st) (g_rows st')
  /\ incl pool' pool.
Proof.
  unfold lower_slot. cbn [fst snd].
  destruct (fold_left (lower_consider set_iter db w resv role d label) pool
                      (st, [])) as [st1 cand] eqn:Hsc.
  destruct (lower_scan set_iter db w resv role d label pool st [] st1 cand Hsc)
    as [_ [_ [_ [Hcore Hcand]]]]; [intros e []|].
  pose proof (lower_scan_cand role d label pool st [] st1 cand Hsc) as Hsub.
  cbn [fst snd].
  destruct (pick_best db st1 d cand role label) as [[e0|]|] eqn:Hp;
    [| |discriminate]; intros H; injection H as <- <-.
  - split; [|apply list_remove_incl].
    apply pick_best_some in Hp. destruct Hp as [Hin _].
    destruct (Hcand e0 Hin) as [_ [_ [Hto [Hav _]]]].
    eapply writes_at_trans; [apply writes_at_core; exact Hcore|].
    intros e d'.
    destruct (Z.eq_dec e e0) as [->|He];
      [destruct (Z.eq_dec d' d) as [->|Hd]|].
    + rewrite record_assignment_cell_same.
      destruct (cell (g_rows st1) w e0 d); [|now left].
      right. exists label. split; [|reflexivity].
      split; [reflexivity|]. split; [reflexivity|].
      split; [apply Hsub in Hin; exact Hin | auto].
    + left. apply record_assignment_cell_other. congruence.
    + left. apply record_assignment_cell_other. congruence.
  - split; [now apply writes_at_core | apply incl_refl].
Qed.

Lemma lower_day_grants role labels pool st d st' :
  In role DEPARTMENTS -> incl labels (dept_labels role) ->
  incl pool (dept_pool set_iter db role) ->
  lower_day set_iter db w resv role labels pool st d = Some st' ->
  writes_at w (fun e d' v => d' = d /\ granted set_iter db e d v)
            (g_rows st) (g_rows st').
Proof.
  intros Hrole Hlabels Hpool. unfold lower_day.
  destruct (foldM (lower_slot set_iter db w resv role d) labels (st, pool))
    as [[st1 pool1]|] eqn:E; [|discriminate].
  intros H. injection H as <-.
  apply (foldM_inv
           (fun acc =>
              writes_at w (fun e d' v => d' = d /\ granted set_iter db e d v)
                        (g_rows st) (g_rows (fst acc))
              /\ incl (snd acc) pool)
           (lower_slot set_iter db w resv role d) labels)
    with (s := (st, pool)) (s' := (st1, pool1)); [| |exact E].
  - intros [s p] l [s' p'] Hin [Hw Hp] Hslot. cbn [fst snd] in *.
    destruct (lower_slot_grants _ _ _ _ _ _ _ Hslot) as [Hg Hp']. split.
    + eapply writes_at_trans; [exact Hw|].
      eapply writes_at_weaken; [|exact Hg].
      intros e d' v [H1 [-> [H3 [H4 H5]]]]. split; [assumption|].
      exists role. split; [assumption|]. split; [now apply Hlabels|].
      split; [apply Hpool, Hp, H3 | auto].
    + eapply incl_tran; eassumption.
  - split; [apply writes_at_refl | apply incl_refl].
Qed.

End GrantsPasses.

Lemma week_passes_grants set_iter db w start rows st :
  week_passes set_iter db w start rows = Some st ->
  writes_at w (granted set_iter db) rows (g_rows st).
Proof.
  unfold week_passes.
  destruct (fd_pass set_iter db w start _) as [st1|] eqn:E1; [|discriminate].
  destruct (bb_pass set_iter db w _ start st1) as [st2|] eqn:E2;
    [|discriminate].
  intros E3.
  eapply writes_at_trans; [|eapply writes_at_trans].
  - apply (pass_grants set_iter db w _ _ (fd_day_grants set_iter db w) _ _ E1).
  - refine (pass_grants set_iter db w _ _ _ _ _ E2).
    intros s d s'. apply lower_day_grants.
    + right. now left.
    + apply incl_refl.
    + apply incl_refl.
  - refine (pass_grants set_iter db w _ _ _ _ _ E3).
    intros s d s'. apply lower_day_grants.
    + right. right. now left.
    + apply incl_refl.
    + apply incl_refl.
Qed.

Lemma generate_week_grants set_iter db base db1 k db' :
  generate_week set_iter db base db1 k = Some db' ->
  week_granted set_iter db (assignments db')
    (wk_id (snd (_ensure_week_and_assignments db1 (base + 7 * k)))).
Proof.
  unfold generate_week.
  set (ew := _ensure_week_and_assignments db1 (base + 7 * k)).
  set (rows0 := reset_week (wk_id (snd ew)) (assignments (fst ew))).
  destruct (week_passes set_iter db (wk_id (snd ew)) (wk_start_date (snd ew))
              rows0) as [st|] eqn:Hp; [|discriminate].
  apply week_passes_grants in Hp.
  unfold sync_timeoff_to_assignments.
  destruct (get_week _ _) as [wk'|]; [|discriminate].
  intros H. injection H as <-. cbn [assignments with_assignments].
  intros e d v Hv.
  match type of Hv with
  | cell (sync_rows ?d0 ?w0 ?days ?r) _ _ _ = _ =>
      destruct (sync_rows_writes d0 w0 days r e d) as [E|[v' [-> E]]]
  end.
  - rewrite E in Hv. destruct (Hp e d) as [E'|[v' [Hg E']]].
    + rewrite E' in Hv. unfold rows0 in Hv. rewrite reset_week_cell in Hv.
      destruct (cell (assignments (fst ew)) (wk_id (snd ew)) e d);
        [|discriminate]. injection Hv as <-. now left.
    + rewrite E' in Hv. injection Hv as <-. right. now right.
  - rewrite E in Hv. injection Hv as <-. right. now left.
Qed.

Lemma generate_each_week set_iter db base_wk db'
  (P : list Assignment -> Week -> Prop) :
  (forall rows rows' wk,
     (forall e d, find_assignment rows' (wk_id wk) e d
                  = find_assignment rows (wk_id wk) e d) ->
     P rows wk -> P rows' wk) ->
  (forall dbk k dbk',
     generate_week set_iter db (wk_start_date base_wk) dbk k = Some dbk' ->
     P (assignments dbk')
       (snd (_ensure_week_and_assignments dbk (wk_start_date base_wk + 7 * k)))) ->
  db_wf db = true -> In base_wk (weeks db) ->
  foldM (generate_week set_iter db (wk_start_date base_wk)) [0; 1; 2; 3] db
  = Some db' ->
  forall k, In k [0; 1; 2; 3] ->
  exists wk, week_starting db' (wk_start_date base_wk + 7 * k) = Some wk
    /\ P (assignments db') wk.
Proof.
  intros Hext Hest Hwf Hb H. set (base := wk_start_date base_wk) in *.
  apply (foldM_inv_split
           (fun done dbk =>
              db_wf dbk = true /\ In base_wk (weeks dbk)
              /\ forall k, In k done ->
                 exists wk, week_starting dbk (base + 7 * k) = Some wk
                   /\ P (assignments dbk) wk)
           (generate_week set_iter db base) [0; 1; 2; 3])
    with (s := db) (s' := db') in H.
  - now destruct H as [_ [_ H]].
  - clear H db'. intros pre x post s s' Hl [Hwfs [Hbs Hk]] Hg.
    assert (Hwf' : db_wf s' = true)
      by (eapply generate_week_wf; eassumption).
    pose proof (generate_week_extends _ _ _ _ _ _ Hg) as Hx.
    pose proof (generate_week_week _ _ _ _ _ _ Hg) as Hnew.
    split; [assumption|]. split.
    { destruct Hx as [_ [_ [_ [_ [_ [extra ->]]]]]]. apply in_or_app.
      now left. }
    intros k Hin. apply in_app_or in Hin. destruct Hin as [Hin|[<-|[]]].
    + destruct (Hk k Hin) as [wk [Hws Hok]]. exists wk.
      pose proof (extends_week_starting _ _ _ _ Hx Hws) as Hws'.
      split; [assumption|].
      assert (Hne : k <> x).
      { intros ->. assert (Hnd : NoDup [0; 1; 2; 3])
          by (repeat constructor; simpl; intuition lia).
        rewrite Hl in Hnd. apply NoDup_remove_2 in Hnd. apply Hnd.
        apply in_or_app. now left. }
      destruct (week_starting_start _ _ _ Hws') as [Hs1 Hi1].
      destruct (week_starting_start _ _ _ Hnew) as [Hs2 Hi2].
      destruct (db_wf_weeks _ _ _ Hwf' Hi1 Hi2) as [_ Hid].
      apply Hext with (rows := assignments s); [|assumption].
      intros e d. apply (generate_week_other _ _ _ _ _ _ _ e d Hg).
      intros E. apply Hid in E. rewrite Hs1, Hs2 in E. lia.
    + exists (snd (_ensure_week_and_assignments s (base + 7 * x))).
      split; [assumption|]. eapply Hest. exact Hg.
  - split; [assumption|]. split; [assumption|]. intros k [].
Qed.

(** X4. After a returning run of the generator on a well-formed database,
    every row of the four weeks of the horizon holds the placeholder,
    TIME OFF, or a shift of a department in whose pool the worker is
    (primary section or secondary role), for which the worker has declared
    availability on that weekday, on a day that no Leave Request of the
    worker, approved or not, covers. *)
Theorem generated_shifts_are_granted set_iter db start_week_id base_week db' k :
  db_wf db = true ->
  get_week db start_week_id = Some base_week ->
  generate_4_week_schedule set_iter db start_week_id = Some db' ->
  In k [0; 1; 2; 3] ->
  exists wk,
    week_starting db' (wk_start_date base_week + 7 * k) = Some wk
    /\ forall e d v,
         cell (assignments db') (wk_id wk) e d = Some v ->
         v = "Set" \/ v = TIME_OFF_LABEL
         \/ exists role,
              In role DEPARTMENTS /\ In v (dept_labels role)
              /\ In e (employees_for_section set_iter db role)
              /\ _is_available e role v d (_build_availability_index db) = true
              /\ has_any_timeoff db (emp_name_get db e) d = false.
Proof.
  intros Hwf Hb Hg Hk. unfold generate_4_week_schedule in Hg. rewrite Hb in Hg.
  destruct (get_week_id _ _ _ Hb) as [_ Hin].
  apply (generate_each_week set_iter db base_week db'
           (fun rows wk => week_granted set_iter db rows (wk_id wk)));
    try assumption.
  - intros rows rows' wk Heq HP e d v Hv. apply (HP e d v).
    unfold cell in *. now rewrite <- Heq.
  - intros dbk k0 dbk' Hgw. eapply generate_week_grants. exact Hgw.
Qed.

(** ** Weeks come and go *)

Lemma db_wf_add_week db base_wk k rows' :
  db_wf db = true -> In base_wk (weeks db) ->
  week_starting db (wk_start_date base_wk + 7 * k) = None ->
  (forall a, In a rows' ->
     a_week_id a = next_week_id db
     /\ wk_start_date base_wk + 7 * k <= a_date a
        < wk_start_date base_wk + 7 * k + 7) ->
  db_wf (mkDB (sections db) (employees db) (employee_roles db)
              (employee_availability db)
              (weeks db ++ [mkWeek (next_week_id db)
                                   (wk_start_date base_wk + 7 * k)])
              (assignments db ++ rows') (timeoff db)) = true.
Proof.
  intros Hwf Hbase E Hrows.
  set (wk := mkWeek (next_week_id db) (wk_start_date base_wk + 7 * k)).
  assert (Hnew : forall w2, In w2 (weeks db) ->
            wk_id w2 <> wk_id wk /\ wk_start_date w2 <> wk_start_date wk
            /\ (wk_start_date w2 - wk_start_date wk) mod 7 = 0
            /\ (wk_start_date wk - wk_start_date w2) mod 7 = 0).
  { intros w2 H2. split; [|split; [|split]].
    - pose proof (next_week_id_fresh db w2 H2). unfold wk. cbn [wk_id]. lia.
    - intros Heq. unfold week_starting in E.
      apply (find_none _ _ E) in H2. unfold wk in Heq.
      cbn [wk_start_date] in Heq. cbv beta in H2. rewrite Heq in H2.
      rewrite Z.eqb_refl in H2. discriminate.
    - destruct (db_wf_weeks db w2 base_wk Hwf H2 Hbase) as [Ha _].
      unfold wk. cbn [wk_start_date].
      apply Z.mod_divide in Ha; [|lia]. destruct Ha as [q Hq].
      apply Z.mod_divide; [lia|]. exists (q - k). lia.
    - destruct (db_wf_weeks db w2 base_wk Hwf H2 Hbase) as [Ha _].
      unfold wk. cbn [wk_start_date].
      apply Z.mod_divide in Ha; [|lia]. destruct Ha as [q Hq].
      apply Z.mod_divide; [lia|]. exists (k - q). lia. }
  apply db_wf_intro; cbn [weeks assignments].
  - intros w1 w2 H1 H2. apply in_app_or in H1. apply in_app_or in H2.
    destruct H1 as [H1|[<-|[]]]; destruct H2 as [H2|[<-|[]]].
    + now apply (db_wf_weeks db).
    + destruct (Hnew w1 H1) as [N1 [N2 [N3 N4]]]. split; [assumption|].
      split; intros; contradiction.
    + destruct (Hnew w2 H2) as [N1 [N2 [N3 N4]]]. split; [assumption|].
      split; intros Heq; symmetry in Heq; contradiction.
    + split; [now rewrite Z.sub_diag | tauto].
  - intros key Hk. rewrite map_app in Hk. apply in_app_or in Hk.
    destruct Hk as [Hk|Hk]; apply in_map_iff in Hk; destruct Hk as [a [<- Ha]].
    + destruct (db_wf_row db a Hwf Ha) as [wk0 [H0 H0']]. exists wk0.
      split; [apply in_or_app; now left | exact H0'].
    + exists wk. split; [apply in_or_app; right; now left|].
      destruct (Hrows a Ha) as [Hid Hd]. unfold key3. cbn [fst snd].
      split; [now rewrite Hid|].
      apply in_week_iff. exact Hd.
Qed.

Lemma new_week_rows_in w emps start a :
  In a (new_week_rows w emps start) ->
  exists emp d, In emp emps /\ In d (daterange start 7)
    /\ a = mkAssignment w (emp_id emp) d "Set" false.
Proof.
  unfold new_week_rows. intros H. apply in_flat_map in H.
  destruct H as [emp [He H]]. apply in_map_iff in H.
  destruct H as [d [<- Hd]]. eauto.
Qed.

Lemma get_week_fresh db start :
  get_week (mkDB (sections db) (employees db) (employee_roles db)
                 (employee_availability db)
                 (weeks db ++ [mkWeek (next_week_id db) start])
                 (assignments db ++ new_week_rows (next_week_id db)
                                                  (employees db) start)
                 (timeoff db))
           (next_week_id db)
  = Some (mkWeek (next_week_id db) start).
Proof.
  unfold get_week. cbn [weeks]. rewrite find_app_none.
  - simpl. now rewrite Z.eqb_refl.
  - destruct (find _ (weeks db)) as [x|] eqn:F; [|reflexivity].
    apply find_some in F. destruct F as [Hin Hx]. apply Z.eqb_eq in Hx.
    pose proof (next_week_id_fresh db x Hin). lia.
Qed.

Lemma Forall2_eq_inv {A : Type} (l l' : list A) :
  Forall2 (fun a a' => a' = a) l l' -> l' = l.
Proof. induction 1; [reflexivity | now subst]. Qed.

Lemma find_assignment_keys rows rows' w e d :
  map key3 rows' = map key3 rows ->
  find_assignment rows w e d <> None -> find_assignment rows' w e d <> None.
Proof.
  unfold find_assignment. revert rows'.
  induction rows as [|a rows IH]; intros rows' Hk H; [now contradiction H|].
  destruct rows' as [|a' rows']; [discriminate|]. simpl in Hk.
  inversion Hk as [[H1 H2 H3 Hk']]. simpl in *.
  assert (E : is_row w e d a' = is_row w e d a).
  { unfold is_row. now rewrite H1, H2, H3. }
  rewrite E. destruct (is_row w e d a); [discriminate|]. now apply IH.
Qed.

Lemma new_week_rows_has w emps start emp d old :
  In emp emps -> In d (daterange start 7) ->
  find_assignment (old ++ new_week_rows w emps start) w (emp_id emp) d <> None.
Proof.
  intros He Hd H. unfold find_assignment in H.
  assert (Hf := find_none _ _ H (mkAssignment w (emp_id emp) d "Set" false)).
  unfold is_row in Hf. simpl in Hf. rewrite !Z.eqb_refl in Hf.
  assert (true = false); [|discriminate]. apply Hf.
  apply in_or_app. right. unfold new_week_rows. apply in_flat_map.
  exists emp. split; [assumption|]. apply in_map_iff. eauto.
Qed.

Lemma Forall2_weaken_in {A : Type} (R R' : A -> A -> Prop) l l' :
  (forall a b, In a l -> R a b -> R' a b) -> Forall2 R l l' -> Forall2 R' l l'.
Proof.
  intros H HF. induction HF as [|a b l l' Hab HF IH]; constructor.
  - apply H; [now left | assumption].
  - apply IH. intros x y Hx. apply H. now right.
Qed.

Lemma neighbour_week_new k db w cur :
  db_wf db = true -> get_week db w = Some cur ->
  week_starting db (wk_start_date cur + 7 * k) = None ->
  exists extra,
    neighbour_week (7 * k) db w
    = (mkDB (sections db) (employees db) (employee_roles db)
            (employee_availability db)
            (weeks db ++ [mkWeek (next_week_id db)
                                 (wk_start_date cur + 7 * k)])
            (assignments db ++ extra) (timeoff db),
       Redirect (ToViewWeek (next_week_id db)))
    /\ Forall2 (leave_forced db (next_week_id db))
               (new_week_rows (next_week_id db) (employees db)
                              (wk_start_date cur + 7 * k))
               extra.
Proof.
  intros Hwf Hw Hnone. unfold neighbour_week. rewrite Hw, Hnone. cbn [wk_id].
  unfold sync_timeoff_to_assignments. rewrite get_week_fresh.
  cbn [assignments with_assignments wk_start_date sections employees
       employee_roles employee_availability weeks timeoff].
  match goal with
  | |- context [sync_rows ?d0 ?n ?days ?r] =>
      pose proof (sync_rows_forced d0 n days r) as HF;
      set (rows1 := sync_rows d0 n days r) in *
  end.
  apply Forall2_app_inv_l in HF. destruct HF as [l1 [l2 [H1 [H2 E]]]].
  assert (El : l1 = assignments db).
  { apply Forall2_eq_inv. eapply Forall2_weaken_in; [|exact H1].
    intros a b Ha [->|[_ [Hid _]]]; [reflexivity|]. exfalso.
    destruct (db_wf_row db a Hwf Ha) as [wk0 [H0 [H0' _]]].
    pose proof (next_week_id_fresh db wk0 H0). lia. }
  exists l2. rewrite E, El. split; [reflexivity|].
  eapply Forall2_weaken; [|exact H2].
  intros a b [->|[-> [Hid [emp [He [He' Happ]]]]]]; [now left|].
  right. split; [reflexivity|]. split; [assumption|]. exists emp. auto.
Qed.

Lemma leave_forced_keys db n l l' :
  Forall2 (leave_forced db n) l l' -> map key3 l' = map key3 l.
Proof.
  induction 1 as [|a b l l' Hab HF IH]; [reflexivity|].
  simpl. rewrite IH. f_equal. destruct Hab as [->|[-> _]]; reflexivity.
Qed.

Lemma neighbour_week_leave k db w cur :
  get_week db w = Some cur ->
  week_starting db (wk_start_date cur + 7 * k) = None ->
  leave_applied (fst (neighbour_week (7 * k) db w)) (next_week_id db)
                (wk_start_date cur + 7 * k).
Proof.
  intros Hw Hnone. unfold neighbour_week. rewrite Hw, Hnone. cbn [wk_id].
  destruct (sync_applies (next_week_id db) _ _
              (get_week_fresh db (wk_start_date cur + 7 * k)))
    as [db2 [E [_ [_ Hl]]]].
  rewrite E. exact Hl.
Qed.

(** X5. [prev_week] and [next_week] (the shared body at [-7] and [7]
    days) on a well-formed database with the current week in it: the
    browser is sent to a week that starts that many days from the current
    one, the database stays well formed and only grows.  When that week was
    there, nothing changes.  When it was not, it is added with a fresh id,
    the old rows stay as they were, the new rows all belong to the new week,
    every employee has a row for each of its seven days, and every day an
    approved Leave Request covers holds TIME OFF. *)
Theorem neighbour_week_opens k db w cur :
  db_wf db = true -> get_week db w = Some cur ->
  let db1 := fst (neighbour_week (7 * k) db w) in
  let start := wk_start_date cur + 7 * k in
  db_wf db1 = true /\ extends db db1
  /\ exists nwk,
       snd (neighbour_week (7 * k) db w) = Redirect (ToViewWeek (wk_id nwk))
       /\ week_starting db1 start = Some nwk
       /\ (week_starting db start <> None -> db1 = db)
       /\ (week_starting db start = None ->
           exists extra,
             assignments db1 = assignments db ++ extra
             /\ (forall a, In a extra -> a_week_id a = wk_id nwk)
             /\ (forall emp d, In emp (employees db) ->
                   In d (daterange start 7) ->
                   find_assignment (assignments db1) (wk_id nwk) (emp_id emp) d
                   <> None)
             /\ leave_applied db1 (wk_id nwk) start).
Proof.
  intros Hwf Hw db1 start. destruct (get_week_id _ _ _ Hw) as [Hid Hin].
  destruct (week_starting db start) as [wk|] eqn:Hs.
  - assert (E : neighbour_week (7 * k) db w
                = (db, Redirect (ToViewWeek (wk_id wk)))).
    { unfold neighbour_week. rewrite Hw. fold start. now rewrite Hs. }
    unfold db1. rewrite E. cbn [fst snd].
    split; [assumption|]. split; [apply extends_refl|].
    exists wk. split; [reflexivity|]. split; [assumption|].
    split; [reflexivity | discriminate].
  - destruct (neighbour_week_new k db w cur Hwf Hw Hs) as [extra [E HF]].
    pose proof (neighbour_week_leave k db w cur Hw Hs) as Hl.
    fold db1 in Hl. unfold db1 in *. rewrite E in *. cbn [fst snd] in *.
    assert (Hkeys : map key3 extra
                    = map key3 (new_week_rows (next_week_id db) (employees db)
                                              start)).
    { eapply leave_forced_keys. exact HF. }
    split; [|split].
    + eapply db_wf_same_keys;
        [| |apply (db_wf_add_week db cur k
                     (new_week_rows (next_week_id db) (employees db) start)
                     Hwf Hin Hs)].
      * reflexivity.
      * cbn [assignments]. rewrite !map_app. now rewrite Hkeys.
      * intros a Ha. apply new_week_rows_in in Ha.
        destruct Ha as [emp [d [_ [Hd ->]]]]. cbn [a_week_id a_date].
        split; [reflexivity|]. apply In_daterange in Hd. fold start. lia.
    + do 5 (split; [reflexivity|]). eexists. reflexivity.
    + exists (mkWeek (next_week_id db) start). cbn [wk_id].
      split; [reflexivity|]. split.
      { unfold week_starting in *. cbn [weeks].
        rewrite find_app_none by assumption. simpl. now rewrite Z.eqb_refl. }
      split; [intros H; now contradiction H|]. intros _.
      exists extra. cbn [assignments]. split; [reflexivity|]. split; [|split].
      * intros a Ha.
        assert (Hk : In (key3 a) (map key3 extra)) by now apply in_map.
        rewrite Hkeys in Hk. apply in_map_iff in Hk.
        destruct Hk as [a0 [Hk Ha0]]. apply new_week_rows_in in Ha0.
        destruct Ha0 as [emp [d [_ [_ ->]]]]. unfold key3 in Hk.
        now injection Hk as <- _ _.
      * intros emp d He Hd.
        apply (find_assignment_keys
                 (assignments db
                  ++ new_week_rows (next_week_id db) (employees db) start));
          [rewrite !map_app; now rewrite Hkeys|].
        now apply new_week_rows_has.
      * exact Hl.
Qed.

Lemma neighbour_round_trip k db w cur :
  db_wf db = true -> get_week db w = Some cur ->
  exists n,
    snd (neighbour_week (7 * k) db w) = Redirect (ToViewWeek n)
    /\ neighbour_week (7 * - k) (fst (neighbour_week (7 * k) db w)) n
       = (fst (neighbour_week (7 * k) db w), Redirect (ToViewWeek w)).
Proof.
  intros Hwf Hw.
  destruct (neighbour_week_opens k db w cur Hwf Hw)
    as [Hwf1 [Hext [nwk [Hr [Hws _]]]]].
  set (db1 := fst (neighbour_week (7 * k) db w)) in *.
  exists (wk_id nwk). split; [assumption|].
  destruct (get_week_id _ _ _ Hw) as [Hid Hin].
  destruct (week_starting_start _ _ _ Hws) as [Hs Hin1].
  destruct (get_week_some_of_in db1 nwk Hin1) as [wk' Hg].
  destruct (get_week_id _ _ _ Hg) as [Hid' Hin'].
  assert (Hs' : wk_start_date wk' = wk_start_date cur + 7 * k).
  { rewrite <- Hs. apply (db_wf_weeks db1 wk' nwk Hwf1 Hin' Hin1). exact Hid'. }
  assert (Hcur : In cur (weeks db1)).
  { destruct Hext as [_ [_ [_ [_ [_ [extra ->]]]]]]. apply in_or_app.
    now left. }
  unfold neighbour_week at 1. rewrite Hg, Hs'.
  replace (wk_start_date cur + 7 * k + 7 * - k) with (wk_start_date cur) by lia.
  destruct (week_starting db1 (wk_start_date cur)) as [c|] eqn:Hc.
  - destruct (week_starting_start _ _ _ Hc) as [Hcs Hcin].
    assert (wk_id c = wk_id cur)
      by (apply (db_wf_weeks db1 c cur Hwf1 Hcin Hcur); exact Hcs).
    congruence.
  - exfalso. unfold week_starting in Hc. apply (find_none _ _ Hc) in Hcur.
    cbv beta in Hcur. rewrite Z.eqb_refl in Hcur. discriminate.
Qed.

(** X6. On a well-formed database, going to the next week and back, or to
    the previous week and forth, ends on the week one started from, and the
    way back changes nothing: the week the first step opened is found
    again. *)
Theorem week_navigation_round_trip db w cur :
  db_wf db = true -> get_week db w = Some cur ->
  (exists n,
     snd (next_week db w) = Redirect (ToViewWeek n)
     /\ prev_week (fst (next_week db w)) n
        = (fst (next_week db w), Redirect (ToViewWeek w)))
  /\ (exists n,
        snd (prev_week db w) = Redirect (ToViewWeek n)
        /\ next_week (fst (prev_week db w)) n
           = (fst (prev_week db w), Redirect (ToViewWeek w))).
Proof.
  intros Hwf Hw. split.
  - exact (neighbour_round_trip 1 db w cur Hwf Hw).
  - exact (neighbour_round_trip (-1) db w cur Hwf Hw).
Qed.

Lemma remove_week_fresh n ws wk :
  (forall x, In x ws -> wk_id x <> n) -> wk_id wk = n ->
  remove_week n (ws ++ [wk]) = ws.
Proof.
  intros H Hn. induction ws as [|x ws IH]; simpl.
  - rewrite Hn, Z.eqb_refl. reflexivity.
  - destruct (Z.eqb_spec (wk_id x) n) as [E|E];
      [exfalso; apply (H x); [now left | assumption]|].
    rewrite IH; [reflexivity|]. intros y Hy. apply H. now right.
Qed.

Lemma filter_all {A : Type} (p : A -> bool) l :
  (forall x, In x l -> p x = true) -> filter p l = l.
Proof.
  induction l as [|a l IH]; intros H; simpl; [reflexivity|].
  rewrite (H a (or_introl eq_refl)), IH; [reflexivity|].
  intros x Hx. apply H. now right.
Qed.

Lemma filter_none {A : Type} (p : A -> bool) l :
  (forall x, In x l -> p x = false) -> filter p l = [].
Proof.
  induction l as [|a l IH]; intros H; simpl; [reflexivity|].
  rewrite (H a (or_introl eq_refl)), IH; [reflexivity|].
  intros x Hx. apply H. now right.
Qed.

Lemma remove_week_In n ws x :
  In x (remove_week n ws) -> In x ws.
Proof.
  induction ws as [|y ws IH]; simpl; [auto|].
  destruct (wk_id y =? n); [now right|]. intros [<-|H]; auto.
Qed.

Lemma remove_week_gone n ws :
  NoDup (map wk_id ws) -> forall x, In x (remove_week n ws) -> wk_id x <> n.
Proof.
  induction ws as [|y ws IH]; simpl; intros Hnd x Hx; [destruct Hx|].
  inversion Hnd as [|? ? Hnotin Hnd']; subst.
  destruct (Z.eqb_spec (wk_id y) n) as [E|E].
  - intros Hn. apply Hnotin. rewrite E, <- Hn. now apply in_map.
  - destruct Hx as [<-|Hx]; [assumption | now apply IH].
Qed.

Lemma remove_week_keeps n ws x :
  In x ws -> wk_id x <> n -> In x (remove_week n ws).
Proof.
  induction ws as [|y ws IH]; simpl; intros Hx Hn; [assumption|].
  destruct (Z.eqb_spec (wk_id y) n) as [E|E].
  - destruct Hx as [->|Hx]; [contradiction | assumption].
  - destruct Hx as [->|Hx]; [now left | right; now apply IH].
Qed.

(** X7. [delete_week_schedule] never deletes the baseline week: it writes
    the placeholder into the rows of that week and leaves their dismissed
    flags and every other row alone.  Any other week (week ids being
    distinct) goes from the table together with exactly the rows of that
    week; the other weeks and rows stay, and the database stays well
    formed. *)
Theorem delete_week_schedule_effect db w wk :
  db_wf db = true -> NoDup (map wk_id (weeks db)) ->
  get_week db w = Some wk ->
  let db1 := fst (delete_week_schedule db w) in
  (wk_start_date wk = BASELINE ->
     snd (delete_week_schedule db w) = ToViewWeek w
     /\ weeks db1 = weeks db
     /\ Forall2 (fun a a' =>
                   if a_week_id a =? w then a' = set_value "Set" a else a' = a)
                (assignments db) (assignments db1))
  /\ (wk_start_date wk <> BASELINE ->
        snd (delete_week_schedule db w) = ToSchedules
        /\ get_week db1 w = None
        /\ (forall x, In x (weeks db1) <-> In x (weeks db) /\ wk_id x <> w)
        /\ assignments db1
           = filter (fun a => negb (a_week_id a =? w)) (assignments db)
        /\ db_wf db1 = true).
Proof.
  intros Hwf Hnd Hw db1. unfold db1, delete_week_schedule. rewrite Hw.
  split; intros Hb.
  - apply Z.eqb_eq in Hb. rewrite Hb. cbn [fst snd weeks assignments
                                          with_assignments].
    split; [reflexivity|]. split; [reflexivity|].
    induction (assignments db) as [|a l IH]; simpl; constructor;
      [|assumption].
    destruct (a_week_id a =? w); reflexivity.
  - apply Z.eqb_neq in Hb. rewrite Hb. cbn [fst snd weeks assignments].
    split; [reflexivity|].
    assert (Hin : forall x, In x (remove_week w (weeks db)) <->
                            In x (weeks db) /\ wk_id x <> w).
    { intros x. split.
      - intros Hx. split; [eapply remove_week_In; eassumption|].
        eapply remove_week_gone; eassumption.
      - intros [H1 H2]. now apply remove_week_keeps. }
    split; [|split; [exact Hin|split; [reflexivity|]]].
    + unfold get_week. cbn [weeks].
      destruct (find _ (remove_week w (weeks db))) as [x|] eqn:F;
        [|reflexivity].
      apply find_some in F. destruct F as [Hx Hid]. apply Z.eqb_eq in Hid.
      apply Hin in Hx. destruct Hx as [_ Hx]. contradiction.
    + apply db_wf_intro; cbn [weeks assignments].
      * intros w1 w2 H1 H2. apply Hin in H1. apply Hin in H2.
        apply (db_wf_weeks db); tauto.
      * intros key Hk. apply in_map_iff in Hk. destruct Hk as [a [<- Ha]].
        apply filter_In in Ha. destruct Ha as [Ha Hne].
        apply negb_true_iff in Hne. apply Z.eqb_neq in Hne.
        destruct (db_wf_row db a Hwf Ha) as [wk0 [H0 [H0' H0'']]].
        exists wk0. split; [|split; assumption].
        apply Hin. split; [assumption | congruence].
Qed.

(** X8. Opening a week that is not there with [next_week] or [prev_week]
    (the shared body, [k] weeks away) and deleting it again with
    [delete_week_schedule] gives back the database one started from, when
    it is well formed and the opened week is not the baseline week. *)
Theorem open_then_delete_week k db w cur :
  db_wf db = true -> get_week db w = Some cur ->
  week_starting db (wk_start_date cur + 7 * k) = None ->
  wk_start_date cur + 7 * k <> BASELINE ->
  snd (neighbour_week (7 * k) db w) = Redirect (ToViewWeek (next_week_id db))
  /\ delete_week_schedule (fst (neighbour_week (7 * k) db w)) (next_week_id db)
     = (db, ToSchedules).
Proof.
  intros Hwf Hw Hnone Hb.
  destruct (neighbour_week_new k db w cur Hwf Hw Hnone) as [extra [E HF]].
  rewrite E. cbn [fst snd]. split; [reflexivity|].
  pose proof (leave_forced_keys _ _ _ _ HF) as Hkeys.
  unfold delete_week_schedule.
  assert (Hg : get_week (mkDB (sections db) (employees db) (employee_roles db)
                           (employee_availability db)
                           (weeks db ++ [mkWeek (next_week_id db)
                                            (wk_start_date cur + 7 * k)])
                           (assignments db ++ extra) (timeoff db))
                        (next_week_id db)
               = Some (mkWeek (next_week_id db) (wk_start_date cur + 7 * k))).
  { unfold get_week. cbn [weeks]. rewrite find_app_none.
    - simpl. now rewrite Z.eqb_refl.
    - destruct (find _ (weeks db)) as [x|] eqn:F; [|reflexivity].
      apply find_some in F. destruct F as [Hin Hx]. apply Z.eqb_eq in Hx.
      pose proof (next_week_id_fresh db x Hin). lia. }
  rewrite Hg. cbn [wk_start_date]. apply Z.eqb_neq in Hb. rewrite Hb.
  cbn [sections employees employee_roles employee_availability weeks
       assignments timeoff].
  rewrite remove_week_fresh;
    [|intros x Hx; pose proof (next_week_id_fresh db x Hx); lia | reflexivity].
  rewrite filter_app, filter_all, filter_none.
  - rewrite app_nil_r. destruct db; reflexivity.
  - intros a Ha.
    assert (Hk : In (key3 a) (map key3 extra)) by now apply in_map.
    rewrite Hkeys in Hk. apply in_map_iff in Hk.
    destruct Hk as [a0 [Hk Ha0]]. apply new_week_rows_in in Ha0.
    destruct Ha0 as [emp [d [_ [_ ->]]]]. unfold key3 in Hk.
    injection Hk as Hk _ _. cbn [a_week_id] in Hk. rewrite <- Hk.
    now rewrite Z.eqb_refl.
  - intros a Ha. apply negb_true_iff. apply Z.eqb_neq.
    destruct (db_wf_row db a Hwf Ha) as [wk0 [H0 [H0' _]]].
    pose proof (next_week_id_fresh db wk0 H0). lia.
Qed.

(** ** Resetting a schedule *)

Lemma reset_week_not_generated w rows :
  existsb (fun a => (a_week_id a =? w) && negb (a_value a =? "Set")%string)
          (reset_week w rows) = false.
Proof.
  unfold reset_week. induction rows as [|a rows IH]; simpl; [reflexivity|].
  rewrite IH, orb_false_r.
  destruct (Z.eqb_spec (a_week_id a) w) as [E|E]; cbn [a_week_id a_value].
  - rewrite E, Z.eqb_refl. reflexivity.
  - apply Z.eqb_neq in E. now rewrite E.
Qed.

(** X9. [delete_schedule] raises when there is no baseline week and then
    changes nothing.  Otherwise it writes the placeholder into every row of
    the baseline week and clears its dismissed flags, leaves the rows of the
    other weeks alone, and [has_generated_schedule] answers no for the
    week afterwards; it does so too after [delete_week_schedule] of the
    baseline week. *)
Theorem delete_schedule_resets db :
  (week_starting db BASELINE = None ->
     delete_schedule db = (db, Crashed "AttributeError"))
  /\ forall week, week_starting db BASELINE = Some week ->
       snd (delete_schedule db) = Redirect ToIndex
       /\ Forall2 (fun a a' =>
                     if a_week_id a =? wk_id week
                     then a' = mkAssignment (a_week_id a) (a_employee_id a)
                                            (a_date a) "Set" false
                     else a' = a)
                  (assignments db) (assignments (fst (delete_schedule db)))
       /\ has_generated_schedule (fst (delete_schedule db)) (wk_id week) = false
       /\ (get_week db (wk_id week) = Some week ->
           has_generated_schedule
             (fst (delete_week_schedule db (wk_id week))) (wk_id week) = false).
Proof.
  unfold delete_schedule. split; [intros ->; reflexivity|].
  intros week Hw. rewrite Hw. cbn [fst snd assignments with_assignments].
  split; [reflexivity|]. split; [|split].
  - unfold reset_week.
    induction (assignments db) as [|a l IH]; simpl; constructor; [|assumption].
    destruct (a_week_id a =? wk_id week); reflexivity.
  - unfold has_generated_schedule. cbn [assignments with_assignments].
    apply reset_week_not_generated.
  - intros Hg. unfold delete_week_schedule. rewrite Hg.
    destruct (week_starting_start _ _ _ Hw) as [Hs _]. rewrite Hs, Z.eqb_refl.
    unfold has_generated_schedule. cbn [fst assignments with_assignments].
    induction (assignments db) as [|a l IH]; simpl; [reflexivity|].
    rewrite IH, orb_false_r.
    destruct (Z.eqb_spec (a_week_id a) (wk_id week)) as [E|E].
    + cbn [a_week_id a_value set_value]. rewrite E, Z.eqb_refl. reflexivity.
    + apply Z.eqb_neq in E. now rewrite E.
Qed.

(** ** /timeoff/delete *)

Lemma leave_lifted_trans db t a b c :
  leave_lifted db t a b -> leave_lifted db t b c -> leave_lifted db t a c.
Proof.
  intros H1 H2. destruct H1 as [->|[-> H]]; [exact H2|].
  destruct H2 as [->|[_ [Hv _]]]; [right; split; [reflexivity | exact H]|].
  simpl in Hv. discriminate.
Qed.

Lemma untoggle_loop_lifted db t week emp days : forall rows,
  week_starting db BASELINE = Some week ->
  employee_named db (to_name t) = Some emp -> to_approved t = true ->
  Forall2 (leave_lifted db t) rows
          (fold_left (untoggle_cell (wk_id week) (emp_id emp) t) days rows).
Proof.
  intros rows Hw He Ha. revert rows.
  induction days as [|d days IH]; intros rows; cbn [fold_left].
  - apply Forall2_refl'. now left.
  - eapply Forall2_trans'; [apply leave_lifted_trans| |apply IH].
    unfold untoggle_cell.
    destruct ((to_from_date t <=? d) && (d <=? to_to_date t)) eqn:Hr;
      [|apply Forall2_refl'; now left].
    apply update_first_Forall2; [now left|].
    intros a Hrow. apply is_row_true in Hrow. destruct Hrow as [H1 [H2 H3]].
    destruct (String.eqb_spec (a_value a) TIME_OFF_LABEL) as [Hv|Hv];
      [|now left].
    right. split; [reflexivity|]. split; [assumption|]. split; [assumption|].
    apply andb_true_iff in Hr. destruct Hr as [R1 R2].
    apply Z.leb_le in R1. apply Z.leb_le in R2.
    split; [rewrite H3; lia|]. exists week, emp. auto.
Qed.

Lemma leave_lifted_keys db t l l' :
  Forall2 (leave_lifted db t) l l' -> map key3 l' = map key3 l.
Proof.
  induction 1 as [|a b l l' Hab HF IH]; [reflexivity|].
  simpl. rewrite IH. f_equal. destruct Hab as [->|[-> _]]; reflexivity.
Qed.

Lemma untoggle_loop_in_range w e t days rows d a :
  NoDup days -> In d days -> to_from_date t <= d <= to_to_date t ->
  find_assignment rows w e d = Some a -> a_value a = TIME_OFF_LABEL ->
  find_assignment (fold_left (untoggle_cell w e t) days rows) w e d
  = Some (set_value "Set" a).
Proof.
  intros Hnd Hin Hr Ha Hv.
  rewrite (day_loop_same w e
    (fun d a => if (to_from_date t <=? d) && (d <=? to_to_date t)
                then if (a_value a =? TIME_OFF_LABEL)%string
                     then set_value "Set" a else a
                else a)
    (untoggle_cell w e t)).
  - rewrite Ha. cbn [option_map].
    replace ((to_from_date t <=? d) && (d <=? to_to_date t)) with true
      by (symmetry; apply andb_true_iff; split; apply Z.leb_le; lia).
    rewrite Hv, String.eqb_refl. reflexivity.
  - intros rows0 d0 w' e' d' Hne. unfold untoggle_cell.
    destruct (_ && _); [|reflexivity].
    apply find_assignment_update_other; [|assumption].
    intros x. destruct (a_value x =? TIME_OFF_LABEL)%string; auto with rows.
  - intros rows0 d0. unfold untoggle_cell.
    destruct (_ && _).
    + apply find_assignment_update_same.
      intros x. destruct (a_value x =? TIME_OFF_LABEL)%string; auto with rows.
    + now destruct (find_assignment rows0 w e d0).
  - assumption.
  - assumption.
Qed.

Lemma remove_timeoff_In tid l x :
  In x (remove_timeoff tid l) -> In x l.
Proof.
  induction l as [|y l IH]; simpl; [auto|].
  destruct (to_id y =? tid); [now right|]. intros [<-|H]; auto.
Qed.

Lemma remove_timeoff_gone tid l :
  NoDup (map to_id l) -> forall x, In x (remove_timeoff tid l) -> to_id x <> tid.
Proof.
  induction l as [|y l IH]; simpl; intros Hnd x Hx; [destruct Hx|].
  inversion Hnd as [|? ? Hnotin Hnd']; subst.
  destruct (Z.eqb_spec (to_id y) tid) as [E|E].
  - intros Hn. apply Hnotin. rewrite E, <- Hn. now apply in_map.
  - destruct Hx as [<-|Hx]; [assumption | now apply IH].
Qed.

Lemma remove_timeoff_keeps tid l x :
  In x l -> to_id x <> tid -> In x (remove_timeoff tid l).
Proof.
  induction l as [|y l IH]; simpl; intros Hx Hn; [assumption|].
  destruct (Z.eqb_spec (to_id y) tid) as [E|E].
  - destruct Hx as [->|Hx]; [contradiction | assumption].
  - destruct Hx as [->|Hx]; [now left | right; now apply IH].
Qed.

Lemma delete_timeoff_rows set_iter db tid t :
  find (fun x => to_id x =? tid) (timeoff db) = Some t ->
  Forall2 (leave_lifted db t) (assignments db)
          (assignments (fst (delete_timeoff set_iter db tid))).
Proof.
  intros Hf. unfold delete_timeoff. rewrite Hf.
  destruct (week_starting db BASELINE) as [week|] eqn:Hw;
    cbn [fst assignments]; [|apply Forall2_refl'; now left].
  destruct (to_approved t) eqn:Ha; [|apply Forall2_refl'; now left].
  destruct (employee_named db (to_name t)) as [emp|] eqn:He;
    [|apply Forall2_refl'; now left].
  now apply untoggle_loop_lifted.
Qed.

(** X10. [delete_timeoff] of an existing request removes it from the table
    (and nothing else from it, ids being distinct) and keeps the other
    tables and the place and key of every row.  A row changes only when the
    request was approved: the rows of the named worker in the baseline week
    that are dated inside the request and hold TIME OFF get the placeholder
    back, whether or not another approved request still covers the day.
    With the baseline week and its rows in order the caller gets the
    success reply with the coverage snapshot; without a baseline week, the
    short reply, and no row changes. *)
Theorem delete_timeoff_effect set_iter db tid t :
  find (fun x => to_id x =? tid) (timeoff db) = Some t ->
  let db1 := fst (delete_timeoff set_iter db tid) in
  let out := snd (delete_timeoff set_iter db tid) in
  sections db1 = sections db /\ employees db1 = employees db
  /\ employee_roles db1 = employee_roles db
  /\ employee_availability db1 = employee_availability db
  /\ weeks db1 = weeks db
  /\ (NoDup (map to_id (timeoff db)) ->
      forall x, In x (timeoff db1) <-> In x (timeoff db) /\ to_id x <> tid)
  /\ Forall2 (leave_lifted db t) (assignments db) (assignments db1)
  /\ (forall week emp d a,
        week_starting db BASELINE = Some week ->
        employee_named db (to_name t) = Some emp ->
        to_approved t = true ->
        In d (daterange (wk_start_date week) 7) ->
        to_from_date t <= d <= to_to_date t ->
        find_assignment (assignments db) (wk_id week) (emp_id emp) d = Some a ->
        a_value a = TIME_OFF_LABEL ->
        find_assignment (assignments db1) (wk_id week) (emp_id emp) d
        = Some (set_value "Set" a))
  /\ (forall week,
        week_starting db BASELINE = Some week ->
        get_week db (wk_id week) = Some week ->
        week_rows_in_range db week = true ->
        exists snap dbl, out = WithCoverage (Returned (ROk snap dbl)))
  /\ (week_starting db BASELINE = None ->
      out = WithoutWeek /\ assignments db1 = assignments db).
Proof.
  intros Hf db1 out.
  pose proof (delete_timeoff_rows set_iter db tid t Hf) as Hrows.
  fold db1 in Hrows.
  assert (Hshape : sections db1 = sections db /\ employees db1 = employees db
                   /\ employee_roles db1 = employee_roles db
                   /\ employee_availability db1 = employee_availability db
                   /\ weeks db1 = weeks db
                   /\ timeoff db1 = remove_timeoff tid (timeoff db)).
  { unfold db1, delete_timeoff. rewrite Hf.
    destruct (week_starting db BASELINE); cbn [fst]; repeat split. }
  destruct Hshape as [S1 [S2 [S3 [S4 [S5 S6]]]]].
  do 5 (split; [assumption|]). split; [|split; [assumption|split; [|split]]].
  - intros Hnd x. rewrite S6. split.
    + intros Hx. split; [eapply remove_timeoff_In; eassumption|].
      eapply remove_timeoff_gone; eassumption.
    + intros [H1 H2]. now apply remove_timeoff_keeps.
  - intros week emp d a Hw He Ha Hd Hr Hrow Hv.
    unfold db1, delete_timeoff. rewrite Hf, Hw, Ha, He. cbn [fst assignments].
    apply untoggle_loop_in_range; try assumption. apply NoDup_daterange.
  - intros week Hw Hg Hin. unfold out, delete_timeoff. rewrite Hf, Hw.
    cbn [snd].
    match goal with
    | |- context [with_snapshot 11 ?d1 _ ?k] =>
        destruct (with_snapshot_11 d1 week k) as [snap E]
    end.
    + exact Hg.
    + erewrite week_rows_in_range_keys; [exact Hin|].
      cbn [assignments].
      pose proof (leave_lifted_keys _ _ _ _ Hrows) as Hk.
      unfold db1, delete_timeoff in Hk. rewrite Hf, Hw in Hk.
      cbn [fst assignments] in Hk. exact Hk.
    + rewrite E. eauto.
  - intros Hw. unfold out, db1, delete_timeoff. rewrite Hf, Hw.
    cbn [fst snd assignments]. split; reflexivity.
Qed.

(** ** /assign, the other outcomes *)

Lemma with_snapshot_not_error n db w k status err :
  (forall snap, k snap <> Returned (RError status err)) ->
  with_snapshot n db w k <> Returned (RError status err).
Proof.
  intros Hk. unfold with_snapshot.
  destruct (get_week db w); [|discriminate].
  destruct (coverage_snapshot_db db w); [|discriminate].
  destruct (unpack n l); [apply Hk | discriminate].
Qed.

(** X11. [/assign] answers an error reply only before it has stored
    anything: whenever the reply is one of its 400 or 404 errors the
    database is unchanged.  For a worker without approved leave on the date
    a request that passes the checks (week, section, employee, membership,
    date, row) stores the value as it came, whatever string it is, in that
    one row; the other rows, the flags and the other tables stay; and with
    the rows of the week in order the reply is the success reply. *)
Theorem assign_outcomes set_iter db req :
  (forall status err,
     snd (assign set_iter db req) = Returned (RError status err) ->
     fst (assign set_iter db req) = db)
  /\ (forall week sec emp dte a,
        request_week db req = Some week ->
        section_named db (rq_section req) = Some sec ->
        employee_named db (rq_employee req) = Some emp ->
        allowed_in_section db emp sec = true ->
        rq_date req = Some dte ->
        find_assignment (assignments db) (wk_id week) (emp_id emp) dte = Some a ->
        has_approved_timeoff db (emp_name emp) dte = false ->
        let db1 := fst (assign set_iter db req) in
        db1 = with_assignments db (assignments db1)
        /\ find_assignment (assignments db1) (wk_id week) (emp_id emp) dte
           = Some (set_value (rq_value req) a)
        /\ Forall2 (fun x x' =>
                      x' = x
                      \/ (x' = set_value (rq_value req) x
                          /\ key3 x = (wk_id week, emp_id emp, dte)))
                   (assignments db) (assignments db1)
        /\ (get_week db (wk_id week) = Some week ->
            week_rows_in_range db week = true ->
            exists snap dbl,
              snd (assign set_iter db req) = Returned (ROk snap dbl))).
Proof.
  split.
  - intros status err. unfold assign.
    destruct (request_week db req) as [week|]; [|reflexivity].
    destruct (section_named db (rq_section req)) as [sec|]; [|reflexivity].
    destruct (employee_named db (rq_employee req)) as [emp|]; [|reflexivity].
    destruct (allowed_in_section db emp sec); cbn [negb]; [|reflexivity].
    destruct (rq_date req) as [dte|]; [|reflexivity].
    destruct (find_assignment _ _ _ _) as [a|]; [|reflexivity].
    destruct (has_approved_timeoff db (emp_name emp) dte); cbn [fst snd];
      intros H; exfalso; revert H; apply with_snapshot_not_error;
      intros snap; discriminate.
  - intros week sec emp dte a Hw Hs He Hal Hd Ha Hto db1.
    unfold db1, assign. rewrite Hw, Hs, He, Hal, Hd, Ha, Hto.
    cbn [negb fst snd assignments with_assignments].
    split; [reflexivity|]. split; [|split].
    + rewrite find_assignment_update_same by auto with rows.
      now rewrite Ha.
    + apply update_first_Forall2; [now left|].
      intros x Hx. apply is_row_true in Hx. destruct Hx as [H1 [H2 H3]].
      right. split; [reflexivity|]. unfold key3. now rewrite H1, H2, H3.
    + intros Hg Hin.
      match goal with
      | |- context [with_snapshot 11 ?d1 _ ?k] =>
          destruct (with_snapshot_11 d1 week k) as [snap E]
      end.
      * exact Hg.
      * erewrite week_rows_in_range_keys; [exact Hin|].
        cbn [assignments with_assignments]. apply map_key_update_first.
        auto with rows.
      * rewrite E. eauto.
Qed.

(** ** What the coverage snapshot counts *)

Section AssocGrid.

Context {K V : Type}.
Variable eqb : K -> K -> bool.
Hypothesis eqb_spec : forall a b, eqb a b = true <-> a = b.

Lemma assoc_get_map_keys (g : K -> V) l k :
  In k l -> assoc_get eqb k (map (fun v => (v, g v)) l) = Some (g k).
Proof.
  induction l as [|a l IH]; intros Hin; [destruct Hin|]. simpl.
  destruct (eqb a k) eqn:E.
  - apply eqb_spec in E. now subst.
  - destruct Hin as [->|Hin]; [|now apply IH].
    assert (eqb k k = true) by now apply eqb_spec. congruence.
Qed.

Lemma assoc_get_map_miss (g : K -> V) l k :
  ~ In k l -> assoc_get eqb k (map (fun v => (v, g v)) l) = None.
Proof.
  induction l as [|a l IH]; intros Hin; [reflexivity|]. simpl.
  destruct (eqb a k) eqn:E.
  - apply eqb_spec in E. subst. exfalso. apply Hin. now left.
  - apply IH. intros H. apply Hin. now right.
Qed.

Lemma assoc_set_map_keys (g : K -> V) l k x :
  NoDup l -> In k l ->
  assoc_set eqb k x (map (fun v => (v, g v)) l)
  = map (fun v => (v, if eqb v k then x else g v)) l.
Proof.
  induction l as [|a l IH]; intros Hnd Hin; [destruct Hin|]. simpl.
  inversion Hnd as [|? ? Hnotin Hnd']; subst.
  destruct (eqb a k) eqn:E.
  - apply eqb_spec in E. subst a. f_equal. apply map_ext_in.
    intros v Hv. destruct (eqb v k) eqn:E'; [|reflexivity].
    apply eqb_spec in E'. subst. contradiction.
  - f_equal. apply IH; [assumption|].
    destruct Hin as [->|Hin]; [|assumption].
    assert (eqb k k = true) by now apply eqb_spec. congruence.
Qed.

End AssocGrid.

Lemma Z_eqb_spec' (a b : Z) : (a =? b) = true <-> a = b.
Proof. apply Z.eqb_eq. Qed.

Lemma string_eqb_spec' (a b : string) : (a =? b)%string = true <-> a = b.
Proof. apply String.eqb_eq. Qed.

Lemma grid_ext dates variants f g :
  (forall d v, In d dates -> In v variants -> f d v = g d v) ->
  grid dates variants f = grid dates variants g.
Proof.
  intros H. unfold grid. apply map_ext_in. intros d Hd. f_equal.
  apply map_ext_in. intros v Hv. f_equal. now apply H.
Qed.

Lemma bump_grid dates variants f d k :
  NoDup dates -> NoDup variants -> In d dates -> In k variants ->
  bump (grid dates variants f) d k
  = Some (grid dates variants (one_more f d (Some k))).
Proof.
  intros Hd Hv Hind Hink. unfold bump, grid.
  rewrite (assoc_get_map_keys Z.eqb Z_eqb_spec'
             (fun d => map (fun v => (v, f d v)) variants)) by assumption.
  rewrite (assoc_get_map_keys String.eqb string_eqb_spec' (f d)) by assumption.
  rewrite (assoc_set_map_keys String.eqb string_eqb_spec' (f d)) by assumption.
  rewrite (assoc_set_map_keys Z.eqb Z_eqb_spec'
             (fun d => map (fun v => (v, f d v)) variants)) by assumption.
  f_equal. apply map_ext_in. intros d' Hd'. f_equal. unfold one_more.
  destruct (Z.eqb_spec d' d) as [->|Hne]; cbn [andb].
  - apply map_ext. intros v.
    destruct (String.eqb_spec v k) as [->|E]; reflexivity.
  - reflexivity.
Qed.

Lemma bump_grid_none dates variants f d k :
  ~ In d dates -> bump (grid dates variants f) d k = None.
Proof.
  intros H. unfold bump, grid.
  now rewrite (assoc_get_map_miss Z.eqb Z_eqb_spec'
                 (fun d => map (fun v => (v, f d v)) variants)).
Qed.

Lemma grid_one_more_out dates variants f d k :
  (~ In d dates \/ k = None) ->
  grid dates variants (one_more f d k) = grid dates variants f.
Proof.
  intros H. apply grid_ext. intros d' v Hd' Hv. unfold one_more.
  destruct k as [k|]; [|reflexivity]. destruct H as [H|H]; [|discriminate].
  destruct (Z.eqb_spec d' d) as [->|Hne]; [contradiction | reflexivity].
Qed.

Lemma tally_row_counters t a :
  tally_row t a
  = if inactive_value (a_value a) then Some t
    else
      t1 <- match fd_counter (a_value a) with
            | Some k => tally_fd t (a_date a) k (a_value a)
            | None => Some t
            end ;;
      t2 <- match sh_counter (a_value a) with
            | Some k => tally_sh t1 (a_date a) k
            | None => Some t1
            end ;;
      match bb_counter (a_value a) with
      | Some k => tally_bb t2 (a_date a) k
      | None => Some t2
      end.
Proof.
  unfold tally_row, fd_counter, sh_counter, bb_counter.
  destruct (inactive_value (a_value a)); [reflexivity|].
  destruct (str_in (a_value a) FRONT_DESK_SHIFTS),
           (str_in (a_value a) SHUTTLE_SHIFTS),
           (str_in (a_value a) BB_LABELS);
    repeat match goal with
           | |- context [if ?b then _ else _] => destruct b
           end; reflexivity.
Qed.

Lemma bump_stage dates variants f d k c :
  NoDup dates -> NoDup variants -> In k variants ->
  bump (grid dates variants f) d k = Some c ->
  c = grid dates variants (one_more f d (Some k)).
Proof.
  intros Hd Hv Hk H. destruct (in_dec Z.eq_dec d dates) as [Hin|Hout].
  - rewrite bump_grid in H by assumption. now injection H as <-.
  - rewrite bump_grid_none in H by assumption. discriminate.
Qed.

Lemma fd_counter_in v k : fd_counter v = Some k -> In k FD_TOKENS.
Proof.
  unfold fd_counter. destruct (str_in v FRONT_DESK_SHIFTS); [|discriminate].
  destruct (startswith v "AM"); [intros H; injection H as <-; simpl; auto|].
  destruct (startswith v "PM"); [intros H; injection H as <-; simpl; auto|].
  destruct (startswith v "Audit"); [|discriminate].
  intros H; injection H as <-; simpl; auto.
Qed.

Lemma sh_counter_in v k : sh_counter v = Some k -> In k SH_TOKENS.
Proof.
  unfold sh_counter. destruct (str_in v SHUTTLE_SHIFTS); [|discriminate].
  destruct (v =? _)%string; [intros H; injection H as <-; simpl; auto|].
  destruct (startswith v "Midday"); [intros H; injection H as <-; simpl; auto|].
  destruct (startswith v "PM (5:30PM");
    [intros H; injection H as <-; simpl; auto|].
  destruct (startswith v "Crew"); [|discriminate].
  intros H; injection H as <-; simpl; auto 6.
Qed.

Lemma bb_counter_in v k : bb_counter v = Some k -> In k BB_LABELS.
Proof.
  unfold bb_counter. destruct (str_in v BB_LABELS) eqn:E; [|discriminate].
  intros H. injection H as <-. now apply str_in_In.
Qed.

Lemma tally_row_grid dates f1 L f2 f3 a t' :
  NoDup dates ->
  tally_row (mkTally (grid dates FD_TOKENS f1) L (grid dates SH_TOKENS f2)
                     (grid dates BB_LABELS f3)) a = Some t' ->
  let act := fun k : option string =>
               if inactive_value (a_value a) then None else k in
  t_counts t'
  = grid dates FD_TOKENS (one_more f1 (a_date a) (act (fd_counter (a_value a))))
  /\ t_sh_counts t'
     = grid dates SH_TOKENS
            (one_more f2 (a_date a) (act (sh_counter (a_value a))))
  /\ t_bb_counts t'
     = grid dates BB_LABELS
            (one_more f3 (a_date a) (act (bb_counter (a_value a)))).
Proof.
  intros Hnd H act. unfold act. rewrite tally_row_counters in H.
  destruct (inactive_value (a_value a)).
  { injection H as <-. repeat split. }
  assert (N1 : NoDup FD_TOKENS)
    by (repeat constructor; simpl; intuition discriminate).
  assert (N2 : NoDup SH_TOKENS)
    by (repeat constructor; simpl; intuition discriminate).
  assert (N3 : NoDup BB_LABELS)
    by (repeat constructor; simpl; intuition discriminate).
  destruct (fd_counter (a_value a)) as [k1|] eqn:E1.
  - unfold tally_fd in H. cbn [t_counts t_fd_label_counts t_sh_counts
                               t_bb_counts] in H.
    destruct (bump (grid dates FD_TOKENS f1) (a_date a) k1) as [c1|] eqn:B1;
      [|discriminate].
    apply bump_stage in B1; [|assumption|assumption|eapply fd_counter_in; eassumption].
    destruct (bump_label L (a_date a) k1 (a_value a)) as [l1|];
      [|discriminate].
    destruct (sh_counter (a_value a)) as [k2|] eqn:E2.
    + unfold tally_sh in H. cbn [t_counts t_fd_label_counts t_sh_counts
                                 t_bb_counts] in H.
      destruct (bump (grid dates SH_TOKENS f2) (a_date a) k2) as [c2|] eqn:B2;
        [|discriminate].
      apply bump_stage in B2; [|assumption|assumption|eapply sh_counter_in; eassumption].
      destruct (bb_counter (a_value a)) as [k3|] eqn:E3.
      * unfold tally_bb in H. cbn [t_counts t_fd_label_counts t_sh_counts
                                   t_bb_counts] in H.
        destruct (bump (grid dates BB_LABELS f3) (a_date a) k3) as [c3|] eqn:B3;
          [|discriminate].
        apply bump_stage in B3;
          [|assumption|assumption|eapply bb_counter_in; eassumption].
        injection H as <-. subst. repeat split.
      * injection H as <-. subst. repeat split.
    + destruct (bb_counter (a_value a)) as [k3|] eqn:E3.
      * unfold tally_bb in H. cbn [t_counts t_fd_label_counts t_sh_counts
                                   t_bb_counts] in H.
        destruct (bump (grid dates BB_LABELS f3) (a_date a) k3) as [c3|] eqn:B3;
          [|discriminate].
        apply bump_stage in B3;
          [|assumption|assumption|eapply bb_counter_in; eassumption].
        injection H as <-. subst. repeat split.
      * injection H as <-. subst. repeat split.
  - destruct (sh_counter (a_value a)) as [k2|] eqn:E2.
    + unfold tally_sh in H. cbn [t_counts t_fd_label_counts t_sh_counts
                                 t_bb_counts] in H.
      destruct (bump (grid dates SH_TOKENS f2) (a_date a) k2) as [c2|] eqn:B2;
        [|discriminate].
      apply bump_stage in B2; [|assumption|assumption|eapply sh_counter_in; eassumption].
      destruct (bb_counter (a_value a)) as [k3|] eqn:E3.
      * unfold tally_bb in H. cbn [t_counts t_fd_label_counts t_sh_counts
                                   t_bb_counts] in H.
        destruct (bump (grid dates BB_LABELS f3) (a_date a) k3) as [c3|] eqn:B3;
          [|discriminate].
        apply bump_stage in B3;
          [|assumption|assumption|eapply bb_counter_in; eassumption].
        injection H as <-. subst. repeat split.
      * injection H as <-. subst. repeat split.
    + destruct (bb_counter (a_value a)) as [k3|] eqn:E3.
      * unfold tally_bb in H. cbn [t_counts t_fd_label_counts t_sh_counts
                                   t_bb_counts] in H.
        destruct (bump (grid dates BB_LABELS f3) (a_date a) k3) as [c3|] eqn:B3;
          [|discriminate].
        apply bump_stage in B3;
          [|assumption|assumption|eapply bb_counter_in; eassumption].
        injection H as <-. subst. repeat split.
      * injection H as <-. repeat split.
Qed.

Lemma fd_counter_spec value v :
  In v FD_TOKENS ->
  fd_shift v value
  = match (if inactive_value value then None else fd_counter value) with
    | Some k => (v =? k)%string
    | None => false
    end.
Proof.
  intros Hv. destruct (str_in value FRONT_DESK_SHIFTS) eqn:E.
  - apply str_in_In in E. each_value E;
      cbv [FD_TOKENS In] in Hv;
      repeat (destruct Hv as [<-|Hv]); try contradiction;
      vm_compute; reflexivity.
  - unfold fd_shift, fd_counter. rewrite E.
    now destruct (inactive_value value).
Qed.

Lemma sh_counter_spec value v :
  In v SH_TOKENS ->
  sh_shift v value
  = match (if inactive_value value then None else sh_counter value) with
    | Some k => (v =? k)%string
    | None => false
    end.
Proof.
  intros Hv. destruct (str_in value SHUTTLE_SHIFTS) eqn:E.
  - apply str_in_In in E. each_value E;
      cbv [SH_TOKENS In] in Hv;
      repeat (destruct Hv as [<-|Hv]); try contradiction;
      vm_compute; reflexivity.
  - unfold sh_shift, sh_counter. rewrite E.
    now destruct (inactive_value value).
Qed.

Lemma bb_counter_spec value v :
  In v BB_LABELS ->
  (v =? value)%string
  = match (if inactive_value value then None else bb_counter value) with
    | Some k => (v =? k)%string
    | None => false
    end.
Proof.
  intros Hv. destruct (str_in value BB_LABELS) eqn:E.
  - apply str_in_In in E. each_value E;
      cbv [BB_LABELS In] in Hv;
      repeat (destruct Hv as [<-|Hv]); try contradiction;
      vm_compute; reflexivity.
  - unfold bb_counter. rewrite E.
    assert (Hne : (v =? value)%string = false).
    { destruct (String.eqb_spec v value) as [->|]; [|reflexivity].
      apply str_in_In in Hv. congruence. }
    rewrite Hne. now destruct (inactive_value value).
Qed.

Lemma counted_app p pre a d :
  counted p (pre ++ [a]) d
  = counted p pre d + (if (a_date a =? d) && p (a_value a) then 1 else 0).
Proof.
  unfold counted. rewrite filter_app, length_app. simpl.
  destruct ((a_date a =? d) && p (a_value a)); simpl; lia.
Qed.

Lemma one_more_counted (p : string -> string -> bool) variants pre a k :
  (forall v, In v variants ->
     p v (a_value a) = match k with Some k => (v =? k)%string | None => false end) ->
  forall d v, In v variants ->
  one_more (fun d v => counted (p v) pre d) (a_date a) k d v
  = counted (p v) (pre ++ [a]) d.
Proof.
  intros Hp d v Hv. rewrite counted_app, (Hp v Hv). unfold one_more.
  rewrite (Z.eqb_sym (a_date a) d).
  destruct k as [k|]; [|rewrite andb_false_r; lia].
  destruct ((d =? a_date a) && (v =? k)%string); lia.
Qed.

Lemma tally_rows_grid dates rows t :
  NoDup dates ->
  foldM tally_row rows
    (mkTally (zero_counts dates FD_TOKENS)
             (map (fun k => (k, map (fun v => (v, [])) FD_TOKENS)) dates)
             (zero_counts dates SH_TOKENS) (zero_counts dates BB_LABELS))
  = Some t ->
  t_counts t = grid dates FD_TOKENS (fun d v => counted (fd_shift v) rows d)
  /\ t_sh_counts t
     = grid dates SH_TOKENS (fun d v => counted (sh_shift v) rows d)
  /\ t_bb_counts t
     = grid dates BB_LABELS (fun d v => counted (String.eqb v) rows d).
Proof.
  intros Hnd H.
  apply (foldM_inv_indexed
           (fun pre s =>
              t_counts s
              = grid dates FD_TOKENS (fun d v => counted (fd_shift v) pre d)
              /\ t_sh_counts s
                 = grid dates SH_TOKENS (fun d v => counted (sh_shift v) pre d)
              /\ t_bb_counts s
                 = grid dates BB_LABELS
                        (fun d v => counted (String.eqb v) pre d))
           tally_row rows) with (pre := []) in H.
  - exact H.
  - intros pre a s s' [H1 [H2 H3]] Hs.
    destruct s as [c l sc bc]. cbn [t_counts t_sh_counts t_bb_counts] in *.
    subst c sc bc.
    destruct (tally_row_grid _ _ _ _ _ _ _ Hnd Hs) as [G1 [G2 G3]].
    rewrite G1, G2, G3. split; [|split]; apply grid_ext; intros d v _ Hv.
    + apply (one_more_counted fd_shift FD_TOKENS); [|assumption].
      intros v0 Hv0. now apply fd_counter_spec.
    + apply (one_more_counted sh_shift SH_TOKENS); [|assumption].
      intros v0 Hv0. now apply sh_counter_spec.
    + apply (one_more_counted String.eqb BB_LABELS); [|assumption].
      intros v0 Hv0. now apply bb_counter_spec.
  - repeat split.
Qed.

Lemma below_grid th dates variants f :
  below th (grid dates variants f)
  = map (fun d => (d, day_short th variants (f d))) dates.
Proof.
  unfold below, grid, day_short. rewrite map_map. apply map_ext. intros d.
  cbn [fst snd]. f_equal. induction variants as [|v l IH]; simpl;
    [reflexivity | now rewrite IH].
Qed.

(** X12. When [coverage_snapshot_db] returns, its tuple is, with the dates
    of the week as keys: per date and reception variant the number of rows
    of the week of that date that hold a reception shift of the variant; the
    sum of the three per date; the flag that some variant has fewer than
    two; the same counts for the four shuttle variants and the three
    food-bar labels with the flag that some has none; and the constants 6,
    4 and 3.  Rows are counted whoever the worker is, and rows that hold the
    placeholder or TIME OFF count nowhere. *)
Theorem coverage_snapshot_counts db week_id wk t :
  get_week db week_id = Some wk ->
  coverage_snapshot_db db week_id = Some t ->
  let dates := daterange (wk_start_date wk) 7 in
  let rows := week_rows db week_id in
  let fd := fun d v => counted (fd_shift v) rows d in
  let sh := fun d v => counted (sh_shift v) rows d in
  let bb := fun d v => counted (String.eqb v) rows d in
  exists dup,
    t = [ PTotals (map (fun d => (d, day_total FD_TOKENS (fd d))) dates);
          PFlags (map (fun d => (d, day_short 2 FD_TOKENS (fd d))) dates);
          PInt 6;
          PVariantCounts (grid dates FD_TOKENS fd);
          PFlags (map (fun d => (d, day_short 1 SH_TOKENS (sh d))) dates);
          PInt 4;
          PVariantCounts (grid dates SH_TOKENS sh);
          PFlags (map (fun d => (d, day_short 1 BB_LABELS (bb d))) dates);
          PInt 3;
          PVariantCounts (grid dates BB_LABELS bb);
          PFlags dup ].
Proof.
  intros Hw H dates rows fd sh bb. unfold coverage_snapshot_db in H.
  rewrite Hw in H. fold dates in H.
  destruct (foldM tally_row _ _) as [tl|] eqn:E; [|discriminate].
  apply tally_rows_grid in E; [|apply NoDup_daterange].
  destruct E as [E1 [E2 E3]]. fold rows fd in E1. fold rows sh in E2.
  fold rows bb in E3.
  injection H as <-. rewrite E1, E2, E3, !below_grid.
  eexists. repeat f_equal.
Qed.

(** ** One worker per shift *)

Lemma fills_same w T rows rows' :
  (forall e d, cell rows' w e d = cell rows w e d) -> fills w T rows rows'.
Proof.
  intros H. split.
  - intros H1 _ e1 e2 d v Hv. rewrite !H. now apply H1.
  - intros d v Hu _ e. rewrite H. apply Hu.
Qed.

Lemma fills_weaken w (T T' : date -> string -> Prop) rows rows' :
  (forall d v, T d v -> T' d v) -> fills w T rows rows' -> fills w T' rows rows'.
Proof.
  intros Hsub [H1 H2]. split.
  - intros Ho Hu. apply H1; [assumption|]. intros d v Ht. apply Hu.
    now apply Hsub.
  - intros d v Hu Hn. apply H2; [assumption|]. intros Ht. apply Hn.
    now apply Hsub.
Qed.

Lemma fills_seq w (T1 T2 : date -> string -> Prop) a b c :
  (forall d v, T1 d v -> T2 d v -> False) ->
  fills w T1 a b -> fills w T2 b c ->
  fills w (fun d v => T1 d v \/ T2 d v) a c.
Proof.
  intros Hdis [A1 A2] [B1 B2]. split.
  - intros Ho Hu. apply B1.
    + apply A1; [assumption|]. intros d v Ht. apply Hu. now left.
    + intros d v Ht. apply A2; [apply Hu; now right|].
      intros Ht1. exact (Hdis d v Ht1 Ht).
  - intros d v Hu Hn. apply B2; [apply A2|]; tauto.
Qed.

Lemma fills_put w st e0 d0 role tok label :
  fills w (fun d v => d = d0 /\ v = label) (g_rows st)
        (g_rows (record_assignment w st e0 d0 role tok label)).
Proof.
  split.
  - intros Ho Hu e1 e2 d v Hv H1 H2.
    destruct (Z.eq_dec e1 e2) as [|Hne]; [assumption|exfalso].
    assert (Hcase : forall e e', e <> e' ->
              cell (g_rows (record_assignment w st e0 d0 role tok label)) w e d
              = Some v ->
              cell (g_rows (record_assignment w st e0 d0 role tok label)) w e' d
              = Some v ->
              (e, d) = (e0, d0) -> False).
    { intros e e' Hee Hc Hc' E. injection E as -> ->.
      rewrite record_assignment_cell_same in Hc.
      destruct (cell (g_rows st) w e0 d0); [|discriminate].
      injection Hc as <-.
      rewrite record_assignment_cell_other in Hc' by congruence.
      exact (Hu d0 label (conj eq_refl eq_refl) e' Hc'). }
    destruct (Z.eq_dec d d0) as [->|Hd].
    + destruct (Z.eq_dec e1 e0) as [->|H10].
      * exact (Hcase e0 e2 Hne H1 H2 eq_refl).
      * destruct (Z.eq_dec e2 e0) as [->|H20].
        -- apply (Hcase e0 e1); auto.
        -- rewrite record_assignment_cell_other in H1, H2 by congruence.
           apply Hne. exact (Ho e1 e2 d0 v Hv H1 H2).
    + rewrite record_assignment_cell_other in H1, H2 by congruence.
      apply Hne. exact (Ho e1 e2 d v Hv H1 H2).
  - intros d v Hu Hn e Hc.
    destruct (Z.eq_dec e e0) as [->|He];
      [destruct (Z.eq_dec d d0) as [->|Hd]|].
    + rewrite record_assignment_cell_same in Hc.
      destruct (cell (g_rows st) w e0 d0); [|discriminate].
      injection Hc as <-. now apply Hn.
    + rewrite record_assignment_cell_other in Hc by congruence.
      exact (Hu e0 Hc).
    + rewrite record_assignment_cell_other in Hc by congruence.
      exact (Hu e Hc).
Qed.

Lemma fills_after_same w T a b c :
  (forall e d, cell b w e d = cell a w e d) -> fills w T b c -> fills w T a c.
Proof.
  intros Hs Hf.
  apply (fills_weaken w (fun d v => False \/ T d v)); [tauto|].
  apply fills_seq with (b := b); [tauto | now apply fills_same | assumption].
Qed.

Lemma fills_fold {St A : Type} w (f : St -> A -> option St)
  (rows_of : St -> list Assignment) (T : A -> date -> string -> Prop) l :
  (forall x y d v, In x l -> In y l -> T x d v -> T y d v -> x = y) ->
  (forall s x s', In x l -> f s x = Some s' ->
     fills w (T x) (rows_of s) (rows_of s')) ->
  NoDup l ->
  forall s s', foldM f l s = Some s' ->
  fills w (fun d v => exists x, In x l /\ T x d v) (rows_of s) (rows_of s').
Proof.
  induction l as [|x l IH]; intros Hdis Hstep Hnd s s' H; simpl in H.
  - injection H as <-. now apply fills_same.
  - destruct (f s x) as [s1|] eqn:E; [|discriminate].
    inversion Hnd as [|? ? Hx Hnd']; subst.
    apply (fills_weaken w (fun d v => T x d v
                                      \/ exists y, In y l /\ T y d v)).
    { intros d v [Ht|[y [Hy Ht]]]; [exists x | exists y]; split; auto;
        [now left | now right]. }
    apply fills_seq with (b := rows_of s1).
    + intros d v Ht [y [Hy Ht']]. apply Hx.
      rewrite (Hdis x y d v); auto; [now left | now right].
    + apply Hstep; [now left | assumption].
    + apply IH; try assumption.
      * intros a b d v Ha Hb. apply Hdis; now right.
      * intros s0 y s0' Hy. apply Hstep. now right.
Qed.

Section OneHolder.

Variable set_iter : list Z -> list Z.
Variable db : DB.
Variable w : Z.

Lemma fd_assign_fills d variant opts picks st pool :
  List.length opts = 2%nat -> NoDup opts -> (List.length picks <= 2)%nat ->
  fills w (fun d' v => d' = d /\ In v opts) (g_rows st)
    (g_rows (fst (fd_assign db w d variant opts (List.length picks) 0 picks
                            (st, pool)))).
Proof.
  intros Hlen Hnd Hp.
  destruct picks as [|a [|b [|c rest]]]; cbn [fd_assign fst snd].
  - now apply fills_same.
  - eapply fills_weaken; [|apply fills_put].
    intros d' v [-> ->]. split; [reflexivity|]. now apply stagger_label_in.
  - destruct opts as [|o1 [|o2 [|o3 opts]]]; try discriminate.
    change (stagger_label db [o1; o2] (List.length [a; b]) 0 a) with o1.
    change (stagger_label db [o1; o2] (List.length [a; b]) 1 b) with o2.
    apply (fills_weaken w (fun d' v => (d' = d /\ v = o1)
                                       \/ (d' = d /\ v = o2))).
    { intros d' v [[-> ->]|[-> ->]]; (split; [reflexivity|]);
        [now left | right; now left]. }
    eapply fills_seq; [|apply fills_put|apply fills_put].
    intros d' v [_ ->] [_ E]. inversion Hnd as [|? ? Hx _]; subst.
    apply Hx. now left.
  - simpl in Hp. lia.
Qed.

Lemma fd_slot_fills d st pool vo st' pool' :
  In vo FD_VARIANTS ->
  fd_slot db w d (st, pool) vo = Some (st', pool') ->
  fills w (fun d' v => d' = d /\ In v (snd vo)) (g_rows st) (g_rows st').
Proof.
  intros Hvo. destruct vo as [variant opts]. unfold fd_slot. cbn [fst snd].
  destruct (foldM (fd_consider db w d variant) pool (st, []))
    as [[st1 cand]|] eqn:Hsc; [|discriminate].
  destruct (fd_scan db w d variant pool st [] st1 cand Hsc)
    as [_ [_ [_ [Hcore _]]]]; [intros e []|].
  cbn [fst snd].
  destruct cand as [|c cand].
  - intros H. injection H as <- _. apply fills_same. intros e d'.
    now apply cell_core.
  - destruct (fd_picks db st1 d variant (c :: cand)) as [picks|] eqn:Hp;
      [|discriminate].
    intros H. injection H as H. apply (f_equal fst) in H. cbn [fst] in H.
    subst st'.
    apply fills_after_same with (b := g_rows st1);
      [intros e d'; now apply cell_core|].
    assert (Hopts : List.length opts = 2%nat /\ NoDup opts).
    { cbv [FD_VARIANTS In] in Hvo.
      repeat (destruct Hvo as [Hvo|Hvo];
              [injection Hvo as <- <-; split; [reflexivity|];
               repeat constructor; simpl; intuition discriminate|]).
      contradiction. }
    apply fd_assign_fills; try tauto.
    rewrite (Permutation_length (sort_picks_perm db picks)).
    destruct (fd_picks_shape _ _ _ _ _ _ Hp) as [->|[[x ->]|[x [y ->]]]];
      simpl; lia.
Qed.

Lemma FD_VARIANTS_apart vo1 vo2 v :
  In vo1 FD_VARIANTS -> In vo2 FD_VARIANTS ->
  In v (snd vo1) -> In v (snd vo2) -> vo1 = vo2.
Proof.
  intros H1 H2. cbv [FD_VARIANTS In] in H1, H2.
  repeat (destruct H1 as [H1|H1]; [subst vo1|]); try contradiction;
    repeat (destruct H2 as [H2|H2]; [subst vo2|]); try contradiction;
    cbn [snd In]; intros Ha Hb; try reflexivity; exfalso;
    repeat (destruct Ha as [Ha|Ha]; [subst v|]); try contradiction;
    repeat (destruct Hb as [Hb|Hb]; [discriminate Hb|]); contradiction.
Qed.

Lemma fd_day_fills st d st' :
  fd_day set_iter db w st d = Some st' ->
  fills w (fun d' v => d' = d /\ In v FD_LABELS) (g_rows st) (g_rows st').
Proof.
  unfold fd_day.
  destruct (foldM (fd_slot db w d) FD_VARIANTS (st, fd_emp_ids set_iter db))
    as [[st1 pool1]|] eqn:E; [|discriminate].
  intros H. injection H as <-.
  apply (fills_fold w (fd_slot db w d) (fun acc => g_rows (fst acc))
           (fun vo d' v => d' = d /\ In v (snd vo))) in E.
  - cbn [fst] in E. eapply fills_weaken; [|exact E].
    intros d' v [vo [Hvo [Hd Hv]]]. split; [assumption|].
    unfold FD_LABELS. apply in_flat_map. eauto.
  - intros x y d' v Hx Hy [_ Hvx] [_ Hvy].
    exact (FD_VARIANTS_apart x y v Hx Hy Hvx Hvy).
  - intros [s p] vo [s' p'] Hvo Hs. cbn [fst].
    eapply fd_slot_fills; eassumption.
  - repeat constructor; simpl; intuition discriminate.
Qed.

Variable resv : list (date * list Z).

Lemma lower_slot_fills role d st pool label st' pool' :
  lower_slot set_iter db w resv role d (st, pool) label = Some (st', pool') ->
  fills w (fun d' v => d' = d /\ v = label) (g_rows st) (g_rows st').
Proof.
  unfold lower_slot. cbn [fst snd].
  destruct (fold_left (lower_consider set_iter db w resv role d label) pool
                      (st, [])) as [st1 cand] eqn:Hsc.
  destruct (lower_scan set_iter db w resv role d label pool st [] st1 cand Hsc)
    as [_ [_ [_ [Hcore _]]]]; [intros e []|].
  cbn [fst snd].
  destruct (pick_best db st1 d cand role label) as [pick|]; [|discriminate].
  intros H. injection H as H.
  apply fills_after_same with (b := g_rows st1);
    [intros e d'; now apply cell_core|].
  destruct pick as [eid|]; apply (f_equal fst) in H; cbn [fst] in H; subst st'.
  - apply fills_put.
  - now apply fills_same.
Qed.

Lemma lower_day_fills role labels pool st d st' :
  NoDup labels ->
  lower_day set_iter db w resv role labels pool st d = Some st' ->
  fills w (fun d' v => d' = d /\ In v labels) (g_rows st) (g_rows st').
Proof.
  intros Hnd. unfold lower_day.
  destruct (foldM (lower_slot set_iter db w resv role d) labels (st, pool))
    as [[st1 pool1]|] eqn:E; [|discriminate].
  intros H. injection H as <-.
  apply (fills_fold w (lower_slot set_iter db w resv role d)
           (fun acc => g_rows (fst acc))
           (fun label d' v => d' = d /\ v = label)) in E.
  - cbn [fst] in E. eapply fills_weaken; [|exact E].
    intros d' v [l [Hl [Hd ->]]]. now split.
  - intros x y d' v _ _ [_ ->] [_ ->]. reflexivity.
  - intros [s p] l [s' p'] _ Hs. cbn [fst].
    eapply lower_slot_fills; eassumption.
  - assumption.
Qed.

Lemma pass_fills (f : GenState -> date -> option GenState) labels days :
  (forall s d s', f s d = Some s' ->
     fills w (fun d' v => d' = d /\ In v labels) (g_rows s) (g_rows s')) ->
  NoDup days ->
  forall st st', foldM f days st = Some st' ->
  fills w (fun _ v => In v labels) (g_rows st) (g_rows st').
Proof.
  intros Hf Hnd st st' H.
  apply (fills_fold w f g_rows (fun d0 d' v => d' = d0 /\ In v labels)) in H.
  - eapply fills_weaken; [|exact H]. intros d v [x [_ [_ Hv]]]. exact Hv.
  - intros x y d v _ _ [<- _] [<- _]. reflexivity.
  - intros s x s' _. apply Hf.
  - assumption.
Qed.

End OneHolder.

Lemma week_passes_fills set_iter db w start rows st :
  week_passes set_iter db w start rows = Some st ->
  fills w (fun _ v => In v ALL_LABELS) rows (g_rows st).
Proof.
  unfold week_passes.
  destruct (fd_pass set_iter db w start _) as [st1|] eqn:E1; [|discriminate].
  destruct (bb_pass set_iter db w _ start st1) as [st2|] eqn:E2;
    [|discriminate].
  intros E3.
  apply (pass_fills w _ FD_LABELS _ (fd_day_fills set_iter db w)
                    (NoDup_daterange _ _)) in E1.
  apply (pass_fills w _ BB_LABELS) in E2;
    [| intros s d s'; apply lower_day_fills;
       repeat constructor; simpl; intuition discriminate
     | apply NoDup_daterange].
  apply (pass_fills w _ SH_LABELS) in E3;
    [| intros s d s'; apply lower_day_fills;
       repeat constructor; simpl; intuition discriminate
     | apply NoDup_daterange].
  cbn [g_rows] in E1.
  apply (fills_weaken w (fun _ v => In v FD_LABELS
                                    \/ (In v BB_LABELS \/ In v SH_LABELS))).
  { intros _ v. unfold ALL_LABELS. rewrite !in_app_iff. tauto. }
  eapply fills_seq; [|exact E1|eapply fills_seq; [|exact E2|exact E3]].
  - intros _ v H1 H2. cbv [FD_LABELS FD_VARIANTS flat_map snd app In] in H1.
    cbv [BB_LABELS SH_LABELS In] in H2.
    repeat (destruct H1 as [H1|H1]; [subst v|]); try contradiction;
      repeat (destruct H2 as [H2|H2]; try discriminate H2); contradiction.
  - intros _ v H1 H2. cbv [BB_LABELS In] in H1. cbv [SH_LABELS In] in H2.
    repeat (destruct H1 as [H1|H1]; [subst v|]); try contradiction;
      repeat (destruct H2 as [H2|H2]; try discriminate H2); contradiction.
Qed.

Lemma generate_week_one_holder set_iter db base db1 k db' :
  generate_week set_iter db base db1 k = Some db' ->
  one_holder (assignments db')
    (wk_id (snd (_ensure_week_and_assignments db1 (base + 7 * k)))).
Proof.
  unfold generate_week.
  set (ew := _ensure_week_and_assignments db1 (base + 7 * k)).
  set (rows0 := reset_week (wk_id (snd ew)) (assignments (fst ew))).
  destruct (week_passes set_iter db (wk_id (snd ew)) (wk_start_date (snd ew))
              rows0) as [st|] eqn:Hp; [|discriminate].
  apply week_passes_fills in Hp. destruct Hp as [Hp _].
  assert (Hset : forall e d v, cell rows0 (wk_id (snd ew)) e d = Some v ->
                               v = "Set").
  { intros e d v Hv. unfold rows0 in Hv. rewrite reset_week_cell in Hv.
    destruct (cell (assignments (fst ew)) (wk_id (snd ew)) e d);
      [|discriminate]. now injection Hv as <-. }
  assert (Hone : one_holder (g_rows st) (wk_id (snd ew))).
  { apply Hp.
    - intros e1 e2 d v Hv H1 _. apply Hset in H1. subst v. discriminate.
    - intros d v Hv e Hc. apply Hset in Hc. subst v.
      cbv [ALL_LABELS FD_LABELS FD_VARIANTS BB_LABELS SH_LABELS flat_map snd
           app In] in Hv.
      repeat (destruct Hv as [Hv|Hv]; try discriminate Hv). contradiction. }
  unfold sync_timeoff_to_assignments.
  destruct (get_week _ _) as [wk'|]; [|discriminate].
  intros H. injection H as <-. cbn [assignments with_assignments].
  intros e1 e2 d v Hv H1 H2.
  assert (Hback : forall e, cell (sync_rows (with_assignments (fst ew) (g_rows st))
                                   (wk_id (snd ew))
                                   (daterange (wk_start_date wk') 7)
                                   (g_rows st)) (wk_id (snd ew)) e d = Some v ->
                            cell (g_rows st) (wk_id (snd ew)) e d = Some v).
  { intros e He.
    destruct (sync_rows_writes (with_assignments (fst ew) (g_rows st))
                (wk_id (snd ew)) (daterange (wk_start_date wk') 7)
                (g_rows st) e d) as [E|[v' [-> E]]].
    - now rewrite <- E.
    - rewrite E in He. injection He as <-. discriminate. }
  exact (Hone e1 e2 d v Hv (Hback e1 H1) (Hback e2 H2)).
Qed.

Lemma fd_shift_opts variant v opts :
  In (variant, opts) FD_VARIANTS -> fd_shift variant v = true ->
  inactive_value v = false /\ In v opts.
Proof.
  intros Hvo H. unfold fd_shift in H. apply andb_true_iff in H.
  destruct H as [Hin Hv]. apply str_in_In in Hin.
  cbv [FD_VARIANTS In] in Hvo.
  repeat (destruct Hvo as [Hvo|Hvo]; [injection Hvo as <- <-|]);
    try contradiction;
    each_value Hin; try (vm_compute in Hv; discriminate Hv);
    (split; [reflexivity|]); simpl; auto.
Qed.

Lemma sh_shift_label variant v1 v2 :
  In variant SH_TOKENS -> sh_shift variant v1 = true ->
  sh_shift variant v2 = true -> v1 = v2 /\ inactive_value v1 = false.
Proof.
  intros Hvar H1 H2. unfold sh_shift in H1, H2.
  apply andb_true_iff in H1. apply andb_true_iff in H2.
  destruct H1 as [I1 H1]. destruct H2 as [I2 H2].
  apply str_in_In in I1. apply str_in_In in I2.
  cbv [SH_TOKENS In] in Hvar.
  repeat (destruct Hvar as [<-|Hvar]); try contradiction;
    each_value I1; try (vm_compute in H1; discriminate H1);
    each_value I2; try (vm_compute in H2; discriminate H2);
    split; reflexivity.
Qed.

(** X13. After a returning run of the generator on a well-formed database,
    in each of the four weeks of the horizon no shift of a day is held by
    two workers: two workers whose rows of the same day hold the same value
    other than the placeholder and TIME OFF are the same worker.  So of
    three workers on one reception variant on a day two are the same (the
    two stagger labels of the variant have one holder each), and two
    workers on one shuttle variant on a day are the same. *)
Theorem generated_shift_has_one_holder set_iter db start_week_id base_week
  db' k :
  db_wf db = true ->
  get_week db start_week_id = Some base_week ->
  generate_4_week_schedule set_iter db start_week_id = Some db' ->
  In k [0; 1; 2; 3] ->
  exists wk,
    week_starting db' (wk_start_date base_week + 7 * k) = Some wk
    /\ (forall e1 e2 d v, inactive_value v = false ->
          cell (assignments db') (wk_id wk) e1 d = Some v ->
          cell (assignments db') (wk_id wk) e2 d = Some v -> e1 = e2)
    /\ (forall variant opts e1 e2 e3 d v1 v2 v3,
          In (variant, opts) FD_VARIANTS ->
          cell (assignments db') (wk_id wk) e1 d = Some v1 ->
          cell (assignments db') (wk_id wk) e2 d = Some v2 ->
          cell (assignments db') (wk_id wk) e3 d = Some v3 ->
          fd_shift variant v1 = true -> fd_shift variant v2 = true ->
          fd_shift variant v3 = true ->
          e1 = e2 \/ e1 = e3 \/ e2 = e3)
    /\ (forall variant e1 e2 d v1 v2,
          In variant SH_TOKENS ->
          cell (assignments db') (wk_id wk) e1 d = Some v1 ->
          cell (assignments db') (wk_id wk) e2 d = Some v2 ->
          sh_shift variant v1 = true -> sh_shift variant v2 = true ->
          e1 = e2).
Proof.
  intros Hwf Hb Hg Hk. unfold generate_4_week_schedule in Hg. rewrite Hb in Hg.
  destruct (get_week_id _ _ _ Hb) as [_ Hin].
  destruct (generate_each_week set_iter db base_week db'
              (fun rows wk => one_holder rows (wk_id wk))) with (k := k)
    as [wk [Hwk Hone]]; try assumption.
  - intros rows rows' wk Heq HP e1 e2 d v Hv H1 H2. apply (HP e1 e2 d v Hv).
    + unfold cell in *. now rewrite <- Heq.
    + unfold cell in *. now rewrite <- Heq.
  - intros dbk k0 dbk' Hgw. eapply generate_week_one_holder. exact Hgw.
  - exists wk. split; [assumption|]. split; [exact Hone|]. split.
    + intros variant opts e1 e2 e3 d v1 v2 v3 Hvo C1 C2 C3 F1 F2 F3.
      destruct (fd_shift_opts _ _ _ Hvo F1) as [A1 I1].
      destruct (fd_shift_opts _ _ _ Hvo F2) as [A2 I2].
      destruct (fd_shift_opts _ _ _ Hvo F3) as [A3 I3].
      assert (Hopts : exists o1 o2, opts = [o1; o2]).
      { cbv [FD_VARIANTS In] in Hvo.
        repeat (destruct Hvo as [Hvo|Hvo]; [injection Hvo as <- <-; eauto|]).
        contradiction. }
      destruct Hopts as [o1 [o2 ->]]. cbn [In] in I1, I2, I3.
      destruct I1 as [<-|[<-|[]]]; destruct I2 as [<-|[<-|[]]];
        destruct I3 as [E3|[E3|[]]]; subst; eauto 6.
    + intros variant e1 e2 d v1 v2 Hvar C1 C2 S1 S2.
      destruct (sh_shift_label _ _ _ Hvar S1 S2) as [<- A1]. eauto.
Qed.

(** ** The generator returns *)

Lemma foldM_total {St A : Type} (I : St -> Prop) (f : St -> A -> option St) l :
  (forall s x, In x l -> I s -> exists s', f s x = Some s' /\ I s') ->
  forall s, I s -> exists s', foldM f l s = Some s' /\ I s'.
Proof.
  induction l as [|x l IH]; intros Hstep s Hs; simpl; [eauto|].
  destruct (Hstep s x (or_introl eq_refl) Hs) as [s1 [E H1]]. rewrite E.
  apply IH; [|assumption]. intros s0 y Hy. apply Hstep. now right.
Qed.

Lemma filterM_total {A : Type} (f : A -> option bool) l :
  (forall x, In x l -> f x <> None) -> exists r, filterM f l = Some r.
Proof.
  induction l as [|x l IH]; intros H; simpl; [eauto|].
  destruct (f x) as [b|] eqn:E; [|exfalso; apply (H x); [now left | assumption]].
  destruct IH as [r ->]; [intros y Hy; apply H; now right|].
  destruct b; eauto.
Qed.

Lemma mapM_total {A B : Type} (f : A -> option B) l :
  (forall x, In x l -> f x <> None) -> exists r, mapM f l = Some r.
Proof.
  induction l as [|x l IH]; intros H; simpl; [eauto|].
  destruct (f x) as [b|] eqn:E; [|exfalso; apply (H x); [now left | assumption]].
  destruct IH as [r ->]; [intros y Hy; apply H; now right|]. eauto.
Qed.

Lemma emp_info_known db emp :
  In emp (employees db) -> emp_info db (emp_id emp) <> None.
Proof.
  intros Hin. unfold emp_info.
  destruct (find (fun e => emp_id e =? emp_id emp) (rev (employees db)))
    eqn:E; [discriminate|].
  assert (Hf := find_none _ _ E emp). cbv beta in Hf.
  rewrite Z.eqb_refl in Hf. apply in_rev in Hin. now specialize (Hf Hin).
Qed.

Lemma rows_have_workers_keys db rows rows' :
  map key3 rows' = map key3 rows ->
  rows_have_workers db rows -> rows_have_workers db rows'.
Proof.
  intros Hk H a Ha. apply (in_map key3) in Ha. rewrite Hk in Ha.
  apply in_map_iff in Ha. destruct Ha as [b [Hb Hin]].
  destruct (H b Hin) as [emp [He Hid]]. exists emp. split; [assumption|].
  rewrite Hid. unfold key3 in Hb. congruence.
Qed.

Lemma row_worker_known db rows w e d a :
  rows_have_workers db rows -> find_assignment rows w e d = Some a ->
  emp_info db e <> None.
Proof.
  intros H Hf. unfold find_assignment in Hf. apply find_some in Hf.
  destruct Hf as [Hin Hr]. apply is_row_true in Hr. destruct Hr as [_ [<- _]].
  destruct (H a Hin) as [emp [He <-]]. now apply emp_info_known.
Qed.

Lemma core_keys rows rows' :
  core rows' = core rows -> map key3 rows' = map key3 rows.
Proof.
  intros H. apply (f_equal (map fst)) in H. unfold core in H.
  rewrite !map_map in H. exact H.
Qed.

Lemma effective_max_returns db e role :
  emp_info db e <> None -> _effective_max_for_role db e role <> None.
Proof.
  intros H. unfold _effective_max_for_role. destruct (emp_info db e);
    [discriminate | contradiction].
Qed.

Lemma pick_best_returns db st d cand role label :
  (forall e, In e cand -> emp_info db e <> None) ->
  exists p, pick_best db st d cand role label = Some p.
Proof.
  intros Hk. unfold pick_best.
  destruct (filterM_total (passes_max_and_rest db st d role label) cand)
    as [filtered Hf].
  { intros e He. unfold passes_max_and_rest.
    pose proof (effective_max_returns db e role (Hk e He)) as Hm.
    destruct (_effective_max_for_role db e role); [discriminate|contradiction]. }
  rewrite Hf. destruct filtered as [|x filtered]; [eauto|].
  unfold ranked.
  destruct (mapM_total (fun eid => k <- key_fn db st role label eid ;;
                                   Some (k, eid)) (x :: filtered))
    as [keyed Hm].
  { intros e He. apply (filterM_In _ _ _ _ Hf) in He. destruct He as [He _].
    specialize (Hk e He). unfold key_fn. destruct (emp_info db e);
      [discriminate | contradiction]. }
  rewrite Hm. eauto.
Qed.

Section Returns.

Variable set_iter : list Z -> list Z.
Variable db : DB.
Variable w : Z.

Lemma fd_consider_returns d variant acc eid :
  rows_have_workers db (g_rows (fst acc)) ->
  (forall e, In e (snd acc) -> emp_info db e <> None) ->
  exists acc', fd_consider db w d variant acc eid = Some acc'
    /\ rows_have_workers db (g_rows (fst acc'))
    /\ (forall e, In e (snd acc') -> emp_info db e <> None).
Proof.
  intros Hr Hc. unfold fd_consider.
  destruct (find_assignment (g_rows (fst acc)) w eid d) as [a|] eqn:Hf;
    [|eauto].
  pose proof (row_worker_known _ _ _ _ _ _ Hr Hf) as Hknown.
  destruct (negb (a_value a =? "Set")%string); [eauto|].
  destruct (negb (_is_available eid "Front Desk" variant d (avail_idx db)));
    [eauto|].
  destruct (negb (rest_ok (g_rows (fst acc)) eid d "Front Desk" variant));
    [eauto|].
  destruct (has_any_timeoff db (emp_name_get db eid) d).
  - eexists. split; [reflexivity|]. cbn [fst snd _mark_dismissed g_rows].
    split; [|assumption].
    eapply rows_have_workers_keys; [|exact Hr].
    apply keys_update_first. auto with rows.
  - unfold max_reached.
    pose proof (effective_max_returns db eid "Front Desk" Hknown) as Hm.
    destruct (_effective_max_for_role db eid "Front Desk") as [m|];
      [|contradiction].
    cbn. eexists. split; [reflexivity|].
    match goal with |- context [if ?b then _ else _] => destruct b end;
      cbn [fst snd]; split; try assumption.
    intros e He. apply in_app_or in He. destruct He as [He|[<-|[]]]; auto.
Qed.

Lemma fd_picks_returns st d variant cand :
  (forall e, In e cand -> emp_info db e <> None) ->
  exists picks, fd_picks db st d variant cand = Some picks.
Proof.
  intros Hk. unfold fd_picks.
  destruct (pick_best_returns db st d cand "Front Desk" variant Hk)
    as [p1 ->].
  destruct p1 as [a|]; [|eauto].
  destruct (pick_best_returns db st d
              (filter (fun e => negb (z_in e [a])) cand) "Front Desk" variant)
    as [p2 H2].
  { intros e He. apply filter_In in He. now apply Hk. }
  rewrite H2. destruct p2; eauto.
Qed.

Lemma record_assignment_keys st e d role tok label :
  map key3 (g_rows (record_assignment w st e d role tok label))
  = map key3 (g_rows st).
Proof.
  unfold record_assignment.
  destruct (find_assignment (g_rows st) w e d); [|reflexivity]. simpl.
  apply keys_update_first. auto with rows.
Qed.

Lemma fd_assign_keys d variant opts n : forall picks i st pool,
  map key3 (g_rows (fst (fd_assign db w d variant opts n i picks (st, pool))))
  = map key3 (g_rows st).
Proof.
  induction picks as [|eid picks IH]; intros i st pool; cbn [fd_assign];
    [reflexivity|].
  cbn [fst snd]. rewrite IH. apply record_assignment_keys.
Qed.

Lemma fd_slot_returns d acc vo :
  rows_have_workers db (g_rows (fst acc)) ->
  exists acc', fd_slot db w d acc vo = Some acc'
    /\ rows_have_workers db (g_rows (fst acc')).
Proof.
  intros Hr. unfold fd_slot.
  destruct (foldM_total
              (fun a => rows_have_workers db (g_rows (fst a))
                        /\ forall e, In e (snd a) -> emp_info db e <> None)
              (fd_consider db w d (fst vo)) (snd acc) ) with (s := (fst acc, @nil Z))
    as [sc [Hsc [Hr1 Hc1]]].
  - intros s x _ [H1 H2].
    destruct (fd_consider_returns d (fst vo) s x H1 H2) as [s' [E [H3 H4]]].
    eauto.
  - split; [exact Hr | intros e []].
  - rewrite Hsc. cbn. destruct (snd sc) as [|c cand] eqn:Ecand; [eauto|].
    destruct (fd_picks_returns (fst sc) d (fst vo) (c :: cand)) as [picks Hp].
    { exact Hc1. }
    rewrite Hp. eexists. split; [reflexivity|].
    eapply rows_have_workers_keys; [apply fd_assign_keys | exact Hr1].
Qed.

Lemma fd_day_returns st d :
  rows_have_workers db (g_rows st) ->
  exists st', fd_day set_iter db w st d = Some st'
    /\ rows_have_workers db (g_rows st').
Proof.
  intros Hr. unfold fd_day.
  destruct (foldM_total (fun a => rows_have_workers db (g_rows (fst a)))
              (fd_slot db w d) FD_VARIANTS) with (s := (st, fd_emp_ids set_iter db))
    as [acc [E H]].
  - intros s x _ Hs. now apply fd_slot_returns.
  - exact Hr.
  - rewrite E. cbn. eauto.
Qed.

Variable resv : list (date * list Z).

Lemma lower_slot_returns role d acc label :
  rows_have_workers db (g_rows (fst acc)) ->
  exists acc', lower_slot set_iter db w resv role d acc label = Some acc'
    /\ rows_have_workers db (g_rows (fst acc')).
Proof.
  intros Hr. unfold lower_slot.
  destruct (fold_left (lower_consider set_iter db w resv role d label)
                      (snd acc) (fst acc, [])) as [st1 cand] eqn:Hsc.
  destruct (lower_scan set_iter db w resv role d label (snd acc) (fst acc) []
                       st1 cand Hsc) as [_ [_ [_ [Hcore Hel]]]];
    [intros e []|].
  assert (Hr1 : rows_have_workers db (g_rows st1)).
  { eapply rows_have_workers_keys; [apply core_keys; exact Hcore | exact Hr]. }
  cbn [fst snd].
  destruct (pick_best_returns db st1 d cand role label) as [p Hp].
  { intros e He. destruct (Hel e He) as [_ [Hrow _]].
    destruct (find_assignment (g_rows st1) w e d) as [a|] eqn:Hf;
      [|discriminate]. eapply row_worker_known; eassumption. }
  rewrite Hp. eexists. split; [reflexivity|].
  destruct p as [eid|]; cbn [fst]; [|assumption].
  eapply rows_have_workers_keys; [apply record_assignment_keys | exact Hr1].
Qed.

Lemma lower_day_returns role labels pool st d :
  rows_have_workers db (g_rows st) ->
  exists st', lower_day set_iter db w resv role labels pool st d = Some st'
    /\ rows_have_workers db (g_rows st').
Proof.
  intros Hr. unfold lower_day.
  destruct (foldM_total (fun a => rows_have_workers db (g_rows (fst a)))
              (lower_slot set_iter db w resv role d) labels) with (s := (st, pool))
    as [acc [E H]].
  - intros s x _ Hs. now apply lower_slot_returns.
  - exact Hr.
  - rewrite E. cbn. eauto.
Qed.

End Returns.

Lemma week_passes_returns set_iter db w start rows :
  rows_have_workers db rows ->
  exists st, week_passes set_iter db w start rows = Some st
    /\ rows_have_workers db (g_rows st).
Proof.
  intros Hr. unfold week_passes, fd_pass, bb_pass, sh_pass.
  destruct (foldM_total (fun s => rows_have_workers db (g_rows s))
              (fd_day set_iter db w) (daterange start 7))
    with (s := mkGen rows (fun _ => 0) (fun _ _ => None)) as [st1 [E1 H1]].
  { intros s x _ Hs. now apply fd_day_returns. }
  { exact Hr. }
  rewrite E1. cbn.
  destruct (foldM_total (fun s => rows_have_workers db (g_rows s))
              (lower_day set_iter db w
                 (reserved_fd_by_date set_iter db w start (g_rows st1))
                 "Breakfast Bar" BB_LABELS (bb_emp_ids set_iter db))
              (daterange start 7)) with (s := st1) as [st2 [E2 H2]].
  { intros s x _ Hs. now apply lower_day_returns. }
  { exact H1. }
  rewrite E2.
  apply foldM_total; [|exact H2].
  intros s x _ Hs. now apply lower_day_returns.
Qed.

Lemma generate_week_returns set_iter origin base db k :
  employees db = employees origin ->
  rows_have_workers origin (assignments db) ->
  exists db', generate_week set_iter origin base db k = Some db'
    /\ employees db' = employees origin
    /\ rows_have_workers origin (assignments db').
Proof.
  intros He Hr. unfold generate_week.
  set (ew := _ensure_week_and_assignments db (base + 7 * k)).
  assert (Hew : rows_have_workers origin (assignments (fst ew))).
  { assert (Ha : assignments (fst ew)
                 = ensure_rows db (snd ew) (assignments db)).
    { unfold ew, _ensure_week_and_assignments.
      destruct (week_starting db (base + 7 * k)); reflexivity. }
    rewrite Ha.
    destruct (ensure_rows_app db (snd ew) (assignments db)) as [extra [-> Hx]].
    intros a Ha'. apply in_app_or in Ha'. destruct Ha' as [Ha'|Ha'].
    - now apply Hr.
    - destruct (Hx a Ha') as [emp [d [Hin [_ ->]]]]. exists emp.
      rewrite <- He. now split. }
  destruct (week_passes_returns set_iter origin (wk_id (snd ew))
              (wk_start_date (snd ew))
              (reset_week (wk_id (snd ew)) (assignments (fst ew))))
    as [st [Hp Hst]].
  { eapply rows_have_workers_keys; [apply keys_reset | exact Hew]. }
  rewrite Hp. cbv beta iota. unfold sync_timeoff_to_assignments.
  pose proof (ensure_week_found db (base + 7 * k)) as Hfound. fold ew in Hfound.
  change (get_week (with_assignments (fst ew) (g_rows st)) (wk_id (snd ew)))
    with (get_week (fst ew) (wk_id (snd ew))).
  destruct (get_week (fst ew) (wk_id (snd ew))) as [wk'|]; [|contradiction].
  eexists. split; [reflexivity|]. split.
  - cbn [employees with_assignments].
    destruct (ensure_week_extends db (base + 7 * k)) as [_ [E _]].
    fold ew in E. now rewrite E.
  - cbn [assignments with_assignments].
    eapply rows_have_workers_keys; [apply keys_sync | exact Hst].
Qed.

Lemma generate_returns_keeping set_iter db start_week_id :
  rows_have_workers db (assignments db) ->
  exists db', generate_4_week_schedule set_iter db start_week_id = Some db'
    /\ employees db' = employees db
    /\ rows_have_workers db (assignments db').
Proof.
  intros Hr. unfold generate_4_week_schedule.
  destruct (get_week db start_week_id) as [base_week|]; [|eauto].
  apply (foldM_total
           (fun d => employees d = employees db
                     /\ rows_have_workers db (assignments d))).
  - intros s x _ [H1 H2].
    destruct (generate_week_returns set_iter db (wk_start_date base_week) s x
                H1 H2) as [s' [E [H3 H4]]]. eauto.
  - split; [reflexivity | exact Hr].
Qed.

(** X14. On a database in which every row of the assignments table is the
    row of an employee of the employees table, a run of the generator
    returns: none of its dictionary lookups raises, whatever weeks, roles,
    availabilities and Leave Requests there are, and whether or not the
    start week exists. *)
Theorem generator_returns set_iter db start_week_id :
  rows_have_workers db (assignments db) ->
  exists db', generate_4_week_schedule set_iter db start_week_id = Some db'.
Proof.
  intros Hr.
  destruct (generate_returns_keeping set_iter db start_week_id Hr)
    as [db' [E _]]. eauto.
Qed.

(** ** Employees come and go *)

Lemma rows_have_workers_ids db db' rows :
  map emp_id (employees db') = map emp_id (employees db) ->
  rows_have_workers db rows -> rows_have_workers db' rows.
Proof.
  intros Hids H a Ha. destruct (H a Ha) as [emp [He Hid]].
  apply (in_map emp_id) in He. rewrite <- Hids in He.
  apply in_map_iff in He. destruct He as [emp' [E He']]. exists emp'.
  split; [assumption | congruence].
Qed.

Lemma rows_have_workers_incl db rows rows' :
  incl rows' rows -> rows_have_workers db rows -> rows_have_workers db rows'.
Proof. intros Hi H a Ha. apply H. now apply Hi. Qed.

Lemma remove_employee_In eid l e :
  In e (remove_employee eid l) -> In e l.
Proof.
  induction l as [|x l IH]; simpl; [auto|].
  destruct (emp_id x =? eid); simpl; [auto|]. intros [H|H]; auto.
Qed.

Lemma remove_employee_keeps eid l e :
  In e l -> emp_id e <> eid -> In e (remove_employee eid l).
Proof.
  induction l as [|x l IH]; simpl; [auto|]. intros [->|H] Hne.
  - destruct (Z.eqb_spec (emp_id e) eid); [contradiction | now left].
  - destruct (emp_id x =? eid); [assumption | right; auto].
Qed.

Lemma remove_employee_gone eid l e :
  NoDup (map emp_id l) -> In e (remove_employee eid l) -> emp_id e <> eid.
Proof.
  induction l as [|x l IH]; simpl; [contradiction|]. intros Hnd.
  inversion Hnd as [|? ? Hx Hnd']; subst.
  destruct (Z.eqb_spec (emp_id x) eid) as [E|E].
  - intros Hin Heq. apply Hx. rewrite E, <- Heq. now apply in_map.
  - intros [<-|Hin]; [assumption | now apply IH].
Qed.

Lemma get_employee_id db eid emp :
  get_employee db eid = Some emp -> emp_id emp = eid /\ In emp (employees db).
Proof.
  unfold get_employee. intros H. apply find_some in H.
  destruct H as [Hin H]. apply Z.eqb_eq in H. auto.
Qed.

Lemma delete_employee_keeps_workers db eid :
  rows_have_workers db (assignments db) ->
  rows_have_workers (fst (delete_employee db eid))
                    (assignments (fst (delete_employee db eid))).
Proof.
  intros Hr. unfold delete_employee.
  destruct (get_employee db eid) as [emp|] eqn:He; [|exact Hr].
  destruct (get_employee_id _ _ _ He) as [Hid _].
  cbn [fst assignments employees]. intros a Ha. apply filter_In in Ha.
  destruct Ha as [Ha Hne]. destruct (Hr a Ha) as [emp' [Hin Hid']].
  exists emp'. split; [|assumption]. apply remove_employee_keeps;
    [assumption|]. rewrite Hid' , <- Hid.
  destruct (Z.eqb_spec (a_employee_id a) (emp_id emp)); [discriminate|assumption].
Qed.

(** X15. [delete_employee] of an existing employee (ids being distinct)
    removes the employee, every assignment and availability row of that
    id, and every Leave Request that bears the employee's name; the other
    rows of these tables stay, and so do the sections, the weeks and the
    whole [employee_roles] table, role rows of the deleted id included.
    Rows that all belonged to employees still do, so the generator still
    returns after the deletion. *)
Theorem delete_employee_effect set_iter db eid emp :
  get_employee db eid = Some emp ->
  NoDup (map emp_id (employees db)) ->
  let db' := fst (delete_employee db eid) in
  (forall e, In e (employees db') <-> In e (employees db) /\ emp_id e <> eid)
  /\ (forall a, In a (assignments db')
                <-> In a (assignments db) /\ a_employee_id a <> eid)
  /\ (forall ea, In ea (employee_availability db')
                 <-> In ea (employee_availability db)
                     /\ ea_employee_id ea <> eid)
  /\ (forall t, In t (timeoff db')
                <-> In t (timeoff db) /\ to_name t <> emp_name emp)
  /\ employee_roles db' = employee_roles db
  /\ sections db' = sections db /\ weeks db' = weeks db
  /\ (rows_have_workers db (assignments db) ->
      forall start_week_id,
      exists db'',
        generate_4_week_schedule set_iter db' start_week_id = Some db''
        /\ forall a, In a (assignments db'') -> a_employee_id a <> eid).
Proof.
  intros He Hnd db'.
  pose proof (delete_employee_keeps_workers db eid) as Hkeep.
  fold db' in Hkeep. unfold db', delete_employee in *. rewrite He in *.
  cbn [fst employees assignments employee_availability timeoff employee_roles
       sections weeks] in *.
  destruct (get_employee_id _ _ _ He) as [Hid Hin]. rewrite Hid in *.
  split; [|split; [|split; [|split; [|split; [|split; [|split]]]]]];
    try reflexivity.
  - intros e. split.
    + intros H. split; [eapply remove_employee_In; eassumption|].
      eapply remove_employee_gone; eassumption.
    + intros [H1 H2]. now apply remove_employee_keeps.
  - intros a. rewrite filter_In.
    destruct (Z.eqb_spec (a_employee_id a) eid); simpl; intuition congruence.
  - intros ea. rewrite filter_In.
    destruct (Z.eqb_spec (ea_employee_id ea) eid); simpl; intuition congruence.
  - intros t. rewrite filter_In.
    destruct (String.eqb_spec (to_name t) (emp_name emp)); simpl;
      intuition congruence.
  - intros Hr w. specialize (Hkeep Hr).
    destruct (generate_returns_keeping set_iter _ w Hkeep)
      as [db'' [Hg [Hemps Hrows]]].
    exists db''. split; [exact Hg|]. intros a Ha.
    destruct (Hrows a Ha) as [emp' [Hin' <-]]. cbn [employees] in Hin'.
    eapply remove_employee_gone; eassumption.
Qed.

Lemma update_employee_row_ids eid f l :
  (forall e, emp_id (f e) = emp_id e) ->
  map emp_id (update_employee_row eid f l) = map emp_id l.
Proof.
  intros Hf. induction l as [|x l IH]; simpl; [reflexivity|].
  destruct (emp_id x =? eid); simpl; [now rewrite Hf | now rewrite IH].
Qed.

Lemma find_update_employee_row eid f l e :
  (forall x, emp_id (f x) = emp_id x) ->
  find (fun x => emp_id x =? eid) l = Some e ->
  find (fun x => emp_id x =? eid) (update_employee_row eid f l) = Some (f e).
Proof.
  intros Hf. induction l as [|x l IH]; simpl; [discriminate|].
  destruct (emp_id x =? eid) eqn:E; simpl.
  - intros H. injection H as <-. now rewrite Hf, E.
  - rewrite E. assumption.
Qed.

Lemma find_update_employee_other eid eid' f l :
  (forall x, emp_id (f x) = emp_id x) -> eid' <> eid ->
  find (fun x => emp_id x =? eid') (update_employee_row eid f l)
  = find (fun x => emp_id x =? eid') l.
Proof.
  intros Hf Hne. induction l as [|x l IH]; simpl; [reflexivity|].
  destruct (emp_id x =? eid) eqn:E; simpl.
  - rewrite Hf. apply Z.eqb_eq in E. rewrite E.
    destruct (Z.eqb_spec eid eid'); [congruence | reflexivity].
  - now rewrite IH.
Qed.

Lemma clear_loop_same w e days rows d :
  NoDup days -> In d days ->
  find_assignment (fold_left (clear_cell w e) days rows) w e d
  = option_map (set_value "Set") (find_assignment rows w e d).
Proof.
  intros Hnd Hin.
  apply (day_loop_same w e (fun _ => set_value "Set") (clear_cell w e));
    try assumption.
  - intros rows0 d0 w' e' d' Hne. unfold clear_cell.
    apply find_assignment_update_other; [auto with rows | assumption].
  - intros rows0 d0. unfold clear_cell.
    apply find_assignment_update_same. auto with rows.
Qed.

Lemma clear_loop_other w e days rows w' e' d' :
  ((w', e') <> (w, e) \/ ~ In d' days) ->
  find_assignment (fold_left (clear_cell w e) days rows) w' e' d'
  = find_assignment rows w' e' d'.
Proof.
  apply (day_loop_other w e (clear_cell w e)).
  intros rows0 d0 w0 e0 d1 Hne. unfold clear_cell.
  apply find_assignment_update_other; [auto with rows | assumption].
Qed.

Lemma clear_loop_keys w e days rows :
  map key3 (fold_left (clear_cell w e) days rows) = map key3 rows.
Proof.
  revert rows. induction days as [|d days IH]; intros rows; simpl;
    [reflexivity|].
  rewrite IH. unfold clear_cell. apply keys_update_first. auto with rows.
Qed.

(** X16. [change_employee_role] for an existing employee and section:
    without a baseline week it raises and the new section is not stored.
    With one it answers the redirect and stores the new section; the
    worker's rows of the days of the baseline week then hold the
    placeholder or TIME OFF, whatever shift they held; any other cell
    changes only by taking TIME OFF in the baseline week, so the shifts the
    worker holds in the other weeks stay as they are. *)
Theorem change_employee_role_effect db eid role emp sec :
  role <> ""%string ->
  get_employee db eid = Some emp ->
  section_named db role = Some sec ->
  (week_starting db BASELINE = None ->
   change_employee_role db eid role = (db, Crashed "AttributeError"))
  /\ forall week, week_starting db BASELINE = Some week ->
     exists db',
       change_employee_role db eid role = (db', Redirect ToListEmployees)
       /\ get_employee db' eid = Some (set_section (sec_id sec) emp)
       /\ (forall e', e' <> eid -> get_employee db' e' = get_employee db e')
       /\ (forall d v, In d (daterange (wk_start_date week) 7) ->
             cell (assignments db') (wk_id week) eid d = Some v ->
             v = "Set" \/ v = TIME_OFF_LABEL)
       /\ (forall w e d,
             cell (assignments db') w e d = cell (assignments db) w e d
             \/ (w = wk_id week
                 /\ (cell (assignments db') w e d = Some TIME_OFF_LABEL
                     \/ (e = eid
                         /\ cell (assignments db') w e d = Some "Set")))).
Proof.
  intros Hrole He Hs. unfold change_employee_role.
  apply String.eqb_neq in Hrole. rewrite Hrole, He, Hs.
  destruct (get_employee_id _ _ _ He) as [Hid _].
  split; [intros ->; reflexivity|]. intros week Hw. rewrite Hw.
  set (rows1 := fold_left (clear_cell (wk_id week) (emp_id emp))
                          (daterange (wk_start_date week) 7) (assignments db)).
  set (db1 := mkDB _ _ _ _ _ rows1 _).
  destruct (week_starting_start _ _ _ Hw) as [_ Hin].
  destruct (get_week_some_of_in db week Hin) as [wk' Hg].
  unfold sync_timeoff_to_assignments.
  change (get_week db1 (wk_id week)) with (get_week db (wk_id week)).
  rewrite Hg. eexists. split; [reflexivity|].
  cbn [assignments with_assignments db1].
  assert (Hclear : forall w e d,
            cell rows1 w e d = cell (assignments db) w e d
            \/ (w = wk_id week /\ e = eid
                /\ In d (daterange (wk_start_date week) 7)
                /\ cell rows1 w e d = Some "Set")).
  { intros w e d. unfold cell, rows1.
    destruct (Z.eq_dec w (wk_id week)) as [->|Hw'];
      [destruct (Z.eq_dec e eid) as [->|He'];
       [destruct (in_dec Z.eq_dec d (daterange (wk_start_date week) 7))
          as [Hd|Hd]|]|].
    - rewrite Hid, clear_loop_same by (auto using NoDup_daterange).
      destruct (find_assignment (assignments db) (wk_id week) eid d);
        [right; repeat split; auto | now left].
    - left. rewrite clear_loop_other; auto.
    - left. rewrite clear_loop_other; [reflexivity|]. left. congruence.
    - left. rewrite clear_loop_other; [reflexivity|]. left. congruence. }
  split; [|split; [|split]].
  - unfold get_employee. cbn [employees with_assignments].
    now apply find_update_employee_row.
  - intros e' Hne. unfold get_employee. cbn [employees with_assignments].
    now apply find_update_employee_other.
  - intros d v Hd Hv.
    destruct (sync_rows_writes
                (mkDB (sections db)
                      (update_employee_row eid (set_section (sec_id sec))
                                           (employees db))
                      (employee_roles db) (employee_availability db)
                      (weeks db) rows1 (timeoff db))
                (wk_id week) (daterange (wk_start_date wk') 7) rows1 eid d)
      as [E|[v' [-> E]]].
    + fold db1 in E. rewrite E in Hv. left.
      unfold cell, rows1 in Hv.
      rewrite Hid, clear_loop_same in Hv by (auto using NoDup_daterange).
      destruct (find_assignment (assignments db) (wk_id week) eid d);
        [|discriminate]. now injection Hv as <-.
    + fold db1 in E. rewrite E in Hv. right. now injection Hv as <-.
  - intros w e d.
    destruct (Z.eq_dec w (wk_id week)) as [->|Hne].
    + destruct (sync_rows_writes db1 (wk_id week)
                  (daterange (wk_start_date wk') 7) rows1 e d)
        as [E|[v' [-> E]]].
      * rewrite E. destruct (Hclear (wk_id week) e d) as [H|[_ [H1 [_ H2]]]];
          [now left | right; split; [reflexivity|]; right; now split].
      * right. split; [reflexivity|]. now left.
    + left. unfold cell. rewrite sync_rows_other by assumption.
      destruct (Hclear w e d) as [H|[H _]]; [exact H | contradiction].
Qed.

(** ** Rows stay the rows of employees *)

Lemma keeps_workers_keys db db' :
  map emp_id (employees db') = map emp_id (employees db) ->
  map key3 (assignments db') = map key3 (assignments db) ->
  rows_have_workers db (assignments db) ->
  rows_have_workers db' (assignments db').
Proof.
  intros Hi Hk Hr. eapply rows_have_workers_ids; [exact Hi|].
  eapply rows_have_workers_keys; eassumption.
Qed.

Lemma neighbour_week_keeps_workers delta db w :
  rows_have_workers db (assignments db) ->
  rows_have_workers (fst (neighbour_week delta db w))
                    (assignments (fst (neighbour_week delta db w))).
Proof.
  intros Hr. unfold neighbour_week.
  destruct (get_week db w) as [cur|]; [|exact Hr].
  destruct (week_starting db (wk_start_date cur + delta)); [exact Hr|].
  set (db1 := mkDB _ _ _ _ _ _ _).
  assert (H1 : rows_have_workers db1 (assignments db1)).
  { unfold db1. cbn [assignments]. intros a Ha. apply in_app_or in Ha.
    destruct Ha as [Ha|Ha]; [now apply Hr|].
    apply new_week_rows_in in Ha. destruct Ha as [emp [d [Hin [_ ->]]]].
    exists emp. now split. }
  destruct (sync_timeoff_to_assignments _ db1) as [db2|] eqn:Hs;
    cbn [fst]; [|exact H1].
  unfold sync_timeoff_to_assignments in Hs.
  destruct (get_week db1 _); [|discriminate]. injection Hs as <-.
  apply (keeps_workers_keys db1); [reflexivity | apply keys_sync | exact H1].
Qed.

Lemma delete_week_keeps_workers db w :
  rows_have_workers db (assignments db) ->
  rows_have_workers (fst (delete_week_schedule db w))
                    (assignments (fst (delete_week_schedule db w))).
Proof.
  intros Hr. unfold delete_week_schedule.
  destruct (get_week db w) as [wk|]; [|exact Hr].
  destruct (wk_start_date wk =? BASELINE); cbn [fst].
  - apply (keeps_workers_keys db); [reflexivity| |exact Hr].
    cbn [assignments with_assignments]. rewrite map_map. apply map_ext.
    intros a. now destruct (a_week_id a =? w).
  - cbn [assignments]. intros a Ha. apply filter_In in Ha. apply Hr, Ha.
Qed.

Lemma delete_schedule_keeps_workers db :
  rows_have_workers db (assignments db) ->
  rows_have_workers (fst (delete_schedule db))
                    (assignments (fst (delete_schedule db))).
Proof.
  intros Hr. unfold delete_schedule.
  destruct (week_starting db BASELINE); [|exact Hr]. cbn [fst].
  apply (keeps_workers_keys db); [reflexivity | apply keys_reset | exact Hr].
Qed.

Lemma untoggle_loop_keys w e t days rows :
  map key3 (fold_left (untoggle_cell w e t) days rows) = map key3 rows.
Proof.
  revert rows. induction days as [|d days IH]; intros rows; simpl;
    [reflexivity|].
  rewrite IH. unfold untoggle_cell.
  destruct ((to_from_date t <=? d) && (d <=? to_to_date t)); [|reflexivity].
  apply keys_update_first. intros a.
  destruct (a_value a =? TIME_OFF_LABEL)%string; simpl; auto.
Qed.

Lemma delete_timeoff_keeps_workers set_iter db tid :
  rows_have_workers db (assignments db) ->
  rows_have_workers (fst (delete_timeoff set_iter db tid))
                    (assignments (fst (delete_timeoff set_iter db tid))).
Proof.
  intros Hr. unfold delete_timeoff.
  destruct (find _ (timeoff db)) as [t|]; [|exact Hr].
  assert (H : forall rows1 o,
            map key3 rows1 = map key3 (assignments db) ->
            rows_have_workers
              (fst (mkDB (sections db) (employees db) (employee_roles db)
                         (employee_availability db) (weeks db) rows1
                         (remove_timeoff tid (timeoff db)), o : delete_reply))
              (assignments
                 (fst (mkDB (sections db) (employees db) (employee_roles db)
                            (employee_availability db) (weeks db) rows1
                            (remove_timeoff tid (timeoff db)), o)))).
  { intros rows1 o Hk. cbn [fst].
    apply (keeps_workers_keys db); [reflexivity | exact Hk | exact Hr]. }
  destruct (week_starting db BASELINE) as [wk|]; [|now apply H].
  destruct (to_approved t); [|now apply H].
  destruct (employee_named db (to_name t)); [|now apply H].
  apply H. apply untoggle_loop_keys.
Qed.

Lemma assign_keeps_workers set_iter db req :
  rows_have_workers db (assignments db) ->
  rows_have_workers (fst (assign set_iter db req))
                    (assignments (fst (assign set_iter db req))).
Proof.
  intros Hr. unfold assign.
  destruct (request_week db req) as [week|]; [|exact Hr].
  destruct (section_named db (rq_section req)) as [sec|]; [|exact Hr].
  destruct (employee_named db (rq_employee req)) as [emp|]; [|exact Hr].
  destruct (negb (allowed_in_section db emp sec)); [exact Hr|].
  destruct (rq_date req) as [dte|]; [|exact Hr].
  destruct (find_assignment _ _ _ _) as [a|]; [|exact Hr].
  destruct (has_approved_timeoff db (emp_name emp) dte); cbn [fst].
  - destruct (negb (a_value a =? TIME_OFF_LABEL)%string); [|exact Hr].
    apply (keeps_workers_keys db); [reflexivity| |exact Hr].
    apply keys_update_first. auto with rows.
  - apply (keeps_workers_keys db); [reflexivity| |exact Hr].
    apply keys_update_first. auto with rows.
Qed.

Lemma toggle_timeoff_keeps_workers set_iter db tid approved :
  rows_have_workers db (assignments db) ->
  rows_have_workers (fst (toggle_timeoff set_iter db tid approved))
                    (assignments (fst (toggle_timeoff set_iter db tid approved))).
Proof.
  intros Hr. unfold toggle_timeoff.
  destruct (find _ (timeoff db)) as [t|]; [|exact Hr].
  destruct (employee_named db (to_name t)) as [emp|],
           (week_starting db BASELINE) as [week|]; cbn [fst];
    try exact Hr.
  apply (keeps_workers_keys db); [reflexivity| |exact Hr].
  cbn [assignments with_assignments with_timeoff].
  apply toggle_loop_keeps_keys.
Qed.

Lemma change_role_keeps_workers db eid role :
  rows_have_workers db (assignments db) ->
  rows_have_workers (fst (change_employee_role db eid role))
                    (assignments (fst (change_employee_role db eid role))).
Proof.
  intros Hr. unfold change_employee_role.
  destruct (role =? "")%string; [exact Hr|].
  destruct (get_employee db eid) as [emp|]; [|exact Hr].
  destruct (section_named db role) as [sec|]; [|exact Hr].
  destruct (week_starting db BASELINE) as [week|]; [|exact Hr].
  set (db1 := mkDB _ _ _ _ _ _ _).
  assert (H1 : rows_have_workers db1 (assignments db1)).
  { apply (keeps_workers_keys db); [| |exact Hr]; unfold db1;
      cbn [employees assignments].
    - now apply update_employee_row_ids.
    - apply clear_loop_keys. }
  destruct (sync_timeoff_to_assignments _ db1) as [db2|] eqn:Hs;
    cbn [fst]; [|exact H1].
  unfold sync_timeoff_to_assignments in Hs.
  destruct (get_week db1 _); [|discriminate]. injection Hs as <-.
  apply (keeps_workers_keys db1); [reflexivity | apply keys_sync | exact H1].
Qed.

(** X17. That every row of the assignments table is the row of an
    employee is kept by every page that changes the tables: opening the
    previous or the next week, deleting a week or the schedule, deleting or
    toggling a Leave Request, assigning a shift, changing a role, deleting
    an employee, and a run of the generator.  With it the generator
    returns, so no sequence of these pages brings the tables to a state in
    which generating raises. *)
Theorem pages_keep_rows_of_employees set_iter db :
  rows_have_workers db (assignments db) ->
  let kept := fun db' : DB => rows_have_workers db' (assignments db') in
  (forall w, kept (fst (prev_week db w)))
  /\ (forall w, kept (fst (next_week db w)))
  /\ (forall w, kept (fst (delete_week_schedule db w)))
  /\ kept (fst (delete_schedule db))
  /\ (forall tid, kept (fst (delete_timeoff set_iter db tid)))
  /\ (forall tid approved, kept (fst (toggle_timeoff set_iter db tid approved)))
  /\ (forall req, kept (fst (assign set_iter db req)))
  /\ (forall eid role, kept (fst (change_employee_role db eid role)))
  /\ (forall eid, kept (fst (delete_employee db eid)))
  /\ (forall w, exists db',
        generate_4_week_schedule set_iter db w = Some db' /\ kept db').
Proof.
  intros Hr kept. unfold kept, prev_week, next_week.
  repeat split.
  - intros w. now apply neighbour_week_keeps_workers.
  - intros w. now apply neighbour_week_keeps_workers.
  - intros w. now apply delete_week_keeps_workers.
  - now apply delete_schedule_keeps_workers.
  - intros tid. now apply delete_timeoff_keeps_workers.
  - intros tid approved. now apply toggle_timeoff_keeps_workers.
  - intros req. now apply assign_keeps_workers.
  - intros eid role. now apply change_role_keeps_workers.
  - intros eid. now apply delete_employee_keeps_workers.
  - intros w.
    destruct (generate_returns_keeping set_iter db w Hr) as [db' [E [He Hk]]].
    exists db'. split; [exact E|].
    eapply rows_have_workers_ids; [|exact Hk]. now rewrite He.
Qed.

(** ** The periods of the schedules page *)

Lemma period_index_floor s : period_index s = (s - BASELINE) / 28.
Proof.
  unfold period_index. destruct (Z.geb_spec (s - BASELINE) 0) as [H|H];
    [reflexivity|].
  set (delta := s - BASELINE) in *.
  pose proof (Z.div_mod delta 28 ltac:(lia)) as Hd.
  pose proof (Z.mod_pos_bound delta 28 ltac:(lia)) as Hm.
  assert (E : (- delta - 1) / 28 = - (delta / 28) - 1).
  { symmetry. apply (Z.div_unique_pos _ _ _ (27 - delta mod 28)); lia. }
  rewrite E. lia.
Qed.

Lemma period_index_iff s idx :
  period_index s = idx
  <-> BASELINE + 28 * idx <= s <= BASELINE + 28 * idx + 27.
Proof.
  rewrite period_index_floor.
  pose proof (Z.div_mod (s - BASELINE) 28 ltac:(lia)) as Hd.
  pose proof (Z.mod_pos_bound (s - BASELINE) 28 ltac:(lia)) as Hm.
  split; [intros <-; lia|].
  intros H. symmetry.
  apply (Z.div_unique_pos _ _ _ (s - BASELINE - 28 * idx)); lia.
Qed.

Lemma assoc_get_In {V : Type} (k : Z) (v : V) m :
  assoc_get Z.eqb k m = Some v -> In (k, v) m.
Proof.
  induction m as [|[k' v'] m IH]; simpl; [discriminate|].
  destruct (Z.eqb_spec k' k) as [->|]; [|auto].
  intros H. injection H as ->. now left.
Qed.

Lemma In_assoc_get {V : Type} (k : Z) (v : V) m :
  NoDup (map fst m) -> In (k, v) m -> assoc_get Z.eqb k m = Some v.
Proof.
  induction m as [|[k' v'] m IH]; simpl; [contradiction|]. intros Hnd.
  inversion Hnd as [|? ? Hx Hnd']; subst. intros [H|H].
  - injection H as -> ->. now rewrite Z.eqb_refl.
  - destruct (Z.eqb_spec k' k) as [->|]; [|auto].
    exfalso. apply Hx. change k with (fst (k, v)). now apply in_map.
Qed.

Lemma assoc_set_keys {V : Type} (k : Z) (v : V) m :
  map fst (assoc_set Z.eqb k v m)
  = if existsb (Z.eqb k) (map fst m) then map fst m else map fst m ++ [k].
Proof.
  induction m as [|[k' v'] m IH]; simpl; [reflexivity|].
  rewrite (Z.eqb_sym k k').
  destruct (Z.eqb_spec k' k) as [->|]; simpl; [reflexivity|].
  rewrite IH. now destruct (existsb (Z.eqb k) (map fst m)).
Qed.

Lemma assoc_get_none_keys {V : Type} (k : Z) (m : list (Z * V)) :
  assoc_get Z.eqb k m = None <-> ~ In k (map fst m).
Proof.
  induction m as [|[k' v'] m IH]; simpl; [tauto|].
  destruct (Z.eqb_spec k' k) as [->|]; [split; [discriminate|tauto]|].
  rewrite IH. tauto.
Qed.

Lemma assoc_set_NoDup {V : Type} (k : Z) (v : V) m :
  NoDup (map fst m) -> NoDup (map fst (assoc_set Z.eqb k v m)).
Proof.
  intros Hnd. rewrite assoc_set_keys.
  destruct (existsb (Z.eqb k) (map fst m)) eqn:E; [assumption|].
  apply NoDup_app; [assumption | repeat constructor; simpl; tauto|].
  intros x Hx [Ek|[]]. subst x.
  assert (existsb (Z.eqb k) (map fst m) = true); [|congruence].
  apply existsb_exists. exists k. split; [assumption | apply Z.eqb_refl].
Qed.

Lemma get_week_unique db w :
  NoDup (map wk_id (weeks db)) -> In w (weeks db) ->
  get_week db (wk_id w) = Some w.
Proof.
  unfold get_week. induction (weeks db) as [|x l IH]; simpl; [contradiction|].
  intros Hnd. inversion Hnd as [|? ? Hx Hnd']; subst. intros [->|Hin].
  - now rewrite Z.eqb_refl.
  - destruct (Z.eqb_spec (wk_id x) (wk_id w)) as [E|E]; [|auto].
    exfalso. apply Hx. rewrite E. now apply in_map.
Qed.

Lemma note_week_ok db pre P w :
  NoDup (map wk_id (weeks db)) ->
  (forall x, In x (weeks db) -> wk_id x <> 0) ->
  incl (pre ++ [w]) (weeks db) ->
  periods_ok pre P -> periods_ok (pre ++ [w]) (note_week db P w).
Proof.
  intros Hnd Hnz Hincl [H1 [H2 H3]]. unfold note_week.
  remember (period_index (wk_start_date w)) as idx eqn:Hdef.
  destruct (assoc_get Z.eqb idx P) as [p|] eqn:Hp.
  - destruct (H1 idx p Hp) as [Hs [He [wf [Hwf [Hid [Hidx Hmin]]]]]].
    assert (Hwfin : In wf (weeks db))
      by (apply Hincl, in_or_app; now left).
    rewrite <- Hid.
    destruct (Z.eqb_spec (wk_id wf) 0) as [E|_];
      [exfalso; exact (Hnz wf Hwfin E)|].
    rewrite (get_week_unique db wf Hnd Hwfin).
    destruct (Z.ltb_spec (wk_start_date w) (wk_start_date wf)) as [Hlt|Hge].
    + split; [|split].
      * intros i q Hq. destruct (Z.eq_dec i idx) as [->|Hne].
        -- rewrite assoc_get_set_same in Hq. injection Hq as <-.
           cbn [p_start p_end p_first_week_id].
           split; [assumption|]. split; [assumption|].
           exists w. split; [apply in_or_app; right; now left|].
           split; [reflexivity|]. split; [now symmetry|].
           intros w' Hw' Hi. apply in_app_or in Hw'.
           destruct Hw' as [Hw'|[<-|[]]]; [|lia].
           specialize (Hmin w' Hw' Hi). lia.
        -- rewrite assoc_get_set_other in Hq by assumption.
           destruct (H1 i q Hq) as [A [B [w0 [C [D [E F]]]]]].
           split; [assumption|]. split; [assumption|].
           exists w0. split; [apply in_or_app; now left|].
           split; [assumption|]. split; [assumption|].
           intros w' Hw' Hi. apply in_app_or in Hw'.
           destruct Hw' as [Hw'|[<-|[]]]; [now apply F|].
           congruence.
      * intros w' Hw'.
        destruct (Z.eq_dec (period_index (wk_start_date w')) idx) as [->|Hne].
        -- rewrite assoc_get_set_same. discriminate.
        -- rewrite assoc_get_set_other by assumption.
           apply in_app_or in Hw'. destruct Hw' as [Hw'|[<-|[]]];
             [now apply H2 | congruence].
      * now apply assoc_set_NoDup.
    + split; [|split; [|assumption]].
      * intros i q Hq. destruct (H1 i q Hq) as [A [B [w0 [C [D [E F]]]]]].
        split; [assumption|]. split; [assumption|].
        exists w0. split; [apply in_or_app; now left|].
        split; [assumption|]. split; [assumption|].
        intros w' Hw' Hi. apply in_app_or in Hw'.
        destruct Hw' as [Hw'|[<-|[]]]; [now apply F|].
        assert (Ei : i = idx) by congruence. rewrite Ei, Hp in Hq. injection Hq as <-.
        assert (w0 = wf); [|subst; lia].
        assert (Hw0 : In w0 (weeks db)) by (apply Hincl, in_or_app; now left).
        pose proof (get_week_unique db w0 Hnd Hw0) as G0.
        pose proof (get_week_unique db wf Hnd Hwfin) as Gf.
        rewrite D, <- Hid, Gf in G0. now injection G0.
      * intros w' Hw'. apply in_app_or in Hw'.
        destruct Hw' as [Hw'|[<-|[]]]; [now apply H2|].
        rewrite <- Hdef, Hp. discriminate.
  - split; [|split].
    + intros i q Hq. destruct (Z.eq_dec i idx) as [->|Hne].
      * rewrite assoc_get_set_same in Hq.
        apply (f_equal (fun o => match o with Some x => x | None => q end))
          in Hq.
        subst q. cbn [p_start p_end p_first_week_id].
        split; [lia|]. split; [reflexivity|].
        exists w. split; [apply in_or_app; right; now left|].
        split; [reflexivity|]. split; [now symmetry|].
        intros w' Hw' Hi. apply in_app_or in Hw'.
        destruct Hw' as [Hw'|[<-|[]]]; [|lia].
        exfalso. apply (H2 w' Hw'). now rewrite Hi.
      * rewrite assoc_get_set_other in Hq by assumption.
        destruct (H1 i q Hq) as [A [B [w0 [C [D [E F]]]]]].
        split; [assumption|]. split; [assumption|].
        exists w0. split; [apply in_or_app; now left|].
        split; [assumption|]. split; [assumption|].
        intros w' Hw' Hi. apply in_app_or in Hw'.
        destruct Hw' as [Hw'|[<-|[]]]; [now apply F|].
        congruence.
    + intros w' Hw'.
      destruct (Z.eq_dec (period_index (wk_start_date w')) idx) as [->|Hne].
      * rewrite assoc_get_set_same. discriminate.
      * rewrite assoc_get_set_other by assumption.
        apply in_app_or in Hw'. destruct Hw' as [Hw'|[<-|[]]];
          [now apply H2 | congruence].
    + now apply assoc_set_NoDup.
Qed.

Lemma periods_periods_ok db :
  NoDup (map wk_id (weeks db)) ->
  (forall x, In x (weeks db) -> wk_id x <> 0) ->
  periods_ok (weeks db) (periods db).
Proof.
  intros Hnd Hnz. unfold periods.
  assert (G : forall rest pre P,
            weeks db = pre ++ rest -> periods_ok pre P ->
            periods_ok (weeks db) (fold_left (note_week db) rest P)).
  { induction rest as [|w rest IH]; intros pre P Hl Hok; simpl.
    - now rewrite Hl, app_nil_r.
    - apply (IH (pre ++ [w])); [now rewrite <- app_assoc|].
      apply note_week_ok; try assumption.
      rewrite Hl. intros x Hx. apply in_app_or in Hx. apply in_or_app.
      destruct Hx as [Hx|[<-|[]]]; [now left | right; now left]. }
  apply (G (weeks db) [] []); [reflexivity|].
  split; [intros idx p H; discriminate|]. split; [intros w []|constructor].
Qed.

Lemma StronglySorted_strict {A : Type} (f : A -> Z) l :
  StronglySorted (fun p q => f q <= f p) l -> NoDup (map f l) ->
  StronglySorted (fun p q => f q < f p) l.
Proof.
  induction 1 as [|a l Hs IH Hall]; intros Hnd; [constructor|].
  simpl in Hnd. inversion Hnd as [|? ? Hx Hnd']; subst.
  constructor; [now apply IH|].
  rewrite Forall_forall in *. intros q Hq. specialize (Hall q Hq).
  assert (f q <> f a); [|lia].
  intros E. apply Hx. rewrite <- E. now apply in_map.
Qed.

Lemma keyed_sorted_values (l : list (Z * Period)) :
  StronglySorted (fun p q => (fst p <? fst q) = false) l ->
  Forall (fun kp => fst kp = p_start (snd kp)) l ->
  StronglySorted (fun p q => p_start q <= p_start p) (map snd l).
Proof.
  induction 1 as [|a l Hs IH Hall]; intros Hk; [constructor|].
  inversion Hk as [|? ? Ha Hk']; subst. simpl.
  constructor; [now apply IH|].
  rewrite Forall_forall in *. intros q Hq. apply in_map_iff in Hq.
  destruct Hq as [kq [<- Hin]]. specialize (Hall kq Hin).
  specialize (Hk' kq Hin). apply Z.ltb_ge in Hall.
  unfold date in *. lia.
Qed.

Lemma schedules_page_perm db :
  Permutation (schedules_page db) (map snd (periods db)).
Proof.
  unfold schedules_page.
  eapply Permutation_trans; [apply Permutation_map, sort_by_perm|].
  rewrite map_map. apply Permutation_refl.
Qed.

(** X18. With week ids distinct and not 0, the schedules page lists
    4-week periods that start a multiple of 28 days from the baseline and
    end 27 days later, most recent first and none twice.  Every week of the
    table lies in a listed period, whether it starts before or after the
    baseline, and the week a period links to is a week of the table that
    lies in the period and starts no later than any other week in it. *)
Theorem schedules_page_periods db :
  NoDup (map wk_id (weeks db)) ->
  (forall w, In w (weeks db) -> wk_id w <> 0) ->
  (forall p, In p (schedules_page db) ->
     (p_start p - BASELINE) mod 28 = 0 /\ p_end p = p_start p + 27
     /\ exists w, In w (weeks db) /\ wk_id w = p_first_week_id p
          /\ p_start p <= wk_start_date w <= p_end p
          /\ forall w', In w' (weeks db) ->
               p_start p <= wk_start_date w' <= p_end p ->
               wk_start_date w <= wk_start_date w')
  /\ (forall w, In w (weeks db) ->
        exists p, In p (schedules_page db)
          /\ p_start p <= wk_start_date w <= p_end p)
  /\ StronglySorted (fun p q => p_start q < p_start p) (schedules_page db).
Proof.
  intros Hnd Hnz.
  destruct (periods_periods_ok db Hnd Hnz) as [H1 [H2 H3]].
  pose proof (schedules_page_perm db) as Hperm.
  assert (Hin : forall p, In p (schedules_page db) ->
                          exists idx, assoc_get Z.eqb idx (periods db) = Some p).
  { intros p Hp. apply (Permutation_in _ Hperm) in Hp.
    apply in_map_iff in Hp. destruct Hp as [[idx q] [<- Hq]].
    exists idx. now apply In_assoc_get. }
  split; [|split].
  - intros p Hp. destruct (Hin p Hp) as [idx Hget].
    destruct (H1 idx p Hget) as [Hs [He [w [Hw [Hid [Hidx Hmin]]]]]].
    split; [rewrite Hs; replace (BASELINE + 28 * idx - BASELINE)
                          with (idx * 28) by lia; apply Z.mod_mul; lia|].
    split; [assumption|]. exists w. split; [assumption|].
    split; [assumption|]. apply period_index_iff in Hidx.
    split; [lia|]. intros w' Hw' Hr. apply Hmin; [assumption|].
    apply period_index_iff. lia.
  - intros w Hw. specialize (H2 w Hw).
    destruct (assoc_get Z.eqb (period_index (wk_start_date w)) (periods db))
      as [p|] eqn:Hget; [|contradiction].
    exists p. split.
    + apply (Permutation_in _ (Permutation_sym Hperm)).
      apply assoc_get_In in Hget. apply in_map_iff. now exists (period_index (wk_start_date w), p).
    + destruct (H1 _ p Hget) as [Hs [He _]].
      pose proof (proj1 (period_index_iff (wk_start_date w) _) eq_refl). lia.
  - apply StronglySorted_strict.
    + unfold schedules_page. apply keyed_sorted_values.
      * apply (sort_by_sorted (fun a b => b <? a)).
        -- intros a b H. apply Z.ltb_lt in H. apply Z.ltb_ge. lia.
        -- intros a b c Hab Hbc. apply Z.ltb_ge in Hab, Hbc.
           apply Z.ltb_ge. lia.
      * apply Forall_forall. intros kp Hkp.
        apply (Permutation_in _ (sort_by_perm _ _)) in Hkp.
        apply in_map_iff in Hkp. destruct Hkp as [kv [<- _]]. reflexivity.
    + apply (Permutation_NoDup (Permutation_map p_start (Permutation_sym Hperm))).
      assert (E : map p_start (map snd (periods db))
                  = map (fun idx => BASELINE + 28 * idx)
                        (map fst (periods db))).
      { rewrite !map_map. apply map_ext_in. intros [idx p] Hp. cbn [fst snd].
        apply In_assoc_get in Hp; [|assumption].
        now destruct (H1 idx p Hp) as [Hs _]. }
      rewrite E. apply Finite.Injective_map_NoDup; [|assumption].
      intros a b Hab. lia.
Qed.

(** ** Manager meals *)

Lemma note_meal_fold db rows : forall acc d v,
  In v ["AM"; "PM"; "Audit"]%string ->
  fold_left (note_meal db) rows acc d v
  = acc d v
    ++ map (fun a => emp_name_get db (a_employee_id a))
           (filter (fun a => (a_date a =? d)
                             && negb (inactive_value (a_value a))
                             && (_fd_variant (a_value a) =? v)%string
                             && negb (emp_name_get db (a_employee_id a) =? "")%string)
                   rows).
Proof.
  induction rows as [|a rows IH]; intros acc d v Hv; cbn [fold_left filter map].
  - now rewrite app_nil_r.
  - rewrite IH by assumption. unfold note_meal.
    destruct (inactive_value (a_value a)) eqn:Hi;
      [now rewrite andb_false_r|].
    rewrite andb_true_r.
    destruct (String.eqb_spec (_fd_variant (a_value a)) "") as [E0|E0].
    { destruct (String.eqb_spec (_fd_variant (a_value a)) v) as [E|E];
        [|now rewrite andb_false_r].
      exfalso. rewrite E0 in E. subst v. simpl in Hv.
      intuition discriminate. }
    destruct (str_in (_fd_variant (a_value a)) ["AM"; "PM"; "Audit"]) eqn:Hin;
      cbn [negb].
    + destruct (String.eqb_spec (emp_name_get db (a_employee_id a)) "")
        as [En|En]; [now rewrite andb_false_r|].
      cbn [negb]. rewrite andb_true_r, (Z.eqb_sym d (a_date a)),
        (String.eqb_sym v (_fd_variant (a_value a))).
      destruct ((a_date a =? d) && (_fd_variant (a_value a) =? v)%string);
        [|reflexivity].
      cbn [map]. now rewrite <- app_assoc.
    + destruct (String.eqb_spec (_fd_variant (a_value a)) v) as [E|E];
        [|now rewrite andb_false_r].
      exfalso. rewrite E in Hin. apply str_in_In in Hv. congruence.
Qed.

Lemma by_day_on_shift db w d v n :
  In v ["AM"; "PM"; "Audit"]%string ->
  In n (by_day db w d v) <-> on_shift db w d v n.
Proof.
  intros Hv. unfold by_day. rewrite note_meal_fold by assumption.
  cbn [app]. rewrite in_map_iff. unfold on_shift. split.
  - intros [a [<- Ha]]. apply filter_In in Ha. destruct Ha as [Ha Hc].
    apply filter_In in Ha. destruct Ha as [Ha Hw].
    rewrite !andb_true_iff, !negb_true_iff in Hc.
    destruct Hc as [[[Hd Hi] Hvv] Hn].
    exists a. apply Z.eqb_eq in Hw, Hd. apply String.eqb_eq in Hvv.
    apply String.eqb_neq in Hn. auto 10.
  - intros [a [Ha [Hw [Hd [Hi [Hvv [Hn Hne]]]]]]]. exists a.
    split; [assumption|]. apply filter_In. split.
    + apply filter_In. split; [assumption | now apply Z.eqb_eq].
    + rewrite !andb_true_iff, !negb_true_iff. repeat split.
      * now apply Z.eqb_eq.
      * assumption.
      * now apply String.eqb_eq.
      * apply String.eqb_neq. congruence.
Qed.

Lemma index_of_nonneg y l j : index_of y l = Some j -> 0 <= j.
Proof.
  revert j. induction l as [|z l IH]; simpl; [discriminate|]. intros j.
  destruct (z =? y)%string; [intros H; injection H as <-; lia|].
  destruct (index_of y l) as [k|]; [|discriminate].
  intros H. injection H as <-. specialize (IH k eq_refl). lia.
Qed.

Lemma index_of_In y l : In y l -> exists j, index_of y l = Some j.
Proof.
  induction l as [|z l IH]; simpl; [contradiction|].
  destruct (String.eqb_spec z y) as [->|Hne]; [eauto|].
  intros [H|H]; [contradiction|]. destruct (IH H) as [j ->]. simpl. eauto.
Qed.

Lemma find_first_index (p : string -> bool) l x :
  find p l = Some x ->
  exists i, index_of x l = Some i
    /\ forall y j, index_of y l = Some j -> p y = true -> i <= j.
Proof.
  induction l as [|h l IH]; simpl; [discriminate|].
  destruct (p h) eqn:Hp.
  - intros H. injection H as <-. rewrite String.eqb_refl. exists 0.
    split; [reflexivity|]. intros y j Hj _.
    destruct (h =? y)%string; [injection Hj as <-; lia|].
    destruct (index_of y l) as [k|] eqn:Hk; [|discriminate].
    injection Hj as <-. apply index_of_nonneg in Hk. lia.
  - intros H. destruct (IH H) as [i [Hi Hmin]].
    destruct (String.eqb_spec h x) as [->|Hne].
    + apply find_some in H. destruct H as [_ H]. congruence.
    + rewrite Hi. simpl. exists (Z.succ i). split; [reflexivity|].
      intros y j Hj Hy.
      destruct (String.eqb_spec h y) as [->|Hne']; [congruence|].
      destruct (index_of y l) as [k|] eqn:Hk; [|discriminate].
      injection Hj as <-. specialize (Hmin y k Hk Hy). lia.
Qed.

Lemma senior_first_spec names c :
  senior_first names = c ->
  match c with
  | None => names = []
  | Some n =>
      In n names
      /\ forall m, In m names -> In m SENIORITY_ORDER ->
           exists i j, index_of n SENIORITY_ORDER = Some i
             /\ index_of m SENIORITY_ORDER = Some j /\ i <= j
  end.
Proof.
  unfold senior_first. intros <-.
  destruct (find (fun n => str_in n names) SENIORITY_ORDER) as [n|] eqn:Hf.
  - pose proof (find_some _ _ Hf) as [_ Hn]. apply str_in_In in Hn.
    split; [assumption|]. intros m Hm Hs.
    destruct (find_first_index _ _ _ Hf) as [i [Hi Hmin]].
    destruct (index_of_In m SENIORITY_ORDER Hs) as [j Hj].
    exists i, j. split; [assumption|]. split; [assumption|].
    apply (Hmin m j Hj). now apply str_in_In.
  - destruct names as [|n names]; [reflexivity|]. cbn [hd_error].
    split; [now left|]. intros m Hm Hs. exfalso.
    pose proof (find_none _ _ Hf m Hs) as Hno. cbv beta in Hno.
    apply str_in_In in Hm. congruence.
Qed.

Lemma senior_first_on_shift db w d v :
  In v ["AM"; "PM"; "Audit"]%string ->
  senior_on_shift db w d v (senior_first (by_day db w d v)).
Proof.
  intros Hv. pose proof (senior_first_spec (by_day db w d v) _ eq_refl) as H.
  unfold senior_on_shift.
  destruct (senior_first (by_day db w d v)) as [n|].
  - destruct H as [Hn Hmin]. split; [now apply by_day_on_shift|].
    intros m Hm. apply Hmin. now apply by_day_on_shift.
  - intros n Hn. apply by_day_on_shift in Hn; [|assumption].
    rewrite H in Hn. contradiction.
Qed.

(** X19. For a week that exists, [manager_meals] gives one row per day of
    the week, in order, whose text names the recipients of the Audit, the
    AM and the PM meal, a dash standing for nobody.  The Audit and PM
    recipient is nobody exactly when no named worker holds a shift of the
    variant that day, and else a worker on the shift who stands in
    SENIORITY_ORDER no later than anyone else on it; the shuttle shifts
    whose labels begin with AM or PM count as shifts of the variant.  The
    AM recipient is chosen the same way on Fridays and Saturdays and is
    JoJo from Sunday to Thursday, whoever works. *)
Theorem manager_meals_recipients db week_id wk :
  get_week db week_id = Some wk ->
  exists rows,
    manager_meals db week_id = inr rows
    /\ map fst rows = daterange (wk_start_date wk) 7
    /\ (forall d text, In (d, text) rows ->
          exists audit am pm,
            text = (or_dash audit ++ ", " ++ or_dash am ++ ", "
                    ++ or_dash pm)%string
            /\ senior_on_shift db week_id d "Audit" audit
            /\ senior_on_shift db week_id d "PM" pm
            /\ (if z_in (weekday d) [6; 0; 1; 2; 3] then am = Some "JoJo"%string
                else senior_on_shift db week_id d "AM" am))
    /\ (forall a n, In a (assignments db) -> a_week_id a = week_id ->
          In (a_value a) ["AM (3:30AM–11:30AM)"; "PM (5:30PM–1:30AM)"]%string ->
          emp_name_get db (a_employee_id a) = n -> n <> ""%string ->
          on_shift db week_id (a_date a) (_fd_variant (a_value a)) n
          /\ In (_fd_variant (a_value a)) ["AM"; "PM"]%string).
Proof.
  intros Hw. unfold manager_meals. rewrite Hw. eexists.
  split; [reflexivity|]. split; [|split].
  - rewrite map_map. cbn [fst]. apply map_id.
  - intros d text Hin. apply in_map_iff in Hin.
    destruct Hin as [d' [E _]].
    pose proof (f_equal fst E) as Ed. pose proof (f_equal snd E) as Et.
    cbv [fst snd] in Ed, Et. clear E. subst d' text.
    unfold meal_entry.
    destruct (z_in (weekday d) [6; 0; 1; 2; 3]); cbn [fst snd].
    + exists (senior_first (by_day db week_id d "Audit")),
             (Some "JoJo"%string),
             (senior_first (by_day db week_id d "PM")).
      split; [reflexivity|].
      split; [apply senior_first_on_shift; simpl; auto|].
      split; [apply senior_first_on_shift; simpl; auto | reflexivity].
    + exists (senior_first (by_day db week_id d "Audit")),
             (senior_first (by_day db week_id d "AM")),
             (senior_first (by_day db week_id d "PM")).
      split; [reflexivity|].
      split; [apply senior_first_on_shift; simpl; auto|].
      split; apply senior_first_on_shift; simpl; auto.
  - intros a n Ha Hwk Hv Hn Hne.
    assert (Hval : inactive_value (a_value a) = false
                   /\ In (_fd_variant (a_value a)) ["AM"; "PM"]%string).
    { destruct Hv as [<-|[<-|[]]]; split; try reflexivity;
        [left | right; left]; reflexivity. }
    destruct Hval as [Hi Hvar]. split; [|assumption].
    exists a. auto 10.
Qed.

(** ** The availability page and the generator *)

(** X20. For each of the three departments the availability page offers
    exactly the tokens the generator looks up: when [_is_available] answers
    yes for a label the generator writes, it is through an availability row
    of that weekday whose label the page offers for the department, and
    every row of a worker with a label the page offers makes the worker
    available for some label the generator writes, on every day of that
    weekday.  The labels the generator writes for a department are the
    shift variants of the department without the placeholder and
    TIME OFF. *)
Theorem availability_page_matches_generator role :
  In role DEPARTMENTS ->
  role_shift_variants role = dept_labels role
  /\ (forall e label d idx,
        In label (dept_labels role) ->
        _is_available e role label d idx = true ->
        exists v, In v (role_availability_variants role)
          /\ In (weekday d, v) (idx e))
  /\ (forall e v d idx,
        In v (role_availability_variants role) ->
        In (weekday d, v) (idx e) ->
        exists label, In label (dept_labels role)
          /\ _is_available e role label d idx = true).
Proof.
  intros Hrole.
  assert (Hav : forall e tok d (idx : Z -> list (Z * string)),
            existsb (fun k => (fst k =? weekday d) && (snd k =? tok)%string)
                    (idx e) = true
            <-> In (weekday d, tok) (idx e)).
  { intros e tok d idx. rewrite existsb_exists. split.
    - intros [[a b] [Hin H]]. cbn [fst snd] in H.
      apply andb_true_iff in H. destruct H as [H1 H2].
      apply Z.eqb_eq in H1. apply String.eqb_eq in H2. now subst.
    - intros H. exists (weekday d, tok). split; [assumption|]. cbn [fst snd].
      now rewrite Z.eqb_refl, String.eqb_refl. }
  assert (Hun : forall e role' label d (idx : Z -> list (Z * string)),
            _is_available e role' label d idx = true
            <-> In (weekday d,
                    if (role' =? "Front Desk")%string
                    then _fd_variant label else label) (idx e)).
  { intros e role' label d idx. unfold _is_available. rewrite <- Hav.
    destruct (idx e); [simpl; split; discriminate | reflexivity]. }
  cbv [DEPARTMENTS In] in Hrole.
  repeat (destruct Hrole as [<-|Hrole]); try contradiction;
    (split; [reflexivity|]); split.
  all: try (intros e label d idx Hl H; apply Hun in H;
            cbv [dept_labels FD_LABELS FD_VARIANTS BB_LABELS SH_LABELS
                 flat_map snd app In] in Hl; cbn in Hl;
            repeat (destruct Hl as [<-|Hl]); try contradiction;
            eexists; (split; [|exact H]); vm_compute; tauto).
  all: intros e v d idx Hv H; cbn in Hv;
    repeat (destruct Hv as [<-|Hv]); try contradiction;
    eexists; rewrite Hun.
  all: first
    [ split; [|exact H]; vm_compute; tauto
    | instantiate (1 := "AM (6:00AM–2:00PM)"%string);
      split; [vm_compute; tauto | exact H]
    | instantiate (1 := "PM (2:00PM–10:00PM)"%string);
      split; [vm_compute; tauto | exact H]
    | instantiate (1 := "Audit (10:00PM–6:00AM)"%string);
      split; [vm_compute; tauto | exact H] ].
Qed.

(** ** The properties at work on the examples *)

Lemma sync_changes_only_rows_on_leave_witness :
  sections db_leave_synced = sections db_approved_leave
  /\ employees db_leave_synced = employees db_approved_leave
  /\ employee_roles db_leave_synced = employee_roles db_approved_leave
  /\ employee_availability db_leave_synced
     = employee_availability db_approved_leave
  /\ weeks db_leave_synced = weeks db_approved_leave
  /\ timeoff db_leave_synced = timeoff db_approved_leave
  /\ Forall2 (leave_forced db_approved_leave 1)
             (assignments db_approved_leave) (assignments db_leave_synced).
Proof.
  apply (sync_changes_only_rows_on_leave 1 db_approved_leave db_leave_synced).
  reflexivity.
Defined.

Lemma generator_touches_only_its_weeks_witness :
  extends db_approved_leave db_generated
  /\ (get_week db_approved_leave 1 = None -> db_generated = db_approved_leave)
  /\ forall base_week, get_week db_approved_leave 1 = Some base_week ->
       exists extra,
         Forall2 (regenerated db_generated (wk_start_date base_week))
                 (assignments db_approved_leave ++ extra)
                 (assignments db_generated)
         /\ forall a, In a extra ->
              horizon_week db_generated (wk_start_date base_week)
                           (a_week_id a).
Proof.
  apply (generator_touches_only_its_weeks set_order db_approved_leave 1
           db_generated).
  vm_compute. reflexivity.
Defined.

Lemma generated_shifts_are_granted_witness :
  exists wk,
    week_starting db_desk_generated (wk_start_date (mkWeek 1 BASELINE) + 7 * 0)
    = Some wk
    /\ forall e d v,
         cell (assignments db_desk_generated) (wk_id wk) e d = Some v ->
         v = "Set"%string \/ v = TIME_OFF_LABEL
         \/ exists role,
              In role DEPARTMENTS /\ In v (dept_labels role)
              /\ In e (employees_for_section set_order db_desk role)
              /\ _is_available e role v d (_build_availability_index db_desk)
                 = true
              /\ has_any_timeoff db_desk (emp_name_get db_desk e) d = false.
Proof.
  apply (generated_shifts_are_granted set_order db_desk 1 (mkWeek 1 BASELINE)
           db_desk_generated 0).
  - vm_compute. reflexivity.
  - reflexivity.
  - vm_compute. reflexivity.
  - simpl. auto.
Defined.

Lemma neighbour_week_opens_witness :
  db_wf (fst (neighbour_week (7 * 1) db_approved_leave 1)) = true
  /\ extends db_approved_leave (fst (neighbour_week (7 * 1) db_approved_leave 1))
  /\ exists nwk,
       snd (neighbour_week (7 * 1) db_approved_leave 1)
       = Redirect (ToViewWeek (wk_id nwk))
       /\ week_starting (fst (neighbour_week (7 * 1) db_approved_leave 1))
                        (wk_start_date (mkWeek 1 BASELINE) + 7 * 1)
          = Some nwk
       /\ (week_starting db_approved_leave
                         (wk_start_date (mkWeek 1 BASELINE) + 7 * 1) <> None ->
           fst (neighbour_week (7 * 1) db_approved_leave 1) = db_approved_leave)
       /\ (week_starting db_approved_leave
                         (wk_start_date (mkWeek 1 BASELINE) + 7 * 1) = None ->
           exists extra,
             assignments (fst (neighbour_week (7 * 1) db_approved_leave 1))
             = assignments db_approved_leave ++ extra
             /\ (forall a, In a extra -> a_week_id a = wk_id nwk)
             /\ (forall emp d, In emp (employees db_approved_leave) ->
                   In d (daterange (wk_start_date (mkWeek 1 BASELINE) + 7 * 1)
                                   7) ->
                   find_assignment
                     (assignments
                        (fst (neighbour_week (7 * 1) db_approved_leave 1)))
                     (wk_id nwk) (emp_id emp) d <> None)
             /\ leave_applied (fst (neighbour_week (7 * 1) db_approved_leave 1))
                              (wk_id nwk)
                              (wk_start_date (mkWeek 1 BASELINE) + 7 * 1)).
Proof.
  apply (neighbour_week_opens 1 db_approved_leave 1 (mkWeek 1 BASELINE)).
  - vm_compute. reflexivity.
  - reflexivity.
Defined.

Lemma week_navigation_round_trip_witness :
  (exists n,
     snd (next_week db_approved_leave 1) = Redirect (ToViewWeek n)
     /\ prev_week (fst (next_week db_approved_leave 1)) n
        = (fst (next_week db_approved_leave 1), Redirect (ToViewWeek 1)))
  /\ (exists n,
        snd (prev_week db_approved_leave 1) = Redirect (ToViewWeek n)
        /\ next_week (fst (prev_week db_approved_leave 1)) n
           = (fst (prev_week db_approved_leave 1), Redirect (ToViewWeek 1))).
Proof.
  apply (week_navigation_round_trip db_approved_leave 1 (mkWeek 1 BASELINE)).
  - vm_compute. reflexivity.
  - reflexivity.
Defined.

Lemma delete_week_schedule_effect_witness :
  (wk_start_date (mkWeek 2 (BASELINE + 7)) = BASELINE ->
     snd (delete_week_schedule db_generated 2) = ToViewWeek 2
     /\ weeks (fst (delete_week_schedule db_generated 2)) = weeks db_generated
     /\ Forall2 (fun a a' =>
                   if a_week_id a =? 2 then a' = set_value "Set" a else a' = a)
                (assignments db_generated)
                (assignments (fst (delete_week_schedule db_generated 2))))
  /\ (wk_start_date (mkWeek 2 (BASELINE + 7)) <> BASELINE ->
        snd (delete_week_schedule db_generated 2) = ToSchedules
        /\ get_week (fst (delete_week_schedule db_generated 2)) 2 = None
        /\ (forall x, In x (weeks (fst (delete_week_schedule db_generated 2)))
                      <-> In x (weeks db_generated) /\ wk_id x <> 2)
        /\ assignments (fst (delete_week_schedule db_generated 2))
           = filter (fun a => negb (a_week_id a =? 2))
                    (assignments db_generated)
        /\ db_wf (fst (delete_week_schedule db_generated 2)) = true).
Proof.
  apply (delete_week_schedule_effect db_generated 2 (mkWeek 2 (BASELINE + 7))).
  - vm_compute. reflexivity.
  - vm_compute. repeat constructor; simpl; intuition discriminate.
  - vm_compute. reflexivity.
Defined.

Lemma open_then_delete_week_witness :
  snd (neighbour_week (7 * 1) db_approved_leave 1)
  = Redirect (ToViewWeek (next_week_id db_approved_leave))
  /\ delete_week_schedule (fst (neighbour_week (7 * 1) db_approved_leave 1))
                          (next_week_id db_approved_leave)
     = (db_approved_leave, ToSchedules).
Proof.
  apply (open_then_delete_week 1 db_approved_leave 1 (mkWeek 1 BASELINE)).
  - vm_compute. reflexivity.
  - reflexivity.
  - reflexivity.
  - vm_compute. discriminate.
Defined.

Lemma delete_schedule_resets_witness :
  snd (delete_schedule db_generated) = Redirect ToIndex
  /\ Forall2 (fun a a' =>
                if a_week_id a =? wk_id (mkWeek 1 BASELINE)
                then a' = mkAssignment (a_week_id a) (a_employee_id a)
                                       (a_date a) "Set" false
                else a' = a)
             (assignments db_generated)
             (assignments (fst (delete_schedule db_generated)))
  /\ has_generated_schedule (fst (delete_schedule db_generated))
                            (wk_id (mkWeek 1 BASELINE)) = false
  /\ (get_week db_generated (wk_id (mkWeek 1 BASELINE))
      = Some (mkWeek 1 BASELINE) ->
      has_generated_schedule
        (fst (delete_week_schedule db_generated (wk_id (mkWeek 1 BASELINE))))
        (wk_id (mkWeek 1 BASELINE)) = false).
Proof.
  apply (proj2 (delete_schedule_resets db_generated) (mkWeek 1 BASELINE)).
  vm_compute. reflexivity.
Defined.

Lemma delete_timeoff_effect_witness :
  sections (fst (delete_timeoff set_order db_leave_synced 1))
  = sections db_leave_synced
  /\ employees (fst (delete_timeoff set_order db_leave_synced 1))
     = employees db_leave_synced
  /\ employee_roles (fst (delete_timeoff set_order db_leave_synced 1))
     = employee_roles db_leave_synced
  /\ employee_availability (fst (delete_timeoff set_order db_leave_synced 1))
     = employee_availability db_leave_synced
  /\ weeks (fst (delete_timeoff set_order db_leave_synced 1))
     = weeks db_leave_synced
  /\ (NoDup (map to_id (timeoff db_leave_synced)) ->
      forall x, In x (timeoff (fst (delete_timeoff set_order db_leave_synced 1)))
                <-> In x (timeoff db_leave_synced) /\ to_id x <> 1)
  /\ Forall2 (leave_lifted db_leave_synced
                (mkTimeOff 1 "Ann" "Front Desk" BASELINE BASELINE true false))
             (assignments db_leave_synced)
             (assignments (fst (delete_timeoff set_order db_leave_synced 1)))
  /\ (forall week emp d a,
        week_starting db_leave_synced BASELINE = Some week ->
        employee_named db_leave_synced
          (to_name (mkTimeOff 1 "Ann" "Front Desk" BASELINE BASELINE true false))
        = Some emp ->
        to_approved (mkTimeOff 1 "Ann" "Front Desk" BASELINE BASELINE true false)
        = true ->
        In d (daterange (wk_start_date week) 7) ->
        to_from_date (mkTimeOff 1 "Ann" "Front Desk" BASELINE BASELINE true false)
        <= d
        <= to_to_date (mkTimeOff 1 "Ann" "Front Desk" BASELINE BASELINE true false) ->
        find_assignment (assignments db_leave_synced) (wk_id week) (emp_id emp) d
        = Some a ->
        a_value a = TIME_OFF_LABEL ->
        find_assignment
          (assignments (fst (delete_timeoff set_order db_leave_synced 1)))
          (wk_id week) (emp_id emp) d
        = Some (set_value "Set" a))
  /\ (forall week,
        week_starting db_leave_synced BASELINE = Some week ->
        get_week db_leave_synced (wk_id week) = Some week ->
        week_rows_in_range db_leave_synced week = true ->
        exists snap dbl,
          snd (delete_timeoff set_order db_leave_synced 1)
          = WithCoverage (Returned (ROk snap dbl)))
  /\ (week_starting db_leave_synced BASELINE = None ->
      snd (delete_timeoff set_order db_leave_synced 1) = WithoutWeek
      /\ assignments (fst (delete_timeoff set_order db_leave_synced 1))
         = assignments db_leave_synced).
Proof.
  apply (delete_timeoff_effect set_order db_leave_synced 1
           (mkTimeOff 1 "Ann" "Front Desk" BASELINE BASELINE true false)).
  vm_compute. reflexivity.
Defined.

Lemma assign_outcomes_witness :
  fst (assign set_order db_desk_generated
         (mkAssignRequest "Front Desk" "Zoe" (Some BASELINE)
                          "AM (6:00AM–2:00PM)" (Some 1)))
  = with_assignments db_desk_generated
      (assignments
         (fst (assign set_order db_desk_generated
                 (mkAssignRequest "Front Desk" "Zoe" (Some BASELINE)
                                  "AM (6:00AM–2:00PM)" (Some 1)))))
  /\ find_assignment
       (assignments
          (fst (assign set_order db_desk_generated
                  (mkAssignRequest "Front Desk" "Zoe" (Some BASELINE)
                                   "AM (6:00AM–2:00PM)" (Some 1)))))
       (wk_id (mkWeek 1 BASELINE))
       (emp_id (mkEmployee 3 "Zoe" 1 None None None None)) BASELINE
     = Some (set_value
               (rq_value (mkAssignRequest "Front Desk" "Zoe" (Some BASELINE)
                                          "AM (6:00AM–2:00PM)" (Some 1)))
               (mkAssignment 1 3 BASELINE "PM (2:00PM–10:00PM)" false))
  /\ Forall2 (fun x x' =>
                x' = x
                \/ (x' = set_value
                           (rq_value
                              (mkAssignRequest "Front Desk" "Zoe" (Some BASELINE)
                                               "AM (6:00AM–2:00PM)" (Some 1)))
                           x
                    /\ key3 x = (wk_id (mkWeek 1 BASELINE),
                                 emp_id (mkEmployee 3 "Zoe" 1 None None None None),
                                 BASELINE)))
             (assignments db_desk_generated)
             (assignments
                (fst (assign set_order db_desk_generated
                        (mkAssignRequest "Front Desk" "Zoe" (Some BASELINE)
                                         "AM (6:00AM–2:00PM)" (Some 1)))))
  /\ (get_week db_desk_generated (wk_id (mkWeek 1 BASELINE))
      = Some (mkWeek 1 BASELINE) ->
      week_rows_in_range db_desk_generated (mkWeek 1 BASELINE) = true ->
      exists snap dbl,
        snd (assign set_order db_desk_generated
               (mkAssignRequest "Front Desk" "Zoe" (Some BASELINE)
                                "AM (6:00AM–2:00PM)" (Some 1)))
        = Returned (ROk snap dbl)).
Proof.
  apply (proj2 (assign_outcomes set_order db_desk_generated
                  (mkAssignRequest "Front Desk" "Zoe" (Some BASELINE)
                                   "AM (6:00AM–2:00PM)" (Some 1)))
               (mkWeek 1 BASELINE) (mkSection 1 "Front Desk")
               (mkEmployee 3 "Zoe" 1 None None None None) BASELINE
               (mkAssignment 1 3 BASELINE "PM (2:00PM–10:00PM)" false)).
  - vm_compute. reflexivity.
  - vm_compute. reflexivity.
  - vm_compute. reflexivity.
  - vm_compute. reflexivity.
  - reflexivity.
  - vm_compute. reflexivity.
  - vm_compute. reflexivity.
Defined.

Lemma coverage_snapshot_counts_witness :
  exists dup,
    desk_snapshot
    = [ PTotals (map (fun d =>
                        (d, day_total FD_TOKENS
                              (fun v => counted (fd_shift v)
                                          (week_rows db_desk_generated 1) d)))
                     (daterange (wk_start_date (mkWeek 1 BASELINE)) 7));
        PFlags (map (fun d =>
                       (d, day_short 2 FD_TOKENS
                             (fun v => counted (fd_shift v)
                                         (week_rows db_desk_generated 1) d)))
                    (daterange (wk_start_date (mkWeek 1 BASELINE)) 7));
        PInt 6;
        PVariantCounts
          (grid (daterange (wk_start_date (mkWeek 1 BASELINE)) 7) FD_TOKENS
                (fun d v => counted (fd_shift v)
                              (week_rows db_desk_generated 1) d));
        PFlags (map (fun d =>
                       (d, day_short 1 SH_TOKENS
                             (fun v => counted (sh_shift v)
                                         (week_rows db_desk_generated 1) d)))
                    (daterange (wk_start_date (mkWeek 1 BASELINE)) 7));
        PInt 4;
        PVariantCounts
          (grid (daterange (wk_start_date (mkWeek 1 BASELINE)) 7) SH_TOKENS
                (fun d v => counted (sh_shift v)
                              (week_rows db_desk_generated 1) d));
        PFlags (map (fun d =>
                       (d, day_short 1 BB_LABELS
                             (fun v => counted (String.eqb v)
                                         (week_rows db_desk_generated 1) d)))
                    (daterange (wk_start_date (mkWeek 1 BASELINE)) 7));
        PInt 3;
        PVariantCounts
          (grid (daterange (wk_start_date (mkWeek 1 BASELINE)) 7) BB_LABELS
                (fun d v => counted (String.eqb v)
                              (week_rows db_desk_generated 1) d));
        PFlags dup ].
Proof.
  apply (coverage_snapshot_counts db_desk_generated 1 (mkWeek 1 BASELINE)
           desk_snapshot).
  - vm_compute. reflexivity.
  - vm_compute. reflexivity.
Defined.

Lemma generated_shift_has_one_holder_witness :
  exists wk,
    week_starting db_desk_generated (wk_start_date (mkWeek 1 BASELINE) + 7 * 0)
    = Some wk
    /\ (forall e1 e2 d v, inactive_value v = false ->
          cell (assignments db_desk_generated) (wk_id wk) e1 d = Some v ->
          cell (assignments db_desk_generated) (wk_id wk) e2 d = Some v ->
          e1 = e2)
    /\ (forall variant opts e1 e2 e3 d v1 v2 v3,
          In (variant, opts) FD_VARIANTS ->
          cell (assignments db_desk_generated) (wk_id wk) e1 d = Some v1 ->
          cell (assignments db_desk_generated) (wk_id wk) e2 d = Some v2 ->
          cell (assignments db_desk_generated) (wk_id wk) e3 d = Some v3 ->
          fd_shift variant v1 = true -> fd_shift variant v2 = true ->
          fd_shift variant v3 = true ->
          e1 = e2 \/ e1 = e3 \/ e2 = e3)
    /\ (forall variant e1 e2 d v1 v2,
          In variant SH_TOKENS ->
          cell (assignments db_desk_generated) (wk_id wk) e1 d = Some v1 ->
          cell (assignments db_desk_generated) (wk_id wk) e2 d = Some v2 ->
          sh_shift variant v1 = true -> sh_shift variant v2 = true ->
          e1 = e2).
Proof.
  apply (generated_shift_has_one_holder set_order db_desk 1
           (mkWeek 1 BASELINE) db_desk_generated 0).
  - vm_compute. reflexivity.
  - reflexivity.
  - vm_compute. reflexivity.
  - simpl. auto.
Defined.

Lemma generator_returns_witness :
  exists db', generate_4_week_schedule set_order db_approved_leave 1 = Some db'.
Proof.
  apply (generator_returns set_order db_approved_leave 1).
  intros a Ha. exists (mkEmployee 1 "Ann" 1 None None None None).
  split; [now left|]. vm_compute in Ha.
  repeat (destruct Ha as [<-|Ha]; [reflexivity|]). contradiction.
Defined.

Lemma delete_employee_effect_witness :
  (forall e, In e (employees (fst (delete_employee db_desk_generated 2)))
             <-> In e (employees db_desk_generated) /\ emp_id e <> 2)
  /\ (forall a, In a (assignments (fst (delete_employee db_desk_generated 2)))
                <-> In a (assignments db_desk_generated)
                    /\ a_employee_id a <> 2)
  /\ (forall ea,
        In ea (employee_availability (fst (delete_employee db_desk_generated 2)))
        <-> In ea (employee_availability db_desk_generated)
            /\ ea_employee_id ea <> 2)
  /\ (forall t, In t (timeoff (fst (delete_employee db_desk_generated 2)))
                <-> In t (timeoff db_desk_generated)
                    /\ to_name t
                       <> emp_name (mkEmployee 2 "Ryan" 1 None (Some 5) None None))
  /\ employee_roles (fst (delete_employee db_desk_generated 2))
     = employee_roles db_desk_generated
  /\ sections (fst (delete_employee db_desk_generated 2))
     = sections db_desk_generated
  /\ weeks (fst (delete_employee db_desk_generated 2)) = weeks db_desk_generated
  /\ (rows_have_workers db_desk_generated (assignments db_desk_generated) ->
      forall start_week_id,
      exists db'',
        generate_4_week_schedule set_order
          (fst (delete_employee db_desk_generated 2)) start_week_id = Some db''
        /\ forall a, In a (assignments db'') -> a_employee_id a <> 2).
Proof.
  apply (delete_employee_effect set_order db_desk_generated 2
           (mkEmployee 2 "Ryan" 1 None (Some 5) None None)).
  - vm_compute. reflexivity.
  - vm_compute. repeat constructor; simpl; intuition discriminate.
Defined.

Lemma change_employee_role_effect_witness :
  (week_starting db_desk_generated BASELINE = None ->
   change_employee_role db_desk_generated 3 "Front Desk"
   = (db_desk_generated, Crashed "AttributeError"))
  /\ forall week, week_starting db_desk_generated BASELINE = Some week ->
     exists db',
       change_employee_role db_desk_generated 3 "Front Desk"
       = (db', Redirect ToListEmployees)
       /\ get_employee db' 3
          = Some (set_section (sec_id (mkSection 1 "Front Desk"))
                              (mkEmployee 3 "Zoe" 1 None None None None))
       /\ (forall e', e' <> 3 ->
             get_employee db' e' = get_employee db_desk_generated e')
       /\ (forall d v, In d (daterange (wk_start_date week) 7) ->
             cell (assignments db') (wk_id week) 3 d = Some v ->
             v = "Set"%string \/ v = TIME_OFF_LABEL)
       /\ (forall w e d,
             cell (assignments db') w e d
             = cell (assignments db_desk_generated) w e d
             \/ (w = wk_id week
                 /\ (cell (assignments db') w e d = Some TIME_OFF_LABEL
                     \/ (e = 3
                         /\ cell (assignments db') w e d
                            = Some "Set"%string)))).
Proof.
  apply (change_employee_role_effect db_desk_generated 3 "Front Desk"
           (mkEmployee 3 "Zoe" 1 None None None None)
           (mkSection 1 "Front Desk")).
  - discriminate.
  - vm_compute. reflexivity.
  - vm_compute. reflexivity.
Defined.

Lemma pages_keep_rows_of_employees_witness :
  (forall w, rows_have_workers (fst (prev_week db_approved_leave w))
               (assignments (fst (prev_week db_approved_leave w))))
  /\ (forall w, rows_have_workers (fst (next_week db_approved_leave w))
                  (assignments (fst (next_week db_approved_leave w))))
  /\ (forall w,
        rows_have_workers (fst (delete_week_schedule db_approved_leave w))
          (assignments (fst (delete_week_schedule db_approved_leave w))))
  /\ rows_have_workers (fst (delete_schedule db_approved_leave))
       (assignments (fst (delete_schedule db_approved_leave)))
  /\ (forall tid,
        rows_have_workers (fst (delete_timeoff set_order db_approved_leave tid))
          (assignments (fst (delete_timeoff set_order db_approved_leave tid))))
  /\ (forall tid approved,
        rows_have_workers
          (fst (toggle_timeoff set_order db_approved_leave tid approved))
          (assignments
             (fst (toggle_timeoff set_order db_approved_leave tid approved))))
  /\ (forall req,
        rows_have_workers (fst (assign set_order db_approved_leave req))
          (assignments (fst (assign set_order db_approved_leave req))))
  /\ (forall eid role,
        rows_have_workers (fst (change_employee_role db_approved_leave eid role))
          (assignments (fst (change_employee_role db_approved_leave eid role))))
  /\ (forall eid,
        rows_have_workers (fst (delete_employee db_approved_leave eid))
          (assignments (fst (delete_employee db_approved_leave eid))))
  /\ (forall w, exists db',
        generate_4_week_schedule set_order db_approved_leave w = Some db'
        /\ rows_have_workers db' (assignments db')).
Proof.
  apply (pages_keep_rows_of_employees set_order db_approved_leave).
  intros a Ha. exists (mkEmployee 1 "Ann" 1 None None None None).
  split; [now left|]. vm_compute in Ha.
  repeat (destruct Ha as [<-|Ha]; [reflexivity|]). contradiction.
Defined.

Lemma schedules_page_periods_witness :
  (forall p, In p (schedules_page db_generated) ->
     (p_start p - BASELINE) mod 28 = 0 /\ p_end p = p_start p + 27
     /\ exists w, In w (weeks db_generated) /\ wk_id w = p_first_week_id p
          /\ p_start p <= wk_start_date w <= p_end p
          /\ forall w', In w' (weeks db_generated) ->
               p_start p <= wk_start_date w' <= p_end p ->
               wk_start_date w <= wk_start_date w')
  /\ (forall w, In w (weeks db_generated) ->
        exists p, In p (schedules_page db_generated)
          /\ p_start p <= wk_start_date w <= p_end p)
  /\ StronglySorted (fun p q => p_start q < p_start p)
                    (schedules_page db_generated).
Proof.
  apply (schedules_page_periods db_generated).
  - vm_compute. repeat constructor; simpl; intuition discriminate.
  - intros w Hw. vm_compute in Hw.
    repeat (destruct Hw as [<-|Hw]; [discriminate|]). contradiction.
Defined.

Lemma manager_meals_recipients_witness :
  exists rows,
    manager_meals db_desk_generated 1 = inr rows
    /\ map fst rows = daterange (wk_start_date (mkWeek 1 BASELINE)) 7
    /\ (forall d text, In (d, text) rows ->
          exists audit am pm,
            text = (or_dash audit ++ ", " ++ or_dash am ++ ", "
                    ++ or_dash pm)%string
            /\ senior_on_shift db_desk_generated 1 d "Audit" audit
            /\ senior_on_shift db_desk_generated 1 d "PM" pm
            /\ (if z_in (weekday d) [6; 0; 1; 2; 3]
                then am = Some "JoJo"%string
                else senior_on_shift db_desk_generated 1 d "AM" am))
    /\ (forall a n, In a (assignments db_desk_generated) -> a_week_id a = 1 ->
          In (a_value a) ["AM (3:30AM–11:30AM)"; "PM (5:30PM–1:30AM)"]%string ->
          emp_name_get db_desk_generated (a_employee_id a) = n ->
          n <> ""%string ->
          on_shift db_desk_generated 1 (a_date a) (_fd_variant (a_value a)) n
          /\ In (_fd_variant (a_value a)) ["AM"; "PM"]%string).
Proof.
  apply (manager_meals_recipients db_desk_generated 1 (mkWeek 1 BASELINE)).
  vm_compute. reflexivity.
Defined.

Lemma availability_page_matches_generator_witness :
  role_shift_variants "Front Desk" = dept_labels "Front Desk"
  /\ (forall e label d idx,
        In label (dept_labels "Front Desk") ->
        _is_available e "Front Desk" label d idx = true ->
        exists v, In v (role_availability_variants "Front Desk")
          /\ In (weekday d, v) (idx e))
  /\ (forall e v d idx,
        In v (role_availability_variants "Front Desk") ->
        In (weekday d, v) (idx e) ->
        exists label, In label (dept_labels "Front Desk")
          /\ _is_available e "Front Desk" label d idx = true).
Proof.
  apply (availability_page_matches_generator "Front Desk").
  simpl. auto.
Defined.
